(** * monsterwm-xcb: a shallow embedding of the window-manager core

    The development follows [monsterwm.c].  The C program keeps its clients
    in singly linked lists threaded through heap-allocated [client] structs;
    every monitor carries a live copy of the selected desktop's fields next
    to an array of saved desktops.  We keep exactly that shape:

    - a pointer is [option positive] ([None] is [NULL]), the heap is a
      finite map from addresses to [client] records;
    - [monitors] is a list indexed by [current_monitor]; [CM] is the element
      at that index;
    - a C [int] is a [Z]; signed overflow is undefined behaviour in C and is
      not given a meaning here; the conversions to [unsigned int] made by the
      xcb wrappers are written out with [u32];
    - C's [/] and [%] truncate toward zero: [Z.quot] and [Z.rem]; a zero
      divisor, a [NULL] or dangling dereference, an out-of-bounds array
      access and a traversal that never ends are all the failure [None] of
      the state-and-error monad [M];
    - requests sent to the X server and the lines printed on stdout are
      appended to the log [xlog]; replies of the server are arguments of the
      functions that wait for them.

    [config.h] is not part of the sources: its constants are the fields of
    the record [config], taken as a section variable. *)

From Stdlib Require Import ZArith Lia Bool.
From Stdlib Require Import Floats.SpecFloat.
From Stdlib Require String.
From stdpp Require Import base option list gmap fin_maps.

#[local] Open Scope Z_scope.

(** ** Data model *)

Inductive layout_mode := TILE | MONOCLE | BSTACK | GRID.

#[global] Instance layout_mode_eq_dec : EqDecision layout_mode.
Proof. solve_decision. Defined.

(** [enum { TILE, MONOCLE, BSTACK, GRID, MODES }] *)
Definition mode_id (m : layout_mode) : Z :=
  match m with TILE => 0 | MONOCLE => 1 | BSTACK => 2 | GRID => 3 end.

(** [enum { PREV = -1, NEXT = 1, RESIZE, MOVE }] *)
Definition RESIZE : Z := 2.
Definition MOVE : Z := 3.

Record client := mk_client {
  next : option positive;
  c_monitor : Z;
  isurgent : bool;
  istransient : bool;
  isfullscrn : bool;
  isfloating : bool;
  win : Z
}.

Record desktop := mk_desktop {
  d_master_size : Z;
  d_mode : layout_mode;
  d_growth : Z;
  d_head : option positive;
  d_current : option positive;
  d_prevfocus : option positive;
  d_showpanel : bool
}.

Record monitor := mk_monitor {
  showpanel : bool;
  current_desktop : Z;
  previous_desktop : Z;
  growth : Z;
  mode : layout_mode;
  master_size : Z;
  wh : Z; ww : Z; wx : Z; wy : Z;
  head : option positive;
  prevfocus : option positive;
  current : option positive;
  desktops : list desktop
}.

#[global] Instance client_eq_dec : EqDecision client.
Proof. solve_decision. Defined.
#[global] Instance desktop_eq_dec : EqDecision desktop.
Proof. solve_decision. Defined.
#[global] Instance monitor_eq_dec : EqDecision monitor.
Proof. solve_decision. Defined.

(** [#define ISFFT(c) (c->isfullscrn || c->isfloating || c->istransient)] *)
Definition ISFFT (c : client) : bool :=
  isfullscrn c || isfloating c || istransient c.

(** The [xcb_client_message_event_t] built by [deletewindow].  A word of
    [data32] that the code never writes holds whatever the stack held:
    it is [None]. *)
Record client_message_event := mk_client_message {
  ev_format : Z;
  ev_sequence : Z;
  ev_window : Z;
  ev_type : Z;
  ev_data32 : list (option Z)
}.

(** One record of [desktopinfo]'s output line:
    [m : mon_is_current : d : n : mode : dsk_is_current : urgent], followed
    by a newline ([true]) or a space. *)
Record info_record := mk_info {
  i_mon : Z; i_mon_current : bool; i_dsk : Z; i_clients : Z;
  i_mode : Z; i_dsk_current : bool; i_urgent : bool; i_newline : bool
}.

(** What the program sends out, in order. *)
Inductive xreq :=
| ConfigureWindow (w mask : Z) (vals : list Z)
| ChangeWindowAttributes (w mask : Z) (vals : list Z)
| GrabButton (w button modifiers : Z)
| MapWindow (w : Z)
| UnmapWindow (w : Z)
| DeleteProperty (w prop : Z)
| ChangeProperty (w prop type : Z) (data : list Z)
| SetInputFocus (w : Z)
| SendEvent (dest : Z) (ev : client_message_event)
| KillClient (w : Z)
| Printf (r : info_record)
| Fflush.

#[global] Instance client_message_event_eq_dec : EqDecision client_message_event.
Proof. solve_decision. Defined.
#[global] Instance info_record_eq_dec : EqDecision info_record.
Proof. solve_decision. Defined.
#[global] Instance xreq_eq_dec : EqDecision xreq.
Proof. solve_decision. Defined.

Record wm := mk_wm {
  heap : gmap positive client;
  monitors : list monitor;
  current_monitor : Z;
  previous_monitor : Z;
  xlog : list xreq
}.

(** The application rules of [config.h]: [{class, desktop, follow, floating}];
    [desktop < 0] stands for the current desktop. *)
Record AppRule := mk_rule {
  r_class : String.string; r_desktop : Z; r_follow : bool; r_floating : bool
}.

(** The compile-time configuration ([config.h]). [MASTER_SIZE] is a C
    [double]: an IEEE 754 binary64 value. *)
Record config := mk_config {
  MASTER_SIZE : spec_float;
  SHOW_PANEL : bool;
  TOP_PANEL : bool;
  PANEL_HEIGHT : Z;
  DEFAULT_MODE : layout_mode;
  ATTACH_ASIDE : bool;
  FOLLOW_MOUSE : bool;
  FOLLOW_MONITOR : bool;
  FOLLOW_WINDOW : bool;
  CLICK_TO_FOCUS : bool;
  BORDER_WIDTH : Z;
  DESKTOPS : Z;
  DEFAULT_DESKTOP : Z;
  DEFAULT_MONITOR : Z;
  MINWSZ : Z;
  rules : list AppRule;
  buttons : list (Z * Z)   (* mask, button *)
}.

(** Values fixed by the X server at start-up: the interned atoms, the two
    border pixels, the root window and the NumLock modifier bit. *)
Record xenv := mk_xenv {
  WM_PROTOCOLS : Z;
  WM_DELETE_WINDOW : Z;
  NET_SUPPORTED : Z;
  NET_FULLSCREEN : Z;
  NET_WM_STATE : Z;
  NET_ACTIVE : Z;
  win_focus : Z;
  win_unfocus : Z;
  root : Z;
  numlockmask : Z
}.

(** ** Field updates *)

Definition set_next (n : option positive) (c : client) : client :=
  mk_client n (c_monitor c) (isurgent c) (istransient c) (isfullscrn c)
            (isfloating c) (win c).
Definition set_isfloating (b : bool) (c : client) : client :=
  mk_client (next c) (c_monitor c) (isurgent c) (istransient c) (isfullscrn c)
            b (win c).
Definition set_isfullscrn (b : bool) (c : client) : client :=
  mk_client (next c) (c_monitor c) (isurgent c) (istransient c) b
            (isfloating c) (win c).
Definition set_istransient (b : bool) (c : client) : client :=
  mk_client (next c) (c_monitor c) (isurgent c) b (isfullscrn c)
            (isfloating c) (win c).
Definition set_win (w : Z) (c : client) : client :=
  mk_client (next c) (c_monitor c) (isurgent c) (istransient c) (isfullscrn c)
            (isfloating c) w.
Definition set_isurgent (b : bool) (c : client) : client :=
  mk_client (next c) (c_monitor c) b (istransient c) (isfullscrn c)
            (isfloating c) (win c).

Definition set_head (v : option positive) (m : monitor) : monitor :=
  mk_monitor (showpanel m) (current_desktop m) (previous_desktop m) (growth m)
    (mode m) (master_size m) (wh m) (ww m) (wx m) (wy m)
    v (prevfocus m) (current m) (desktops m).
Definition set_prevfocus (v : option positive) (m : monitor) : monitor :=
  mk_monitor (showpanel m) (current_desktop m) (previous_desktop m) (growth m)
    (mode m) (master_size m) (wh m) (ww m) (wx m) (wy m)
    (head m) v (current m) (desktops m).
Definition set_current (v : option positive) (m : monitor) : monitor :=
  mk_monitor (showpanel m) (current_desktop m) (previous_desktop m) (growth m)
    (mode m) (master_size m) (wh m) (ww m) (wx m) (wy m)
    (head m) (prevfocus m) v (desktops m).
Definition set_master_size (v : Z) (m : monitor) : monitor :=
  mk_monitor (showpanel m) (current_desktop m) (previous_desktop m) (growth m)
    (mode m) v (wh m) (ww m) (wx m) (wy m)
    (head m) (prevfocus m) (current m) (desktops m).
Definition set_mode (v : layout_mode) (m : monitor) : monitor :=
  mk_monitor (showpanel m) (current_desktop m) (previous_desktop m) (growth m)
    v (master_size m) (wh m) (ww m) (wx m) (wy m)
    (head m) (prevfocus m) (current m) (desktops m).
Definition set_growth (v : Z) (m : monitor) : monitor :=
  mk_monitor (showpanel m) (current_desktop m) (previous_desktop m) v
    (mode m) (master_size m) (wh m) (ww m) (wx m) (wy m)
    (head m) (prevfocus m) (current m) (desktops m).
Definition set_showpanel (v : bool) (m : monitor) : monitor :=
  mk_monitor v (current_desktop m) (previous_desktop m) (growth m)
    (mode m) (master_size m) (wh m) (ww m) (wx m) (wy m)
    (head m) (prevfocus m) (current m) (desktops m).
Definition set_previous_desktop (v : Z) (m : monitor) : monitor :=
  mk_monitor (showpanel m) (current_desktop m) v (growth m)
    (mode m) (master_size m) (wh m) (ww m) (wx m) (wy m)
    (head m) (prevfocus m) (current m) (desktops m).
Definition set_desktops (v : list desktop) (m : monitor) : monitor :=
  mk_monitor (showpanel m) (current_desktop m) (previous_desktop m) (growth m)
    (mode m) (master_size m) (wh m) (ww m) (wx m) (wy m)
    (head m) (prevfocus m) (current m) v.
Definition set_geometry (w h x y : Z) (m : monitor) : monitor :=
  mk_monitor (showpanel m) (current_desktop m) (previous_desktop m) (growth m)
    (mode m) (master_size m) h w x y
    (head m) (prevfocus m) (current m) (desktops m).

Definition set_heap (h : gmap positive client) (s : wm) : wm :=
  mk_wm h (monitors s) (current_monitor s) (previous_monitor s) (xlog s).
Definition set_monitors (ms : list monitor) (s : wm) : wm :=
  mk_wm (heap s) ms (current_monitor s) (previous_monitor s) (xlog s).
Definition set_current_monitor (i : Z) (s : wm) : wm :=
  mk_wm (heap s) (monitors s) i (previous_monitor s) (xlog s).
Definition set_previous_monitor (i : Z) (s : wm) : wm :=
  mk_wm (heap s) (monitors s) (current_monitor s) i (xlog s).
Definition set_xlog (l : list xreq) (s : wm) : wm :=
  mk_wm (heap s) (monitors s) (current_monitor s) (previous_monitor s) l.

(** ** Machine arithmetic *)

(** Conversion of an [int] to [unsigned int]. *)
Definition u32 (z : Z) : Z := z mod 2 ^ 32.

(** C division and remainder; [None] on a zero divisor. *)
Definition cdiv (a b : Z) : option Z :=
  if b =? 0 then None else Some (Z.quot a b).
Definition cmod (a b : Z) : option Z :=
  if b =? 0 then None else Some (Z.rem a b).

(** Array access [a[i]] with a C [int] index. *)
Definition nth_z {A} (l : list A) (i : Z) : option A :=
  if i <? 0 then None else l !! Z.to_nat i.

(** [int * double] followed by the conversion back to [int]: the product is
    rounded to binary64, the conversion drops the fraction. *)
Definition dbl_of_int (z : Z) : spec_float := binary_normalize 53 1024 z 0 false.

Definition int_of_dbl (f : spec_float) : option Z :=
  match f with
  | S754_zero _ => Some 0
  | S754_finite s m e =>
      let a := if 0 <=? e then Zpos m * 2 ^ e else Z.quot (Zpos m) (2 ^ (- e)) in
      Some (if s then - a else a)
  | _ => None
  end.

Definition int_times_dbl (z : Z) (f : spec_float) : option Z :=
  int_of_dbl (SFmul 53 1024 (dbl_of_int z) f).

(** ** X protocol constants used by the program (from the xcb headers) *)

Definition XCB_CONFIG_WINDOW_BORDER_WIDTH : Z := 16.
Definition XCB_CONFIG_WINDOW_STACK_MODE : Z := 64.
Definition XCB_MOVE_RESIZE : Z := 15.
Definition XCB_MOVE : Z := 3.
Definition XCB_RESIZE : Z := 12.
Definition XCB_STACK_MODE_ABOVE : Z := 0.
Definition XCB_CW_BORDER_PIXEL : Z := 8.
Definition XCB_CW_EVENT_MASK : Z := 2048.
Definition XCB_EVENT_MASK_ENTER_WINDOW : Z := 16.
Definition XCB_EVENT_MASK_PROPERTY_CHANGE : Z := 4194304.
Definition XCB_MOD_MASK_LOCK : Z := 2.
Definition XCB_BUTTON_INDEX_1 : Z := 1.
Definition XCB_BUTTON_MASK_ANY : Z := 32768.
Definition XCB_ATOM_ATOM : Z := 4.
Definition XCB_ATOM_WINDOW : Z := 33.
Definition XCB_CURRENT_TIME : Z := 0.

(** The inline wrappers around [xcb_configure_window]; each copies its
    [int] arguments into an [unsigned int] array. *)
Definition xcb_move_resize (w x y wd ht : Z) : xreq :=
  ConfigureWindow w XCB_MOVE_RESIZE [u32 x; u32 y; u32 wd; u32 ht].
Definition xcb_move (w x y : Z) : xreq :=
  ConfigureWindow w XCB_MOVE [u32 x; u32 y].
Definition xcb_resize (w wd ht : Z) : xreq :=
  ConfigureWindow w XCB_RESIZE [u32 wd; u32 ht].
Definition xcb_raise_window (w : Z) : xreq :=
  ConfigureWindow w XCB_CONFIG_WINDOW_STACK_MODE [XCB_STACK_MODE_ABOVE].
Definition xcb_border_width (w bw : Z) : xreq :=
  ConfigureWindow w XCB_CONFIG_WINDOW_BORDER_WIDTH [u32 bw].

(** ** The state-and-error monad *)

Definition M (A : Type) : Type := wm → option (A * wm).

Definition ret {A} (a : A) : M A := λ s, Some (a, s).
Definition bind {A B} (m : M A) (k : A → M B) : M B :=
  λ s, match m s with Some (a, s') => k a s' | None => None end.
Definition crash {A} : M A := λ _, None.
Definition lift {A} (o : option A) : M A :=
  λ s, match o with Some a => Some (a, s) | None => None end.
Definition get : M wm := λ s, Some (s, s).
Definition modify (f : wm → wm) : M unit := λ s, Some (tt, f s).

Declare Scope wm_scope.
Delimit Scope wm_scope with wm.
Notation "'let*' x := m 'in' k" := (bind m (λ x, k))
  (at level 10, x pattern, m at level 100, k at level 200) : wm_scope.
Notation "m ;;; k" := (bind m (λ _, k))
  (at level 100, k at level 200, right associativity) : wm_scope.
#[local] Open Scope wm_scope.

(** [when b m]: [if (b) m;] *)
Definition when (b : bool) (m : M unit) : M unit := if b then m else ret tt.

(** [MONITORS]: the length of the [monitors] array. *)
Definition MONITORS (s : wm) : Z := Z.of_nat (length (monitors s)).

(** [CM], the pointer to [monitors[current_monitor]]: reading through it. *)
Definition CM : M monitor :=
  λ s, lift (nth_z (monitors s) (current_monitor s)) s.

(** Writing through [CM]. *)
Definition setCM (f : monitor → monitor) : M unit :=
  let* m := CM in
  modify (λ s, set_monitors (<[Z.to_nat (current_monitor s) := f m]> (monitors s)) s).

(** [*p] for a client pointer: fails on [NULL] and on a freed address. *)
Definition load (p : option positive) : M client :=
  λ s, lift (a ← p; heap s !! a) s.

(** [p->field = v] *)
Definition store (p : option positive) (f : client → client) : M unit :=
  let* c := load p in
  match p with
  | Some a => modify (λ s, set_heap (<[a := f c]> (heap s)) s)
  | None => crash
  end.

Definition emit (r : list xreq) : M unit :=
  modify (λ s, set_xlog (xlog s ++ r) s).

(** The nodes reached from [p] through [next] up to [NULL], with their
    contents.  A chain longer than the heap has a cycle: the C loop never
    ends, the walk fails. *)
Fixpoint chain (fuel : nat) (h : gmap positive client) (p : option positive)
  : option (list (positive * client)) :=
  match p with
  | None => Some []
  | Some a =>
      match fuel with
      | O => None
      | S f => r ← h !! a; l ← chain f h (next r); Some ((a, r) :: l)
      end
  end.

Definition clients (p : option positive) : M (list (positive * client)) :=
  λ s, lift (chain (size (heap s)) (heap s) p) s.

(** [for (c = p; c && !stop(c); c = c->next);] : the node the loop stops at. *)
Fixpoint scan (fuel : nat) (h : gmap positive client)
    (stop : positive → client → bool) (p : option positive)
  : option (option positive) :=
  match p with
  | None => Some None
  | Some a =>
      match fuel with
      | O => None
      | S f => r ← h !! a;
               if stop a r then Some (Some a) else scan f h stop (next r)
      end
  end.

Section Monsterwm.

Variable cfg : config.
Variable xe : xenv.

(** *** Monitors and desktops *)

Definition select_monitor (i : Z) : M unit :=
  let* s := get in
  if i >=? MONITORS s then ret tt else modify (set_current_monitor i).

(** [save_desktop]: copy the live fields of [CM] into [CM->desktops[i]]. *)
Definition save_desktop (i : Z) : M unit :=
  if (i <? 0) || (i >=? DESKTOPS cfg) then ret tt else
  let* m := CM in
  let* _ := lift (desktops m !! Z.to_nat i) in
  setCM (set_desktops
           (<[Z.to_nat i := mk_desktop (master_size m) (mode m) (growth m)
                              (head m) (current m) (prevfocus m) (showpanel m)]>
              (desktops m))).

(** [select_desktop]: save the live copy, then load [CM->desktops[i]]. *)
Definition select_desktop (i : Z) : M unit :=
  if (i <? 0) || (i >=? DESKTOPS cfg) then ret tt else
  let* m := CM in
  save_desktop (current_desktop m) ;;;
  let* m := CM in
  let* d := lift (desktops m !! Z.to_nat i) in
  setCM (λ m, mk_monitor (d_showpanel d) i (previous_desktop m) (d_growth d)
                (d_mode d) (d_master_size d) (wh m) (ww m) (wx m) (wy m)
                (d_head d) (d_prevfocus d) (d_current d) (desktops m)).

(** [areatomonitor]: the first monitor whose working rectangle strictly
    contains the point, the current monitor when there is none. *)
Fixpoint areatomonitor_from (ms : list monitor) (m x y : Z) : option Z :=
  match ms with
  | [] => None
  | mon :: rest =>
      if (wx mon <? x) && (wx mon + ww mon >? x) &&
         (wy mon <? y) && (wy mon + wh mon >? y)
      then Some m
      else areatomonitor_from rest (m + 1) x y
  end.

Definition areatomonitor (x y : Z) (s : wm) : Z :=
  default (current_monitor s) (areatomonitor_from (monitors s) 0 x y).

(** *** The client list *)

(** The loop of [prev_client]:
    [for (p = CM->head; p->next && p->next != c; p = p->next);] *)
Fixpoint prev_client_from (fuel : nat) (h : gmap positive client)
    (c p : positive) : option positive :=
  match fuel with
  | O => None
  | S f =>
      r ← h !! p;
      match next r with
      | None => Some p
      | Some q => if decide (q = c) then Some p else prev_client_from f h c q
      end
  end.

Definition prev_client (c : option positive) : M (option positive) :=
  match c with
  | None => ret None
  | Some c =>
      let* m := CM in
      let* hd := load (head m) in
      match next hd, head m with
      | Some _, Some a =>
          let* s := get in
          let* p := lift (prev_client_from (size (heap s)) (heap s) c a) in
          ret (Some p)
      | _, _ => ret None
      end
  end.

(** *** Layouts *)

(** [monocle]: every tileable client covers the work area. *)
Definition monocle (hh cy : Z) : M unit :=
  let* m := CM in
  let* cs := clients (head m) in
  emit (flat_map (λ c : positive * client,
          if ISFFT c.2 then [] else [xcb_move_resize (win c.2) 0 cy (ww m) hh]) cs).

(** The last loop of [stack]: the stack clients after the first one. *)
Fixpoint stack_rest (b : bool) (cx cy cw ch z : Z) (cs : list client) : list xreq :=
  match cs with
  | [] => []
  | c :: cs =>
      if b then xcb_move_resize (win c) cx cy ch cw :: stack_rest b (cx + z) cy cw ch z cs
      else xcb_move_resize (win c) cx cy cw ch :: stack_rest b cx (cy + z) cw ch z cs
  end.

(** [stack]: tile or bottom-stack.  The three loops of the C function skip
    the clients for which [ISFFT] holds; [ts] is the list they visit. *)
Definition stack (hh cy : Z) : M unit :=
  let* m := CM in
  let b := bool_decide (mode m = BSTACK) in
  let z := if b then ww m else hh in
  let ma := master_size m in
  let bw := BORDER_WIDTH cfg in
  let* cs := clients (head m) in
  let ts := filter (λ c, ISFFT c = false) (snd <$> cs) in
  match ts with
  | [] => ret tt
  | c :: [] =>
      emit [xcb_move_resize (win c) 0 cy (ww m - 2 * bw) (hh - 2 * bw)]
  | c :: s1 :: rest =>
      let n := Z.of_nat (length (s1 :: rest)) in
      let d := if n >? 1 then Z.rem (z - growth m) n + growth m else 0 in
      let z := if n >? 1 then Z.quot (z - growth m) n else z in
      let master :=
        if b then xcb_move_resize (win c) 0 cy (ww m - 2 * bw) (ma - bw)
        else xcb_move_resize (win c) 0 cy (ma - bw) (hh - 2 * bw) in
      let cx := if b then 0 else ma in
      let cw := (if b then hh else ww m) - 2 * bw - ma in
      let ch := z - bw in
      let cy := if b then cy + ma else cy in
      let first :=
        if b then xcb_move_resize (win s1) cx cy (ch - bw + d) cw
        else xcb_move_resize (win s1) cx cy cw (ch - bw + d) in
      let cx := if b then cx + (ch + d) else cx in
      let cy := if b then cy else cy + (ch + d) in
      emit (master :: first :: stack_rest b cx cy cw ch z rest)
  end.

(** [for (cols=0; cols <= n/2; cols++) if (cols*cols >= n) break;] *)
Fixpoint grid_cols_from (fuel : nat) (n cols : Z) : Z :=
  match fuel with
  | O => cols
  | S f =>
      if cols <=? Z.quot n 2
      then if cols * cols >=? n then cols else grid_cols_from f n (cols + 1)
      else cols
  end.

(** The column count of [grid], with its special case for five clients.
    The loop runs at most [n/2 + 1] times. *)
Definition grid_cols (n : Z) : Z :=
  let cols := grid_cols_from (Z.to_nat (Z.quot n 2 + 1)) n 0 in
  if n =? 5 then 2 else cols.

(** [int rows = n/cols] *)
Definition grid_rows (n : Z) : option Z := cdiv n (grid_cols n).

(** The placement loop of [grid]; [i], [rows], [cn], [rn] are the values
    before the iteration. *)
Fixpoint grid_place (m : monitor) (cy n cols cw ch : Z) (i rows cn rn : Z)
    (cs : list client) : option (list xreq) :=
  match cs with
  | [] => Some []
  | c :: cs =>
      let i := i + 1 in
      q ← cdiv i rows;
      r ← cmod n cols;
      rows' ← (if q + 1 >? cols - r then (k ← cdiv n cols; Some (k + 1)) else Some rows);
      yoff ← cdiv (rn * ch) rows';
      chr ← cdiv ch rows';
      let req := xcb_move_resize (win c) (wx m + cn * cw) (wy m + cy + yoff)
                   (cw - BORDER_WIDTH cfg) (chr - BORDER_WIDTH cfg) in
      let rn' := rn + 1 in
      l ← (if rn' >=? rows' then grid_place m cy n cols cw ch i rows' (cn + 1) 0 cs
           else grid_place m cy n cols cw ch i rows' cn rn' cs);
      Some (req :: l)
  end.

Definition grid (hh cy : Z) : M unit :=
  let* m := CM in
  let* cs := clients (head m) in
  let ts := filter (λ c, ISFFT c = false) (snd <$> cs) in
  let n := Z.of_nat (length ts) in
  let cols := grid_cols n in
  let* rows := lift (grid_rows n) in
  let ch := hh - BORDER_WIDTH cfg in
  let cw := Z.quot (ww m - BORDER_WIDTH cfg) (if cols =? 0 then 1 else cols) in
  let* reqs := lift (grid_place m cy n cols cw ch (-1) rows 0 0 ts) in
  emit reqs.

(** The table [layout[MODES]]. *)
Definition layout (md : layout_mode) : Z → Z → M unit :=
  match md with
  | TILE => stack | BSTACK => stack | GRID => grid | MONOCLE => monocle
  end.

(** [tile]: a lone client is always laid out by [monocle]. *)
Definition tile : M unit :=
  let* m := CM in
  match head m with
  | None => ret tt
  | Some _ =>
      let* hd := load (head m) in
      layout (match next hd with Some _ => mode m | None => MONOCLE end)
             (wh m + (if showpanel m then 0 else PANEL_HEIGHT cfg))
             (if TOP_PANEL cfg && showpanel m then PANEL_HEIGHT cfg else 0)
  end.

(** *** Focus *)

(** [grabbuttons]: every configured button under the four lock-modifier
    combinations. *)
Definition grabbuttons (w : Z) : list xreq :=
  flat_map (λ b : Z * Z,
    (λ md, GrabButton w b.2 (Z.lor b.1 md)) <$>
      [0; XCB_MOD_MASK_LOCK; numlockmask xe; Z.lor (numlockmask xe) XCB_MOD_MASK_LOCK])
    (buttons cfg).

(** The border width [update_current] gives a client: the first argument is
    [!CM->head->next]. *)
Definition border_of (single : bool) (md : layout_mode) (c : client) : Z :=
  if single || isfullscrn c ||
     (bool_decide (md = MONOCLE) && (negb (isfloating c) && negb (istransient c)))
  then 0 else BORDER_WIDTH cfg.

(** One iteration of the loop of [update_current] (lines 1348-1355). *)
Definition update_current_client (single : bool) (m : monitor)
    (c : positive * client) : list xreq :=
  [ xcb_border_width (win c.2) (border_of single (mode m) c.2);
    ChangeWindowAttributes (win c.2) XCB_CW_BORDER_PIXEL
      [if decide (current m = Some c.1) then win_focus xe else win_unfocus xe] ]
  ++ (if CLICK_TO_FOCUS cfg
      then [GrabButton (win c.2) XCB_BUTTON_INDEX_1 XCB_BUTTON_MASK_ANY] else [])
  ++ (if isfloating c.2 || istransient c.2 then [] else [xcb_raise_window (win c.2)]).

(** The whole loop: [for (c=CM->head; c; c=c->next) { ... }]. *)
Definition update_current_pass : M unit :=
  let* m := CM in
  let* cs := clients (head m) in
  match cs with
  | [] => ret tt
  | hd :: _ =>
      emit (flat_map (update_current_client (bool_decide (next hd.2 = None)) m) cs)
  end.

Definition update_current (c : option positive) : M unit :=
  match c with
  | None =>
      emit [DeleteProperty (root xe) (NET_ACTIVE xe)] ;;;
      setCM (λ m, set_current None (set_prevfocus None m))
  | Some _ =>
      let* m := CM in
      (if decide (c = prevfocus m) then
         setCM (λ m, set_current (prevfocus m) m) ;;;
         let* m := CM in
         let* p := prev_client (current m) in
         setCM (set_prevfocus p)
       else if decide (c ≠ current m) then
         setCM (λ m, set_current c (set_prevfocus (current m) m))
       else ret tt) ;;;
      update_current_pass ;;;
      let* m := CM in
      let* cur := load (current m) in
      emit ((if isfloating cur || istransient cur then [xcb_raise_window (win cur)] else [])
            ++ [ChangeProperty (root xe) (NET_ACTIVE xe) XCB_ATOM_WINDOW [win cur];
                SetInputFocus (win cur)]
            ++ (if CLICK_TO_FOCUS cfg then grabbuttons (win cur) else [])) ;;;
      tile
  end.

(** *** Looking a window up *)

(** The outer loop of [wintoclient]; [k] desktops are left to visit.  The
    result is the value of [c] and of [d] when the loop is left. *)
Fixpoint wintoclient_from (k : nat) (w d : Z) : M (option positive * Z) :=
  match k with
  | O => ret (None, d)
  | S k =>
      select_desktop d ;;;
      let* m := CM in
      let* s := get in
      let* c := lift (scan (size (heap s)) (heap s)
                        (λ _ r, bool_decide (win r = w)) (head m)) in
      match c with
      | Some _ => ret (c, d + 1)
      | None => wintoclient_from k w (d + 1)
      end
  end.

Definition wintoclient (w : Z) : M (option positive) :=
  let* m := CM in
  let cd := current_desktop m in
  let* (c, d) := wintoclient_from (Z.to_nat (DESKTOPS cfg)) w 0 in
  when (negb (cd =? d - 1)) (select_desktop cd) ;;;
  ret c.

(** *** Removing a client *)

(** A [client **]: the address of [CM->head] or of some node's [next]. *)
Inductive slot := SlotHead | SlotNext (a : positive).

Definition read_slot (p : slot) : M (option positive) :=
  match p with
  | SlotHead => let* m := CM in ret (head m)
  | SlotNext a => let* r := load (Some a) in ret (next r)
  end.

Definition write_slot (p : slot) (v : option positive) : M unit :=
  match p with
  | SlotHead => setCM (set_head v)
  | SlotNext a => store (Some a) (set_next v)
  end.

(** The inner loop of [removeclient]: [p] starts at the address of
    [CM->head] and moves to the address of the [next] field of the node it
    points to, until it points to [NULL] or to [c]. *)
Fixpoint removeclient_scan (fuel : nat) (c : positive) (p : slot) : M (slot * bool) :=
  let* v := read_slot p in
  match v with
  | None => ret (p, false)
  | Some a =>
      if decide (a = c) then ret (p, true)
      else match fuel with
           | O => crash
           | S f => removeclient_scan f c (SlotNext a)
           end
  end.

(** The loop over the desktops; [p] starts as [NULL]. *)
Fixpoint removeclient_from (k : nat) (c : positive) (nd : Z) (p : option slot)
  : M (option slot * Z) :=
  match k with
  | O => ret (p, nd)
  | S k =>
      select_desktop nd ;;;
      let* s := get in
      let* (p, found) := removeclient_scan (size (heap s)) c SlotHead in
      if found then ret (Some p, nd + 1)
      else removeclient_from k c (nd + 1) (Some p)
  end.

Definition removeclient (c : option positive) : M unit :=
  let* s := get in
  let OLDM := current_monitor s in
  let* r := load c in
  select_monitor (c_monitor r) ;;;
  let* m := CM in
  let cd := current_desktop m in
  match c with
  | None => crash
  | Some a =>
      let* (p, nd) := removeclient_from (Z.to_nat (DESKTOPS cfg)) a 0 None in
      let* r := load c in
      match p with
      | None => crash
      | Some p =>
          write_slot p (next r) ;;;
          modify (λ s, set_heap (delete a (heap s)) s) ;;;
          let* m := CM in
          update_current (prevfocus m) ;;;
          select_monitor OLDM ;;;
          when (negb (cd =? nd - 1)) (select_desktop cd)
      end
  end.

(** [deletewindow]: only [data32[0]] and [data32[1]] of the event on the
    stack are assigned before it is sent. *)
Definition deletewindow (w : Z) : M unit :=
  emit [SendEvent w
          (mk_client_message 32 0 w (WM_PROTOCOLS xe)
             [Some (WM_DELETE_WINDOW xe); Some XCB_CURRENT_TIME; None; None; None])].

(** [killclient]; [reply] is the answer to the WM_PROTOCOLS query: the
    atoms the window advertises, [None] when the query failed. *)
Definition killclient (reply : option (list Z)) : M unit :=
  let* m := CM in
  match current m with
  | None => ret tt
  | Some _ =>
      let got := match reply with
                 | Some atoms => existsb (λ a, a =? WM_DELETE_WINDOW xe) atoms
                 | None => false
                 end in
      let* cur := load (current m) in
      (if got then deletewindow (win cur) else emit [KillClient (win cur)]) ;;;
      let* m := CM in
      removeclient (current m)
  end.

(** *** The status line *)

Fixpoint desktopinfo_desktops (k : nat) (OLDM m cd d : Z) : M Z :=
  match k with
  | O => ret d
  | S k =>
      select_desktop d ;;;
      let* cm := CM in
      let* cs := clients (head cm) in
      let* s := get in
      emit [Printf (mk_info m (current_monitor s =? OLDM) d (Z.of_nat (length cs))
                      (mode_id (mode cm)) (current_desktop cm =? cd)
                      (existsb (λ c : positive * client, isurgent c.2) cs)
                      ((m + 1 =? MONITORS s) && (d + 1 =? DESKTOPS cfg)))] ;;;
      desktopinfo_desktops k OLDM m cd (d + 1)
  end.

Fixpoint desktopinfo_monitors (k : nat) (OLDM m cd d : Z) : M (Z * Z) :=
  match k with
  | O => ret (cd, d)
  | S k =>
      select_monitor m ;;;
      let* cm := CM in
      let cd := current_desktop cm in
      let* d := desktopinfo_desktops (Z.to_nat (DESKTOPS cfg)) OLDM m cd 0 in
      select_desktop cd ;;;
      desktopinfo_monitors k OLDM (m + 1) cd d
  end.

Definition desktopinfo : M unit :=
  let* s := get in
  let OLDM := current_monitor s in
  let* (cd, d) := desktopinfo_monitors (Z.to_nat (MONITORS s)) OLDM 0 0 0 in
  emit [Fflush] ;;;
  select_monitor OLDM ;;;
  when (negb (cd =? d - 1)) (select_desktop cd).

(** *** Monitors and desktops: changing focus *)

Definition change_monitor (i : Z) : M unit :=
  let* s := get in
  if i =? current_monitor s then ret tt else
  modify (set_previous_monitor (current_monitor s)) ;;;
  select_monitor i ;;;
  let* m := CM in
  update_current (current m) ;;;
  desktopinfo.

Definition change_desktop (i : Z) : M unit :=
  let* m := CM in
  if i =? current_desktop m then ret tt else
  setCM (set_previous_desktop (current_desktop m)) ;;;
  select_desktop i ;;;
  let* m := CM in
  (match current m with
   | Some _ => let* c := load (current m) in emit [MapWindow (win c)]
   | None => ret tt
   end) ;;;
  let* cs := clients (head m) in
  emit ((λ c : positive * client, MapWindow (win c.2)) <$> cs) ;;;
  update_current (current m) ;;;
  let* m := CM in
  select_desktop (previous_desktop m) ;;;
  let* m := CM in
  let* cs := clients (head m) in
  emit (flat_map (λ c : positive * client,
          if decide (Some c.1 = current m) then [] else [UnmapWindow (win c.2)]) cs) ;;;
  (match current m with
   | Some _ => let* c := load (current m) in emit [UnmapWindow (win c)]
   | None => ret tt
   end) ;;;
  select_desktop i ;;;
  desktopinfo.

(** [focusurgent]: the inner loop, with [update_current] run from inside it. *)
Fixpoint focusurgent_clients (fuel : nat) (c : option positive) : M unit :=
  match c with
  | None => ret tt
  | Some _ =>
      match fuel with
      | O => crash
      | S f =>
          let* r := load c in
          when (isurgent r) (update_current c) ;;;
          let* r := load c in
          focusurgent_clients f (next r)
      end
  end.

Fixpoint focusurgent_monitors (k : nat) (m : Z) : M unit :=
  match k with
  | O => ret tt
  | S k =>
      let* s := get in
      let* mon := lift (nth_z (monitors s) m) in
      focusurgent_clients (size (heap s)) (head mon) ;;;
      focusurgent_monitors k (m + 1)
  end.

Definition focusurgent : M unit :=
  let* s := get in
  focusurgent_monitors (Z.to_nat (MONITORS s)) 0.

(** [propertynotify] for window [w]; [hints] tells whether [ev->atom]
    equals the constant the handler compares it with
    ([XCB_ICCCM_WM_ALL_HINTS]) and [reply] is the urgency flag of the WM
    hints read back, [None] when reading them fails. *)
Definition propertynotify (w : Z) (hints : bool) (reply : option bool) : M unit :=
  let* c := wintoclient w in
  match c with
  | None => ret tt
  | Some _ =>
      if negb hints then ret tt else
      (match reply with
       | Some u => store c (set_isurgent u)
       | None => ret tt
       end) ;;;
      desktopinfo
  end.

(** [motionnotify]: the pointer is at [(root_x, root_y)]. *)
Definition motionnotify (root_x root_y : Z) : M unit :=
  if negb (FOLLOW_MONITOR cfg) then ret tt else
  let* s := get in
  let area_monitor := areatomonitor root_x root_y s in
  if negb (area_monitor =? current_monitor s) then change_monitor area_monitor
  else ret tt.

(** *** Reordering the list *)

(** [move_down]: swap the current client with the one after it; the last
    client becomes the head. *)
Definition move_down : M unit :=
  let* m := CM in
  let* c := load (current m) in
  let n := match next c with Some _ => next c | None => head m end in
  let* p := prev_client (current m) in
  match p with
  | None => ret tt
  | Some _ =>
      (if decide (current m = head m) then setCM (set_head n)
       else store p (set_next (next c))) ;;;
      let* c := load (current m) in
      let* v := match next c with
                | Some _ => let* nr := load n in ret (next nr)
                | None => ret n
                end in
      store (current m) (set_next v) ;;;
      let* c := load (current m) in
      let* nr := load n in
      (if decide (next c = next nr) then store n (set_next (current m))
       else setCM (set_head (current m))) ;;;
      tile
  end.

(** [move_up]: swap the current client with the one before it; the head
    becomes the last client. *)
Definition move_up : M unit :=
  let* m := CM in
  let* p := prev_client (current m) in
  match p with
  | None => ret tt
  | Some pa =>
      let* pr := load p in
      let* pp := match next pr with
                 | Some _ =>
                     let* s := get in
                     lift (scan (size (heap s)) (heap s)
                             (λ _ r, bool_decide (next r = p)) (head m))
                 | None => ret None
                 end in
      (match pp with
       | Some _ => store pp (set_next (current m))
       | None =>
           if decide (current m = head m)
           then let* c := load (current m) in setCM (set_head (next c))
           else setCM (set_head (current m))
       end) ;;;
      let* m := CM in
      let* c := load (current m) in
      store p (set_next (if decide (next c = head m) then current m else next c)) ;;;
      let* c := load (current m) in
      store (current m) (set_next (if decide (next c = head m) then None else p)) ;;;
      tile
  end.

(** *** Resizing *)

Definition resize_master (i : Z) : M unit :=
  let* m := CM in
  let msz := master_size m + i in
  if ((if decide (mode m = BSTACK) then wh m else ww m) - msz <=? MINWSZ cfg)
     || (msz <=? MINWSZ cfg)
  then ret tt
  else setCM (set_master_size msz) ;;; tile.

Definition resize_stack (i : Z) : M unit :=
  setCM (λ m, set_growth (growth m + i) m) ;;; tile.

Definition togglepanel : M unit :=
  setCM (λ m, set_showpanel (negb (showpanel m)) m) ;;; tile.

(** *** Adding a window *)

(** [addwindow]: [calloc] hands out an address that is not in use and a
    zeroed struct. *)
Definition addwindow (w : Z) : M (option positive) :=
  let* m := CM in
  let* t := prev_client (head m) in
  let* s := get in
  let c := fresh (dom (heap s)) in
  modify (λ s, set_heap (<[c := mk_client None 0 false false false false 0]> (heap s)) s) ;;;
  (match head m with
   | None => setCM (set_head (Some c))
   | Some _ =>
       if negb (ATTACH_ASIDE cfg)
       then store (Some c) (set_next (head m)) ;;; setCM (set_head (Some c))
       else match t with
            | Some _ => store t (set_next (Some c))
            | None => store (head m) (set_next (Some c))
            end
   end) ;;;
  store (Some c) (set_win w) ;;;
  emit [ChangeWindowAttributes w XCB_CW_EVENT_MASK
          [Z.lor XCB_EVENT_MASK_PROPERTY_CHANGE
             (if FOLLOW_MOUSE cfg then XCB_EVENT_MASK_ENTER_WINDOW else 0)]] ;;;
  ret (Some c).

Definition setfullscreen (c : option positive) (fullscrn : bool) : M unit :=
  let* r := load c in
  when (negb (eqb fullscrn (isfullscrn r)))
       (emit [ChangeProperty (win r) (NET_WM_STATE xe) XCB_ATOM_ATOM
                (if fullscrn then [NET_FULLSCREEN xe] else [])]) ;;;
  store c (set_isfullscrn fullscrn) ;;;
  let* m := CM in
  when fullscrn (emit [xcb_move_resize (win r) 0 0 (ww m) (wh m + PANEL_HEIGHT cfg)]) ;;;
  update_current c.

(** The replies [maprequest] waits for: the window attributes
    ([override_redirect]), WM_CLASS (class and instance name),
    WM_TRANSIENT_FOR ([0] when absent) and the first atom of _NET_WM_STATE
    with the format of the property. *)
Record map_replies := mk_map_replies {
  mr_attr : option bool;
  mr_class : option (String.string * String.string);
  mr_transient : Z;
  mr_state : option (Z * Z)
}.

Definition maprequest (w : Z) (rp : map_replies) : M unit :=
  match mr_attr rp with
  | None | Some true => ret tt
  | Some false =>
      let* found := wintoclient w in
      match found with
      | Some _ => ret tt
      | None =>
          let* m := CM in
          let cd := current_desktop m in
          let rule :=
            match mr_class rp with
            | Some (cls, inst) =>
                find (λ r, String.eqb cls (r_class r) || String.eqb inst (r_class r))
                     (rules cfg)
            | None => None
            end in
          let follow := match rule with Some r => r_follow r | None => false end in
          let newdsk := match rule with
                        | Some r => if r_desktop r <? 0 then cd else r_desktop r
                        | None => cd
                        end in
          let floating := match rule with Some r => r_floating r | None => false end in
          when (negb (cd =? newdsk)) (select_desktop newdsk) ;;;
          let* c := addwindow w in
          store c (set_istransient (negb (mr_transient rp =? 0))) ;;;
          store c (λ r, set_isfloating (floating || istransient r) r) ;;;
          (match mr_state rp with
           | Some (fmt, v0) =>
               when (fmt =? 32) (setfullscreen c (v0 =? NET_FULLSCREEN xe))
           | None => ret tt
           end) ;;;
          update_current c ;;;
          let* r := load c in
          emit (grabbuttons (win r)) ;;;
          when (negb (cd =? newdsk)) (select_desktop cd) ;;;
          (if cd =? newdsk then emit [MapWindow (win r)] ;;; update_current c
           else when follow (change_desktop newdsk)) ;;;
          desktopinfo
      end
  end.

(** *** Start-up *)

(** What [calloc] returns for a monitor and for a desktop. *)
Definition zero_monitor : monitor :=
  mk_monitor false 0 0 0 TILE 0 0 0 0 0 None None None [].
Definition zero_desktop : desktop :=
  mk_desktop 0 TILE 0 None None None false.

Fixpoint save_desktops (k : nat) (d : Z) : M unit :=
  match k with
  | O => ret tt
  | S k => save_desktop d ;;; save_desktops k (d + 1)
  end.

Definition setup_monitor (i x y w h : Z) : M unit :=
  select_monitor i ;;;
  setCM (set_desktops (replicate (Z.to_nat (DESKTOPS cfg)) zero_desktop)) ;;;
  setCM (set_geometry w h x y) ;;;
  setCM (λ m, set_mode (DEFAULT_MODE cfg) (set_showpanel (SHOW_PANEL cfg) m)) ;;;
  let* m := CM in
  let* ms := lift (int_times_dbl (if decide (mode m = BSTACK) then wh m else ww m)
                     (MASTER_SIZE cfg)) in
  setCM (set_master_size ms) ;;;
  save_desktops (Z.to_nat (DESKTOPS cfg)) 0 ;;;
  change_desktop (DEFAULT_DESKTOP cfg).

Fixpoint setup_monitors (i : Z) (screens : list (Z * Z * Z * Z)) : M unit :=
  match screens with
  | [] => ret tt
  | (x, y, w, h) :: rest =>
      setup_monitor i x y w (h - (if SHOW_PANEL cfg then PANEL_HEIGHT cfg else 0)) ;;;
      setup_monitors (i + 1) rest
  end.

(** [setup]: [xinerama] is the list of screens [(x_org, y_org, width,
    height)] reported by Xinerama, empty when the program is built without
    it or when it reports none; [width] and [height] are those of the X
    screen.  Key grabs and the signal handler are left out, and the atoms
    and colours are those of [xe] from the start (the C code interns them
    after the monitors are set up, which shows only when [DEFAULT_DESKTOP]
    is not 0). *)
Definition setup (xinerama : list (Z * Z * Z * Z)) (width height : Z) : M unit :=
  modify (set_monitors
            (replicate (match xinerama with [] => 1%nat | _ => length xinerama end)
                       zero_monitor)) ;;;
  (match xinerama with
   | [] => setup_monitor 0 0 0 (width - BORDER_WIDTH cfg)
             (height - (if SHOW_PANEL cfg then PANEL_HEIGHT cfg else 0) - BORDER_WIDTH cfg)
   | _ => setup_monitors 0 xinerama
   end) ;;;
  emit [ChangeProperty (root xe) (NET_SUPPORTED xe) XCB_ATOM_ATOM
          [NET_SUPPORTED xe; NET_FULLSCREEN xe; NET_WM_STATE xe; NET_ACTIVE xe]] ;;;
  change_monitor (DEFAULT_MONITOR cfg) ;;;
  change_desktop (DEFAULT_DESKTOP cfg).

(** The state of the program before [setup]. *)
Definition initial : wm := mk_wm ∅ [] 0 0 [].

(** *** Moving a client to another monitor *)

Definition client_to_monitor (i : Z) : M unit :=
  let* m := CM in
  let* s := get in
  let* stay := match current m with
               | Some _ =>
                   if i <? MONITORS s
                   then let* c := load (current m) in ret (c_monitor c =? i)
                   else ret false
               | None => ret false
               end in
  if stay : bool then ret tt else
  let* c := load (current m) in
  let w := win c in
  let OLDM := current_monitor s in
  emit [UnmapWindow w] ;;;
  removeclient (current m) ;;;
  select_monitor i ;;;
  let* a := addwindow w in
  setCM (set_current a) ;;;
  store a (set_isfloating (isfloating c)) ;;;
  store a (set_isfullscrn (isfullscrn c)) ;;;
  store a (set_istransient (istransient c)) ;;;
  tile ;;;
  let* r := load a in
  emit [MapWindow (win r)] ;;;
  select_monitor OLDM ;;;
  tile ;;;
  let* m := CM in
  update_current (current m) ;;;
  when (FOLLOW_WINDOW cfg) (change_monitor i) ;;;
  desktopinfo.

(** The [XCB_MOTION_NOTIFY] case of the event loop of [mousemotion]:
    [(winx, winy, winw, winh)] is the geometry of the current client and
    [(mx, my)] the pointer position when the drag began. *)
Definition mousemotion_motion (arg winx winy winw winh mx my root_x root_y : Z) : M unit :=
  let xw := (if arg =? MOVE then winx else winw) + root_x - mx in
  let yh := (if arg =? MOVE then winy else winh) + root_y - my in
  let* m := CM in
  if arg =? RESIZE then
    let* c := load (current m) in
    emit [xcb_resize (win c) (if xw >? MINWSZ cfg then xw else winw)
                             (if yh >? MINWSZ cfg then yh else winh)]
  else if arg =? MOVE then
    let* c := load (current m) in
    emit [xcb_move (win c) xw yh] ;;;
    let* s := get in
    let area_monitor := areatomonitor xw yh s in
    if negb (area_monitor =? current_monitor s)
    then client_to_monitor area_monitor ;;; change_monitor area_monitor
    else ret tt
  else ret tt.

End Monsterwm.

(** ** The other commands and event handlers *)

(** The remaining bits of the value mask of a configure request, and the
    two constants [enternotify] compares with (from the xcb headers). *)
Definition XCB_CONFIG_WINDOW_X : Z := 1.
Definition XCB_CONFIG_WINDOW_Y : Z := 2.
Definition XCB_CONFIG_WINDOW_WIDTH : Z := 4.
Definition XCB_CONFIG_WINDOW_HEIGHT : Z := 8.
Definition XCB_CONFIG_WINDOW_SIBLING : Z := 32.
Definition XCB_NOTIFY_MODE_NORMAL : Z := 0.
Definition XCB_NOTIFY_DETAIL_INFERIOR : Z := 2.

(** The fields of an [xcb_configure_request_event_t] that
    [configurerequest] reads. *)
Record configure_request := mk_configure_request {
  cr_window : Z;
  cr_value_mask : Z;
  cr_x : Z; cr_y : Z; cr_width : Z; cr_height : Z;
  cr_border_width : Z; cr_sibling : Z; cr_stack_mode : Z
}.

Section Commands.

Variable cfg : config.
Variable xe : xenv.

(** *** Moving the focus along the list *)

(** [next_win]: focus the client after the current one, the head after the
    last. *)
Definition next_win : M unit :=
  let* m := CM in
  match current m with
  | None => ret tt
  | Some _ =>
      let* hd := load (head m) in
      match next hd with
      | None => ret tt
      | Some _ =>
          let* c := load (current m) in
          update_current cfg xe (match next c with Some _ => next c | None => head m end)
      end
  end.

(** [prev_win]: [update_current(prev_client(CM->prevfocus = CM->current))]. *)
Definition prev_win : M unit :=
  let* m := CM in
  setCM (set_prevfocus (current m)) ;;;
  let* p := prev_client (current m) in
  update_current cfg xe p.

(** The loop [while (CM->current != CM->head) move_up();] of
    [swap_master].  [fuel] bounds the number of rounds: on a proper list the
    current client reaches the head in fewer rounds than there are clients;
    a run that needs more gets no result here. *)
Fixpoint swap_master_loop (fuel : nat) : M unit :=
  let* m := CM in
  if decide (current m = head m) then ret tt
  else match fuel with
       | O => crash
       | S f => move_up cfg ;;; swap_master_loop f
       end.

Definition swap_master : M unit :=
  let* m := CM in
  match current m with
  | None => ret tt
  | Some _ =>
      let* hd := load (head m) in
      match next hd with
      | None => ret tt
      | Some _ =>
          (if decide (current m = head m) then move_down cfg
           else let* s := get in swap_master_loop (size (heap s))) ;;;
          let* m := CM in
          update_current cfg xe (head m)
      end
  end.

(** *** Modes *)

(** [for (c=CM->head; c; c=c->next) c->isfloating = False;] *)
Fixpoint unfloat_from (fuel : nat) (c : option positive) : M unit :=
  match c with
  | None => ret tt
  | Some _ =>
      match fuel with
      | O => crash
      | S f =>
          store c (set_isfloating false) ;;;
          let* r := load c in
          unfloat_from f (next r)
      end
  end.

(** [switch_mode]; the argument is one of the four modes, as the [mode]
    field is. *)
Definition switch_mode (i : layout_mode) : M unit :=
  let* m := CM in
  when (bool_decide (mode m = i))
       (let* s := get in unfloat_from (size (heap s)) (head m)) ;;;
  setCM (set_mode i) ;;;
  let* m := CM in
  let* ms := lift (int_times_dbl (if decide (mode m = BSTACK) then wh m else ww m)
                     (MASTER_SIZE cfg)) in
  setCM (set_master_size ms) ;;;
  let* m := CM in
  update_current cfg xe (current m) ;;;
  desktopinfo cfg.

(** *** Going to another desktop *)

Definition last_desktop : M unit :=
  let* m := CM in change_desktop cfg xe (previous_desktop m).

(** The loop of [rotate_filled],
    [while (n < DESKTOPS && !CM->desktops[(DESKTOPS + CM->current_desktop + n) % DESKTOPS].head) n += arg->i;]
    with the value of [n] it ends with.  It reads the saved desktops. *)
Fixpoint rotate_filled_from (fuel : nat) (m : monitor) (i n : Z) : option Z :=
  if n <? DESKTOPS cfg then
    idx ← cmod (DESKTOPS cfg + current_desktop m + n) (DESKTOPS cfg);
    dk ← nth_z (desktops m) idx;
    match d_head dk with
    | Some _ => Some n
    | None =>
        match fuel with
        | O => None
        | S f => rotate_filled_from f m i (n + i)
        end
    end
  else Some n.

(** [rotate_filled].  The loop either stops, or leaves the array, or reads
    the same entry for ever, within [DESKTOPS + |current_desktop| + 2]
    rounds: as long as [DESKTOPS + current_desktop + n] is not negative it
    takes at most that many values, and once it is negative the index is
    negative too unless every value is a multiple of [DESKTOPS], in which
    case all rounds read entry 0. *)
Definition rotate_filled (i : Z) : M unit :=
  let* m := CM in
  let* n := lift (rotate_filled_from
                    (Z.to_nat (DESKTOPS cfg + Z.abs (current_desktop m) + 2)) m i i) in
  let* t := lift (cmod (DESKTOPS cfg + current_desktop m + n) (DESKTOPS cfg)) in
  change_desktop cfg xe t.

(** *** Moving a client to another desktop *)

(** [client_to_desktop]: the client is linked behind the list of desktop
    [i] while it is still on its own list, focused there, and only then
    unlinked from the list of the desktop it comes from. *)
Definition client_to_desktop (i : Z) : M unit :=
  let* m := CM in
  match current m with
  | None => ret tt
  | Some _ =>
      if i =? current_desktop m then ret tt else
      let cd := current_desktop m in
      let* p := prev_client (current m) in
      let c := current m in
      select_desktop cfg i ;;;
      let* m1 := CM in
      let* l := prev_client (head m1) in
      (match l with
       | Some _ => store l (set_next c)
       | None => match head m1 with
                 | Some _ => store (head m1) (set_next c)
                 | None => setCM (set_head c)
                 end
       end) ;;;
      update_current cfg xe c ;;;
      select_desktop cfg cd ;;;
      let* m2 := CM in
      let* rc := load c in
      (if bool_decide (c = head m2) || bool_decide (p = None)
       then setCM (set_head (next rc))
       else store p (set_next (next rc))) ;;;
      store c (set_next None) ;;;
      let* rc := load c in
      emit [UnmapWindow (win rc)] ;;;
      let* m3 := CM in
      update_current cfg xe (prevfocus m3) ;;;
      when (FOLLOW_WINDOW cfg) (change_desktop cfg xe i) ;;;
      desktopinfo cfg
  end.

(** *** Event handlers *)

(** [clientmessage] for window [w]: [type] is [ev->type] and [d0], [d1],
    [d2] the first three words of [ev->data.data32]. *)
Definition clientmessage (w type d0 d1 d2 : Z) : M unit :=
  let* c := wintoclient cfg w in
  match c with
  | None => ret tt
  | Some _ =>
      if (type =? NET_WM_STATE xe)
         && ((d1 =? NET_FULLSCREEN xe) || (d2 =? NET_FULLSCREEN xe))
      then let* r := load c in
           setfullscreen cfg xe c ((d0 =? 1) || ((d0 =? 2) && negb (isfullscrn r)))
      else ret tt
  end.

(** The values [configurerequest] writes into [v], in order.  The second
    one is, as C parses it,
    [(ev->y + (CM->showpanel && TOP_PANEL)) ? PANEL_HEIGHT : 0]. *)
Definition configure_values (m : monitor) (ev : configure_request) : list Z :=
  let has b := negb (Z.land (cr_value_mask ev) b =? 0) in
  (if has XCB_CONFIG_WINDOW_X then [u32 (cr_x ev)] else [])
  ++ (if has XCB_CONFIG_WINDOW_Y
      then [u32 (if cr_y ev + (if showpanel m && TOP_PANEL cfg then 1 else 0) =? 0
                 then 0 else PANEL_HEIGHT cfg)]
      else [])
  ++ (if has XCB_CONFIG_WINDOW_WIDTH
      then [u32 (if cr_width ev <? ww m - BORDER_WIDTH cfg
                 then cr_width ev else ww m + BORDER_WIDTH cfg)]
      else [])
  ++ (if has XCB_CONFIG_WINDOW_HEIGHT
      then [u32 (if cr_height ev <? wh m - BORDER_WIDTH cfg
                 then cr_height ev else wh m + BORDER_WIDTH cfg)]
      else [])
  ++ (if has XCB_CONFIG_WINDOW_BORDER_WIDTH then [u32 (cr_border_width ev)] else [])
  ++ (if has XCB_CONFIG_WINDOW_SIBLING then [u32 (cr_sibling ev)] else [])
  ++ (if has XCB_CONFIG_WINDOW_STACK_MODE then [u32 (cr_stack_mode ev)] else []).

Definition configurerequest (ev : configure_request) : M unit :=
  let* c := wintoclient cfg (cr_window ev) in
  let* full := match c with
               | Some _ => let* r := load c in ret (isfullscrn r)
               | None => ret false
               end in
  (if full : bool then setfullscreen cfg xe c true
   else let* m := CM in
        emit [ConfigureWindow (cr_window ev) (cr_value_mask ev) (configure_values m ev)]) ;;;
  tile cfg.

Definition destroynotify (w : Z) : M unit :=
  let* c := wintoclient cfg w in
  (match c with
   | Some _ => removeclient cfg xe c
   | None => ret tt
   end) ;;;
  desktopinfo cfg.

(** [unmapnotify]: [w] is [ev->window], [event] is [ev->event]. *)
Definition unmapnotify (w event : Z) : M unit :=
  let* c := wintoclient cfg w in
  (match c with
   | Some _ => if negb (event =? root xe) then removeclient cfg xe c else ret tt
   | None => ret tt
   end) ;;;
  desktopinfo cfg.

(** [enternotify]: [event], [mode] and [detail] are the fields of the
    event. *)
Definition enternotify (event mode detail : Z) : M unit :=
  if negb (FOLLOW_MOUSE cfg) then ret tt else
  let* c := wintoclient cfg event in
  match c with
  | Some _ =>
      if (mode =? XCB_NOTIFY_MODE_NORMAL) && negb (detail =? XCB_NOTIFY_DETAIL_INFERIOR)
      then update_current cfg xe c else ret tt
  | None => ret tt
  end.

(** *** Buttons *)

(** [#define CLEANMASK(mask) (mask & ~(numlockmask | XCB_MOD_MASK_LOCK))],
    on [unsigned int]. *)
Definition CLEANMASK (mask : Z) : Z :=
  Z.land mask (u32 (Z.lnot (Z.lor (numlockmask xe) XCB_MOD_MASK_LOCK))).

(** The loop of [buttonpress] over the bindings; [fs] holds the functions
    of the bindings applied to their arguments, [None] for a null
    pointer. *)
Fixpoint buttonpress_from (c : option positive) (detail state : Z)
    (bs : list (Z * Z)) (fs : list (option (M unit))) : M unit :=
  match bs, fs with
  | b :: bs, f :: fs =>
      (match f with
       | Some run =>
           if (b.2 =? detail) && (CLEANMASK b.1 =? CLEANMASK state)
           then update_current cfg xe c ;;; run else ret tt
       | None => ret tt
       end) ;;;
      buttonpress_from c detail state bs fs
  | _, _ => ret tt
  end.

Definition buttonpress (fs : list (option (M unit))) (event detail state : Z) : M unit :=
  let* c := wintoclient cfg event in
  match c with
  | None => ret tt
  | Some _ =>
      let* m := CM in
      when (CLICK_TO_FOCUS cfg && bool_decide (current m ≠ c)
            && (detail =? XCB_BUTTON_INDEX_1))
           (update_current cfg xe c) ;;;
      buttonpress_from c detail state (buttons cfg) fs
  end.

End Commands.

(** ** Notions used by the statements *)

(** [lseg h p l q]: following [next] from [p] visits exactly the addresses
    [l], in that order, and arrives at [q]. *)
Fixpoint lseg (h : gmap positive client) (p : option positive)
    (l : list positive) (q : option positive) : Prop :=
  match l with
  | [] => p = q
  | a :: l' => p = Some a ∧ ∃ r, h !! a = Some r ∧ lseg h (next r) l' q
  end.

(** A NULL-terminated client list. *)
Definition is_list (h : gmap positive client) (p : option positive)
    (l : list positive) : Prop := lseg h p l None.

(** The addresses on the list that starts at [p], when it is a proper list. *)
Definition list_of (h : gmap positive client) (p : option positive)
  : option (list positive) := fmap (M := list) fst <$> chain (size h) h p.

(** [c], when it is not [NULL], is a node of the list that starts at [p]. *)
Definition reachable_from (h : gmap positive client) (p c : option positive) : bool :=
  match c with
  | None => true
  | Some a =>
      match list_of h p with
      | Some l => bool_decide (a ∈ l)
      | None => false
      end
  end.

(** Focus reachability on the current monitor's current desktop. *)
Definition focus_reachable (s : wm) : bool :=
  match nth_z (monitors s) (current_monitor s) with
  | Some m => reachable_from (heap s) (head m) (current m)
              && reachable_from (heap s) (head m) (prevfocus m)
  | None => false
  end.

(** The live copy of the selected desktop. *)
Definition live (m : monitor) : desktop :=
  mk_desktop (master_size m) (mode m) (growth m) (head m) (current m)
             (prevfocus m) (showpanel m).

(** The desktop [d] of a monitor as the program sees it: the live copy for
    the selected desktop, the saved entry for the others. *)
Definition desktop_view (m : monitor) (d : Z) : option desktop :=
  if d =? current_desktop m then Some (live m) else nth_z (desktops m) d.

(** The desktop array of a monitor has [DESKTOPS] entries and the selected
    desktop is one of them. *)
Definition wf_desktops (cfg : config) (m : monitor) : Prop :=
  0 ≤ current_desktop m < DESKTOPS cfg
  ∧ length (desktops m) = Z.to_nat (DESKTOPS cfg).

(** The slot [removeclient] ends on when it finds its client after the
    nodes [l1]. *)
Definition slot_after (l1 : list positive) (p : slot) : slot :=
  match last l1 with Some x => SlotNext x | None => p end.

(** The windows tracked on desktop [d] of monitor [m], in list order. *)
Definition windows_on (s : wm) (m d : Z) : option (list Z) :=
  mon ← nth_z (monitors s) m;
  dsk ← desktop_view mon d;
  cs ← chain (size (heap s)) (heap s) (d_head dsk);
  Some (fmap (M := list) (λ c : positive * client, win c.2) cs).

(** The geometry last assigned to window [w] by a move-and-resize request. *)
Definition geometry_of (w : Z) (log : list xreq) : option (list Z) :=
  last (omap (λ r, match r with
                   | ConfigureWindow w' mask v =>
                       if (w' =? w) && (mask =? XCB_MOVE_RESIZE) then Some v else None
                   | _ => None
                   end) log).

(** The border widths requested in a log, with their windows. *)
Definition border_widths (log : list xreq) : list (Z * Z) :=
  omap (λ r, match r with
             | ConfigureWindow w mask [bw] =>
                 if mask =? XCB_CONFIG_WINDOW_BORDER_WIDTH then Some (w, bw) else None
             | _ => None
             end) log.

(** The border width window [w] has: the one last requested for it. *)
Definition border_width_of (w : Z) (log : list xreq) : option Z :=
  last (omap (λ p : Z * Z, if p.1 =? w then Some p.2 else None) (border_widths log)).

(** [s'] is [s] with more requests in the log and nothing else changed. *)
Definition extends_log (s s' : wm) : Prop :=
  ∃ reqs, s' = set_xlog (xlog s ++ reqs) s.

(** When the focus engine is to give a client no border, on a desktop with
    [n] clients in mode [md]. *)
Definition borderless (n : nat) (md : layout_mode) (r : client) : Prop :=
  n = 1%nat ∨ isfullscrn r = true
  ∨ (md = MONOCLE ∧ isfloating r = false ∧ istransient r = false).

(** [h'] holds the clients of [h] at the same addresses, with the same
    fields except possibly [next]: no node is lost, added or duplicated. *)
Definition heap_relinked (h h' : gmap positive client) : Prop :=
  ∀ a, match h !! a, h' !! a with
       | Some r, Some r' => r' = set_next (next r') r
       | None, None => True
       | _, _ => False
       end.

(** [s'] is [s] with [next] fields and the head of the current monitor's
    list possibly changed and more requests in the log; nothing else
    changes. *)
Definition relinked (s s' : wm) : Prop :=
  current_monitor s' = current_monitor s
  ∧ previous_monitor s' = previous_monitor s
  ∧ (∃ reqs, xlog s' = xlog s ++ reqs)
  ∧ heap_relinked (heap s) (heap s')
  ∧ ∃ m hd, CM s = Some (m, s)
            ∧ monitors s' = <[Z.to_nat (current_monitor s) := set_head hd m]> (monitors s).

(** A point strictly inside the working rectangle of a monitor. *)
Definition strictly_inside (mon : monitor) (x y : Z) : Prop :=
  wx mon < x < wx mon + ww mon ∧ wy mon < y < wy mon + wh mon.

(** The list-level reading of [move_down]: the current client changes
    places with its successor, the last client moves to the front. *)
Fixpoint swap_down (c : positive) (l : list positive) : list positive :=
  match l with
  | a :: ((b :: l') as t) =>
      if decide (a = c) then b :: a :: l' else a :: swap_down c t
  | _ => l
  end.

Definition list_move_down (c : positive) (l : list positive) : list positive :=
  match last l with
  | Some a => if decide (a = c) then c :: removelast l else swap_down c l
  | None => l
  end.

(** The list-level reading of [move_up]: the current client changes places
    with its predecessor, the head moves to the end. *)
Fixpoint swap_up (c : positive) (l : list positive) : list positive :=
  match l with
  | a :: ((b :: l') as t) =>
      if decide (b = c) then b :: a :: l' else a :: swap_up c t
  | _ => l
  end.

Definition list_move_up (c : positive) (l : list positive) : list positive :=
  match l with
  | a :: l' => if decide (a = c) then l' ++ [c] else swap_up c l
  | [] => l
  end.

(** [m'] shows the same desktops as [m]: every desktop has the same fields
    as the program sees them, and the geometry and the previous desktop are
    the same; the desktop selected may differ. *)
Definition same_views (m m' : monitor) : Prop :=
  previous_desktop m' = previous_desktop m
  ∧ wh m' = wh m ∧ ww m' = ww m ∧ wx m' = wx m ∧ wy m' = wy m
  ∧ length (desktops m') = length (desktops m)
  ∧ ∀ d, desktop_view m' d = desktop_view m d.

(** ... and the same desktop is selected. *)
Definition same_desktops (m m' : monitor) : Prop :=
  current_desktop m' = current_desktop m ∧ same_views m m'.

(** The monitor after [select_desktop(i)], [dk] being desktop [i] as the
    program sees it: the live copy is saved into the array and the fields
    of [dk] become the live ones. *)
Definition switched (m : monitor) (i : Z) (dk : desktop) : monitor :=
  mk_monitor (d_showpanel dk) i (previous_desktop m) (d_growth dk) (d_mode dk)
    (d_master_size dk) (wh m) (ww m) (wx m) (wy m)
    (d_head dk) (d_prevfocus dk) (d_current dk)
    (<[Z.to_nat (current_desktop m) := live m]> (desktops m)).

(** Every desktop of a monitor holds a proper list. *)
Definition proper_desktops (cfg : config) (h : gmap positive client) (m : monitor) : Prop :=
  ∀ d, 0 ≤ d < DESKTOPS cfg →
    ∃ dk l, desktop_view m d = Some dk ∧ is_list h (d_head dk) l.

(** No client of the list [l] has window [w]. *)
Definition untracked (h : gmap positive client) (l : list positive) (w : Z) : Prop :=
  ∀ a r, a ∈ l → h !! a = Some r → win r ≠ w.

(** The windows that receive the input focus in a log, in order. *)
Definition focus_requests (log : list xreq) : list Z :=
  omap (λ r, match r with SetInputFocus w => Some w | _ => None end) log.

(** The windows a log moves and resizes, in order. *)
Definition placed_windows (log : list xreq) : list Z :=
  omap (λ r, match r with
             | ConfigureWindow w mask _ =>
                 if mask =? XCB_MOVE_RESIZE then Some w else None
             | _ => None
             end) log.

(** The windows of the clients of [l] that [ISFFT] does not hold for, in
    list order. *)
Definition tileable_windows (h : gmap positive client) (l : list positive) : list Z :=
  omap (λ a, r ← h !! a; if ISFFT r then None else Some (win r)) l.

(** A request that moves and resizes a window. *)
Definition is_move_resize (r : xreq) : Prop :=
  ∃ w x y wd ht, r = xcb_move_resize w x y wd ht.

(** The node just before [c] on a list. *)
Fixpoint before (c : positive) (l : list positive) : option positive :=
  match l with
  | a :: ((b :: _) as t) => if decide (b = c) then Some a else before c t
  | _ => None
  end.

(** The node before [c] going round the list: the last node when no node
    comes before [c]; none on a list of fewer than two nodes. *)
Definition cyclic_prev (c : positive) (l : list positive) : option positive :=
  match l with
  | _ :: _ :: _ => match before c l with Some p => Some p | None => last l end
  | _ => None
  end.

(** The node just after [c] on a list. *)
Fixpoint after (c : positive) (l : list positive) : option positive :=
  match l with
  | a :: t =>
      if decide (a = c) then match t with b :: _ => Some b | [] => None end
      else after c t
  | [] => None
  end.

(** The node after [c] going round the list: the first node after the
    last. *)
Definition cyclic_next (c : positive) (l : list positive) : option positive :=
  match after c l with
  | Some n => Some n
  | None => match l with a :: _ => Some a | [] => None end
  end.

(** The requests [update_current] sends for the client it has focused,
    after the pass over the list and before [tile]. *)
Definition focus_reqs (cfg : config) (xe : xenv) (r : client) : list xreq :=
  (if isfloating r || istransient r then [xcb_raise_window (win r)] else [])
  ++ [ChangeProperty (root xe) (NET_ACTIVE xe) XCB_ATOM_WINDOW [win r];
      SetInputFocus (win r)]
  ++ (if CLICK_TO_FOCUS cfg then grabbuttons cfg xe (win r) else []).

(** A window with the geometry the program computes for it; the request
    carries these values converted to [unsigned int]. *)
Record rect := mk_rect { r_win : Z; r_x : Z; r_y : Z; r_w : Z; r_h : Z }.

Definition rect_request (g : rect) : xreq :=
  xcb_move_resize (r_win g) (r_x g) (r_y g) (r_w g) (r_h g).

(** Position and extent along the axis on which [stack] lines the stack
    clients up: horizontal in BSTACK mode ([b]), vertical in TILE mode. *)
Definition r_pos (b : bool) (g : rect) : Z := if b then r_x g else r_y g.
Definition r_len (b : bool) (g : rect) : Z := if b then r_w g else r_h g.

(** The saved entry of desktop [j] holds no client, or holds some. *)
Definition saved_empty (m : monitor) (j : Z) : Prop :=
  ∃ dk, nth_z (desktops m) j = Some dk ∧ d_head dk = None.
Definition saved_filled (m : monitor) (j : Z) : Prop :=
  ∃ dk a, nth_z (desktops m) j = Some dk ∧ d_head dk = Some a.

(** Apart from address [c], [h'] holds the clients of [h] at the same
    addresses, with the same fields except possibly [next]. *)
Definition kept_except (c : positive) (h h' : gmap positive client) : Prop :=
  ∀ a, a ≠ c → match h !! a, h' !! a with
               | Some x, Some y => y = set_next (next y) x
               | None, None => True
               | _, _ => False
               end.

(** The status line, read off a state without touching it.  The record of
    desktop [d] of monitor [k]: its client count, mode and urgency, and
    whether monitor and desktop are the selected ones. *)
Definition desktop_record (cfg : config) (s : wm) (k : Z) (mon : monitor) (d : Z)
  : option info_record :=
  dk ← desktop_view mon d;
  cs ← chain (size (heap s)) (heap s) (d_head dk);
  Some (mk_info k (k =? current_monitor s) d (Z.of_nat (length cs)) (mode_id (d_mode dk))
          (d =? current_desktop mon) (existsb (λ c : positive * client, isurgent c.2) cs)
          ((k + 1 =? MONITORS s) && (d + 1 =? DESKTOPS cfg))).

(** The records of [n] desktops of monitor [k], from desktop [d] on. *)
Fixpoint desktop_records (cfg : config) (s : wm) (k : Z) (mon : monitor) (n : nat) (d : Z)
  : option (list xreq) :=
  match n with
  | O => Some []
  | S n =>
      r ← desktop_record cfg s k mon d;
      rs ← desktop_records cfg s k mon n (d + 1);
      Some (Printf r :: rs)
  end.

(** The records of the monitors [ms], the first of which has index [k]. *)
Fixpoint monitor_records (cfg : config) (s : wm) (k : Z) (ms : list monitor)
  : option (list xreq) :=
  match ms with
  | [] => Some []
  | mon :: ms =>
      rs ← desktop_records cfg s k mon (Z.to_nat (DESKTOPS cfg)) 0;
      rest ← monitor_records cfg s (k + 1) ms;
      Some (rs ++ rest)
  end.

Definition status_line (cfg : config) (s : wm) : option (list xreq) :=
  monitor_records cfg s 0 (monitors s).

(** [grid] divides by its column count, which is 0 when no client is
    tileable; [tile] calls it in GRID mode for a list of two or more
    clients. *)
Definition grid_safe (h : gmap positive client) (l : list positive) (md : layout_mode)
  : Prop :=
  md = GRID → (2 ≤ length l)%nat → ∃ a r, a ∈ l ∧ h !! a = Some r ∧ ISFFT r = false.

(** A desktop in good order: its list is proper, its focus fields point
    into the list, and [tile] can lay the list out. *)
Definition desktop_ok (h : gmap positive client) (dk : desktop) : Prop :=
  ∃ l, is_list h (d_head dk) l
       ∧ (∀ c, d_current dk = Some c → c ∈ l)
       ∧ (∀ c, d_prevfocus dk = Some c → c ∈ l)
       ∧ grid_safe h l (d_mode dk).

Definition monitor_ok (cfg : config) (h : gmap positive client) (m : monitor) : Prop :=
  wf_desktops cfg m
  ∧ ∀ d, 0 ≤ d < DESKTOPS cfg → ∃ dk, desktop_view m d = Some dk ∧ desktop_ok h dk.

Definition state_ok (cfg : config) (s : wm) : Prop :=
  0 ≤ current_monitor s < MONITORS s
  ∧ Forall (monitor_ok cfg (heap s)) (monitors s).

(** The windows a log maps, and those it unmaps, in order. *)
Definition mapped_windows (log : list xreq) : list Z :=
  omap (λ r, match r with MapWindow w => Some w | _ => None end) log.

Definition unmapped_windows (log : list xreq) : list Z :=
  omap (λ r, match r with UnmapWindow w => Some w | _ => None end) log.

(** A request that neither maps nor unmaps a window. *)
Definition keeps_mapping (r : xreq) : Prop :=
  match r with MapWindow _ | UnmapWindow _ => False | _ => True end.

(** The windows of the clients of a list, in list order. *)
Definition windows_of (h : gmap positive client) (l : list positive) : list Z :=
  omap (λ a, win <$> h !! a) l.

(** The request [f] for the window of the client [oc], if there is one. *)
Definition for_client (f : Z → xreq) (h : gmap positive client) (oc : option positive)
  : list xreq :=
  match oc with
  | Some c => match h !! c with Some r => [f (win r)] | None => [] end
  | None => []
  end.

(** A monitor as [setup_monitor] leaves it: the default desktop selected,
    the given geometry, and every desktop empty with the default mode, the
    master size [msz] and the panel as configured. *)
Definition just_set_up (cfg : config) (x y w h msz : Z) (m : monitor) : Prop :=
  wf_desktops cfg m ∧ current_desktop m = DEFAULT_DESKTOP cfg
  ∧ ww m = w ∧ wh m = h ∧ wx m = x ∧ wy m = y
  ∧ ∀ d, 0 ≤ d < DESKTOPS cfg →
      desktop_view m d
      = Some (mk_desktop msz (DEFAULT_MODE cfg) 0 None None None (SHOW_PANEL cfg)).

(** What [desktopinfo] writes: records and the flush of the stream. *)
Definition is_status_output (r : xreq) : Prop :=
  match r with Printf _ | Fflush => True | _ => False end.

(** The rule [maprequest] applies to a window: the first one whose class
    name equals the class or the instance name of the window. *)
Definition rule_for (cfg : config) (rp : map_replies) : option AppRule :=
  match mr_class rp with
  | Some (cls, inst) =>
      find (λ r, String.eqb cls (r_class r) || String.eqb inst (r_class r)) (rules cfg)
  | None => None
  end.

(** The lists of all desktops but the selected desktop of the current
    monitor share no client with [l]. *)
Definition apart_from (cfg : config) (s : wm) (l : list positive) : Prop :=
  ∀ k mon d dk ld,
    nth_z (monitors s) k = Some mon → 0 ≤ d < DESKTOPS cfg →
    k ≠ current_monitor s ∨ d ≠ current_desktop mon →
    desktop_view mon d = Some dk → is_list (heap s) (d_head dk) ld →
    ∀ a, a ∈ ld → a ∉ l.

(** [h'] is [h] with the floating flag of the clients of [l] cleared. *)
Definition unfloated (l : list positive) (h h' : gmap positive client) : Prop :=
  ∀ a, h' !! a = if decide (a ∈ l) then set_isfloating false <$> h !! a else h !! a.

(** No client is on the lists of two desktops, of the same monitor or of
    different ones. *)
Definition lists_disjoint (cfg : config) (s : wm) : Prop :=
  ∀ k1 mon1 d1 dk1 ld1 k2 mon2 d2 dk2 ld2,
    nth_z (monitors s) k1 = Some mon1 → nth_z (monitors s) k2 = Some mon2 →
    0 ≤ d1 < DESKTOPS cfg → 0 ≤ d2 < DESKTOPS cfg →
    k1 ≠ k2 ∨ d1 ≠ d2 →
    desktop_view mon1 d1 = Some dk1 → desktop_view mon2 d2 = Some dk2 →
    is_list (heap s) (d_head dk1) ld1 → is_list (heap s) (d_head dk2) ld2 →
    ∀ a, a ∈ ld1 → a ∉ ld2.

(** ** Sample configuration and scenarios *)

(** 0.52 as a binary64 number. *)
Definition dbl_0_52 : spec_float := S754_finite false 4683743612465316 (-53).

(** The configuration of scenario S1: master fraction 0.52, a 20-pixel
    panel at the top, border width 2, new windows attached aside, four
    desktops, no rules. *)
Definition sample_config : config :=
  mk_config dbl_0_52 true true 20 TILE true false false false false
            2 4 0 0 50 [] [].

Definition sample_xenv : xenv :=
  mk_xenv 300 301 302 303 304 305 16750862 4473924 1 16.

(** A map request for a window without rules, neither transient nor
    fullscreen. *)
Definition plain_window : map_replies := mk_map_replies (Some false) None 0 None.

(** Running a sequence of operations. *)
Fixpoint run_all (ops : list (M unit)) : M unit :=
  match ops with
  | [] => ret tt
  | op :: ops => op ;;; run_all ops
  end.

Definition state_after (ops : list (M unit)) (s : wm) : option wm :=
  snd <$> run_all ops s.

(** The sample configuration with [ATTACH_ASIDE] set to [aside]. *)
Definition sample_config_aside (aside : bool) : config :=
  mk_config dbl_0_52 true true 20 TILE aside false false false false
            2 4 0 0 50 [] [].

(** S1: one 1600x900 screen, three windows 101, 102, 103 mapped in order.
    [xinerama] is what Xinerama reports (nothing in a build without it). *)
Definition scenario_S1_with (aside : bool) (xinerama : list (Z * Z * Z * Z))
  : option wm :=
  state_after [ setup (sample_config_aside aside) sample_xenv xinerama 1600 900;
                maprequest (sample_config_aside aside) sample_xenv 101 plain_window;
                maprequest (sample_config_aside aside) sample_xenv 102 plain_window;
                maprequest (sample_config_aside aside) sample_xenv 103 plain_window ]
              initial.

Definition scenario_S1 : option wm := scenario_S1_with true [].

(** The geometry the second window ends up with. *)
Definition S1_second_window (aside : bool) (xinerama : list (Z * Z * Z * Z))
  : option (option (list Z)) :=
  s ← scenario_S1_with aside xinerama; Some (geometry_of 102 (xlog s)).

(** The geometries scenario S1 expects for the three windows. *)
Definition S1_expected (s : wm) : Prop :=
  geometry_of 101 (xlog s) = Some [0; 20; 828; 874]
  ∧ geometry_of 102 (xlog s) = Some [832; 20; 764; 434]
  ∧ geometry_of 103 (xlog s) = Some [832; 456; 764; 438].

(** One screen, new windows attached at the head: window 101 is mapped and
    loses the focus to [prev_win], the desktop is switched to MONOCLE,
    window 102 is mapped and then sent to desktop 1. *)
Definition scenario_monocle_border : option wm :=
  state_after [ setup (sample_config_aside false) sample_xenv [] 1600 900;
                maprequest (sample_config_aside false) sample_xenv 101 plain_window;
                prev_win (sample_config_aside false) sample_xenv;
                switch_mode (sample_config_aside false) sample_xenv MONOCLE;
                maprequest (sample_config_aside false) sample_xenv 102 plain_window;
                client_to_desktop (sample_config_aside false) sample_xenv 1 ] initial.

(** S5: one screen, one window mapped and focused. *)
Definition scenario_S5 : option wm :=
  state_after [ setup sample_config sample_xenv [] 1600 900;
                maprequest sample_config sample_xenv 101 plain_window ] initial.

(** The client message S5 expects for window [w]. *)
Definition S5_expected_message (xe : xenv) (w : Z) : xreq :=
  SendEvent w (mk_client_message 32 0 w (WM_PROTOCOLS xe)
                 [Some (WM_DELETE_WINDOW xe); Some XCB_CURRENT_TIME;
                  Some 0; Some 0; Some 0]).

(** One 1600x900 monitor with two clients, the first one focused. *)
Definition two_clients : wm :=
  mk_wm (<[2%positive := mk_client None 0 false false false false 102]>
           (<[1%positive := mk_client (Some 2%positive) 0 false false false false 101]> ∅))
        [mk_monitor true 0 0 0 TILE 832 900 1600 0 0
           (Some 1%positive) (Some 2%positive) (Some 1%positive)
           (replicate 4 (mk_desktop 832 TILE 0 None None None true))] 0 0 [].

Definition two_clients_monitor : monitor :=
  mk_monitor true 0 0 0 TILE 832 900 1600 0 0
    (Some 1%positive) (Some 2%positive) (Some 1%positive)
    (replicate 4 (mk_desktop 832 TILE 0 None None None true)).

(** One 1600x900 monitor without clients. *)
Definition lone_monitor_record : monitor :=
  mk_monitor true 0 0 0 TILE 832 900 1600 0 0 None None None
    (replicate 4 (mk_desktop 832 TILE 0 None None None true)).

Definition lone_monitor : wm :=
  mk_wm ∅ [mk_monitor true 0 0 0 TILE 832 900 1600 0 0 None None None
             (replicate 4 (mk_desktop 832 TILE 0 None None None true))] 0 0 [].

(** Two 1600x900 screens side by side; a window is mapped on monitor 1 and
    receives the urgency hint, then monitor 0 is focused again. *)
Definition two_screens : list (Z * Z * Z * Z) := [(0, 0, 1600, 900); (1600, 0, 1600, 900)].

Definition scenario_other_monitor : option wm :=
  state_after [ setup sample_config sample_xenv two_screens 3200 900;
                change_monitor sample_config sample_xenv 1;
                maprequest sample_config sample_xenv 7 plain_window;
                propertynotify sample_config 7 true (Some true);
                change_monitor sample_config sample_xenv 0 ] initial.

(** Two screens; monitor 1 shows desktop 1, monitor 0 desktop 0, and
    [change_monitor(0)] has run up to its call of [desktopinfo]. *)
Definition scenario_before_desktopinfo : option wm :=
  state_after [ setup sample_config sample_xenv two_screens 3200 900;
                change_monitor sample_config sample_xenv 1;
                change_desktop sample_config sample_xenv 1;
                modify (set_previous_monitor 1);
                select_monitor 0;
                update_current sample_config sample_xenv None ] initial.

(** The sample configuration with desktop 1 as the default desktop. *)
Definition sample_config_desktop1 : config :=
  mk_config dbl_0_52 true true 20 TILE true false false false false
            2 4 1 0 50 [] [].

(** A request to put window 7 at (10, 50) with size 300x200. *)
Definition sample_configure_request : configure_request :=
  mk_configure_request 7 15 10 50 300 200 0 0 0.

(** The sample configuration with two bindings: Mod1 (bit 3 of the
    modifier state) with button 1 and with button 3. *)
Definition sample_config_buttons : config :=
  mk_config dbl_0_52 true true 20 TILE true false false false false
            2 4 0 0 50 [] [(8, 1); (8, 3)].

(** Functions for the two bindings: the first focuses the next window, the
    second is a null pointer. *)
Definition sample_button_functions : list (option (M unit)) :=
  [Some (next_win sample_config_buttons sample_xenv); None].

(** Two monitors without clients. *)
Definition two_monitors : wm :=
  mk_wm ∅ [lone_monitor_record; lone_monitor_record] 0 0 [].

(** * Properties *)

(** ** The monad on known results *)

Lemma bind_Some {A B} (m : M A) (k : A → M B) s a s' :
  m s = Some (a, s') → bind m k s = k a s'.
Proof. unfold bind. intros ->. reflexivity. Qed.

Lemma nth_z_lookup {A} (l : list A) (i : Z) (x : A) :
  nth_z l i = Some x → 0 ≤ i ∧ l !! Z.to_nat i = Some x.
Proof.
  unfold nth_z. destruct (Z.ltb_spec i 0) as [Hlt|Hge]; [discriminate|].
  intros Hx. split; [lia|exact Hx].
Qed.

Lemma CM_inv s m s' : CM s = Some (m, s') →
  s' = s ∧ nth_z (monitors s) (current_monitor s) = Some m.
Proof.
  unfold CM, lift. destruct (nth_z _ _) as [m0|]; [|discriminate].
  intros [= <- <-]. split; reflexivity.
Qed.

Lemma CM_of_nth s m :
  nth_z (monitors s) (current_monitor s) = Some m → CM s = Some (m, s).
Proof. unfold CM, lift. intros ->. reflexivity. Qed.

Lemma setCM_eq (f : monitor → monitor) s m :
  CM s = Some (m, s) →
  setCM f s = Some (tt, set_monitors (<[Z.to_nat (current_monitor s) := f m]> (monitors s)) s).
Proof. intros H. unfold setCM. rewrite (bind_Some _ _ _ _ _ H). reflexivity. Qed.

(** After a write through [CM], reading through it gives what was written. *)
Lemma CM_set_monitors s m m' :
  CM s = Some (m, s) →
  let s' := set_monitors (<[Z.to_nat (current_monitor s) := m']> (monitors s)) s in
  CM s' = Some (m', s').
Proof.
  intros H s'. apply CM_inv in H as [_ H]. apply CM_of_nth.
  unfold nth_z in *. subst s'. simpl.
  destruct (Z.ltb_spec (current_monitor s) 0); [discriminate|].
  apply list_lookup_insert_eq. eapply lookup_lt_Some, H.
Qed.

Section Properties.

Variable cfg : config.
Variable xe : xenv.

(** ** [areatomonitor] *)

Lemma areatomonitor_from_outside ms m x y :
  (∀ mon, mon ∈ ms → ¬ strictly_inside mon x y) →
  areatomonitor_from ms m x y = None.
Proof.
  revert m. induction ms as [|mon ms IH]; intros m H; simpl; [reflexivity|].
  destruct (_ && _) eqn:E.
  - exfalso. apply (H mon); [left|].
    rewrite !andb_true_iff in E. destruct E as [[[E1 E2] E3] E4].
    unfold strictly_inside. lia.
  - apply IH. intros mon' Hin. apply H. right. exact Hin.
Qed.

(** C9. For a point that lies strictly inside no monitor's working
    rectangle (points on an edge included), [areatomonitor] returns the
    current monitor; [motionnotify] then changes nothing, and a drag step to
    that point only moves the window: the client is not migrated to another
    monitor. *)
Theorem areatomonitor_outside_is_current (s : wm) (x y : Z) :
  (∀ mon, mon ∈ monitors s → ¬ strictly_inside mon x y) →
  areatomonitor x y s = current_monitor s
  ∧ motionnotify cfg xe x y s = Some (tt, s)
  ∧ ∀ m c r winx winy winw winh mx my root_x root_y,
      CM s = Some (m, s) → current m = Some c → heap s !! c = Some r →
      x = winx + root_x - mx → y = winy + root_y - my →
      mousemotion_motion cfg xe MOVE winx winy winw winh mx my root_x root_y s
      = Some (tt, set_xlog (xlog s ++ [xcb_move (win r) x y]) s).
Proof.
  intros Hout.
  assert (Harea : ∀ l, areatomonitor x y (set_xlog l s) = current_monitor s).
  { intros l. unfold areatomonitor. simpl.
    rewrite (areatomonitor_from_outside _ _ _ _ Hout). reflexivity. }
  assert (Ha : areatomonitor x y s = current_monitor s).
  { unfold areatomonitor. rewrite (areatomonitor_from_outside _ _ _ _ Hout). reflexivity. }
  split; [exact Ha|]. split.
  - unfold motionnotify. destruct (FOLLOW_MONITOR cfg); simpl; [|reflexivity].
    unfold bind, get. rewrite Ha, Z.eqb_refl. reflexivity.
  - intros m c r winx winy winw winh mx my root_x root_y HCM Hcur Hc -> ->.
    unfold mousemotion_motion. change (MOVE =? MOVE) with true.
    change (MOVE =? RESIZE) with false. cbv iota.
    rewrite (bind_Some _ _ _ _ _ HCM).
    assert (Hl : load (current m) s = Some (r, s)).
    { unfold load, lift. rewrite Hcur. simpl. rewrite Hc. reflexivity. }
    rewrite (bind_Some _ _ _ _ _ Hl).
    unfold emit, modify, bind, get, ret. cbv beta iota.
    rewrite Harea. simpl. rewrite Z.eqb_refl. reflexivity.
Qed.

(** ** [grid]: columns and rows *)

Lemma grid_cols_from_spec fuel n cols :
  0 ≤ cols → (∀ j, 0 ≤ j < cols → j * j < n) →
  Z.quot n 2 + 1 ≤ cols + Z.of_nat fuel → 0 ≤ n →
  let r := grid_cols_from fuel n cols in
  cols ≤ r ∧ n ≤ r * r ∧ (∀ j, 0 ≤ j < r → j * j < n).
Proof.
  revert cols. induction fuel as [|fuel IH]; intros cols Hc Hlt Hfuel Hn; simpl.
  - split; [lia|]. split; [|exact Hlt].
    assert (H2 : n ≤ 2 * Z.quot n 2 + 1).
    { pose proof (Z.quot_rem' n 2) as Hq. pose proof (Z.rem_bound_pos n 2 Hn). lia. }
    nia.
  - destruct (Z.leb_spec cols (Z.quot n 2)) as [Hle|Hgt].
    + destruct (Z.geb_spec (cols * cols) n) as [Hsq|Hsq].
      * split; [lia|]. split; [lia|exact Hlt].
      * destruct (IH (cols + 1)) as (H1 & H2 & H3); try lia.
        { intros j Hj. destruct (Z.eq_dec j cols) as [->|]; [lia|]. apply Hlt. lia. }
        split; [lia|]. split; assumption.
    + split; [lia|]. split; [|exact Hlt].
      assert (H2 : n ≤ 2 * Z.quot n 2 + 1).
      { pose proof (Z.quot_rem' n 2) as Hq. pose proof (Z.rem_bound_pos n 2 Hn). lia. }
      nia.
Qed.

Lemma grid_cols_le n : 1 ≤ n → 1 ≤ grid_cols n ≤ n.
Proof.
  intros Hn. destruct (Z.eq_dec n 5) as [->|H5]; [vm_compute; split; discriminate|].
  assert (Hq : 0 ≤ Z.quot n 2) by (apply Z.quot_pos; lia).
  destruct (grid_cols_from_spec (Z.to_nat (Z.quot n 2 + 1)) n 0) as (H1 & H2 & H3);
    try lia.
  unfold grid_cols. destruct (Z.eqb_spec n 5); [contradiction|].
  set (c := grid_cols_from (Z.to_nat (Z.quot n 2 + 1)) n 0) in *.
  split; [nia|].
  destruct (Z.le_gt_cases c n) as [|Hlt]; [assumption|].
  specialize (H3 n). nia.
Qed.

Lemma grid_cols_least n :
  1 ≤ n → n ≠ 5 →
  n ≤ grid_cols n * grid_cols n ∧ ∀ k, 0 ≤ k → n ≤ k * k → grid_cols n ≤ k.
Proof.
  intros Hn H5.
  assert (Hq : 0 ≤ Z.quot n 2) by (apply Z.quot_pos; lia).
  destruct (grid_cols_from_spec (Z.to_nat (Z.quot n 2 + 1)) n 0) as (H1 & H2 & H3);
    try lia.
  unfold grid_cols. destruct (Z.eqb_spec n 5); [contradiction|].
  set (c := grid_cols_from (Z.to_nat (Z.quot n 2 + 1)) n 0) in *.
  split; [exact H2|]. intros k Hk Hkk.
  destruct (Z.le_gt_cases c k) as [|Hlt]; [assumption|].
  specialize (H3 k). lia.
Qed.

Lemma grid_rows_eq n : 1 ≤ n → grid_rows n = Some (n / grid_cols n).
Proof.
  intros Hn. pose proof (grid_cols_le n Hn) as Hc.
  unfold grid_rows, cdiv. destruct (Z.eqb_spec (grid_cols n) 0); [lia|].
  rewrite Z.quot_div_nonneg by lia. reflexivity.
Qed.

(** C6. For [n ≥ 1] tileable clients [grid] takes for [cols] the least
    integer whose square reaches [n], except that five clients get two
    columns, and its first row count is [n / cols]. *)
Theorem grid_cols_rows (n : Z) :
  1 ≤ n →
  (n ≠ 5 → n ≤ grid_cols n * grid_cols n
           ∧ ∀ k, 0 ≤ k → n ≤ k * k → grid_cols n ≤ k)
  ∧ (n = 5 → grid_cols n = 2)
  ∧ grid_rows n = Some (n / grid_cols n).
Proof.
  intros Hn. split; [|split].
  - intros H5. apply grid_cols_least; assumption.
  - intros ->. reflexivity.
  - apply grid_rows_eq, Hn.
Qed.

(** ** Client lists in the heap *)

Lemma lseg_app h p l1 l2 q :
  lseg h p (l1 ++ l2) q ↔ ∃ r, lseg h p l1 r ∧ lseg h r l2 q.
Proof.
  revert p. induction l1 as [|a l1 IH]; intros p; simpl.
  - split.
    + intros H. exists p. split; [reflexivity|exact H].
    + intros (r & -> & H). exact H.
  - split.
    + intros (-> & r & Hr & H). apply IH in H as (r' & H1 & H2).
      exists r'. split; [|exact H2]. split; [reflexivity|]. exists r. split; assumption.
    + intros (r' & (-> & r & Hr & H1) & H2). split; [reflexivity|].
      exists r. split; [exact Hr|]. apply IH. exists r'. split; assumption.
Qed.

Lemma is_list_functional h p l1 l2 : is_list h p l1 → is_list h p l2 → l1 = l2.
Proof.
  unfold is_list. revert p l2. induction l1 as [|a l1 IH]; intros p l2 H1 H2.
  - simpl in H1. subst p. destruct l2 as [|b l2]; [reflexivity|].
    simpl in H2. destruct H2 as [H2 _]. discriminate.
  - simpl in H1. destruct H1 as (-> & r & Hr & H1).
    destruct l2 as [|b l2]; simpl in H2; [discriminate|].
    destruct H2 as ([= <-] & r' & Hr' & H2).
    rewrite Hr in Hr'. injection Hr' as <-. f_equal. eapply IH; eassumption.
Qed.

Lemma is_list_NoDup h p l : is_list h p l → NoDup l.
Proof.
  unfold is_list. revert p. induction l as [|a l IH]; intros p H.
  - constructor.
  - pose proof H as H0. simpl in H. destruct H as (-> & r & Hr & H).
    constructor; [|eapply IH; exact H].
    intros Hin. apply list_elem_of_split in Hin as (l1 & l2 & ->).
    pose proof H as H'. apply lseg_app in H' as (q & _ & H').
    assert (Hq : q = Some a) by (simpl in H'; tauto). subst q.
    pose proof (is_list_functional _ _ _ _ H0 H') as Heq.
    apply (f_equal length) in Heq. simpl in Heq. rewrite length_app in Heq.
    simpl in Heq. lia.
Qed.

Lemma lseg_lookup h p l q a :
  lseg h p l q → a ∈ l → is_Some (h !! a).
Proof.
  revert p. induction l as [|b l IH]; intros p H Hin.
  - inversion Hin.
  - simpl in H. destruct H as (-> & r & Hr & H).
    apply elem_of_cons in Hin as [->|Hin]; [eexists; exact Hr|].
    eapply IH; eassumption.
Qed.

Lemma is_list_length h p l : is_list h p l → (length l ≤ size h)%nat.
Proof.
  intros H. pose proof (is_list_NoDup _ _ _ H) as Hnd.
  rewrite <- (size_list_to_set (C := gset positive) l Hnd).
  rewrite <- (size_dom (D := gset positive) h). apply subseteq_size.
  intros a Ha. apply elem_of_list_to_set in Ha. apply elem_of_dom.
  eapply lseg_lookup; eassumption.
Qed.

(** Walking a proper list returns its nodes with their contents. *)
Lemma chain_lseg fuel h p l :
  is_list h p l → (length l ≤ fuel)%nat →
  ∃ cs, chain fuel h p = Some cs ∧ cs.*1 = l
        ∧ Forall (λ c : positive * client, h !! c.1 = Some c.2) cs.
Proof.
  unfold is_list. revert p l. induction fuel as [|fuel IH]; intros p l H Hlen.
  - destruct l; simpl in Hlen; [|lia]. simpl in H. subst p.
    exists []. simpl. split; [reflexivity|]. split; [reflexivity|constructor].
  - destruct l as [|a l]; simpl in H.
    + subst p. exists []. simpl. split; [reflexivity|]. split; [reflexivity|constructor].
    + destruct H as (-> & r & Hr & H). simpl in Hlen.
      destruct (IH _ _ H) as (cs & Hcs & Hfst & Hall); [lia|].
      exists ((a, r) :: cs). simpl. rewrite Hr. simpl. rewrite Hcs. simpl.
      split; [reflexivity|]. split; [f_equal; exact Hfst|].
      constructor; [exact Hr|exact Hall].
Qed.

Lemma clients_is_list s p l :
  is_list (heap s) p l →
  ∃ cs, clients p s = Some (cs, s) ∧ cs.*1 = l
        ∧ Forall (λ c : positive * client, heap s !! c.1 = Some c.2) cs.
Proof.
  intros H. destruct (chain_lseg (size (heap s)) _ _ _ H) as (cs & Hcs & H1 & H2).
  - eapply is_list_length, H.
  - exists cs. unfold clients, lift. rewrite Hcs. auto.
Qed.

(** ** The layouts only talk to the X server *)

Lemma extends_log_refl s : extends_log s s.
Proof. exists []. destruct s. unfold set_xlog. simpl. rewrite app_nil_r. reflexivity. Qed.

Lemma emit_extends_log l s : extends_log s (set_xlog (xlog s ++ l) s).
Proof. exists l. reflexivity. Qed.

Ltac run_inv H :=
  unfold bind, CM, clients, load, lift, emit, modify, get, ret in H;
  repeat case_match; simplify_eq.

Lemma monocle_extends_log hh cy s u s' :
  monocle hh cy s = Some (u, s') → extends_log s s'.
Proof. unfold monocle. intros H. run_inv H. apply emit_extends_log. Qed.

Lemma stack_extends_log hh cy s u s' :
  stack cfg hh cy s = Some (u, s') → extends_log s s'.
Proof.
  unfold stack. intros H. run_inv H;
    first [apply extends_log_refl | apply emit_extends_log].
Qed.

Lemma grid_extends_log hh cy s u s' :
  grid cfg hh cy s = Some (u, s') → extends_log s s'.
Proof. unfold grid. intros H. run_inv H; apply emit_extends_log. Qed.

Lemma tile_extends_log s u s' : tile cfg s = Some (u, s') → extends_log s s'.
Proof.
  unfold tile, bind. destruct (CM s) as [[m s0]|] eqn:HCM; [|discriminate].
  apply CM_inv in HCM as [-> _].
  destruct (head m); [|intros [= <- <-]; apply extends_log_refl].
  destruct (load _ s) as [[hd s0]|] eqn:Hl; [|discriminate].
  assert (s0 = s) as -> by (run_inv Hl; reflexivity).
  unfold layout. repeat case_match;
    eauto using monocle_extends_log, stack_extends_log, grid_extends_log.
Qed.

(** ** [resize_master] *)

(** C8. [resize_master] leaves the whole state as it is when the new master
    size, or what it leaves of the primary axis (the height in BSTACK mode,
    the width otherwise), would not exceed [MINWSZ]; otherwise it stores the
    new master size and runs [tile], which only sends requests. *)
Theorem resize_master_bounds (s : wm) (m : monitor) (i : Z) :
  CM s = Some (m, s) →
  let msz := master_size m + i in
  let axis := if decide (mode m = BSTACK) then wh m else ww m in
  let s1 := set_monitors
              (<[Z.to_nat (current_monitor s) := set_master_size msz m]> (monitors s)) s in
  (msz ≤ MINWSZ cfg ∨ axis - msz ≤ MINWSZ cfg →
     resize_master cfg i s = Some (tt, s))
  ∧ (¬ (msz ≤ MINWSZ cfg ∨ axis - msz ≤ MINWSZ cfg) →
     resize_master cfg i s = tile cfg s1
     ∧ CM s1 = Some (set_master_size msz m, s1)
     ∧ ∀ s', resize_master cfg i s = Some (tt, s') → extends_log s1 s').
Proof.
  intros HCM msz axis s1. unfold resize_master.
  rewrite (bind_Some _ _ _ _ _ HCM). fold msz axis. split.
  - intros H.
    destruct (Z.leb_spec (axis - msz) (MINWSZ cfg)); [reflexivity|].
    destruct (Z.leb_spec msz (MINWSZ cfg)); [reflexivity|lia].
  - intros H.
    destruct (Z.leb_spec (axis - msz) (MINWSZ cfg)); [lia|].
    destruct (Z.leb_spec msz (MINWSZ cfg)); [lia|]. simpl.
    rewrite (bind_Some _ _ _ _ _ (setCM_eq _ _ _ HCM)). fold s1.
    split; [reflexivity|]. split; [apply (CM_set_monitors _ _ _ HCM)|].
    intros s' Hs'. eapply tile_extends_log, Hs'.
Qed.

(** ** The border pass of [update_current] *)

Lemma border_widths_app l1 l2 :
  border_widths (l1 ++ l2) = border_widths l1 ++ border_widths l2.
Proof. unfold border_widths. apply omap_app. Qed.

Lemma border_widths_client single m c :
  border_widths (update_current_client cfg xe single m c)
  = [(win c.2, u32 (border_of cfg single (mode m) c.2))].
Proof.
  unfold update_current_client, border_widths, xcb_border_width, xcb_raise_window.
  destruct (CLICK_TO_FOCUS cfg), (isfloating c.2 || istransient c.2); reflexivity.
Qed.

Lemma border_widths_pass single m cs :
  border_widths (flat_map (update_current_client cfg xe single m) cs)
  = (λ c : positive * client, (win c.2, u32 (border_of cfg single (mode m) c.2))) <$> cs.
Proof.
  induction cs as [|c cs IH]; [reflexivity|].
  cbn [flat_map]. rewrite border_widths_app, border_widths_client, IH. reflexivity.
Qed.

Lemma border_of_spec n md r :
  let bw := border_of cfg (bool_decide (n = 1%nat)) md r in
  (borderless n md r → bw = 0) ∧ (¬ borderless n md r → bw = BORDER_WIDTH cfg).
Proof.
  unfold border_of, borderless. simpl.
  destruct (bool_decide_reflect (n = 1%nat)) as [Hn|Hn]; simpl.
  { split; [reflexivity|]. intros H. exfalso. apply H. left. exact Hn. }
  destruct (isfullscrn r); simpl.
  { split; [reflexivity|]. intros H. exfalso. apply H. right. left. reflexivity. }
  destruct (bool_decide_reflect (md = MONOCLE)) as [Hm|Hm]; simpl.
  - destruct (isfloating r), (istransient r); simpl;
      (split; [try reflexivity; intros [?|[?|(_ & ? & ?)]]; done
              | try reflexivity; intros H; exfalso; apply H; right; right; done]).
  - split; [intros [?|[?|(? & _)]]; done|reflexivity].
Qed.

Lemma update_current_pass_total s m l :
  CM s = Some (m, s) → is_list (heap s) (head m) l →
  ∃ reqs, update_current_pass cfg xe s = Some (tt, set_xlog (xlog s ++ reqs) s).
Proof.
  intros HCM Hl. destruct (clients_is_list _ _ _ Hl) as (cs & Hcs & _ & _).
  unfold update_current_pass.
  rewrite (bind_Some _ _ _ _ _ HCM), (bind_Some _ _ _ _ _ Hcs).
  destruct cs as [|hd cs']; [|eexists; reflexivity].
  exists []. unfold ret. destruct s. unfold set_xlog. simpl. rewrite app_nil_r. reflexivity.
Qed.

(** C5. The loop of [update_current] sends one border-width request per
    client of the current desktop, in list order; the width is 0 when the
    desktop has a single client, or the client is fullscreen, or the mode is
    MONOCLE and the client is neither floating nor transient, and
    [BORDER_WIDTH] otherwise. *)
Theorem update_current_border_widths (s : wm) (m : monitor) (l : list positive) :
  CM s = Some (m, s) → is_list (heap s) (head m) l →
  ∃ reqs,
    update_current_pass cfg xe s = Some (tt, set_xlog (xlog s ++ reqs) s)
    ∧ length (border_widths reqs) = length l
    ∧ ∀ i a r, l !! i = Some a → heap s !! a = Some r →
        ∃ bw, border_widths reqs !! i = Some (win r, bw)
          ∧ (borderless (length l) (mode m) r → bw = 0)
          ∧ (¬ borderless (length l) (mode m) r → bw = u32 (BORDER_WIDTH cfg))
          ∧ (u32 (BORDER_WIDTH cfg) ≠ 0 → (bw = 0 ↔ borderless (length l) (mode m) r))
          ∧ (mode m = MONOCLE → isfloating r = false → istransient r = false → bw = 0).
Proof.
  intros HCM Hl.
  destruct (clients_is_list _ _ _ Hl) as (cs & Hcs & Hfst & Hall).
  unfold update_current_pass.
  rewrite (bind_Some _ _ _ _ _ HCM), (bind_Some _ _ _ _ _ Hcs).
  destruct cs as [|hd cs'].
  { simpl in Hfst. subst l. exists []. split.
    - unfold ret. destruct s. unfold set_xlog. simpl. rewrite app_nil_r. reflexivity.
    - split; [reflexivity|]. intros i a r Hi. rewrite lookup_nil in Hi. discriminate. }
  set (cs := hd :: cs') in *.
  set (single := bool_decide (next hd.2 = None)).
  assert (Hsingle : single = bool_decide (length l = 1%nat)).
  { unfold single. subst cs. simpl in Hfst. subst l.
    pose proof Hall as Hall'. apply Forall_cons in Hall' as [Hc0 _].
    unfold is_list in Hl. simpl in Hl. destruct Hl as (_ & r & Hr & Hl).
    rewrite Hc0 in Hr. injection Hr as <-.
    destruct cs' as [|c1 cs0]; simpl in *.
    - rewrite Hl. rewrite !bool_decide_eq_true_2; done.
    - destruct Hl as (-> & _). apply bool_decide_eq_false_2. discriminate. }
  eexists. split; [reflexivity|].
  rewrite border_widths_pass. split.
  { rewrite length_fmap, <- Hfst, length_fmap. reflexivity. }
  intros i a r Hi Ha.
  assert (Hc : cs !! i = Some (a, r)).
  { rewrite <- Hfst, list_lookup_fmap in Hi.
    destruct (cs !! i) as [[a' r']|] eqn:E; [|discriminate].
    simpl in Hi. injection Hi as ->.
    rewrite Forall_lookup in Hall. specialize (Hall _ _ E). simpl in Hall.
    rewrite Ha in Hall. injection Hall as ->. reflexivity. }
  eexists. split; [rewrite list_lookup_fmap, Hc; reflexivity|].
  simpl. rewrite Hsingle.
  destruct (border_of_spec (length l) (mode m) r) as [H0 H1].
  split; [intros H; rewrite (H0 H); reflexivity|].
  split; [intros H; rewrite (H1 H); reflexivity|].
  split.
  - intros Hbw. split.
    + intros Hz. destruct (decide (borderless (length l) (mode m) r)) as [|Hn];
        [assumption|]. rewrite (H1 Hn) in Hz. contradiction.
    + intros H. rewrite (H0 H). reflexivity.
  - intros Hm Hf Ht. rewrite H0; [reflexivity|]. right. right. auto.
Qed.

Lemma monocle_border_computed :
  (s ← scenario_monocle_border;
   Some ((λ m, (mode m, head m)) <$> nth_z (monitors s) (current_monitor s),
         (λ r, (next r, win r, isfloating r, istransient r)) <$> heap s !! 1%positive,
         border_width_of 101 (xlog s)))
  = Some (Some (MONOCLE, Some 1%positive), Some (None, 101, false, false), Some 2).
Proof. vm_compute. reflexivity. Qed.

(** C5, read as a statement about the state between passes, fails: after
    the run of [scenario_monocle_border] the selected desktop is in
    MONOCLE mode and its list holds window 101 alone, neither floating nor
    transient, and the border width last requested for that window is
    [BORDER_WIDTH] = 2.  The pass that set it ran in [client_to_desktop]
    on desktop 1 (TILE), while window 102 was still linked to 101; back
    on desktop 0 [update_current] is called with [NULL] and makes no
    pass. *)
Theorem monocle_client_keeps_border :
  ∃ s m r,
    scenario_monocle_border = Some s ∧ CM s = Some (m, s) ∧ mode m = MONOCLE
    ∧ is_list (heap s) (head m) [1%positive] ∧ heap s !! 1%positive = Some r
    ∧ win r = 101 ∧ isfloating r = false ∧ istransient r = false
    ∧ border_width_of 101 (xlog s) = Some (BORDER_WIDTH (sample_config_aside false)).
Proof.
  pose proof monocle_border_computed as Hc.
  destruct scenario_monocle_border as [s|]; [|discriminate].
  cbn [mbind option_bind] in Hc.
  destruct (nth_z (monitors s) (current_monitor s)) as [m|] eqn:Hm; [|discriminate].
  destruct (heap s !! 1%positive) as [r|] eqn:Hr; [|discriminate].
  cbn [fmap option_fmap option_map] in Hc.
  injection Hc as Hmode Hhd Hnx Hw Hfl Htr Hbw.
  exists s, m, r. split; [reflexivity|]. split; [apply CM_of_nth; exact Hm|].
  split; [exact Hmode|]. split.
  { unfold is_list. cbn [lseg]. split; [exact Hhd|]. exists r. split; [exact Hr|exact Hnx]. }
  split; [exact Hr|]. split; [exact Hw|]. split; [exact Hfl|]. split; [exact Htr|].
  exact Hbw.
Qed.

(** ** Reading and writing clients *)

Lemma load_Some s a r : heap s !! a = Some r → load (Some a) s = Some (r, s).
Proof. intros H. unfold load, lift. simpl. rewrite H. reflexivity. Qed.

Lemma store_Some s a r f :
  heap s !! a = Some r →
  store (Some a) f s = Some (tt, set_heap (<[a := f r]> (heap s)) s).
Proof.
  intros H. unfold store. rewrite (bind_Some _ _ _ _ _ (load_Some _ _ _ H)).
  reflexivity.
Qed.

(** A write to a node outside a segment leaves the segment as it is. *)
Lemma lseg_insert_notin h p l q a r :
  a ∉ l → lseg h p l q → lseg (<[a := r]> h) p l q.
Proof.
  revert p. induction l as [|b l IH]; intros p Hin H; simpl in *; [exact H|].
  destruct H as (-> & rb & Hb & H). split; [reflexivity|].
  apply not_elem_of_cons in Hin as [Hab Hin].
  exists rb. split; [rewrite lookup_insert_ne; [exact Hb|exact Hab]|].
  apply IH; assumption.
Qed.

Lemma lseg_snoc h p l a q :
  lseg h p (l ++ [a]) q ↔ ∃ r, lseg h p l (Some a) ∧ h !! a = Some r ∧ next r = q.
Proof.
  rewrite lseg_app. simpl. split.
  - intros (x & H1 & -> & r & Hr & Hq). exists r. auto.
  - intros (r & H1 & Hr & Hq). exists (Some a). split; [exact H1|].
    split; [reflexivity|]. exists r. auto.
Qed.

(** ** [prev_client] on a proper list *)

Lemma prev_client_from_lseg fuel h c a l1 p q :
  lseg h (Some a) (l1 ++ [p]) q → q = None ∨ q = Some c →
  c ∉ tail (l1 ++ [p]) → (length l1 < fuel)%nat →
  prev_client_from fuel h c a = Some p.
Proof.
  revert fuel a. induction l1 as [|b l1 IH]; intros fuel a H Hq Hc Hfuel.
  - destruct fuel as [|fuel]; [lia|]. simpl in H.
    destruct H as ([= <-] & r & Hr & Hn). simpl. rewrite Hr. simpl.
    destruct Hq as [->| ->]; rewrite Hn; [reflexivity|].
    destruct (decide (c = c)); [reflexivity|contradiction].
  - destruct fuel as [|fuel]; [simpl in Hfuel; lia|].
    simpl in H. destruct H as ([= <-] & r & Hr & H).
    simpl. rewrite Hr. simpl. simpl in Hc.
    destruct (l1 ++ [p]) as [|a' t] eqn:E; [destruct l1; discriminate|].
    simpl in H. destruct H as (Hn & H'). rewrite Hn.
    destruct (decide (a' = c)) as [->|Hne]; [exfalso; apply Hc; left|].
    rewrite <- E in *. apply IH.
    + rewrite E. simpl. split; [reflexivity|exact H'].
    + exact Hq.
    + rewrite E. simpl. intros Hin. apply Hc. rewrite E. right. exact Hin.
    + simpl in Hfuel. lia.
Qed.

(** On a list of at least two clients [prev_client] returns the node
    before [c], and the last node when [c] is the head. *)
Lemma prev_client_spec s m l c :
  CM s = Some (m, s) → is_list (heap s) (head m) l → (2 ≤ length l)%nat →
  (∀ l1 p l2, l = l1 ++ p :: c :: l2 → prev_client (Some c) s = Some (Some p, s))
  ∧ (∀ l' x, l = c :: l' → last l = Some x → prev_client (Some c) s = Some (Some x, s)).
Proof.
  intros HCM Hl Hlen.
  pose proof (is_list_NoDup _ _ _ Hl) as Hnd.
  pose proof (is_list_length _ _ _ Hl) as Hsz.
  destruct l as [|a0 [|a1 l']]; simpl in Hlen; try lia.
  pose proof Hl as Hl0. unfold is_list in Hl0. simpl in Hl0.
  destruct Hl0 as (Hhd & r0 & Hr0 & (Hn0 & _)).
  assert (Hstart : ∀ p, prev_client_from (size (heap s)) (heap s) c a0 = Some p →
                        prev_client (Some c) s = Some (Some p, s)).
  { intros p Hp. unfold prev_client. rewrite (bind_Some _ _ _ _ _ HCM).
    rewrite Hhd. rewrite (bind_Some _ _ _ _ _ (load_Some _ _ _ Hr0)).
    rewrite Hn0. unfold bind, get, lift. rewrite Hp. reflexivity. }
  split.
  - intros l1 p l2 El. apply Hstart.
    assert (Hseg : lseg (heap s) (Some a0) (l1 ++ [p]) (Some c)).
    { unfold is_list in Hl. rewrite Hhd, El in Hl.
      replace (l1 ++ p :: c :: l2) with ((l1 ++ [p]) ++ c :: l2) in Hl
        by (rewrite <- app_assoc; reflexivity).
      apply lseg_app in Hl as (x & H1 & H2). simpl in H2. destruct H2 as (-> & _).
      exact H1. }
    eapply prev_client_from_lseg; [exact Hseg|right; reflexivity| |].
    + rewrite El in Hnd.
      replace (l1 ++ p :: c :: l2) with ((l1 ++ [p]) ++ c :: l2) in Hnd
        by (rewrite <- app_assoc; reflexivity).
      apply NoDup_app in Hnd as (_ & Hdisj & _).
      intros Hin. apply (Hdisj c); [|left].
      destruct (l1 ++ [p]); [inversion Hin|right; exact Hin].
    + apply (f_equal length) in El. rewrite length_app in El. simpl in *. lia.
  - intros l'' x El Hlast. injection El as <- <-. apply Hstart.
    destruct (exists_last (l := a0 :: a1 :: l')) as (l1 & y & Ey); [discriminate|].
    rewrite Ey in Hlast. rewrite last_snoc in Hlast. injection Hlast as ->.
    eapply (prev_client_from_lseg _ _ _ _ l1 x None).
    + unfold is_list in Hl. rewrite Hhd, Ey in Hl. exact Hl.
    + left. reflexivity.
    + rewrite <- Ey. simpl. apply NoDup_cons in Hnd as [Hnd _]. exact Hnd.
    + apply (f_equal length) in Ey. rewrite length_app in Ey. simpl in *. lia.
Qed.

(** ** Searching for the node whose [next] is [p] *)

Lemma scan_next_found fuel h start l1 pp p :
  lseg h start (l1 ++ [pp]) (Some p) → p ∉ tail (l1 ++ [pp]) →
  (length l1 < fuel)%nat →
  scan fuel h (λ _ r, bool_decide (next r = Some p)) start = Some (Some pp).
Proof.
  revert fuel start. induction l1 as [|b l1 IH]; intros fuel start H Hp Hfuel.
  - destruct fuel as [|fuel]; [lia|]. simpl in H.
    destruct H as (-> & r & Hr & Hn). simpl. rewrite Hr. simpl.
    rewrite bool_decide_eq_true_2 by exact Hn. reflexivity.
  - destruct fuel as [|fuel]; [simpl in Hfuel; lia|].
    simpl in H. destruct H as (-> & r & Hr & H).
    simpl. rewrite Hr. simpl. simpl in Hp.
    destruct (l1 ++ [pp]) as [|a' t] eqn:E; [destruct l1; discriminate|].
    pose proof H as H'. simpl in H'. destruct H' as (Hn & _).
    rewrite bool_decide_eq_false_2.
    + rewrite <- E in *. apply IH; [exact H| |simpl in Hfuel; lia].
      rewrite E. simpl. intros Hin. apply Hp. rewrite E. right. exact Hin.
    + rewrite Hn. intros [= ->]. apply Hp. left.
Qed.

Lemma scan_next_none fuel h start l p :
  is_list h start l → p ∉ tail l → (length l ≤ fuel)%nat →
  scan fuel h (λ _ r, bool_decide (next r = Some p)) start = Some None.
Proof.
  unfold is_list. revert fuel start. induction l as [|b l IH]; intros fuel start H Hp Hfuel.
  - simpl in H. subst start. destruct fuel; reflexivity.
  - destruct fuel as [|fuel]; [simpl in Hfuel; lia|].
    simpl in H. destruct H as (-> & r & Hr & H).
    simpl. rewrite Hr. simpl. simpl in Hp.
    rewrite bool_decide_eq_false_2.
    + apply IH; [exact H| |simpl in Hfuel; lia].
      intros Hin. apply Hp. destruct l; [inversion Hin|right; exact Hin].
    + destruct l as [|a' t]; simpl in H.
      * rewrite H. discriminate.
      * destruct H as (-> & _). intros [= ->]. apply Hp. left.
Qed.

(** ** When [tile] returns *)

Lemma grid_place_total m cy n cols cw ch i rows cn rn cs :
  0 ≤ n → 1 ≤ cols → 1 ≤ rows →
  is_Some (grid_place cfg m cy n cols cw ch i rows cn rn cs).
Proof.
  intros Hn Hcols. revert i rows cn rn.
  induction cs as [|c cs IH]; intros i rows cn rn Hrows; simpl; [eexists; reflexivity|].
  unfold cdiv, cmod.
  destruct (Z.eqb_spec rows 0); [lia|]. simpl.
  destruct (Z.eqb_spec cols 0); [lia|]. simpl.
  assert (Hq : 0 ≤ Z.quot n cols) by (apply Z.quot_pos; lia).
  destruct (_ >? _); simpl.
  - destruct (Z.eqb_spec (Z.quot n cols + 1) 0); [lia|]. simpl.
    destruct (_ >=? _).
    + destruct (IH (i + 1) (Z.quot n cols + 1) (cn + 1) 0) as [l' ->]; [lia|].
      eexists; reflexivity.
    + destruct (IH (i + 1) (Z.quot n cols + 1) cn (rn + 1)) as [l' ->]; [lia|].
      eexists; reflexivity.
  - destruct (Z.eqb_spec rows 0); [lia|]. simpl.
    destruct (_ >=? _).
    + destruct (IH (i + 1) rows (cn + 1) 0) as [l' ->]; [lia|]. eexists; reflexivity.
    + destruct (IH (i + 1) rows cn (rn + 1)) as [l' ->]; [lia|]. eexists; reflexivity.
Qed.

(** [tile] returns on a proper list, unless the mode is GRID and no client
    of the list is tileable (then [grid] divides by zero). *)
Lemma tile_total s m l :
  CM s = Some (m, s) → is_list (heap s) (head m) l →
  (mode m = GRID → ∃ a r, a ∈ l ∧ heap s !! a = Some r ∧ ISFFT r = false) →
  ∃ reqs, tile cfg s = Some (tt, set_xlog (xlog s ++ reqs) s).
Proof.
  intros HCM Hl Hgrid.
  assert (Hnil : ∃ reqs, ret (A := unit) tt s = Some (tt, set_xlog (xlog s ++ reqs) s)).
  { exists []. unfold ret. destruct s. unfold set_xlog. simpl. rewrite app_nil_r. reflexivity. }
  destruct (clients_is_list _ _ _ Hl) as (cs & Hcs & Hfst & Hall).
  unfold tile. rewrite (bind_Some _ _ _ _ _ HCM).
  destruct (head m) as [a0|] eqn:Hhd; [|exact Hnil].
  destruct l as [|a0' l']; [unfold is_list in Hl; simpl in Hl; discriminate|].
  pose proof Hl as Hl0. unfold is_list in Hl0. simpl in Hl0.
  destruct Hl0 as ([= <-] & r0 & Hr0 & _).
  rewrite (bind_Some _ _ _ _ _ (load_Some _ _ _ Hr0)).
  assert (Hmono : ∀ hh cy, ∃ reqs, monocle hh cy s = Some (tt, set_xlog (xlog s ++ reqs) s)).
  { intros hh cy. unfold monocle. rewrite (bind_Some _ _ _ _ _ HCM).
    rewrite Hhd, (bind_Some _ _ _ _ _ Hcs). eexists. reflexivity. }
  assert (Hstack : ∀ hh cy, ∃ reqs, stack cfg hh cy s = Some (tt, set_xlog (xlog s ++ reqs) s)).
  { intros hh cy. unfold stack. rewrite (bind_Some _ _ _ _ _ HCM).
    rewrite Hhd, (bind_Some _ _ _ _ _ Hcs).
    destruct (filter _ _) as [|c [|s1 rest]]; [exact Hnil|eexists; reflexivity..]. }
  assert (Hgridok : mode m = GRID →
            ∀ hh cy, ∃ reqs, grid cfg hh cy s = Some (tt, set_xlog (xlog s ++ reqs) s)).
  { intros Hmode hh cy.
    destruct (Hgrid Hmode) as (a & r & Hin & Hr & Hffi).
    unfold grid. rewrite (bind_Some _ _ _ _ _ HCM).
    rewrite Hhd, (bind_Some _ _ _ _ _ Hcs).
    set (ts := filter (λ c, ISFFT c = false) cs.*2).
    assert (Hts : 1 ≤ Z.of_nat (length ts)).
    { assert (Hr' : r ∈ ts).
      { apply list_elem_of_filter. split; [exact Hffi|].
        rewrite <- Hfst in Hin. apply list_elem_of_fmap in Hin as ([a' r'] & -> & Hin).
        apply list_elem_of_fmap. exists (a', r'). split; [|exact Hin].
        rewrite Forall_forall in Hall. specialize (Hall _ Hin). simpl in *.
        rewrite Hr in Hall. injection Hall as ->. reflexivity. }
      destruct ts; [inversion Hr'|simpl; lia]. }
    pose proof (grid_cols_le _ Hts) as Hcols.
    pose proof (grid_rows_eq _ Hts) as Hrows.
    unfold bind at 1. unfold lift at 1. rewrite Hrows.
    assert (Hr1 : 1 ≤ Z.of_nat (length ts) / grid_cols (Z.of_nat (length ts))).
    { apply Z.div_le_lower_bound; lia. }
    destruct (grid_place_total m cy (Z.of_nat (length ts)) (grid_cols (Z.of_nat (length ts)))
                (Z.quot (ww m - BORDER_WIDTH cfg)
                   (if grid_cols (Z.of_nat (length ts)) =? 0 then 1
                    else grid_cols (Z.of_nat (length ts))))
                (hh - BORDER_WIDTH cfg)
                (-1) (Z.of_nat (length ts) / grid_cols (Z.of_nat (length ts))) 0 0 ts)
      as [reqs Hreqs]; [lia|lia|lia|].
    unfold bind, lift. rewrite Hreqs. eexists. reflexivity. }
  destruct (next r0); [|apply Hmono].
  destruct (mode m) eqn:Hmode; simpl;
    [apply Hstack|apply Hmono|apply Hstack|apply Hgridok; reflexivity].
Qed.

(** ** [move_down] and [move_up] *)

Lemma nth_z_insert {A} (l : list A) i x y :
  nth_z l i = Some x → nth_z (<[Z.to_nat i := y]> l) i = Some y.
Proof.
  unfold nth_z. destruct (Z.ltb_spec i 0) as [?|?]; [discriminate|]. intros Hx.
  apply list_lookup_insert_eq. eapply lookup_lt_Some, Hx.
Qed.

Lemma set_next_self r : set_next (next r) r = r.
Proof. destruct r; reflexivity. Qed.

Lemma list_move_down_last l c :
  l ≠ [] → list_move_down c (l ++ [c]) = c :: l.
Proof.
  intros Hl. unfold list_move_down. rewrite last_snoc.
  destruct (decide (c = c)); [|contradiction]. rewrite removelast_last. reflexivity.
Qed.

Lemma swap_down_cons_ne c a t :
  a ≠ c → swap_down c (a :: t) = a :: swap_down c t.
Proof.
  intros Hne. destruct t as [|b t]; [reflexivity|].
  cbn [swap_down]. destruct (decide (a = c)); [contradiction|reflexivity].
Qed.

Lemma swap_down_app l1 c n rest :
  c ∉ l1 → swap_down c (l1 ++ c :: n :: rest) = l1 ++ n :: c :: rest.
Proof.
  induction l1 as [|a l1 IH]; intros Hc.
  - simpl. destruct (decide (c = c)); [reflexivity|contradiction].
  - apply not_elem_of_cons in Hc as [Hca Hc].
    rewrite <- !app_comm_cons, swap_down_cons_ne by congruence.
    rewrite IH by exact Hc. reflexivity.
Qed.

Lemma list_move_down_inner l1 c n rest :
  NoDup (l1 ++ c :: n :: rest) →
  list_move_down c (l1 ++ c :: n :: rest) = l1 ++ n :: c :: rest.
Proof.
  intros Hnd. unfold list_move_down.
  assert (Hc1 : c ∉ l1).
  { apply NoDup_app in Hnd as (_ & Hd & _). intros Hin. apply (Hd c Hin). left. }
  assert (Hc2 : c ∉ n :: rest).
  { apply NoDup_app in Hnd as (_ & _ & Hd). apply NoDup_cons in Hd as [Hd _]. exact Hd. }
  destruct (last (l1 ++ c :: n :: rest)) as [x|] eqn:El.
  - destruct (decide (x = c)) as [->|]; [|apply swap_down_app; exact Hc1].
    exfalso. apply Hc2.
    destruct (last (n :: rest)) as [y|] eqn:E2.
    + rewrite last_app, last_cons_cons, E2 in El. injection El as ->.
      apply last_Some_elem_of. exact E2.
    + apply last_None in E2. discriminate.
  - apply last_None in El. destruct l1; discriminate.
Qed.

Ltac norm_state :=
  cbn [set_heap set_monitors set_xlog heap monitors current_monitor
       previous_monitor xlog].

Ltac m_CM H := erewrite bind_Some; [|apply CM_of_nth; norm_state; exact H].
Ltac m_load H :=
  erewrite bind_Some; [|apply load_Some; norm_state; exact H]; norm_state.
Ltac m_store H :=
  erewrite bind_Some; [|apply store_Some; norm_state; exact H]; norm_state.
Ltac m_setCM H :=
  erewrite bind_Some; [|apply setCM_eq, CM_of_nth; norm_state; exact H]; norm_state.

Lemma heap_relinked_refl h : heap_relinked h h.
Proof. intros a. destruct (h !! a) as [r|]; [|exact I]. symmetry. apply set_next_self. Qed.

Lemma heap_relinked_insert h h' a r n :
  heap_relinked h h' → h' !! a = Some r → heap_relinked h (<[a := set_next n r]> h').
Proof.
  intros H Ha b. specialize (H b). destruct (decide (a = b)) as [->|Hne].
  - rewrite lookup_insert_eq. rewrite Ha in H.
    destruct (h !! b) as [r0|]; [|contradiction]. rewrite H. reflexivity.
  - rewrite lookup_insert_ne by exact Hne. exact H.
Qed.

Lemma insert_same_head (ms : list monitor) cur m :
  nth_z ms cur = Some m → <[Z.to_nat cur := set_head (head m) m]> ms = ms.
Proof.
  intros H. apply nth_z_lookup in H as [_ H]. apply list_insert_id.
  rewrite H. destruct m; reflexivity.
Qed.

Lemma bind_assoc {A B C} (m : M A) (f : A → M B) (g : B → M C) s :
  bind (bind m f) g s = bind m (λ x, bind (f x) g) s.
Proof. unfold bind. destruct (m s) as [[a s']|]; reflexivity. Qed.

Lemma bind_ret_l {A B} (a : A) (k : A → M B) s : bind (ret a) k s = k a s.
Proof. reflexivity. Qed.

Lemma bind_lift {A B} (o : option A) (a : A) (k : A → M B) s :
  o = Some a → bind (lift o) k s = k a s.
Proof. intros ->. reflexivity. Qed.

Lemma move_down_links h ms cur prev log m l c :
  nth_z ms cur = Some m → is_list h (head m) l → current m = Some c →
  c ∈ l → (2 ≤ length l)%nat →
  ∃ h' hd',
    move_down cfg (mk_wm h ms cur prev log)
    = tile cfg (mk_wm h' (<[Z.to_nat cur := set_head hd' m]> ms) cur prev log)
    ∧ heap_relinked h h' ∧ is_list h' hd' (list_move_down c l).
Proof.
  intros Hnth Hl Hcur Hin Hlen.
  set (s := mk_wm h ms cur prev log).
  assert (HCM : CM s = Some (m, s)) by (apply CM_of_nth; exact Hnth).
  pose proof (is_list_NoDup _ _ _ Hl) as Hnd.
  destruct (prev_client_spec s m l c HCM Hl Hlen) as [Hprev1 Hprev2].
  apply list_elem_of_split in Hin as (l1 & l2 & ->).
  pose proof Hl as Hl'. unfold is_list in Hl'.
  apply lseg_app in Hl' as (x & Hseg1 & Hseg2).
  simpl in Hseg2. destruct Hseg2 as (-> & cr & Hcr & Hseg2).
  destruct l2 as [|n rest].
  - (* the current client is the last one *)
    simpl in Hseg2.
    destruct (exists_last (l := l1)) as (l0 & p & ->).
    { intros ->. simpl in Hlen. lia. }
    apply lseg_snoc in Hseg1 as (pr & Hseg0 & Hpr & Hpc).
    assert (Hp : prev_client (Some c) s = Some (Some p, s)).
    { apply (Hprev1 l0 p []). rewrite <- app_assoc. reflexivity. }
    assert (Hne : c ∉ l0 ++ [p]).
    { apply NoDup_app in Hnd as (_ & Hd & _). intros Hc. apply (Hd c Hc). left. }
    assert (Hpl0 : p ∉ l0).
    { apply NoDup_app in Hnd as (Hd & _ & _). apply NoDup_app in Hd as (_ & Hd & _).
      intros Hp0. apply (Hd p Hp0). left. }
    assert (Hcp : c ≠ p) by (intros ->; apply Hne; set_solver).
    assert (Hcl0 : c ∉ l0) by set_solver.
    assert (Hhd : ∃ a0, head m = Some a0 ∧ a0 ≠ c).
    { destruct l0 as [|a0 l0']; simpl in Hseg0.
      - exists p. rewrite Hseg0. split; [reflexivity|congruence].
      - destruct Hseg0 as (-> & _). exists a0. split; [reflexivity|].
        intros ->. apply Hne. set_solver. }
    destruct Hhd as (a0 & Hhd & Ha0c).
    exists (<[c := set_next (Some a0) cr]> (<[p := set_next None pr]> h)), (Some c).
    split; [|split].
    + unfold move_down. fold s.
      rewrite (bind_Some _ _ _ _ _ HCM). rewrite Hcur.
      unfold s at 1. m_load Hcr. fold s. rewrite Hseg2.
      rewrite (bind_Some _ _ _ _ _ Hp). rewrite Hhd.
      destruct (decide (Some c = Some a0)) as [[= ?]|_]; [congruence|].
      unfold s. m_store Hpr.
      assert (Hc1 : <[p := set_next None pr]> h !! c = Some cr).
      { rewrite lookup_insert_ne by congruence. exact Hcr. }
      m_load Hc1. rewrite Hseg2, bind_ret_l.
      m_store Hc1.
      assert (Hc2 : <[c := set_next (Some a0) cr]> (<[p := set_next None pr]> h) !! c
                    = Some (set_next (Some a0) cr)) by apply lookup_insert_eq.
      m_load Hc2.
      assert (Ha0 : ∃ r0, <[c := set_next (Some a0) cr]> (<[p := set_next None pr]> h) !! a0
                          = Some r0 ∧ next r0 ≠ Some a0).
      { rewrite lookup_insert_ne by congruence.
        destruct (decide (a0 = p)) as [->|Hap].
        - rewrite lookup_insert_eq. eexists. split; [reflexivity|discriminate].
        - rewrite lookup_insert_ne by congruence.
          destruct l0 as [|a0' l0']; simpl in Hseg0.
          + rewrite Hhd in Hseg0. congruence.
          + destruct Hseg0 as (Hh & r0 & Hr0 & Hseg0). rewrite Hhd in Hh.
            injection Hh as <-. exists r0. split; [exact Hr0|].
            intros Hself.
            assert (Ha1 : a0 ∈ l0' ++ [p]).
            { destruct l0' as [|a1 l0'']; simpl in Hseg0.
              - rewrite Hself in Hseg0. injection Hseg0 as ->. contradiction.
              - destruct Hseg0 as (Hh & _). rewrite Hself in Hh. injection Hh as <-.
                set_solver. }
            apply NoDup_app in Hnd as (Hd & _ & _).
            simpl in Hd. apply NoDup_cons in Hd as [Hd _]. contradiction. }
      destruct Ha0 as (r0 & Hr0 & Hr0n).
      m_load Hr0. simpl.
      destruct (decide (Some a0 = next r0)) as [Heq|_]; [congruence|].
      erewrite bind_Some; [|apply setCM_eq, CM_of_nth; norm_state; exact Hnth].
      norm_state. reflexivity.
    + apply heap_relinked_insert.
      * apply heap_relinked_insert; [apply heap_relinked_refl|exact Hpr].
      * rewrite lookup_insert_ne by congruence. exact Hcr.
    + rewrite list_move_down_last by (destruct l0; discriminate).
      unfold is_list. simpl. split; [reflexivity|].
      eexists. split; [apply lookup_insert_eq|]. simpl.
      rewrite <- Hhd. apply lseg_snoc. exists (set_next None pr).
      split; [|split; [|reflexivity]].
      * apply lseg_insert_notin; [exact Hcl0|].
        apply lseg_insert_notin; [exact Hpl0|exact Hseg0].
      * rewrite lookup_insert_ne by congruence. apply lookup_insert_eq.
  - (* the current client has a successor [n] *)
    simpl in Hseg2. destruct Hseg2 as (Hcn & nr & Hnr & Hrest).
    assert (Hcn' : c ≠ n).
    { apply NoDup_app in Hnd as (_ & _ & Hd). apply NoDup_cons in Hd as [Hd _]. set_solver. }
    assert (Hcrest : c ∉ rest).
    { apply NoDup_app in Hnd as (_ & _ & Hd). apply NoDup_cons in Hd as [Hd _]. set_solver. }
    assert (Hnrest : n ∉ rest).
    { apply NoDup_app in Hnd as (_ & _ & Hd). apply NoDup_cons in Hd as [_ Hd].
      apply NoDup_cons in Hd as [Hd _]. exact Hd. }
    assert (Hl1 : ∀ x, x ∈ l1 → x ≠ c ∧ x ≠ n).
    { apply NoDup_app in Hnd as (_ & Hd & _). intros x Hx. specialize (Hd x Hx). set_solver. }
    rewrite list_move_down_inner by exact Hnd.
    destruct l1 as [|p l0 _] using rev_ind.
    + (* ... and is the head *)
      simpl in Hseg1.
      assert (Hp : ∃ p, prev_client (Some c) s = Some (Some p, s)).
      { destruct (last (c :: n :: rest)) as [y|] eqn:Ey.
        - exists y. eapply (Hprev2 (n :: rest)); [reflexivity|exact Ey].
        - apply last_None in Ey. discriminate. }
      destruct Hp as (p & Hp).
      exists (<[n := set_next (Some c) nr]> (<[c := set_next (next nr) cr]> h)), (Some n).
      split; [|split].
      * unfold move_down. fold s.
        rewrite (bind_Some _ _ _ _ _ HCM). rewrite Hcur.
        unfold s at 1. m_load Hcr. fold s. rewrite Hcn.
        rewrite (bind_Some _ _ _ _ _ Hp). rewrite Hseg1.
        destruct (decide (Some c = Some c)) as [_|?]; [|contradiction].
        unfold s. m_setCM Hnth.
        m_load Hcr. rewrite Hcn, bind_assoc. m_load Hnr. rewrite bind_ret_l.
        m_store Hcr.
        assert (Hc2 : <[c := set_next (next nr) cr]> h !! c = Some (set_next (next nr) cr))
          by apply lookup_insert_eq.
        assert (Hn2 : <[c := set_next (next nr) cr]> h !! n = Some nr)
          by (rewrite lookup_insert_ne by congruence; exact Hnr).
        m_load Hc2. m_load Hn2. simpl.
        destruct (decide (next nr = next nr)) as [_|?]; [|contradiction].
        m_store Hn2. reflexivity.
      * apply heap_relinked_insert.
        -- apply heap_relinked_insert; [apply heap_relinked_refl|exact Hcr].
        -- rewrite lookup_insert_ne by congruence. exact Hnr.
      * unfold is_list. simpl. split; [reflexivity|].
        eexists. split; [apply lookup_insert_eq|]. simpl. split; [reflexivity|].
        eexists. split; [rewrite lookup_insert_ne by congruence; apply lookup_insert_eq|].
        simpl. apply lseg_insert_notin; [exact Hnrest|].
        apply lseg_insert_notin; [exact Hcrest|exact Hrest].
    + (* ... and a predecessor [p] *)
      apply lseg_snoc in Hseg1 as (pr & Hseg0 & Hpr & Hpc).
      assert (Hp : prev_client (Some c) s = Some (Some p, s)).
      { apply (Hprev1 l0 p (n :: rest)). rewrite <- app_assoc. reflexivity. }
      destruct (Hl1 p) as [Hpc' Hpn]; [set_solver|].
      assert (Hl0 : ∀ x, x ∈ l0 → x ≠ p ∧ x ≠ c ∧ x ≠ n).
      { intros x Hx. destruct (Hl1 x) as [? ?]; [set_solver|].
        split; [|split; assumption].
        apply NoDup_app in Hnd as (Hd & _ & _). apply NoDup_app in Hd as (_ & Hd & _).
        specialize (Hd x Hx). set_solver. }
      assert (Hhd : head m ≠ Some c).
      { destruct l0 as [|a0 l0']; simpl in Hseg0.
        - rewrite Hseg0. congruence.
        - destruct Hseg0 as (-> & _). intros [= ->]. destruct (Hl0 c) as (_ & ? & _);
            [set_solver|contradiction]. }
      exists (<[n := set_next (Some c) nr]>
                (<[c := set_next (next nr) cr]> (<[p := set_next (Some n) pr]> h))),
             (head m).
      split; [|split].
      * unfold move_down. fold s.
        rewrite (bind_Some _ _ _ _ _ HCM). rewrite Hcur.
        unfold s at 1. m_load Hcr. fold s. rewrite Hcn.
        rewrite (bind_Some _ _ _ _ _ Hp).
        destruct (decide (Some c = head m)) as [Heq|_]; [congruence|].
        unfold s. m_store Hpr.
        assert (Hc1 : <[p := set_next (Some n) pr]> h !! c = Some cr)
          by (rewrite lookup_insert_ne by congruence; exact Hcr).
        assert (Hn1 : <[p := set_next (Some n) pr]> h !! n = Some nr)
          by (rewrite lookup_insert_ne by congruence; exact Hnr).
        m_load Hc1. rewrite Hcn, bind_assoc. m_load Hn1. rewrite bind_ret_l.
        m_store Hc1.
        assert (Hc2 : <[c := set_next (next nr) cr]> (<[p := set_next (Some n) pr]> h) !! c
                      = Some (set_next (next nr) cr)) by apply lookup_insert_eq.
        assert (Hn2 : <[c := set_next (next nr) cr]> (<[p := set_next (Some n) pr]> h) !! n
                      = Some nr)
          by (rewrite lookup_insert_ne by congruence; exact Hn1).
        m_load Hc2. m_load Hn2. simpl.
        destruct (decide (next nr = next nr)) as [_|?]; [|contradiction].
        m_store Hn2. rewrite (insert_same_head _ _ _ Hnth). reflexivity.
      * apply heap_relinked_insert.
        -- apply heap_relinked_insert.
           ++ apply heap_relinked_insert; [apply heap_relinked_refl|exact Hpr].
           ++ rewrite lookup_insert_ne by congruence. exact Hcr.
        -- rewrite !lookup_insert_ne by congruence. exact Hnr.
      * unfold is_list. rewrite <- app_assoc. apply lseg_app. exists (Some p). split.
        -- apply lseg_insert_notin; [intros Hx; destruct (Hl0 _ Hx) as (_ & _ & ?); congruence|].
           apply lseg_insert_notin; [intros Hx; destruct (Hl0 _ Hx) as (_ & ? & _); congruence|].
           apply lseg_insert_notin; [intros Hx; destruct (Hl0 _ Hx) as (? & _ & _); congruence|].
           exact Hseg0.
        -- simpl. split; [reflexivity|].
           eexists. split; [rewrite !lookup_insert_ne by congruence; apply lookup_insert_eq|].
           simpl. split; [reflexivity|].
           eexists. split; [apply lookup_insert_eq|]. simpl. split; [reflexivity|].
           eexists. split; [rewrite lookup_insert_ne by congruence; apply lookup_insert_eq|].
           simpl. apply lseg_insert_notin; [exact Hnrest|].
           apply lseg_insert_notin; [exact Hcrest|].
           apply lseg_insert_notin; [|exact Hrest].
           apply NoDup_app in Hnd as (_ & Hd & _). specialize (Hd p). set_solver.
Qed.

Lemma swap_up_cons_ne c a b t :
  b ≠ c → swap_up c (a :: b :: t) = a :: swap_up c (b :: t).
Proof. intros Hne. cbn [swap_up]. destruct (decide (b = c)); [contradiction|reflexivity]. Qed.

Lemma swap_up_app l1 p c rest :
  c ∉ l1 → p ≠ c → swap_up c (l1 ++ p :: c :: rest) = l1 ++ c :: p :: rest.
Proof.
  induction l1 as [|a l1 IH]; intros Hc Hpc.
  - simpl. destruct (decide (c = c)); [reflexivity|contradiction].
  - apply not_elem_of_cons in Hc as [Hca Hc].
    specialize (IH Hc Hpc). rewrite <- !app_comm_cons.
    destruct l1 as [|b l1].
    + simpl app in *. rewrite swap_up_cons_ne by exact Hpc. rewrite IH. reflexivity.
    + rewrite <- !app_comm_cons in *. rewrite swap_up_cons_ne.
      * rewrite IH. reflexivity.
      * intros ->. apply Hc. left.
Qed.

Lemma list_move_up_inner l1 p c rest :
  NoDup (l1 ++ p :: c :: rest) →
  list_move_up c (l1 ++ p :: c :: rest) = l1 ++ c :: p :: rest.
Proof.
  intros Hnd.
  assert (Hc1 : c ∉ l1).
  { apply NoDup_app in Hnd as (_ & Hd & _). intros Hin. apply (Hd c Hin). set_solver. }
  assert (Hpc : p ≠ c).
  { apply NoDup_app in Hnd as (_ & _ & Hd). apply NoDup_cons in Hd as [Hd _]. set_solver. }
  unfold list_move_up. destruct l1 as [|a l1].
  - simpl. destruct (decide (p = c)); [contradiction|].
    destruct (decide (c = c)); [reflexivity|contradiction].
  - rewrite <- app_comm_cons. destruct (decide (a = c)) as [->|_].
    + exfalso. apply Hc1. left.
    + rewrite app_comm_cons. apply swap_up_app; assumption.
Qed.

Lemma move_up_links h ms cur prev log m l c :
  nth_z ms cur = Some m → is_list h (head m) l → current m = Some c →
  c ∈ l → (2 ≤ length l)%nat →
  ∃ h' hd',
    move_up cfg (mk_wm h ms cur prev log)
    = tile cfg (mk_wm h' (<[Z.to_nat cur := set_head hd' m]> ms) cur prev log)
    ∧ heap_relinked h h' ∧ is_list h' hd' (list_move_up c l).
Proof.
  intros Hnth Hl Hcur Hin Hlen.
  set (s := mk_wm h ms cur prev log).
  assert (HCM : CM s = Some (m, s)) by (apply CM_of_nth; exact Hnth).
  pose proof (is_list_NoDup _ _ _ Hl) as Hnd.
  pose proof (is_list_length _ _ _ Hl) as Hsz.
  destruct (prev_client_spec s m l c HCM Hl Hlen) as [Hprev1 Hprev2].
  apply list_elem_of_split in Hin as (l1 & l2 & ->).
  destruct l1 as [|p l0 _] using rev_ind.
  - (* the current client is the head: it becomes the last *)
    simpl in *. destruct l2 as [|n l2]; [simpl in Hlen; lia|].
    destruct (exists_last (l := n :: l2)) as (l' & x & El'); [discriminate|].
    pose proof Hl as Hl'. unfold is_list in Hl'. simpl in Hl'.
    destruct Hl' as (Hhd & cr & Hcr & (Hcn & _)).
    pose proof Hl as Hl'. unfold is_list in Hl'. rewrite El' in Hl'.
    simpl in Hl'. destruct Hl' as (_ & cr' & Hcr' & Hseg).
    rewrite Hcr in Hcr'. injection Hcr' as <-.
    apply lseg_snoc in Hseg as (xr & Hseg & Hxr & Hxn).
    assert (Hp : prev_client (Some c) s = Some (Some x, s)).
    { eapply Hprev2; [reflexivity|]. rewrite El'. rewrite app_comm_cons. apply last_snoc. }
    rewrite El' in Hnd.
    assert (Hcx : c ≠ x).
    { apply NoDup_cons in Hnd as [Hd _]. set_solver. }
    assert (Hcl' : c ∉ l').
    { apply NoDup_cons in Hnd as [Hd _]. set_solver. }
    assert (Hxl' : x ∉ l').
    { apply NoDup_cons in Hnd as [_ Hd]. apply NoDup_app in Hd as (_ & Hd & _).
      intros Hx. apply (Hd x Hx). left. }
    exists (<[c := set_next None cr]> (<[x := set_next (Some c) xr]> h)), (Some n).
    split; [|split].
    + unfold move_up. fold s.
      rewrite (bind_Some _ _ _ _ _ HCM). rewrite Hcur.
      rewrite (bind_Some _ _ _ _ _ Hp).
      unfold s. m_load Hxr. rewrite Hxn, bind_ret_l. rewrite Hhd.
      destruct (decide (Some c = Some c)) as [_|?]; [|contradiction].
      rewrite bind_assoc. m_load Hcr. m_setCM Hnth.
      erewrite bind_Some; [|apply CM_of_nth; norm_state; eapply nth_z_insert, Hnth].
      cbn [current set_head head]. rewrite Hcur. m_load Hcr. rewrite Hcn.
      destruct (decide (Some n = Some n)) as [_|?]; [|contradiction].
      m_store Hxr.
      assert (Hc1 : <[x := set_next (Some c) xr]> h !! c = Some cr)
        by (rewrite lookup_insert_ne by congruence; exact Hcr).
      m_load Hc1. rewrite Hcn.
      destruct (decide (Some n = Some n)) as [_|?]; [|contradiction].
      m_store Hc1. reflexivity.
    + apply heap_relinked_insert.
      * apply heap_relinked_insert; [apply heap_relinked_refl|exact Hxr].
      * rewrite lookup_insert_ne by congruence. exact Hcr.
    + unfold list_move_up. destruct (decide (c = c)); [|contradiction].
      rewrite El'. unfold is_list. rewrite <- app_assoc. apply lseg_app.
      exists (Some x). split.
      * rewrite <- Hcn. apply lseg_insert_notin; [exact Hcl'|].
        apply lseg_insert_notin; [exact Hxl'|exact Hseg].
      * simpl. split; [reflexivity|].
        eexists. split; [rewrite lookup_insert_ne by congruence; apply lookup_insert_eq|].
        simpl. split; [reflexivity|].
        eexists. split; [apply lookup_insert_eq|]. reflexivity.
  - (* the current client has a predecessor [p] *)
    rewrite <- app_assoc in *. simpl app in *.
    rewrite list_move_up_inner by exact Hnd.
    pose proof Hl as Hl'. unfold is_list in Hl'.
    apply lseg_app in Hl' as (y & Hseg0 & Hseg).
    simpl in Hseg. destruct Hseg as (-> & pr & Hpr & (Hpn & cr & Hcr & Hrest)).
    assert (Hp : prev_client (Some c) s = Some (Some p, s)).
    { apply (Hprev1 l0 p l2). reflexivity. }
    assert (Hpc : p ≠ c).
    { apply NoDup_app in Hnd as (_ & _ & Hd). apply NoDup_cons in Hd as [Hd _]. set_solver. }
    assert (Hpl2 : p ∉ l2).
    { apply NoDup_app in Hnd as (_ & _ & Hd). apply NoDup_cons in Hd as [Hd _]. set_solver. }
    assert (Hcl2 : c ∉ l2).
    { apply NoDup_app in Hnd as (_ & _ & Hd). apply NoDup_cons in Hd as [_ Hd].
      apply NoDup_cons in Hd as [Hd _]. exact Hd. }
    assert (Hl0 : ∀ x, x ∈ l0 → x ≠ p ∧ x ≠ c ∧ x ∉ l2).
    { apply NoDup_app in Hnd as (_ & Hd & _). intros x Hx. specialize (Hd x Hx). set_solver. }
    assert (Hcnext : ∀ a0, a0 ∈ l0 ++ [p; c] → next cr ≠ Some a0).
    { intros a0 Ha0 Hn. destruct l2 as [|b l2']; simpl in Hrest; [congruence|].
      destruct Hrest as (Hb & _). rewrite Hn in Hb. injection Hb as <-.
      apply elem_of_app in Ha0 as [Ha0|Ha0].
      - destruct (Hl0 _ Ha0) as (_ & _ & Hx). apply Hx. left.
      - apply elem_of_cons in Ha0 as [->|Ha0]; [apply Hpl2; left|].
        apply list_elem_of_singleton in Ha0 as ->. apply Hcl2. left. }
    destruct l0 as [|pp l00 _] using rev_ind.
    + (* [p] is the head *)
      simpl in Hseg0.
      assert (Hpp : scan (size h) h (λ _ r, bool_decide (next r = Some p)) (head m)
                    = Some None).
      { eapply scan_next_none; [exact Hl| |exact Hsz].
        simpl. apply NoDup_cons in Hnd as [Hd _]. exact Hd. }
      exists (<[c := set_next (Some p) cr]> (<[p := set_next (next cr) pr]> h)), (Some c).
      split; [|split].
      * unfold move_up. fold s.
        rewrite (bind_Some _ _ _ _ _ HCM). rewrite Hcur.
        rewrite (bind_Some _ _ _ _ _ Hp).
        unfold s. m_load Hpr. rewrite Hpn, bind_assoc.
        erewrite bind_Some; [|reflexivity]. norm_state.
        rewrite (bind_lift _ _ _ _ Hpp). rewrite Hseg0.
        destruct (decide (Some c = Some p)) as [[= ?]|_]; [congruence|].
        m_setCM Hnth.
        erewrite bind_Some; [|apply CM_of_nth; norm_state; eapply nth_z_insert, Hnth].
        cbn [current set_head head]. rewrite Hcur. m_load Hcr.
        destruct (decide (next cr = Some c)) as [Heq|_];
          [exfalso; apply (Hcnext c); [set_solver|exact Heq]|].
        m_store Hpr.
        assert (Hc1 : <[p := set_next (next cr) pr]> h !! c = Some cr)
          by (rewrite lookup_insert_ne by congruence; exact Hcr).
        m_load Hc1.
        destruct (decide (next cr = Some c)) as [Heq|_];
          [exfalso; apply (Hcnext c); [set_solver|exact Heq]|].
        m_store Hc1. reflexivity.
      * apply heap_relinked_insert.
        -- apply heap_relinked_insert; [apply heap_relinked_refl|exact Hpr].
        -- rewrite lookup_insert_ne by congruence. exact Hcr.
      * unfold is_list. simpl. split; [reflexivity|].
        eexists. split; [apply lookup_insert_eq|]. simpl. split; [reflexivity|].
        eexists. split; [rewrite lookup_insert_ne by congruence; apply lookup_insert_eq|].
        simpl. apply lseg_insert_notin; [exact Hcl2|].
        apply lseg_insert_notin; [exact Hpl2|exact Hrest].
    + (* [p] has a predecessor [pp] *)
      pose proof Hseg0 as Hseg0'. apply lseg_snoc in Hseg0' as (ppr & Hseg00 & Hppr & Hppn).
      destruct (Hl0 pp) as (Hppp & Hppc & Hppl2); [set_solver|].
      assert (Hpp : scan (size h) h (λ _ r, bool_decide (next r = Some p)) (head m)
                    = Some (Some pp)).
      { eapply scan_next_found; [exact Hseg0| |].
        - intros Hx. apply NoDup_app in Hnd as (_ & Hd & _).
          assert (Hx' : p ∈ l00 ++ [pp]).
          { destruct (l00 ++ [pp]); [inversion Hx|right; exact Hx]. }
          apply (Hd p Hx'). left.
        - rewrite !length_app in Hsz. simpl in Hsz. lia. }
      assert (Hhd : ∃ a0, head m = Some a0 ∧ a0 ∈ (l00 ++ [pp]) ++ [p; c]).
      { destruct l00 as [|a0 l00']; simpl in Hseg00.
        - exists pp. rewrite Hseg00. split; [reflexivity|set_solver].
        - destruct Hseg00 as (-> & _). exists a0. split; [reflexivity|set_solver]. }
      destruct Hhd as (a0 & Hhd & Ha0).
      assert (Hl00 : ∀ x, x ∈ l00 → x ≠ pp ∧ x ≠ p ∧ x ≠ c).
      { intros x Hx. destruct (Hl0 x) as (? & ? & _); [set_solver|].
        split; [|split; assumption].
        apply NoDup_app in Hnd as (Hd & _ & _). apply NoDup_app in Hd as (_ & Hd & _).
        specialize (Hd x Hx). set_solver. }
      exists (<[c := set_next (Some p) cr]>
                (<[p := set_next (next cr) pr]> (<[pp := set_next (Some c) ppr]> h))),
             (head m).
      split; [|split].
      * unfold move_up. fold s.
        rewrite (bind_Some _ _ _ _ _ HCM). rewrite Hcur.
        rewrite (bind_Some _ _ _ _ _ Hp).
        unfold s. m_load Hpr. rewrite Hpn, bind_assoc.
        erewrite bind_Some; [|reflexivity]. norm_state.
        rewrite (bind_lift _ _ _ _ Hpp).
        m_store Hppr. m_CM Hnth. rewrite Hcur.
        assert (Hc1 : <[pp := set_next (Some c) ppr]> h !! c = Some cr)
          by (rewrite lookup_insert_ne by congruence; exact Hcr).
        assert (Hp1 : <[pp := set_next (Some c) ppr]> h !! p = Some pr)
          by (rewrite lookup_insert_ne by congruence; exact Hpr).
        m_load Hc1. rewrite Hhd.
        destruct (decide (next cr = Some a0)) as [Heq|_];
          [exfalso; apply (Hcnext a0 Ha0 Heq)|].
        m_store Hp1.
        assert (Hc2 : <[p := set_next (next cr) pr]> (<[pp := set_next (Some c) ppr]> h) !! c
                      = Some cr)
          by (rewrite lookup_insert_ne by congruence; exact Hc1).
        m_load Hc2.
        destruct (decide (next cr = Some a0)) as [Heq|_];
          [exfalso; apply (Hcnext a0 Ha0 Heq)|].
        m_store Hc2. rewrite <- Hhd, (insert_same_head _ _ _ Hnth). reflexivity.
      * apply heap_relinked_insert.
        -- apply heap_relinked_insert.
           ++ apply heap_relinked_insert; [apply heap_relinked_refl|exact Hppr].
           ++ rewrite lookup_insert_ne by congruence. exact Hpr.
        -- rewrite !lookup_insert_ne by congruence. exact Hcr.
      * unfold is_list. rewrite <- app_assoc. apply lseg_app. exists (Some pp). split.
        -- apply lseg_insert_notin; [intros Hx; destruct (Hl00 _ Hx) as (_ & _ & ?); congruence|].
           apply lseg_insert_notin; [intros Hx; destruct (Hl00 _ Hx) as (_ & ? & _); congruence|].
           apply lseg_insert_notin; [intros Hx; destruct (Hl00 _ Hx) as (? & _ & _); congruence|].
           exact Hseg00.
        -- simpl. split; [reflexivity|].
           eexists. split; [rewrite !lookup_insert_ne by congruence; apply lookup_insert_eq|].
           simpl. split; [reflexivity|].
           eexists. split; [apply lookup_insert_eq|]. simpl. split; [reflexivity|].
           eexists. split; [rewrite lookup_insert_ne by congruence; apply lookup_insert_eq|].
           simpl. apply lseg_insert_notin; [exact Hcl2|].
           apply lseg_insert_notin; [exact Hpl2|].
           apply lseg_insert_notin; [exact Hppl2|exact Hrest].
Qed.

(** The list-level readings: permutations, and [move_up] undoes [move_down]. *)
Lemma list_move_down_shape l c :
  NoDup l → c ∈ l → (2 ≤ length l)%nat →
  (∃ l0, l0 ≠ [] ∧ l = l0 ++ [c] ∧ list_move_down c l = c :: l0)
  ∨ (∃ l1 n rest, l = l1 ++ c :: n :: rest
                  ∧ list_move_down c l = l1 ++ n :: c :: rest).
Proof.
  intros Hnd Hin Hlen. apply list_elem_of_split in Hin as (l1 & l2 & ->).
  destruct l2 as [|n rest].
  - left. exists l1. assert (l1 ≠ []) by (intros ->; simpl in Hlen; lia).
    split; [assumption|]. split; [reflexivity|]. apply list_move_down_last. assumption.
  - right. exists l1, n, rest. split; [reflexivity|]. apply list_move_down_inner, Hnd.
Qed.

Lemma list_move_down_perm l c :
  NoDup l → c ∈ l → (2 ≤ length l)%nat → list_move_down c l ≡ₚ l.
Proof.
  intros Hnd Hin Hlen.
  destruct (list_move_down_shape l c Hnd Hin Hlen)
    as [(l0 & _ & -> & ->)|(l1 & n & rest & -> & ->)].
  - apply Permutation_cons_append.
  - apply Permutation_app_head, perm_swap.
Qed.

Lemma list_move_up_shape l c :
  NoDup l → c ∈ l → (2 ≤ length l)%nat →
  (∃ l', l = c :: l' ∧ list_move_up c l = l' ++ [c])
  ∨ (∃ l1 p rest, l = l1 ++ p :: c :: rest
                  ∧ list_move_up c l = l1 ++ c :: p :: rest).
Proof.
  intros Hnd Hin Hlen. apply list_elem_of_split in Hin as (l1 & l2 & ->).
  destruct l1 as [|p l0 _] using rev_ind.
  - left. exists l2. split; [reflexivity|]. simpl.
    destruct (decide (c = c)); [reflexivity|contradiction].
  - right. exists l0, p, l2. rewrite <- app_assoc in *. simpl app in *.
    split; [reflexivity|]. apply list_move_up_inner, Hnd.
Qed.

Lemma list_move_up_perm l c :
  NoDup l → c ∈ l → (2 ≤ length l)%nat → list_move_up c l ≡ₚ l.
Proof.
  intros Hnd Hin Hlen.
  destruct (list_move_up_shape l c Hnd Hin Hlen)
    as [(l' & -> & ->)|(l1 & p & rest & -> & ->)].
  - symmetry. apply Permutation_cons_append.
  - apply Permutation_app_head, perm_swap.
Qed.

Lemma list_move_up_down l c :
  NoDup l → c ∈ l → (2 ≤ length l)%nat →
  list_move_up c (list_move_down c l) = l.
Proof.
  intros Hnd Hin Hlen.
  pose proof (list_move_down_perm l c Hnd Hin Hlen) as Hperm.
  destruct (list_move_down_shape l c Hnd Hin Hlen)
    as [(l0 & _ & -> & E)|(l1 & n & rest & -> & E)]; rewrite E in *.
  - simpl. destruct (decide (c = c)); [reflexivity|contradiction].
  - apply list_move_up_inner. rewrite Hperm. exact Hnd.
Qed.

(** After the links are changed, [tile] only adds requests. *)
Lemma relink_finish h ms cur prev log m h' hd' (l l' : list positive) :
  nth_z ms cur = Some m → heap_relinked h h' → is_list h' hd' l' →
  (∀ a, a ∈ l → a ∈ l') →
  (mode m = GRID → ∃ a r, a ∈ l ∧ h !! a = Some r ∧ ISFFT r = false) →
  ∃ reqs,
    let s1 := mk_wm h' (<[Z.to_nat cur := set_head hd' m]> ms) cur prev (log ++ reqs) in
    tile cfg (mk_wm h' (<[Z.to_nat cur := set_head hd' m]> ms) cur prev log) = Some (tt, s1)
    ∧ relinked (mk_wm h ms cur prev log) s1
    ∧ (mode m = GRID → ∃ a r, a ∈ l' ∧ h' !! a = Some r ∧ ISFFT r = false).
Proof.
  intros Hnth Hrel Hl' Hsub Hsafe.
  assert (Hsafe' : mode m = GRID → ∃ a r, a ∈ l' ∧ h' !! a = Some r ∧ ISFFT r = false).
  { intros Hm. destruct (Hsafe Hm) as (a & r & Ha & Hr & Hf).
    specialize (Hrel a). rewrite Hr in Hrel.
    destruct (h' !! a) as [r'|] eqn:Hr'; [|contradiction].
    exists a, r'. split; [apply Hsub, Ha|]. split; [exact Hr'|].
    rewrite Hrel. exact Hf. }
  set (s' := mk_wm h' (<[Z.to_nat cur := set_head hd' m]> ms) cur prev log).
  assert (HCM' : CM s' = Some (set_head hd' m, s')).
  { apply CM_of_nth. unfold s'. norm_state. eapply nth_z_insert, Hnth. }
  destruct (tile_total s' (set_head hd' m) l' HCM' Hl' Hsafe') as (reqs & Htile).
  exists reqs. cbv zeta. split; [exact Htile|]. split; [|exact Hsafe'].
  unfold relinked. norm_state. split; [reflexivity|]. split; [reflexivity|].
  split; [exists reqs; reflexivity|]. split; [exact Hrel|].
  exists m, hd'. split; [apply CM_of_nth; exact Hnth|reflexivity].
Qed.

(** The state in which [move_down] and [move_up] call [tile]. *)
Lemma relinked_before_tile h ms cur prev log m h' hd' :
  nth_z ms cur = Some m → heap_relinked h h' →
  let s' := mk_wm h' (<[Z.to_nat cur := set_head hd' m]> ms) cur prev log in
  relinked (mk_wm h ms cur prev log) s' ∧ CM s' = Some (set_head hd' m, s').
Proof.
  intros Hnth Hrel s'. split.
  - unfold relinked, s'. norm_state. split; [reflexivity|]. split; [reflexivity|].
    split; [exists []; rewrite app_nil_r; reflexivity|]. split; [exact Hrel|].
    exists m, hd'. split; [apply CM_of_nth; exact Hnth|reflexivity].
  - apply CM_of_nth. unfold s'. norm_state. eapply nth_z_insert, Hnth.
Qed.

(** C4. On a proper list of at least two clients with a focused client,
    [move_down] and [move_up] change links so that the list is again a
    proper (NULL-terminated) list holding the same nodes once each, whatever
    the position of the current client (head, last, head of two, inside),
    and the links [move_up] makes after [move_down] give back the original
    order.  Both then call [tile], which only sends requests; it returns
    unless the mode is GRID and no client is tileable, and then so do the
    two operations. *)
Theorem move_down_move_up (s : wm) (m : monitor) (l : list positive) (c : positive) :
  CM s = Some (m, s) → is_list (heap s) (head m) l → current m = Some c →
  c ∈ l → (2 ≤ length l)%nat →
  (* the links made by [move_down], and by [move_up] after it *)
  (∃ t1 m1, move_down cfg s = tile cfg t1 ∧ relinked s t1 ∧ CM t1 = Some (m1, t1)
      ∧ is_list (heap t1) (head m1) (list_move_down c l)
      ∧ list_move_down c l ≡ₚ l
      ∧ ∀ s1, extends_log t1 s1 →
          ∃ t2 m2, move_up cfg s1 = tile cfg t2 ∧ relinked s1 t2
                   ∧ CM t2 = Some (m2, t2) ∧ is_list (heap t2) (head m2) l)
  (* the links made by [move_up] alone *)
  ∧ (∃ t1 m1, move_up cfg s = tile cfg t1 ∧ relinked s t1 ∧ CM t1 = Some (m1, t1)
      ∧ is_list (heap t1) (head m1) (list_move_up c l)
      ∧ list_move_up c l ≡ₚ l)
  (* both operations return when [tile] does *)
  ∧ ((mode m = GRID → ∃ a r, a ∈ l ∧ heap s !! a = Some r ∧ ISFFT r = false) →
     (∃ s1 m1, move_down cfg s = Some (tt, s1) ∧ CM s1 = Some (m1, s1) ∧ relinked s s1
        ∧ is_list (heap s1) (head m1) (list_move_down c l)
        ∧ ∃ s2 m2, move_up cfg s1 = Some (tt, s2) ∧ CM s2 = Some (m2, s2)
            ∧ relinked s1 s2 ∧ is_list (heap s2) (head m2) l)
     ∧ (∃ s1 m1, move_up cfg s = Some (tt, s1) ∧ CM s1 = Some (m1, s1) ∧ relinked s s1
        ∧ is_list (heap s1) (head m1) (list_move_up c l))).
Proof.
  intros HCM Hl Hcur Hin Hlen.
  pose proof (is_list_NoDup _ _ _ Hl) as Hnd.
  apply CM_inv in HCM as [_ Hnth].
  destruct s as [h ms cur prev log]. simpl in *.
  pose proof (list_move_down_perm l c Hnd Hin Hlen) as Hpd.
  pose proof (list_move_up_perm l c Hnd Hin Hlen) as Hpu.
  assert (Hin1 : c ∈ list_move_down c l) by (rewrite Hpd; exact Hin).
  assert (Hlen1 : (2 ≤ length (list_move_down c l))%nat) by (rewrite Hpd; exact Hlen).
  destruct (move_down_links h ms cur prev log m l c Hnth Hl Hcur Hin Hlen)
    as (h1 & hd1 & Heq1 & Hrel1 & Hl1).
  destruct (move_up_links h ms cur prev log m l c Hnth Hl Hcur Hin Hlen)
    as (hu & hdu & Hequ & Hrelu & Hlu).
  set (ms1 := <[Z.to_nat cur := set_head hd1 m]> ms) in *.
  assert (Hnth1 : nth_z ms1 cur = Some (set_head hd1 m)) by (eapply nth_z_insert, Hnth).
  assert (Hup : ∀ log1, ∃ h2 hd2,
            move_up cfg (mk_wm h1 ms1 cur prev log1)
            = tile cfg (mk_wm h2 (<[Z.to_nat cur := set_head hd2 (set_head hd1 m)]> ms1)
                          cur prev log1)
            ∧ heap_relinked h1 h2 ∧ is_list h2 hd2 l).
  { intros log1.
    destruct (move_up_links h1 ms1 cur prev log1 (set_head hd1 m)
                (list_move_down c l) c Hnth1 Hl1 Hcur Hin1 Hlen1)
      as (h2 & hd2 & Heq2 & Hrel2 & Hl2).
    rewrite (list_move_up_down l c Hnd Hin Hlen) in Hl2. eauto. }
  subst ms1. split; [|split].
  - destruct (relinked_before_tile h ms cur prev log m h1 hd1 Hnth Hrel1) as [Hr HC].
    eexists _, _. split; [exact Heq1|]. split; [exact Hr|]. split; [exact HC|].
    split; [exact Hl1|]. split; [exact Hpd|].
    intros s1 (reqs & ->). norm_state.
    destruct (Hup (log ++ reqs)) as (h2 & hd2 & Heq2 & Hrel2 & Hl2).
    destruct (relinked_before_tile h1 _ cur prev (log ++ reqs) (set_head hd1 m) h2 hd2
                Hnth1 Hrel2) as [Hr2 HC2].
    eexists _, _. split; [exact Heq2|]. split; [exact Hr2|]. split; [exact HC2|exact Hl2].
  - destruct (relinked_before_tile h ms cur prev log m hu hdu Hnth Hrelu) as [Hr HC].
    eexists _, _. split; [exact Hequ|]. split; [exact Hr|]. split; [exact HC|].
    split; [exact Hlu|exact Hpu].
  - intros Hsafe. split.
    + destruct (relink_finish h ms cur prev log m h1 hd1 l (list_move_down c l)
                  Hnth Hrel1 Hl1) as (reqs1 & Ht1 & Hr1 & Hsafe1); [|exact Hsafe|].
      { intros a Ha. rewrite Hpd. exact Ha. }
      eexists _, (set_head hd1 m). split; [rewrite Heq1; exact Ht1|].
      split; [apply CM_of_nth; exact Hnth1|]. split; [exact Hr1|]. split; [exact Hl1|].
      destruct (Hup (log ++ reqs1)) as (h2 & hd2 & Heq2 & Hrel2 & Hl2).
      destruct (relink_finish h1 _ cur prev (log ++ reqs1) (set_head hd1 m) h2 hd2
                  (list_move_down c l) l Hnth1 Hrel2 Hl2)
        as (reqs2 & Ht2 & Hr2 & _); [|exact Hsafe1|].
      { intros a Ha. rewrite <- Hpd. exact Ha. }
      eexists _, (set_head hd2 (set_head hd1 m)). split; [rewrite Heq2; exact Ht2|].
      split; [apply CM_of_nth; norm_state; eapply nth_z_insert, Hnth1|].
      split; [exact Hr2|exact Hl2].
    + destruct (relink_finish h ms cur prev log m hu hdu l (list_move_up c l)
                  Hnth Hrelu Hlu) as (reqs1 & Ht1 & Hr1 & _); [|exact Hsafe|].
      { intros a Ha. rewrite Hpu. exact Ha. }
      eexists _, (set_head hdu m). split; [rewrite Hequ; exact Ht1|].
      split; [apply CM_of_nth; norm_state; eapply nth_z_insert, Hnth|].
      split; [exact Hr1|exact Hlu].
Qed.

(** ** Selecting a desktop *)

Lemma live_eta dk :
  mk_desktop (d_master_size dk) (d_mode dk) (d_growth dk) (d_head dk) (d_current dk)
             (d_prevfocus dk) (d_showpanel dk) = dk.
Proof. destruct dk; reflexivity. Qed.

(** [select_desktop] keeps every desktop as the program sees it. *)
Lemma select_desktop_run h ms cur prev log mst i :
  nth_z ms cur = Some mst → 0 ≤ i < DESKTOPS cfg → wf_desktops cfg mst →
  ∃ ms' mst',
    select_desktop cfg i (mk_wm h ms cur prev log) = Some (tt, mk_wm h ms' cur prev log)
    ∧ nth_z ms' cur = Some mst'
    ∧ current_desktop mst' = i
    ∧ (∀ d, desktop_view mst' d = desktop_view mst d)
    ∧ wf_desktops cfg mst'.
Proof.
  intros Hnth Hi [Hcd Hlen].
  set (cd := current_desktop mst) in *.
  set (D' := <[Z.to_nat cd := live mst]> (desktops mst)).
  assert (Hlen' : length D' = Z.to_nat (DESKTOPS cfg)).
  { unfold D'. rewrite length_insert. exact Hlen. }
  destruct (lookup_lt_is_Some_2 D' (Z.to_nat i)) as [dk Hdk]; [lia|].
  destruct (lookup_lt_is_Some_2 (desktops mst) (Z.to_nat cd)) as [dk0 Hdk0]; [lia|].
  set (mst1 := set_desktops D' mst).
  set (mst' := mk_monitor (d_showpanel dk) i (previous_desktop mst1) (d_growth dk)
                 (d_mode dk) (d_master_size dk) (wh mst1) (ww mst1) (wx mst1) (wy mst1)
                 (d_head dk) (d_prevfocus dk) (d_current dk) (desktops mst1)).
  exists (<[Z.to_nat cur := mst']> ms), mst'.
  split; [|split; [eapply nth_z_insert, Hnth|split; [reflexivity|split]]].
  - unfold select_desktop.
    destruct (Z.ltb_spec i 0) as [?|_]; [lia|].
    destruct (Z.geb_spec i (DESKTOPS cfg)) as [?|_]; [lia|]. cbn [orb].
    m_CM Hnth. fold cd. unfold save_desktop.
    destruct (Z.ltb_spec cd 0) as [?|_]; [lia|].
    destruct (Z.geb_spec cd (DESKTOPS cfg)) as [?|_]; [lia|]. cbn [orb].
    rewrite !bind_assoc. m_CM Hnth. rewrite bind_assoc.
    rewrite (bind_lift _ _ _ _ Hdk0).
    m_setCM Hnth.
    erewrite bind_Some; [|apply CM_of_nth; norm_state; eapply nth_z_insert, Hnth].
    fold (live mst). fold D'. fold mst1.
    rewrite (bind_lift _ dk); [|exact Hdk].
    erewrite setCM_eq; [|apply CM_of_nth; norm_state; eapply nth_z_insert, Hnth].
    norm_state. rewrite list_insert_insert_eq. reflexivity.
  - intros d. unfold desktop_view, live at 1. unfold mst', mst1. simpl.
    fold cd. rewrite live_eta.
    destruct (Z.eqb_spec d i) as [->|Hdi].
    + destruct (Z.eqb_spec i cd) as [->|Hicd].
      * unfold D' in Hdk. rewrite list_lookup_insert_eq in Hdk by lia. congruence.
      * unfold D' in Hdk. rewrite list_lookup_insert_ne in Hdk by lia.
        unfold nth_z. destruct (Z.ltb_spec i 0) as [?|_]; [lia|]. congruence.
    + destruct (Z.eqb_spec d cd) as [->|Hdcd].
      * unfold nth_z. destruct (Z.ltb_spec cd 0) as [?|_]; [lia|].
        unfold D'. apply list_lookup_insert_eq. lia.
      * unfold nth_z. destruct (Z.ltb_spec d 0) as [?|?]; [reflexivity|].
        unfold D'. apply list_lookup_insert_ne. lia.
  - split; [exact Hi|exact Hlen'].
Qed.

(** ** Removing a client *)

Lemma lseg_delete_notin h p l q a :
  a ∉ l → lseg h p l q → lseg (delete a h) p l q.
Proof.
  revert p. induction l as [|b l IH]; intros p Hin H; simpl in *; [exact H|].
  destruct H as (-> & rb & Hb & H). split; [reflexivity|].
  apply not_elem_of_cons in Hin as [Hab Hin].
  exists rb. split; [rewrite lookup_delete_ne; [exact Hb|exact Hab]|].
  apply IH; assumption.
Qed.

Lemma read_slot_next s a r :
  heap s !! a = Some r → read_slot (SlotNext a) s = Some (next r, s).
Proof.
  intros H. unfold read_slot. rewrite (bind_Some _ _ _ _ _ (load_Some _ _ _ H)).
  reflexivity.
Qed.

(** The inner loop of [removeclient] on a segment that does not hold [c]:
    it stops at the end of the segment, on [NULL] or on [c]. *)
Lemma removeclient_scan_spec fuel c s p ptr l q :
  read_slot p s = Some (ptr, s) → lseg (heap s) ptr l q → c ∉ l →
  q = None ∨ q = Some c → (length l ≤ fuel)%nat →
  removeclient_scan fuel c p s = Some ((slot_after l p, bool_decide (q = Some c)), s).
Proof.
  revert fuel p ptr. induction l as [|a l IH]; intros fuel p ptr Hp Hl Hc Hq Hfuel.
  - simpl in Hl. subst ptr.
    assert (Hgo : (let* v := read_slot p in
                   match v with
                   | None => ret (p, false)
                   | Some a => if decide (a = c) then ret (p, true) else crash
                   end) s = Some ((p, bool_decide (q = Some c)), s)).
    { rewrite (bind_Some _ _ _ _ _ Hp). destruct Hq as [->| ->].
      - reflexivity.
      - destruct (decide (c = c)); [|contradiction].
        rewrite bool_decide_eq_true_2 by reflexivity. reflexivity. }
    destruct fuel as [|fuel]; simpl.
    + exact Hgo.
    + rewrite (bind_Some _ _ _ _ _ Hp). destruct Hq as [->| ->].
      * reflexivity.
      * destruct (decide (c = c)); [|contradiction].
        rewrite bool_decide_eq_true_2 by reflexivity. reflexivity.
  - simpl in Hl. destruct Hl as (-> & r & Hr & Hl).
    apply not_elem_of_cons in Hc as [Hca Hc].
    destruct fuel as [|fuel]; [simpl in Hfuel; lia|].
    cbn [removeclient_scan]. rewrite (bind_Some _ _ _ _ _ Hp).
    destruct (decide (a = c)) as [?|_]; [congruence|].
    rewrite (IH fuel (SlotNext a) (next r)); [|apply read_slot_next, Hr|exact Hl
                                              |exact Hc|exact Hq|simpl in Hfuel; lia].
    unfold slot_after. rewrite last_cons. destruct (last l); reflexivity.
Qed.

(** The loop of [removeclient] over the desktops, started at desktop [nd]
    when the client is on the selected desktop [cd]: the desktops before
    [cd] hold proper lists without [c], and the list of [cd] holds [c] after
    the nodes [l1]. *)
Lemma removeclient_from_spec (view : Z → option desktop) cd c l1 l2 Lv h cur prev log :
  0 ≤ cd < DESKTOPS cfg →
  (∀ d dk, 0 ≤ d < cd → view d = Some dk →
     ∃ ld, is_list h (d_head dk) ld ∧ c ∉ ld) →
  (∀ d, 0 ≤ d < cd → is_Some (view d)) →
  view cd = Some Lv → is_list h (d_head Lv) (l1 ++ c :: l2) →
  ∀ k nd ms mst p0,
    nth_z ms cur = Some mst → wf_desktops cfg mst →
    (∀ d, desktop_view mst d = view d) →
    0 ≤ nd ≤ cd → Z.of_nat k = DESKTOPS cfg - nd →
    ∃ ms' mst',
      removeclient_from cfg k c nd p0 (mk_wm h ms cur prev log)
      = Some ((Some (slot_after l1 SlotHead), cd + 1), mk_wm h ms' cur prev log)
      ∧ nth_z ms' cur = Some mst'
      ∧ live mst' = Lv ∧ current_desktop mst' = cd.
Proof.
  intros Hcd Hbefore Hsome Hview Hl.
  pose proof (is_list_NoDup _ _ _ Hl) as Hnd.
  pose proof (is_list_length _ _ _ Hl) as Hsz.
  induction k as [|k IH]; intros nd ms mst p0 Hnth Hwf Hv Hnd' Hk; [lia|].
  destruct (select_desktop_run h ms cur prev log mst nd Hnth ltac:(lia) Hwf)
    as (ms1 & mst1 & Hsel & Hnth1 & Hcd1 & Hv1 & Hwf1).
  cbn [removeclient_from]. rewrite (bind_Some _ _ _ _ _ Hsel).
  erewrite bind_Some; [|reflexivity]. norm_state.
  set (s1 := mk_wm h ms1 cur prev log).
  assert (Hslot : ∀ dk, view nd = Some dk → read_slot SlotHead s1 = Some (d_head dk, s1)).
  { intros dk Hdk. unfold read_slot.
    erewrite bind_Some; [|apply CM_of_nth; exact Hnth1].
    assert (Hlive : Some (live mst1) = Some dk).
    { rewrite <- Hdk, <- Hv, <- Hv1. unfold desktop_view. rewrite Hcd1, Z.eqb_refl.
      reflexivity. }
    injection Hlive as <-. reflexivity. }
  destruct (Z.eq_dec nd cd) as [->|Hne].
  - erewrite bind_Some;
      [|eapply (removeclient_scan_spec _ c s1 SlotHead (d_head Lv) l1 (Some c));
        [apply Hslot, Hview| | |right; reflexivity|]].
    + rewrite bool_decide_eq_true_2 by reflexivity.
      exists ms1, mst1. split; [reflexivity|]. split; [exact Hnth1|].
      split; [|exact Hcd1].
      assert (Hlive : Some (live mst1) = Some Lv).
      { rewrite <- Hview, <- Hv, <- Hv1. unfold desktop_view.
        rewrite Hcd1, Z.eqb_refl. reflexivity. }
      injection Hlive as ->. reflexivity.
    + unfold is_list in Hl. apply lseg_app in Hl as (x & H1 & H2).
      simpl in H2. destruct H2 as (-> & _). exact H1.
    + apply NoDup_app in Hnd as (_ & Hd & _). intros Hin. apply (Hd c Hin). left.
    + norm_state. rewrite length_app in Hsz. lia.
  - destruct (Hsome nd ltac:(lia)) as [dk Hdk].
    destruct (Hbefore nd dk ltac:(lia) Hdk) as (ld & Hld & Hcld).
    erewrite bind_Some;
      [|eapply (removeclient_scan_spec _ c s1 SlotHead (d_head dk) ld None);
        [apply Hslot, Hdk|exact Hld|exact Hcld|left; reflexivity
        |norm_state; eapply is_list_length, Hld]].
    rewrite bool_decide_eq_false_2 by discriminate.
    apply (IH (nd + 1) ms1 mst1); [exact Hnth1|exact Hwf1| |lia|lia].
    intros d. rewrite Hv1. apply Hv.
Qed.

Lemma prev_client_total s m l c :
  CM s = Some (m, s) → is_list (heap s) (head m) l → c ∈ l →
  ∃ r, prev_client (Some c) s = Some (r, s).
Proof.
  intros HCM Hl Hin. destruct l as [|a [|b l']].
  - inversion Hin.
  - unfold is_list in Hl. simpl in Hl. destruct Hl as (Hhd & r & Hr & Hn).
    exists None. unfold prev_client. rewrite (bind_Some _ _ _ _ _ HCM), Hhd.
    rewrite (bind_Some _ _ _ _ _ (load_Some _ _ _ Hr)), Hn. reflexivity.
  - destruct (prev_client_spec s m _ c HCM Hl) as [H1 H2]; [simpl; lia|].
    apply list_elem_of_split in Hin as (l1 & l2 & E).
    destruct l1 as [|p l0 _] using rev_ind.
    + simpl in E. destruct (last (a :: b :: l')) as [x|] eqn:Ex.
      * exists (Some x). eapply H2; [exact E|reflexivity].
      * apply last_None in Ex. discriminate.
    + exists (Some p). apply (H1 l0 p l2). rewrite E, <- app_assoc. reflexivity.
Qed.

(** Focusing the previously focused client of a proper list. *)
Lemma update_current_prevfocus h ms cur prev log mm (l : list positive) pf :
  nth_z ms cur = Some mm → prevfocus mm = Some pf → is_list h (head mm) l → pf ∈ l →
  (mode mm = GRID → ∃ a r, a ∈ l ∧ h !! a = Some r ∧ ISFFT r = false) →
  ∃ ms' mm' reqs,
    update_current cfg xe (Some pf) (mk_wm h ms cur prev log)
    = Some (tt, mk_wm h ms' cur prev (log ++ reqs))
    ∧ nth_z ms' cur = Some mm'
    ∧ head mm' = head mm ∧ current mm' = Some pf
    ∧ current_desktop mm' = current_desktop mm.
Proof.
  intros Hnth Hpf Hl Hin Hsafe.
  set (mm1 := set_current (prevfocus mm) mm).
  set (ms1 := <[Z.to_nat cur := mm1]> ms).
  assert (Hnth1 : nth_z ms1 cur = Some mm1) by (eapply nth_z_insert, Hnth).
  destruct (prev_client_total (mk_wm h ms1 cur prev log) mm1 l pf) as [p Hp];
    [apply CM_of_nth; exact Hnth1|exact Hl|exact Hin|].
  set (mm2 := set_prevfocus p mm1).
  set (ms2 := <[Z.to_nat cur := mm2]> ms1).
  assert (Hnth2 : nth_z ms2 cur = Some mm2) by (eapply nth_z_insert, Hnth1).
  destruct (update_current_pass_total (mk_wm h ms2 cur prev log) mm2 l)
    as (reqs1 & Hpass); [apply CM_of_nth; exact Hnth2|exact Hl|].
  destruct (lseg_lookup _ _ _ _ _ Hl Hin) as [pr Hpr].
  set (reqs2 := (if isfloating pr || istransient pr then [xcb_raise_window (win pr)] else [])
                ++ [ChangeProperty (root xe) (NET_ACTIVE xe) XCB_ATOM_WINDOW [win pr];
                    SetInputFocus (win pr)]
                ++ (if CLICK_TO_FOCUS cfg then grabbuttons cfg xe (win pr) else [])).
  destruct (tile_total (mk_wm h ms2 cur prev ((log ++ reqs1) ++ reqs2)) mm2 l)
    as (reqs3 & Htile); [apply CM_of_nth; exact Hnth2|exact Hl|exact Hsafe|].
  exists ms2, mm2, (reqs1 ++ reqs2 ++ reqs3).
  split; [|split; [exact Hnth2|split; [reflexivity|split; [exact Hpf|reflexivity]]]].
  unfold update_current. m_CM Hnth.
  destruct (decide (Some pf = prevfocus mm)) as [_|Hne]; [|congruence].
  rewrite !bind_assoc. m_setCM Hnth. fold mm1 ms1.
  rewrite bind_assoc. m_CM Hnth1. rewrite bind_assoc.
  replace (current mm1) with (Some pf) by (symmetry; exact Hpf).
  rewrite (bind_Some _ _ _ _ _ Hp).
  m_setCM Hnth1. fold mm2. fold ms2.
  rewrite (bind_Some _ _ _ _ _ Hpass). norm_state.
  m_CM Hnth2. replace (current mm2) with (Some pf) by (symmetry; exact Hpf).
  m_load Hpr. fold reqs2.
  erewrite bind_Some; [|reflexivity].
  unfold emit, modify, set_xlog. norm_state.
  rewrite Htile. norm_state. rewrite <- !app_assoc. reflexivity.
Qed.

(** Writing [c->next] into the slot that points to [c] takes [c] out of
    the list. *)
Lemma write_slot_unlink h ms cur prev log mm l1 c l2 r :
  nth_z ms cur = Some mm → is_list h (head mm) (l1 ++ c :: l2) → h !! c = Some r →
  ∃ h' ms' hd',
    write_slot (slot_after l1 SlotHead) (next r) (mk_wm h ms cur prev log)
    = Some (tt, mk_wm h' ms' cur prev log)
    ∧ nth_z ms' cur = Some (set_head hd' mm)
    ∧ is_list (delete c h') hd' (l1 ++ l2)
    ∧ h' !! c = Some r
    ∧ heap_relinked h h'.
Proof.
  intros Hnth Hl Hr.
  pose proof (is_list_NoDup _ _ _ Hl) as Hnd.
  assert (Hc2 : c ∉ l2).
  { apply NoDup_app in Hnd as (_ & _ & Hd). apply NoDup_cons in Hd as [Hd _]. exact Hd. }
  assert (Hc1 : c ∉ l1).
  { apply NoDup_app in Hnd as (_ & Hd & _). intros Hin. apply (Hd c Hin). left. }
  pose proof Hl as Hl'. unfold is_list in Hl'.
  apply lseg_app in Hl' as (y & Hseg1 & Hseg2).
  simpl in Hseg2. destruct Hseg2 as (-> & r' & Hr' & Hseg2).
  rewrite Hr in Hr'. injection Hr' as <-.
  destruct l1 as [|x l0 _] using rev_ind.
  - simpl in Hseg1. exists h, (<[Z.to_nat cur := set_head (next r) mm]> ms), (next r).
    split; [|split; [eapply nth_z_insert, Hnth|split; [|split]]].
    + unfold slot_after. simpl. unfold write_slot.
      erewrite setCM_eq; [|apply CM_of_nth; exact Hnth]. reflexivity.
    + simpl. apply lseg_delete_notin; [exact Hc2|exact Hseg2].
    + exact Hr.
    + apply heap_relinked_refl.
  - apply lseg_snoc in Hseg1 as (xr & Hseg0 & Hxr & Hxn).
    assert (Hxc : x ≠ c) by (intros ->; apply Hc1; set_solver).
    assert (Hx0 : x ∉ l0).
    { apply NoDup_app in Hnd as (Hd & _ & _). apply NoDup_app in Hd as (_ & Hd & _).
      intros Hx. apply (Hd x Hx). left. }
    assert (Hx2 : x ∉ l2).
    { apply NoDup_app in Hnd as (_ & Hd & _). specialize (Hd x). set_solver. }
    exists (<[x := set_next (next r) xr]> h), ms, (head mm).
    split; [|split; [|split; [|split]]].
    + unfold slot_after. rewrite last_snoc. unfold write_slot.
      erewrite store_Some; [|exact Hxr]. reflexivity.
    + rewrite Hnth. f_equal. destruct mm; reflexivity.
    + unfold is_list. rewrite <- app_assoc. apply lseg_app. exists (Some x). split.
      * apply lseg_delete_notin; [set_solver|].
        apply lseg_insert_notin; [exact Hx0|exact Hseg0].
      * simpl. split; [reflexivity|]. eexists.
        split; [rewrite lookup_delete_ne by congruence; apply lookup_insert_eq|].
        simpl. apply lseg_delete_notin; [exact Hc2|].
        apply lseg_insert_notin; [exact Hx2|exact Hseg2].
    + rewrite lookup_insert_ne by exact Hxc. exact Hr.
    + apply heap_relinked_insert; [apply heap_relinked_refl|exact Hxr].
Qed.

Lemma select_monitor_same h ms cur prev log mm :
  nth_z ms cur = Some mm →
  select_monitor cur (mk_wm h ms cur prev log) = Some (tt, mk_wm h ms cur prev log).
Proof.
  intros Hnth. unfold select_monitor, bind, get, MONITORS. norm_state.
  apply nth_z_lookup in Hnth as [H0 Hnth]. apply lookup_lt_Some in Hnth.
  destruct (Z.geb_spec cur (Z.of_nat (length ms))) as [?|_]; [lia|]. reflexivity.
Qed.

(** C7, amended. When the monitor field of the current client names the
    current monitor, [killclient] first sends the client message of
    [deletewindow] -- type WM_PROTOCOLS, format 32, [data32[0]] =
    WM_DELETE_WINDOW, [data32[1]] = CurrentTime, the other three words not
    written -- if the window advertises WM_DELETE_WINDOW, and a KillClient
    request otherwise; then the client is unlinked from its list and freed,
    and the previously focused client becomes the current one. *)
Theorem killclient_sends_and_removes (s : wm) (m : monitor) (l1 l2 : list positive)
    (c : positive) (r : client) (reply : option (list Z)) :
  CM s = Some (m, s) → current m = Some c → heap s !! c = Some r →
  c_monitor r = current_monitor s →
  is_list (heap s) (head m) (l1 ++ c :: l2) →
  (∀ pf, prevfocus m = Some pf → pf ∈ l1 ++ l2) →
  wf_desktops cfg m →
  (∀ d dk, 0 ≤ d < current_desktop m → desktop_view m d = Some dk →
     ∃ ld, is_list (heap s) (d_head dk) ld ∧ c ∉ ld) →
  (prevfocus m ≠ None → mode m = GRID →
     ∃ a ra, a ∈ l1 ++ l2 ∧ heap s !! a = Some ra ∧ ISFFT ra = false) →
  let advertised := match reply with
                    | Some atoms => existsb (λ a, a =? WM_DELETE_WINDOW xe) atoms
                    | None => false
                    end in
  let request :=
    if advertised
    then SendEvent (win r)
           (mk_client_message 32 0 (win r) (WM_PROTOCOLS xe)
              [Some (WM_DELETE_WINDOW xe); Some XCB_CURRENT_TIME; None; None; None])
    else KillClient (win r) in
  ∃ s' m' reqs,
    killclient cfg xe reply s = Some (tt, s')
    ∧ xlog s' = xlog s ++ request :: reqs
    ∧ heap s' !! c = None
    ∧ (∀ a, a ≠ c → match heap s !! a, heap s' !! a with
                    | Some x, Some y => y = set_next (next y) x
                    | None, None => True
                    | _, _ => False
                    end)
    ∧ CM s' = Some (m', s')
    ∧ is_list (heap s') (head m') (l1 ++ l2)
    ∧ current m' = prevfocus m
    ∧ current_monitor s' = current_monitor s
    ∧ current_desktop m' = current_desktop m.
Proof.
  intros HCM Hcur Hr Hmon Hl Hpf Hwf Hbefore Hsafe advertised request.
  apply CM_inv in HCM as [_ Hnth].
  destruct s as [h ms cur prev log]. simpl in *.
  pose proof (is_list_NoDup _ _ _ Hl) as Hnd.
  assert (Hcl : c ∉ l1 ++ l2).
  { intros Hin. apply elem_of_app in Hin as [Hin|Hin].
    - apply NoDup_app in Hnd as (_ & Hd & _). apply (Hd c Hin). left.
    - apply NoDup_app in Hnd as (_ & _ & Hd). apply NoDup_cons in Hd as [Hd _].
      contradiction. }
  set (log1 := log ++ [request]).
  destruct (removeclient_from_spec (desktop_view m) (current_desktop m) c l1 l2 (live m)
              h cur prev log1 (proj1 Hwf) Hbefore) with
      (k := Z.to_nat (DESKTOPS cfg)) (nd := 0) (ms := ms) (mst := m) (p0 := @None slot)
    as (ms1 & mst1 & Hloop & Hnth1 & Hlive & Hcd1).
  { intros d Hd. unfold desktop_view. destruct (Z.eqb_spec d (current_desktop m)); [lia|].
    unfold nth_z. destruct (Z.ltb_spec d 0) as [?|_]; [lia|].
    apply lookup_lt_is_Some_2. destruct Hwf as [? ->]. lia. }
  { unfold desktop_view. rewrite Z.eqb_refl. reflexivity. }
  { exact Hl. }
  { exact Hnth. }
  { exact Hwf. }
  { reflexivity. }
  { destruct Hwf. lia. }
  { destruct Hwf. lia. }
  unfold live in Hlive. injection Hlive as Hms Hmode _ Hhead _ Hprev _.
  destruct (write_slot_unlink h ms1 cur prev log1 mst1 l1 c l2 r Hnth1)
    as (h2 & ms2 & hd2 & Hwrite & Hnth2 & Hl2 & Hc2 & Hrel2);
    [rewrite Hhead; exact Hl|exact Hr|].
  set (mm2 := set_head hd2 mst1) in *.
  assert (Hrel : ∀ a, a ≠ c → match h !! a, delete c h2 !! a with
                               | Some x, Some y => y = set_next (next y) x
                               | None, None => True
                               | _, _ => False
                               end).
  { intros a Ha. rewrite lookup_delete_ne by congruence. apply Hrel2. }
  assert (Hfinal : ∃ ms3 mm3 reqs,
            update_current cfg xe (prevfocus mm2) (mk_wm (delete c h2) ms2 cur prev log1)
            = Some (tt, mk_wm (delete c h2) ms3 cur prev (log1 ++ reqs))
            ∧ nth_z ms3 cur = Some mm3 ∧ head mm3 = hd2
            ∧ current mm3 = prevfocus m ∧ current_desktop mm3 = current_desktop m).
  { replace (prevfocus mm2) with (prevfocus m) by (symmetry; exact Hprev).
    destruct (prevfocus m) as [pf|] eqn:Epf.
    - destruct (update_current_prevfocus (delete c h2) ms2 cur prev log1 mm2 (l1 ++ l2) pf)
        as (ms3 & mm3 & reqs & Hu & Hn3 & Hh3 & Hc3 & Hd3);
        [exact Hnth2|exact Hprev|exact Hl2|apply Hpf; reflexivity| |].
      + intros Hg. destruct Hsafe as (a & ra & Ha & Hra & Hf);
          [discriminate|unfold mm2 in Hg; simpl in Hg; congruence|].
        assert (Hac : a ≠ c) by (intros ->; contradiction).
        specialize (Hrel a Hac). rewrite Hra in Hrel.
        destruct (delete c h2 !! a) as [ra'|] eqn:Era; [|contradiction].
        exists a, ra'. split; [exact Ha|]. split; [exact Era|]. rewrite Hrel. exact Hf.
      + exists ms3, mm3, reqs. split; [exact Hu|]. split; [exact Hn3|].
        split; [exact Hh3|]. split; [exact Hc3|]. rewrite Hd3. exact Hcd1.
    - exists (<[Z.to_nat cur := set_current None (set_prevfocus None mm2)]> ms2),
             (set_current None (set_prevfocus None mm2)),
             [DeleteProperty (root xe) (NET_ACTIVE xe)].
      split; [|split; [eapply nth_z_insert, Hnth2|split; [reflexivity
                       |split; [reflexivity|exact Hcd1]]]].
      unfold update_current. erewrite bind_Some; [|reflexivity].
      unfold set_xlog. norm_state.
      erewrite setCM_eq; [|apply CM_of_nth; exact Hnth2]. reflexivity. }
  destruct Hfinal as (ms3 & mm3 & reqs & Hupd & Hnth3 & Hhd3 & Hcur3 & Hcd3).
  exists (mk_wm (delete c h2) ms3 cur prev (log1 ++ reqs)), mm3, reqs.
  split; [|split; [|split; [|split; [|split; [|split; [|split; [|split]]]]]]].
  - unfold killclient. m_CM Hnth. rewrite Hcur. m_load Hr.
    assert (Hreq : (if advertised then deletewindow xe (win r) else emit [KillClient (win r)])
                     (mk_wm h ms cur prev log) = Some (tt, mk_wm h ms cur prev log1)).
    { unfold request, log1. destruct advertised; reflexivity. }
    fold advertised. rewrite (bind_Some _ _ _ _ _ Hreq).
    m_CM Hnth. rewrite Hcur. unfold removeclient.
    erewrite bind_Some; [|reflexivity]. norm_state. m_load Hr. rewrite Hmon.
    rewrite (bind_Some _ _ _ _ _ (select_monitor_same _ _ _ _ _ _ Hnth)).
    m_CM Hnth. rewrite (bind_Some _ _ _ _ _ Hloop). m_load Hr.
    rewrite (bind_Some _ _ _ _ _ Hwrite).
    erewrite bind_Some; [|reflexivity]. unfold set_heap. norm_state.
    m_CM Hnth2. rewrite (bind_Some _ _ _ _ _ Hupd).
    rewrite (bind_Some _ _ _ _ _ (select_monitor_same _ _ _ _ _ _ Hnth3)).
    replace (current_desktop m + 1 - 1) with (current_desktop m) by lia.
    rewrite Z.eqb_refl. reflexivity.
  - norm_state. unfold log1. rewrite <- app_assoc. reflexivity.
  - norm_state. apply lookup_delete_eq.
  - norm_state. exact Hrel.
  - apply CM_of_nth. exact Hnth3.
  - norm_state. rewrite Hhd3. exact Hl2.
  - exact Hcur3.
  - reflexivity.
  - exact Hcd3.
Qed.

End Properties.

(** * The scenarios, evaluated *)

(** ** S1 *)

Lemma S1_computed :
  (s ← scenario_S1;
   Some (geometry_of 101 (xlog s), geometry_of 102 (xlog s), geometry_of 103 (xlog s)))
  = Some (Some [0; 20; 828; 874], Some [830; 20; 764; 435], Some [830; 457; 764; 437]).
Proof. vm_compute. reflexivity. Qed.

Lemma S1_variants_computed :
  S1_second_window true [] = Some (Some [830; 20; 764; 435])
  ∧ S1_second_window false [] = Some (Some [830; 20; 764; 435])
  ∧ S1_second_window true [(0, 0, 1600, 900)] = Some (Some [832; 20; 764; 436])
  ∧ S1_second_window false [(0, 0, 1600, 900)] = Some (Some [832; 20; 764; 436]).
Proof. repeat split; vm_compute; reflexivity. Qed.

Lemma S1_second_window_not_expected aside xinerama g :
  S1_second_window aside xinerama = Some (Some g) → g ≠ [832; 20; 764; 434] →
  ¬ ∃ s, scenario_S1_with aside xinerama = Some s ∧ S1_expected s.
Proof.
  intros Hc Hg (s & Hs & _ & H2 & _). unfold S1_second_window in Hc.
  rewrite Hs in Hc. cbn [mbind option_bind] in Hc. rewrite H2 in Hc.
  injection Hc as <-. contradiction.
Qed.

(** C3, as stated, fails: whether new windows are attached aside or at the
    head, and with or without Xinerama, the second window does not get the
    geometry (832, 20, 764, 434). *)
Lemma S1_expected_fails :
  (¬ ∃ s, scenario_S1_with true [] = Some s ∧ S1_expected s)
  ∧ (¬ ∃ s, scenario_S1_with false [] = Some s ∧ S1_expected s)
  ∧ (¬ ∃ s, scenario_S1_with true [(0, 0, 1600, 900)] = Some s ∧ S1_expected s)
  ∧ (¬ ∃ s, scenario_S1_with false [(0, 0, 1600, 900)] = Some s ∧ S1_expected s).
Proof.
  destruct S1_variants_computed as (C1 & C2 & C3 & C4).
  split; [exact (S1_second_window_not_expected _ _ _ C1 ltac:(discriminate))|].
  split; [exact (S1_second_window_not_expected _ _ _ C2 ltac:(discriminate))|].
  split; [exact (S1_second_window_not_expected _ _ _ C3 ltac:(discriminate))|].
  exact (S1_second_window_not_expected _ _ _ C4 ltac:(discriminate)).
Qed.

(** C3, amended. In a build without Xinerama and with ATTACH_ASIDE, on a
    1600x900 screen with a 20-pixel top panel, border width 2 and master
    fraction 0.52, after mapping W1, W2, W3 in order the tiling pass has
    assigned W1 = (0, 20, 828, 874), W2 = (830, 20, 764, 435) and
    W3 = (830, 457, 764, 437). *)
Theorem S1_geometries :
  ∃ s, scenario_S1 = Some s
       ∧ geometry_of 101 (xlog s) = Some [0; 20; 828; 874]
       ∧ geometry_of 102 (xlog s) = Some [830; 20; 764; 435]
       ∧ geometry_of 103 (xlog s) = Some [830; 457; 764; 437].
Proof.
  pose proof S1_computed as Hc.
  destruct scenario_S1 as [s|]; [|discriminate].
  cbn [mbind option_bind] in Hc. injection Hc as H1 H2 H3. exists s. auto.
Qed.

(** ** A client on another monitor *)

Lemma other_monitor_computed :
  (s ← scenario_other_monitor;
   r ← wintoclient sample_config 7 s;
   f ← focusurgent sample_config sample_xenv s;
   Some (current_monitor s, windows_on s 1 0, focus_reachable s,
         r.1, current_monitor r.2, current_desktop <$> monitors r.2,
         focus_reachable f.2, (λ m, (head m, current m)) <$> monitors f.2))
  = Some (0, Some [7], true, None, 0, [0; 0], false,
          [(None, Some 1%positive); (Some 1%positive, Some 1%positive)]).
Proof. vm_compute. reflexivity. Qed.

(** C1, at the failing input: window 7 is tracked on desktop 0 of
    monitor 1 while monitor 0 is current; [wintoclient] looks through the
    desktops of the current monitor only and returns [NULL] (the desktop
    selected on monitor 0 is the same afterwards). *)
Theorem wintoclient_misses_other_monitor :
  ∃ s s', scenario_other_monitor = Some s
          ∧ current_monitor s = 0
          ∧ windows_on s 1 0 = Some [7]
          ∧ wintoclient sample_config 7 s = Some (None, s')
          ∧ current_monitor s' = 0
          ∧ current_desktop <$> monitors s' = [0; 0].
Proof.
  pose proof other_monitor_computed as Hc.
  destruct scenario_other_monitor as [s|]; [|discriminate].
  cbn [mbind option_bind] in Hc.
  destruct (wintoclient sample_config 7 s) as [[r s']|] eqn:Hw; [|discriminate].
  cbn [mbind option_bind] in Hc.
  destruct (focusurgent sample_config sample_xenv s) as [[u f]|]; [|discriminate].
  cbn [mbind option_bind fst snd] in Hc.
  exists s, s'. injection Hc; intros; subst. repeat split; assumption.
Qed.

(** C2, at the failing input: the urgent client lives on monitor 1 and
    monitor 0 is current; [focusurgent] makes it the current client of
    monitor 0, whose list is empty. *)
Theorem focusurgent_breaks_focus_reachability :
  ∃ s s', scenario_other_monitor = Some s
          ∧ focus_reachable s = true
          ∧ focusurgent sample_config sample_xenv s = Some (tt, s')
          ∧ focus_reachable s' = false
          ∧ (λ m, (head m, current m)) <$> monitors s'
            = [(None, Some 1%positive); (Some 1%positive, Some 1%positive)].
Proof.
  pose proof other_monitor_computed as Hc.
  destruct scenario_other_monitor as [s|]; [|discriminate].
  cbn [mbind option_bind] in Hc.
  destruct (wintoclient sample_config 7 s) as [[r s']|]; [|discriminate].
  cbn [mbind option_bind] in Hc.
  destruct (focusurgent sample_config sample_xenv s) as [[[] f]|] eqn:Hf; [|discriminate].
  cbn [mbind option_bind fst snd] in Hc.
  exists s, f. injection Hc; intros. repeat split; assumption.
Qed.

(** ** [desktopinfo] *)

Lemma desktopinfo_computed :
  (s ← scenario_before_desktopinfo;
   r ← desktopinfo sample_config s;
   Some (current_monitor s, current_desktop <$> monitors s,
         current_monitor r.2, current_desktop <$> monitors r.2))
  = Some (0, [0; 1], 0, [1; 1]).
Proof. vm_compute. reflexivity. Qed.

(** C10, at the failing input: monitor 0 is current and shows desktop 0,
    monitor 1 shows desktop 1; after [desktopinfo] monitor 0 has desktop 1
    selected. *)
Theorem desktopinfo_moves_current_desktop :
  ∃ s s', scenario_before_desktopinfo = Some s
          ∧ desktopinfo sample_config s = Some (tt, s')
          ∧ current_monitor s = 0 ∧ current_monitor s' = 0
          ∧ current_desktop <$> monitors s = [0; 1]
          ∧ current_desktop <$> monitors s' = [1; 1].
Proof.
  pose proof desktopinfo_computed as Hc.
  destruct scenario_before_desktopinfo as [s|]; [|discriminate].
  cbn [mbind option_bind] in Hc.
  destruct (desktopinfo sample_config s) as [[[] s']|] eqn:Hd; [|discriminate].
  cbn [mbind option_bind fst snd] in Hc.
  exists s, s'. injection Hc; intros. repeat split; assumption.
Qed.

(** ** S5 *)

Lemma S5_computed :
  (s ← scenario_S5;
   r ← killclient sample_config sample_xenv (Some [300; 301]) s;
   Some (bool_decide (S5_expected_message sample_xenv 101 ∈ xlog r.2)))
  = Some false.
Proof. vm_compute. reflexivity. Qed.

(** C7, as stated, fails: the client message [killclient] sends to a window
    that advertises WM_DELETE_WINDOW is not the one with
    [data32 = [WM_DELETE_WINDOW, CurrentTime, 0, 0, 0]]: the last three
    words are never written. *)
Lemma killclient_message_differs :
  ¬ ∃ s s', scenario_S5 = Some s
            ∧ killclient sample_config sample_xenv (Some [300; 301]) s = Some (tt, s')
            ∧ S5_expected_message sample_xenv 101 ∈ xlog s'.
Proof.
  intros (s & s' & Hs & Hk & Hin).
  pose proof S5_computed as Hc. rewrite Hs in Hc. cbn [mbind option_bind] in Hc.
  rewrite Hk in Hc. cbn [mbind option_bind snd] in Hc.
  injection Hc as Hc. apply bool_decide_eq_false in Hc. contradiction.
Qed.

(** * Further properties *)

Section MoreProperties.

Variable cfg : config.
Variable xe : xenv.

Ltac norm_state :=
  cbn [set_heap set_monitors set_xlog heap monitors current_monitor
       previous_monitor xlog].
Ltac m_CM H := erewrite bind_Some; [|apply CM_of_nth; norm_state; exact H].
Ltac m_load H :=
  erewrite bind_Some; [|apply load_Some; norm_state; exact H]; norm_state.
Ltac m_store H :=
  erewrite bind_Some; [|apply store_Some; norm_state; exact H]; norm_state.
Ltac m_setCM H :=
  erewrite bind_Some; [|apply setCM_eq, CM_of_nth; norm_state; exact H]; norm_state.

(** ** [select_desktop], exactly *)

Lemma desktop_view_in_range m d :
  wf_desktops cfg m → 0 ≤ d < DESKTOPS cfg → is_Some (desktop_view m d).
Proof.
  intros [Hcd Hlen] Hd. unfold desktop_view.
  destruct (Z.eqb_spec d (current_desktop m)); [eexists; reflexivity|].
  unfold nth_z. destruct (Z.ltb_spec d 0) as [?|_]; [lia|].
  apply lookup_lt_is_Some_2. lia.
Qed.

Lemma select_desktop_step h ms cur prev log mst i dk :
  nth_z ms cur = Some mst → 0 ≤ i < DESKTOPS cfg → wf_desktops cfg mst →
  desktop_view mst i = Some dk →
  select_desktop cfg i (mk_wm h ms cur prev log)
  = Some (tt, mk_wm h (<[Z.to_nat cur := switched mst i dk]> ms) cur prev log).
Proof.
  intros Hnth Hi [Hcd Hlen] Hview.
  set (cd := current_desktop mst) in *.
  set (D' := <[Z.to_nat cd := live mst]> (desktops mst)).
  assert (Hdk : D' !! Z.to_nat i = Some dk).
  { unfold desktop_view in Hview. fold cd in Hview. unfold D'.
    destruct (Z.eqb_spec i cd) as [->|Hne].
    - injection Hview as <-. apply list_lookup_insert_eq. lia.
    - rewrite list_lookup_insert_ne by lia.
      unfold nth_z in Hview. destruct (Z.ltb_spec i 0) as [?|_]; [lia|]. exact Hview. }
  destruct (lookup_lt_is_Some_2 (desktops mst) (Z.to_nat cd)) as [dk0 Hdk0]; [lia|].
  unfold select_desktop.
  destruct (Z.ltb_spec i 0) as [?|_]; [lia|].
  destruct (Z.geb_spec i (DESKTOPS cfg)) as [?|_]; [lia|]. cbn [orb].
  m_CM Hnth. fold cd. unfold save_desktop.
  destruct (Z.ltb_spec cd 0) as [?|_]; [lia|].
  destruct (Z.geb_spec cd (DESKTOPS cfg)) as [?|_]; [lia|]. cbn [orb].
  rewrite !bind_assoc. m_CM Hnth. rewrite bind_assoc.
  rewrite (bind_lift _ _ _ _ Hdk0).
  m_setCM Hnth.
  erewrite bind_Some; [|apply CM_of_nth; norm_state; eapply nth_z_insert, Hnth].
  fold (live mst). fold D'.
  rewrite (bind_lift _ dk); [|exact Hdk].
  erewrite setCM_eq; [|apply CM_of_nth; norm_state; eapply nth_z_insert, Hnth].
  norm_state. rewrite list_insert_insert_eq. reflexivity.
Qed.

Lemma switched_views m i dk :
  wf_desktops cfg m → 0 ≤ i < DESKTOPS cfg → desktop_view m i = Some dk →
  same_views m (switched m i dk) ∧ wf_desktops cfg (switched m i dk)
  ∧ current_desktop (switched m i dk) = i ∧ live (switched m i dk) = dk.
Proof.
  intros [Hcd Hlen] Hi Hview.
  split; [|split; [|split]].
  - unfold same_views, switched. cbn [previous_desktop wh ww wx wy desktops].
    repeat (split; [reflexivity|]). split; [apply length_insert|].
    intros d. unfold desktop_view. cbn [current_desktop desktops]. unfold live at 1. cbn.
    rewrite live_eta.
    set (cd := current_desktop m) in *.
    destruct (Z.eqb_spec d i) as [->|Hdi].
    + exact (eq_sym Hview).
    + destruct (Z.eqb_spec d cd) as [->|Hdcd].
      * unfold nth_z. destruct (Z.ltb_spec cd 0) as [?|_]; [lia|].
        apply list_lookup_insert_eq. lia.
      * unfold nth_z. destruct (Z.ltb_spec d 0) as [?|?]; [reflexivity|].
        apply list_lookup_insert_ne. lia.
  - split; [exact Hi|]. unfold switched. cbn [desktops]. rewrite length_insert. exact Hlen.
  - reflexivity.
  - unfold live, switched. cbn. apply live_eta.
Qed.

Lemma same_views_refl m : same_views m m.
Proof. unfold same_views. repeat split; reflexivity. Qed.

Lemma same_views_trans m1 m2 m3 :
  same_views m1 m2 → same_views m2 m3 → same_views m1 m3.
Proof.
  unfold same_views. intros (A1 & A2 & A3 & A4 & A5 & A6 & A7) (B1 & B2 & B3 & B4 & B5 & B6 & B7).
  repeat split; try congruence.
Qed.

(** Going to desktop [i] and back. *)
Lemma switched_back m i dk :
  wf_desktops cfg m → 0 ≤ i < DESKTOPS cfg → desktop_view m i = Some dk →
  switched (switched m i dk) (current_desktop m) (live m)
  = set_desktops (<[Z.to_nat (current_desktop m) := live m]> (desktops m)) m.
Proof.
  intros [Hcd Hlen] Hi Hview.
  unfold switched at 1. cbn [current_desktop previous_desktop wh ww wx wy desktops switched].
  assert (Hl : live (switched m i dk) = dk) by (unfold live, switched; cbn; apply live_eta).
  rewrite Hl.
  assert (Hdk : <[Z.to_nat (current_desktop m) := live m]> (desktops m) !! Z.to_nat i = Some dk).
  { unfold desktop_view in Hview.
    destruct (Z.eqb_spec i (current_desktop m)) as [->|Hne].
    - injection Hview as <-. apply list_lookup_insert_eq. lia.
    - rewrite list_lookup_insert_ne by lia.
      unfold nth_z in Hview. destruct (Z.ltb_spec i 0) as [?|_]; [lia|]. exact Hview. }
  rewrite (list_insert_id _ _ _ Hdk). unfold set_desktops, live. cbn. reflexivity.
Qed.


(** X1. [select_desktop] with an index outside [0, DESKTOPS) does nothing.
    With a valid index it makes that desktop the live one, with the fields
    the program saw for it, and keeps every desktop as seen; selecting the
    desktop that was left afterwards restores the monitor, the saved entry
    of that desktop now holding its live fields. *)
Theorem select_desktop_round_trip (s : wm) (m : monitor) (i : Z) :
  CM s = Some (m, s) → wf_desktops cfg m →
  (¬ 0 ≤ i < DESKTOPS cfg → select_desktop cfg i s = Some (tt, s))
  ∧ (0 ≤ i < DESKTOPS cfg →
     ∃ dk s1 m1,
       desktop_view m i = Some dk
       ∧ select_desktop cfg i s = Some (tt, s1) ∧ CM s1 = Some (m1, s1)
       ∧ current_desktop m1 = i ∧ live m1 = dk ∧ same_views m m1
       ∧ select_desktop cfg (current_desktop m) s1
         = Some (tt, set_monitors
                       (<[Z.to_nat (current_monitor s) :=
                            set_desktops (<[Z.to_nat (current_desktop m) := live m]>
                                            (desktops m)) m]> (monitors s)) s)).
Proof.
  intros HCM Hwf. apply CM_inv in HCM as [_ Hnth].
  destruct s as [h ms cur prev log]. simpl in Hnth. split.
  - intros Hi. unfold select_desktop.
    destruct (Z.ltb_spec i 0) as [?|?]; [reflexivity|].
    destruct (Z.geb_spec i (DESKTOPS cfg)) as [?|?]; [reflexivity|lia].
  - intros Hi. destruct (desktop_view_in_range m i Hwf Hi) as [dk Hdk].
    destruct (switched_views m i dk Hwf Hi Hdk) as (Hsv & Hwf1 & Hcd1 & Hlive1).
    exists dk, (mk_wm h (<[Z.to_nat cur := switched m i dk]> ms) cur prev log),
      (switched m i dk).
    assert (Hnth1 : nth_z (<[Z.to_nat cur := switched m i dk]> ms) cur
                    = Some (switched m i dk)) by (eapply nth_z_insert, Hnth).
    split; [exact Hdk|]. split; [apply select_desktop_step; assumption|].
    split; [apply CM_of_nth; exact Hnth1|]. split; [exact Hcd1|].
    split; [exact Hlive1|]. split; [exact Hsv|].
    assert (Hback : desktop_view (switched m i dk) (current_desktop m) = Some (live m)).
    { destruct Hsv as (_ & _ & _ & _ & _ & _ & Hv). rewrite Hv.
      unfold desktop_view. rewrite Z.eqb_refl. reflexivity. }
    rewrite (select_desktop_step _ _ _ _ _ _ _ _ Hnth1 (proj1 Hwf) Hwf1 Hback).
    norm_state. rewrite list_insert_insert_eq.
    rewrite (switched_back m i dk Hwf Hi Hdk). reflexivity.
Qed.

(** ** [wintoclient] on the current monitor *)

Lemma scan_stops fuel h stop p l c r :
  lseg h p l (Some c) →
  (∀ a ra, a ∈ l → h !! a = Some ra → stop a ra = false) →
  h !! c = Some r → stop c r = true → (length l < fuel)%nat →
  scan fuel h stop p = Some (Some c).
Proof.
  revert fuel p. induction l as [|b l IH]; intros fuel p Hl Hno Hc Hstop Hfuel.
  - simpl in Hl. subst p. destruct fuel as [|fuel]; [lia|]. simpl.
    rewrite Hc. simpl. rewrite Hstop. reflexivity.
  - destruct fuel as [|fuel]; [simpl in Hfuel; lia|].
    simpl in Hl. destruct Hl as (-> & rb & Hrb & Hl). simpl. rewrite Hrb. simpl.
    rewrite (Hno b rb); [|left|exact Hrb].
    apply IH; [exact Hl| |exact Hc|exact Hstop|simpl in Hfuel; lia].
    intros a ra Ha. apply Hno. right. exact Ha.
Qed.

Lemma scan_passes fuel h stop p l :
  is_list h p l →
  (∀ a ra, a ∈ l → h !! a = Some ra → stop a ra = false) →
  (length l ≤ fuel)%nat →
  scan fuel h stop p = Some None.
Proof.
  unfold is_list. revert fuel p. induction l as [|b l IH]; intros fuel p Hl Hno Hfuel.
  - simpl in Hl. subst p. destruct fuel; reflexivity.
  - destruct fuel as [|fuel]; [simpl in Hfuel; lia|].
    simpl in Hl. destruct Hl as (-> & rb & Hrb & Hl). simpl. rewrite Hrb. simpl.
    rewrite (Hno b rb); [|left|exact Hrb].
    apply IH; [exact Hl| |simpl in Hfuel; lia].
    intros a ra Ha. apply Hno. right. exact Ha.
Qed.

Lemma untracked_stop h l w :
  untracked h l w →
  ∀ a ra, a ∈ l → h !! a = Some ra → bool_decide (win ra = w) = false.
Proof. intros H a ra Ha Hra. apply bool_decide_eq_false_2. eapply H; eassumption. Qed.

(** The last step of [wintoclient], [removeclient] and the like:
    [if (cd != d-1) select_desktop(cd);] when desktop [d-1] is selected. *)
Lemma restore_desktop h ms cur prev log m mst d :
  nth_z ms cur = Some mst → wf_desktops cfg m → wf_desktops cfg mst →
  same_views m mst → current_desktop mst = d - 1 →
  ∃ m', when (negb (current_desktop m =? d - 1)) (select_desktop cfg (current_desktop m))
          (mk_wm h ms cur prev log)
        = Some (tt, mk_wm h (<[Z.to_nat cur := m']> ms) cur prev log)
        ∧ same_desktops m m' ∧ wf_desktops cfg m'.
Proof.
  intros Hnth Hwf Hwf1 Hsv Hcd.
  destruct (Z.eqb_spec (current_desktop m) (d - 1)) as [He|Hne]; simpl.
  - exists mst. split; [|split; [split; [congruence|exact Hsv]|exact Hwf1]].
    unfold ret. rewrite list_insert_id; [reflexivity|].
    apply nth_z_lookup in Hnth as [_ Hnth]. exact Hnth.
  - assert (Hv : desktop_view mst (current_desktop m) = Some (live m)).
    { destruct Hsv as (_ & _ & _ & _ & _ & _ & Hv). rewrite Hv.
      unfold desktop_view. rewrite Z.eqb_refl. reflexivity. }
    destruct (switched_views mst _ _ Hwf1 (proj1 Hwf) Hv) as (Hsv' & Hwf' & Hcd' & _).
    exists (switched mst (current_desktop m) (live m)).
    split; [apply select_desktop_step; [exact Hnth|exact (proj1 Hwf)|exact Hwf1|exact Hv]|].
    split; [|exact Hwf']. split; [exact Hcd'|]. eapply same_views_trans; eassumption.
Qed.

(** The loop of [wintoclient] from desktop [d] on, when the window is on
    none of the desktops left. *)
Lemma wintoclient_from_none w h cur prev log m :
  wf_desktops cfg m →
  ∀ k d ms mst,
    nth_z ms cur = Some mst → wf_desktops cfg mst → same_views m mst →
    0 ≤ d → Z.of_nat k = DESKTOPS cfg - d → (d = 0 ∨ current_desktop mst = d - 1) →
    (∀ d', d ≤ d' < DESKTOPS cfg →
       ∃ dk l, desktop_view m d' = Some dk ∧ is_list h (d_head dk) l ∧ untracked h l w) →
    ∃ mst',
      wintoclient_from cfg k w d (mk_wm h ms cur prev log)
      = Some ((None, DESKTOPS cfg), mk_wm h (<[Z.to_nat cur := mst']> ms) cur prev log)
      ∧ wf_desktops cfg mst' ∧ same_views m mst'
      ∧ current_desktop mst' = DESKTOPS cfg - 1.
Proof.
  intros Hwf. induction k as [|k IH]; intros d ms mst Hnth Hwf1 Hsv Hd Hk Hcur Hall.
  - exists mst. simpl. replace d with (DESKTOPS cfg) by lia.
    split; [|split; [exact Hwf1|split; [exact Hsv|]]].
    + unfold ret. rewrite list_insert_id; [reflexivity|].
      apply nth_z_lookup in Hnth as [_ Hnth]. exact Hnth.
    + destruct Hcur as [->|Hc]; [destruct Hwf; lia|lia].
  - destruct (Hall d ltac:(lia)) as (dk & l & Hdk & Hl & Hun).
    assert (Hdk1 : desktop_view mst d = Some dk).
    { destruct Hsv as (_ & _ & _ & _ & _ & _ & Hv). rewrite Hv. exact Hdk. }
    destruct (switched_views mst d dk Hwf1 ltac:(lia) Hdk1) as (Hsv' & Hwf' & Hcd' & Hlive').
    cbn [wintoclient_from].
    rewrite (bind_Some _ _ _ _ _
               (select_desktop_step h ms cur prev log mst d dk Hnth ltac:(lia) Hwf1 Hdk1)).
    set (ms1 := <[Z.to_nat cur := switched mst d dk]> ms).
    assert (Hnth1 : nth_z ms1 cur = Some (switched mst d dk)) by (eapply nth_z_insert, Hnth).
    m_CM Hnth1. erewrite bind_Some; [|reflexivity]. norm_state.
    replace (head (switched mst d dk)) with (d_head dk) by reflexivity.
    rewrite (bind_lift _ None).
    2:{ apply (scan_passes _ _ _ _ l Hl); [apply untracked_stop, Hun|].
        eapply is_list_length, Hl. }
    destruct (IH (d + 1) ms1 (switched mst d dk)) as (mst' & Hrun & Hwf2 & Hsv2 & Hcd2);
      [exact Hnth1|exact Hwf'|eapply same_views_trans; eassumption|lia|lia
      |right; rewrite Hcd'; lia| |].
    { intros d' Hd'. apply Hall. lia. }
    exists mst'. split; [|split; [exact Hwf2|split; [exact Hsv2|exact Hcd2]]].
    rewrite Hrun. unfold ms1. rewrite list_insert_insert_eq. reflexivity.
Qed.

(** ... and when the first desktop that holds the window is [d0]. *)
Lemma wintoclient_from_found w h cur prev log m d0 dk0 l1 c l2 r :
  wf_desktops cfg m → 0 ≤ d0 < DESKTOPS cfg →
  desktop_view m d0 = Some dk0 → is_list h (d_head dk0) (l1 ++ c :: l2) →
  untracked h l1 w → h !! c = Some r → win r = w →
  ∀ k d ms mst,
    nth_z ms cur = Some mst → wf_desktops cfg mst → same_views m mst →
    0 ≤ d ≤ d0 → Z.of_nat k = DESKTOPS cfg - d →
    (∀ d', d ≤ d' < d0 →
       ∃ dk l, desktop_view m d' = Some dk ∧ is_list h (d_head dk) l ∧ untracked h l w) →
    ∃ mst',
      wintoclient_from cfg k w d (mk_wm h ms cur prev log)
      = Some ((Some c, d0 + 1), mk_wm h (<[Z.to_nat cur := mst']> ms) cur prev log)
      ∧ wf_desktops cfg mst' ∧ same_views m mst'
      ∧ current_desktop mst' = d0.
Proof.
  intros Hwf Hd0 Hdk0 Hl0 Hun1 Hc Hw.
  induction k as [|k IH]; intros d ms mst Hnth Hwf1 Hsv Hd Hk Hall; [lia|].
  assert (Hstep : ∀ dk, desktop_view m d = Some dk →
            desktop_view mst d = Some dk).
  { intros dk Hdk. destruct Hsv as (_ & _ & _ & _ & _ & _ & Hv). rewrite Hv. exact Hdk. }
  cbn [wintoclient_from].
  destruct (Z.eq_dec d d0) as [->|Hne].
  - pose proof (Hstep _ Hdk0) as Hdk1.
    destruct (switched_views mst d0 dk0 Hwf1 Hd0 Hdk1) as (Hsv' & Hwf' & Hcd' & Hlive').
    rewrite (bind_Some _ _ _ _ _
               (select_desktop_step h ms cur prev log mst d0 dk0 Hnth Hd0 Hwf1 Hdk1)).
    set (ms1 := <[Z.to_nat cur := switched mst d0 dk0]> ms).
    assert (Hnth1 : nth_z ms1 cur = Some (switched mst d0 dk0)) by (eapply nth_z_insert, Hnth).
    m_CM Hnth1. erewrite bind_Some; [|reflexivity]. norm_state.
    replace (head (switched mst d0 dk0)) with (d_head dk0) by reflexivity.
    rewrite (bind_lift _ (Some c)).
    2:{ pose proof Hl0 as Hl0'. unfold is_list in Hl0'.
        apply lseg_app in Hl0' as (x & H1 & H2). simpl in H2. destruct H2 as (-> & _).
        apply (scan_stops _ _ _ _ l1 c r H1); [apply untracked_stop, Hun1|exact Hc| |].
        - apply bool_decide_eq_true_2. exact Hw.
        - pose proof (is_list_length _ _ _ Hl0) as Hsz. rewrite length_app in Hsz.
          simpl in Hsz. lia. }
    exists (switched mst d0 dk0).
    split; [reflexivity|]. split; [exact Hwf'|].
    split; [eapply same_views_trans; eassumption|exact Hcd'].
  - destruct (Hall d ltac:(lia)) as (dk & l & Hdk & Hl & Hun).
    pose proof (Hstep _ Hdk) as Hdk1.
    destruct (switched_views mst d dk Hwf1 ltac:(lia) Hdk1) as (Hsv' & Hwf' & Hcd' & Hlive').
    rewrite (bind_Some _ _ _ _ _
               (select_desktop_step h ms cur prev log mst d dk Hnth ltac:(lia) Hwf1 Hdk1)).
    set (ms1 := <[Z.to_nat cur := switched mst d dk]> ms).
    assert (Hnth1 : nth_z ms1 cur = Some (switched mst d dk)) by (eapply nth_z_insert, Hnth).
    m_CM Hnth1. erewrite bind_Some; [|reflexivity]. norm_state.
    replace (head (switched mst d dk)) with (d_head dk) by reflexivity.
    rewrite (bind_lift _ None).
    2:{ apply (scan_passes _ _ _ _ l Hl); [apply untracked_stop, Hun|].
        eapply is_list_length, Hl. }
    destruct (IH (d + 1) ms1 (switched mst d dk)) as (mst' & Hrun & Hwf2 & Hsv2 & Hcd2);
      [exact Hnth1|exact Hwf'|eapply same_views_trans; eassumption|lia|lia| |].
    { intros d' Hd'. apply Hall. lia. }
    exists mst'. split; [|split; [exact Hwf2|split; [exact Hsv2|exact Hcd2]]].
    rewrite Hrun. unfold ms1. rewrite list_insert_insert_eq. reflexivity.
Qed.

(** What [wintoclient] returns on the current monitor, and the state it
    leaves. *)
Lemma wintoclient_none w h ms cur prev log m :
  nth_z ms cur = Some m → wf_desktops cfg m →
  (∀ d, 0 ≤ d < DESKTOPS cfg →
     ∃ dk l, desktop_view m d = Some dk ∧ is_list h (d_head dk) l ∧ untracked h l w) →
  ∃ m', wintoclient cfg w (mk_wm h ms cur prev log)
        = Some (None, mk_wm h (<[Z.to_nat cur := m']> ms) cur prev log)
        ∧ same_desktops m m' ∧ wf_desktops cfg m'.
Proof.
  intros Hnth Hwf Hall.
  destruct (wintoclient_from_none w h cur prev log m Hwf (Z.to_nat (DESKTOPS cfg)) 0 ms m)
    as (mst & Hrun & Hwf1 & Hsv1 & Hcd1);
    [exact Hnth|exact Hwf|apply same_views_refl|lia|destruct Hwf; lia|left; reflexivity| |].
  { intros d Hd. apply Hall. lia. }
  destruct (restore_desktop h (<[Z.to_nat cur := mst]> ms) cur prev log m mst (DESKTOPS cfg))
    as (m' & Hres & Hsd & Hwf');
    [eapply nth_z_insert, Hnth|exact Hwf|exact Hwf1|exact Hsv1|exact Hcd1|].
  exists m'. split; [|split; [exact Hsd|exact Hwf']].
  unfold wintoclient. m_CM Hnth. rewrite (bind_Some _ _ _ _ _ Hrun).
  rewrite (bind_Some _ _ _ _ _ Hres). rewrite list_insert_insert_eq. reflexivity.
Qed.

Lemma wintoclient_some w h ms cur prev log m d0 dk0 l1 c l2 r :
  nth_z ms cur = Some m → wf_desktops cfg m → 0 ≤ d0 < DESKTOPS cfg →
  (∀ d, 0 ≤ d < d0 →
     ∃ dk l, desktop_view m d = Some dk ∧ is_list h (d_head dk) l ∧ untracked h l w) →
  desktop_view m d0 = Some dk0 → is_list h (d_head dk0) (l1 ++ c :: l2) →
  untracked h l1 w → h !! c = Some r → win r = w →
  ∃ m', wintoclient cfg w (mk_wm h ms cur prev log)
        = Some (Some c, mk_wm h (<[Z.to_nat cur := m']> ms) cur prev log)
        ∧ same_desktops m m' ∧ wf_desktops cfg m'.
Proof.
  intros Hnth Hwf Hd0 Hall Hdk0 Hl0 Hun1 Hc Hw.
  destruct (wintoclient_from_found w h cur prev log m d0 dk0 l1 c l2 r Hwf Hd0 Hdk0 Hl0
              Hun1 Hc Hw (Z.to_nat (DESKTOPS cfg)) 0 ms m)
    as (mst & Hrun & Hwf1 & Hsv1 & Hcd1);
    [exact Hnth|exact Hwf|apply same_views_refl|lia|lia| |].
  { intros d Hd. apply Hall. lia. }
  destruct (restore_desktop h (<[Z.to_nat cur := mst]> ms) cur prev log m mst (d0 + 1))
    as (m' & Hres & Hsd & Hwf');
    [eapply nth_z_insert, Hnth|exact Hwf|exact Hwf1|exact Hsv1|lia|].
  exists m'. split; [|split; [exact Hsd|exact Hwf']].
  unfold wintoclient. m_CM Hnth. rewrite (bind_Some _ _ _ _ _ Hrun).
  rewrite (bind_Some _ _ _ _ _ Hres). rewrite list_insert_insert_eq. reflexivity.
Qed.

(** ** What [tile] sends *)

Lemma placed_windows_app l1 l2 :
  placed_windows (l1 ++ l2) = placed_windows l1 ++ placed_windows l2.
Proof. unfold placed_windows. apply omap_app. Qed.

Lemma tileable_windows_clients (h : gmap positive client) (cs : list (positive * client)) :
  Forall (λ c : positive * client, h !! c.1 = Some c.2) cs →
  tileable_windows h cs.*1 = win <$> filter (λ c, ISFFT c = false) cs.*2.
Proof.
  induction 1 as [|[a r] cs Hc Hall IH]; [reflexivity|].
  simpl in Hc. unfold tileable_windows in *. cbn [fmap list_fmap omap list_omap fst snd].
  rewrite Hc. cbn [mbind option_bind]. rewrite filter_cons.
  destruct (ISFFT r) eqn:E.
  - destruct (decide (true = false)) as [?|_]; [discriminate|]. exact IH.
  - destruct (decide (false = false)) as [_|?]; [|contradiction].
    cbn [fmap list_fmap]. f_equal. exact IH.
Qed.

Lemma monocle_requests (m : monitor) hh cy (cs : list (positive * client)) :
  let reqs := flat_map (λ c : positive * client,
                if ISFFT c.2 then [] else [xcb_move_resize (win c.2) 0 cy (ww m) hh]) cs in
  Forall is_move_resize reqs
  ∧ placed_windows reqs = win <$> filter (λ c, ISFFT c = false) cs.*2.
Proof.
  induction cs as [|[a r] cs [IH1 IH2]]; [split; [constructor|reflexivity]|].
  cbn [flat_map fmap list_fmap snd]. rewrite filter_cons.
  destruct (ISFFT r) eqn:E.
  - destruct (decide (true = false)) as [?|_]; [discriminate|]. split; assumption.
  - destruct (decide (false = false)) as [_|?]; [|contradiction].
    split; [constructor; [do 5 eexists; reflexivity|exact IH1]|].
    cbn [app fmap list_fmap]. unfold placed_windows in *. cbn [omap list_omap xcb_move_resize].
    change (XCB_MOVE_RESIZE =? XCB_MOVE_RESIZE) with true. cbn iota.
    f_equal. exact IH2.
Qed.

Lemma stack_rest_requests b cx cy cw ch z (cs : list client) :
  Forall is_move_resize (stack_rest b cx cy cw ch z cs)
  ∧ placed_windows (stack_rest b cx cy cw ch z cs) = win <$> cs.
Proof.
  revert cx cy. induction cs as [|c cs IH]; intros cx cy; [split; [constructor|reflexivity]|].
  cbn [stack_rest]. destruct b.
  - destruct (IH (cx + z) cy) as [IH1 IH2].
    split; [constructor; [do 5 eexists; reflexivity|exact IH1]|].
    unfold placed_windows in *. cbn [omap list_omap xcb_move_resize].
    change (XCB_MOVE_RESIZE =? XCB_MOVE_RESIZE) with true. cbn iota.
    cbn [fmap list_fmap]. f_equal. exact IH2.
  - destruct (IH cx (cy + z)) as [IH1 IH2].
    split; [constructor; [do 5 eexists; reflexivity|exact IH1]|].
    unfold placed_windows in *. cbn [omap list_omap xcb_move_resize].
    change (XCB_MOVE_RESIZE =? XCB_MOVE_RESIZE) with true. cbn iota.
    cbn [fmap list_fmap]. f_equal. exact IH2.
Qed.

Lemma grid_place_requests m cy n cols cw ch i rows cn rn (cs : list client) reqs :
  grid_place cfg m cy n cols cw ch i rows cn rn cs = Some reqs →
  Forall is_move_resize reqs ∧ placed_windows reqs = win <$> cs.
Proof.
  revert i rows cn rn reqs. induction cs as [|c cs IH]; intros i rows cn rn reqs H.
  - simpl in H. injection H as <-. split; [constructor|reflexivity].
  - cbn [grid_place] in H.
    destruct (cdiv (i + 1) rows) as [q|]; [|discriminate]. cbn [mbind option_bind] in H.
    destruct (cmod n cols) as [r|]; [|discriminate]. cbn [mbind option_bind] in H.
    destruct (if q + 1 >? cols - r then _ else _) as [rows'|]; [|discriminate].
    cbn [mbind option_bind] in H.
    destruct (cdiv (rn * ch) rows') as [yoff|]; [|discriminate]. cbn [mbind option_bind] in H.
    destruct (cdiv ch rows') as [chr|]; [|discriminate]. cbn [mbind option_bind] in H.
    destruct (if rn + 1 >=? rows' then _ else _) as [l|] eqn:El; [|discriminate].
    cbn [mbind option_bind] in H. injection H as <-.
    assert (Hl : Forall is_move_resize l ∧ placed_windows l = win <$> cs).
    { destruct (rn + 1 >=? rows'); eapply IH; exact El. }
    destruct Hl as [Hl1 Hl2].
    split; [constructor; [do 5 eexists; reflexivity|exact Hl1]|].
    unfold placed_windows in *. cbn [omap list_omap xcb_move_resize].
    change (XCB_MOVE_RESIZE =? XCB_MOVE_RESIZE) with true. cbn iota.
    cbn [fmap list_fmap]. f_equal. exact Hl2.
Qed.

(** [tile] on a proper list: it returns (the mode being GRID, as long as
    some client is tileable), changes nothing but the log, and sends one
    move-and-resize request for each client that is neither fullscreen nor
    floating nor transient, in list order, and nothing else. *)
Lemma tile_requests s m l :
  CM s = Some (m, s) → is_list (heap s) (head m) l →
  grid_safe (heap s) l (mode m) →
  ∃ reqs, tile cfg s = Some (tt, set_xlog (xlog s ++ reqs) s)
          ∧ Forall is_move_resize reqs
          ∧ placed_windows reqs = tileable_windows (heap s) l.
Proof.
  intros HCM Hl Hgrid.
  destruct (clients_is_list _ _ _ Hl) as (cs & Hcs & Hfst & Hall).
  rewrite <- Hfst, (tileable_windows_clients _ _ Hall).
  assert (Hnil : ∀ (x : list Z), x = [] →
            ∃ reqs, ret (A := unit) tt s = Some (tt, set_xlog (xlog s ++ reqs) s)
                    ∧ Forall is_move_resize reqs ∧ placed_windows reqs = x).
  { intros x ->. exists []. split; [|split; [constructor|reflexivity]].
    unfold ret. destruct s. unfold set_xlog. simpl. rewrite app_nil_r. reflexivity. }
  unfold tile. rewrite (bind_Some _ _ _ _ _ HCM).
  destruct (head m) as [a0|] eqn:Hhd.
  2:{ apply Hnil. unfold is_list in Hl. destruct l; simpl in Hl; [|destruct Hl; discriminate].
      destruct cs; [reflexivity|discriminate]. }
  destruct l as [|a0' l']; [unfold is_list in Hl; simpl in Hl; discriminate|].
  pose proof Hl as Hl0. unfold is_list in Hl0. simpl in Hl0.
  destruct Hl0 as ([= <-] & r0 & Hr0 & _).
  rewrite (bind_Some _ _ _ _ _ (load_Some _ _ _ Hr0)).
  assert (Hmono : ∀ hh cy, ∃ reqs, monocle hh cy s = Some (tt, set_xlog (xlog s ++ reqs) s)
            ∧ Forall is_move_resize reqs
            ∧ placed_windows reqs = win <$> filter (λ c, ISFFT c = false) cs.*2).
  { intros hh cy. unfold monocle. rewrite (bind_Some _ _ _ _ _ HCM).
    rewrite Hhd, (bind_Some _ _ _ _ _ Hcs). eexists. split; [reflexivity|].
    apply monocle_requests. }
  assert (Hstack : ∀ hh cy, ∃ reqs, stack cfg hh cy s = Some (tt, set_xlog (xlog s ++ reqs) s)
            ∧ Forall is_move_resize reqs
            ∧ placed_windows reqs = win <$> filter (λ c, ISFFT c = false) cs.*2).
  { intros hh cy. unfold stack. rewrite (bind_Some _ _ _ _ _ HCM).
    rewrite Hhd, (bind_Some _ _ _ _ _ Hcs).
    destruct (filter _ _) as [|c [|s1 rest]].
    - apply Hnil. reflexivity.
    - eexists. split; [reflexivity|]. split; [|reflexivity].
      constructor; [do 5 eexists; reflexivity|constructor].
    - eexists. split; [reflexivity|].
      match goal with |- context [stack_rest ?b ?cx ?cy' ?cw ?ch ?z rest] =>
        destruct (stack_rest_requests b cx cy' cw ch z rest) as [R1 R2] end.
      split.
      + constructor; [destruct (bool_decide _); do 5 eexists; reflexivity|].
        constructor; [destruct (bool_decide _); do 5 eexists; reflexivity|exact R1].
      + unfold placed_windows in *. cbn [omap list_omap].
        destruct (bool_decide (mode m = BSTACK)); cbn [xcb_move_resize];
          change (XCB_MOVE_RESIZE =? XCB_MOVE_RESIZE) with true; cbn iota;
          cbn [fmap list_fmap]; do 2 f_equal; exact R2. }
  assert (Hgridok : mode m = GRID → (2 ≤ length (a0 :: l'))%nat →
            ∀ hh cy, ∃ reqs, grid cfg hh cy s = Some (tt, set_xlog (xlog s ++ reqs) s)
            ∧ Forall is_move_resize reqs
            ∧ placed_windows reqs = win <$> filter (λ c, ISFFT c = false) cs.*2).
  { intros Hmode Hlen2 hh cy.
    destruct (Hgrid Hmode Hlen2) as (a & r & Hin & Hr & Hffi).
    unfold grid. rewrite (bind_Some _ _ _ _ _ HCM).
    rewrite Hhd, (bind_Some _ _ _ _ _ Hcs).
    set (ts := filter (λ c, ISFFT c = false) cs.*2).
    assert (Hts : 1 ≤ Z.of_nat (length ts)).
    { assert (Hr' : r ∈ ts).
      { apply list_elem_of_filter. split; [exact Hffi|].
        rewrite <- Hfst in Hin. apply list_elem_of_fmap in Hin as ([a' r'] & -> & Hin).
        apply list_elem_of_fmap. exists (a', r'). split; [|exact Hin].
        rewrite Forall_forall in Hall. specialize (Hall _ Hin). simpl in *.
        rewrite Hr in Hall. injection Hall as ->. reflexivity. }
      destruct ts; [inversion Hr'|simpl; lia]. }
    pose proof (grid_cols_le _ Hts) as Hcols.
    pose proof (grid_rows_eq _ Hts) as Hrows.
    unfold bind at 1. unfold lift at 1. rewrite Hrows.
    assert (Hr1 : 1 ≤ Z.of_nat (length ts) / grid_cols (Z.of_nat (length ts))).
    { apply Z.div_le_lower_bound; lia. }
    destruct (grid_place_total cfg m cy (Z.of_nat (length ts)) (grid_cols (Z.of_nat (length ts)))
                (Z.quot (ww m - BORDER_WIDTH cfg)
                   (if grid_cols (Z.of_nat (length ts)) =? 0 then 1
                    else grid_cols (Z.of_nat (length ts))))
                (hh - BORDER_WIDTH cfg)
                (-1) (Z.of_nat (length ts) / grid_cols (Z.of_nat (length ts))) 0 0 ts)
      as [reqs Hreqs]; [lia|lia|lia|].
    unfold bind, lift. rewrite Hreqs. exists reqs. split; [reflexivity|].
    eapply grid_place_requests, Hreqs. }
  destruct (next r0) as [a1|] eqn:Hn0; [|apply Hmono].
  assert (Hlen2 : (2 ≤ length (a0 :: l'))%nat).
  { unfold is_list in Hl. simpl in Hl. destruct Hl as (_ & r0' & Hr0' & Hrest).
    rewrite Hr0 in Hr0'. injection Hr0' as <-. rewrite Hn0 in Hrest.
    destruct l'; simpl in Hrest; [discriminate|simpl; lia]. }
  destruct (mode m) eqn:Hmode; simpl;
    [apply Hstack|apply Hmono|apply Hstack|apply Hgridok; [reflexivity|exact Hlen2]].
Qed.

(** ** [prev_client], going round the list *)

Lemma before_app l1 p c l2 :
  NoDup (l1 ++ p :: c :: l2) → before c (l1 ++ p :: c :: l2) = Some p.
Proof.
  induction l1 as [|a l1 IH]; intros Hnd.
  - simpl. destruct (decide (c = c)); [reflexivity|contradiction].
  - rewrite <- app_comm_cons in *. apply NoDup_cons in Hnd as [Ha Hnd].
    specialize (IH Hnd).
    destruct l1 as [|b l1].
    + simpl app in *. cbn [before].
      destruct (decide (p = c)) as [->|_]; [|exact IH].
      apply NoDup_cons in Hnd as [Hp _]. exfalso. apply Hp. left.
    + rewrite <- app_comm_cons in *. cbn [before].
      destruct (decide (b = c)) as [->|_]; [|exact IH].
      apply NoDup_cons in Hnd as [Hb _]. exfalso. apply Hb.
      apply elem_of_app. right. right. left.
Qed.

Lemma before_notin c l : c ∉ tail l → before c l = None.
Proof.
  induction l as [|a l IH]; intros Hc; [reflexivity|].
  destruct l as [|b t]; [reflexivity|]. cbn [before]. simpl in Hc.
  destruct (decide (b = c)) as [->|_]; [exfalso; apply Hc; left|].
  apply IH. simpl. intros Hin. apply Hc. right. exact Hin.
Qed.

Lemma prev_client_cyclic s m l c :
  CM s = Some (m, s) → is_list (heap s) (head m) l → l ≠ [] →
  prev_client (Some c) s = Some (cyclic_prev c l, s).
Proof.
  intros HCM Hl Hne.
  pose proof (is_list_NoDup _ _ _ Hl) as Hnd.
  pose proof (is_list_length _ _ _ Hl) as Hsz.
  destruct l as [|a0 [|a1 l']]; [contradiction| |].
  - unfold is_list in Hl. simpl in Hl. destruct Hl as (Hhd & r & Hr & Hn).
    unfold prev_client. rewrite (bind_Some _ _ _ _ _ HCM), Hhd.
    rewrite (bind_Some _ _ _ _ _ (load_Some _ _ _ Hr)), Hn. reflexivity.
  - pose proof Hl as Hl0. unfold is_list in Hl0. simpl in Hl0.
    destruct Hl0 as (Hhd & r0 & Hr0 & (Hn0 & _)).
    assert (Hstart : ∀ p, prev_client_from (size (heap s)) (heap s) c a0 = Some p →
                          prev_client (Some c) s = Some (Some p, s)).
    { intros p Hp. unfold prev_client. rewrite (bind_Some _ _ _ _ _ HCM).
      rewrite Hhd. rewrite (bind_Some _ _ _ _ _ (load_Some _ _ _ Hr0)).
      rewrite Hn0. unfold bind, get, lift. rewrite Hp. reflexivity. }
    set (l := a0 :: a1 :: l') in *.
    destruct (decide (c ∈ tail l)) as [Hin|Hnin].
    + assert (Hdec : ∃ l1 p l2, l = l1 ++ p :: c :: l2).
      { unfold l in *. simpl in Hin. apply list_elem_of_split in Hin as (t1 & t2 & E).
        destruct t1 as [|y t1 _] using rev_ind.
        - exists [], a0, t2. simpl in E. simpl. rewrite E. reflexivity.
        - exists (a0 :: t1), y, t2. rewrite E. rewrite <- app_assoc. reflexivity. }
      destruct Hdec as (l1 & p & l2 & El).
      assert (Hcp : cyclic_prev c l = Some p).
      { unfold cyclic_prev. unfold l at 1. rewrite El, before_app; [reflexivity|].
        rewrite <- El. exact Hnd. }
      rewrite Hcp. apply Hstart.
      assert (Hseg : lseg (heap s) (Some a0) (l1 ++ [p]) (Some c)).
      { unfold is_list in Hl. rewrite Hhd, El in Hl.
        replace (l1 ++ p :: c :: l2) with ((l1 ++ [p]) ++ c :: l2) in Hl
          by (rewrite <- app_assoc; reflexivity).
        apply lseg_app in Hl as (x & H1 & H2). simpl in H2. destruct H2 as (-> & _).
        exact H1. }
      eapply prev_client_from_lseg; [exact Hseg|right; reflexivity| |].
      * rewrite El in Hnd.
        replace (l1 ++ p :: c :: l2) with ((l1 ++ [p]) ++ c :: l2) in Hnd
          by (rewrite <- app_assoc; reflexivity).
        apply NoDup_app in Hnd as (_ & Hdisj & _).
        intros Hin'. apply (Hdisj c); [|left].
        destruct (l1 ++ [p]); [inversion Hin'|right; exact Hin'].
      * apply (f_equal length) in El. rewrite length_app in El. simpl in *. lia.
    + destruct (exists_last (l := l)) as (l1 & x & Ex); [discriminate|].
      assert (Hcp : cyclic_prev c l = Some x).
      { unfold cyclic_prev. unfold l at 1. fold l. rewrite (before_notin _ _ Hnin).
        rewrite Ex. apply last_snoc. }
      rewrite Hcp. apply Hstart.
      eapply (prev_client_from_lseg _ _ _ _ l1 x None).
      * unfold is_list in Hl. rewrite Hhd, Ex in Hl. exact Hl.
      * left. reflexivity.
      * rewrite <- Ex. exact Hnin.
      * apply (f_equal length) in Ex. rewrite length_app in Ex. simpl in *. lia.
Qed.

Lemma cyclic_prev_in c l p : cyclic_prev c l = Some p → p ∈ l.
Proof.
  unfold cyclic_prev. destruct l as [|a [|b t]]; try discriminate.
  set (l := a :: b :: t).
  destruct (before c l) as [q|] eqn:E.
  - intros [= <-]. clearbody l. clear -E. induction l as [|x l IH]; [discriminate|].
    destruct l as [|y l]; [discriminate|]. cbn [before] in E.
    destruct (decide (y = c)); [injection E as <-; left|right; apply IH, E].
  - intros H. apply last_Some_elem_of. exact H.
Qed.

Lemma cyclic_prev_ne c l p : NoDup l → cyclic_prev c l = Some p → p ≠ c.
Proof.
  intros Hnd. unfold cyclic_prev. destruct l as [|a [|b t]]; try discriminate.
  set (l := a :: b :: t) in *.
  destruct (before c l) as [q|] eqn:E.
  - intros [= <-]. clearbody l. revert Hnd E. clear. induction l as [|x l IH]; [discriminate|].
    intros Hnd E. destruct l as [|y l]; [discriminate|]. cbn [before] in E.
    apply NoDup_cons in Hnd as [Hx Hnd].
    destruct (decide (y = c)) as [->|_].
    + injection E as <-. intros ->. apply Hx. left.
    + apply IH; assumption.
  - intros Hlast ->.
    destruct (decide (c ∈ tail l)) as [Hin|Hnin].
    + unfold l in Hin. simpl in Hin. apply list_elem_of_split in Hin as (t1 & t2 & Et).
      assert (∃ l1 p l2, l = l1 ++ p :: c :: l2) as (l1 & p & l2 & El).
      { destruct t1 as [|y t1 _] using rev_ind.
        - exists [], a, t2. unfold l. simpl in Et. rewrite Et. reflexivity.
        - exists (a :: t1), y, t2. unfold l. rewrite Et, <- app_assoc. reflexivity. }
      rewrite El, before_app in E; [discriminate|]. rewrite <- El. exact Hnd.
    + apply Hnin. unfold l in *. simpl.
      rewrite last_cons_cons in Hlast. apply last_Some_elem_of. exact Hlast.
Qed.

(** ** What [update_current] does to the focus *)

Lemma focus_requests_app l1 l2 :
  focus_requests (l1 ++ l2) = focus_requests l1 ++ focus_requests l2.
Proof. unfold focus_requests. apply omap_app. Qed.

Lemma update_current_client_quiet single m c :
  focus_requests (update_current_client cfg xe single m c) = []
  ∧ placed_windows (update_current_client cfg xe single m c) = []
  ∧ Forall keeps_mapping (update_current_client cfg xe single m c).
Proof.
  unfold update_current_client, xcb_border_width, xcb_raise_window.
  destruct (CLICK_TO_FOCUS cfg), (isfloating c.2 || istransient c.2);
    (split; [reflexivity|split; [reflexivity|repeat constructor]]).
Qed.

Lemma update_current_pass_quiet s m l :
  CM s = Some (m, s) → is_list (heap s) (head m) l →
  ∃ reqs, update_current_pass cfg xe s = Some (tt, set_xlog (xlog s ++ reqs) s)
          ∧ focus_requests reqs = [] ∧ placed_windows reqs = []
          ∧ Forall keeps_mapping reqs.
Proof.
  intros HCM Hl. destruct (clients_is_list _ _ _ Hl) as (cs & Hcs & _ & _).
  unfold update_current_pass.
  rewrite (bind_Some _ _ _ _ _ HCM), (bind_Some _ _ _ _ _ Hcs).
  destruct cs as [|hd cs'].
  - exists []. split; [|split; [reflexivity|split; [reflexivity|constructor]]].
    unfold ret. destruct s. unfold set_xlog. simpl. rewrite app_nil_r. reflexivity.
  - eexists. split; [reflexivity|].
    generalize (bool_decide (next hd.2 = None)). intros single. clear Hcs.
    induction (hd :: cs') as [|c cs IH]; [split; [reflexivity|split; [reflexivity|constructor]]|].
    cbn [flat_map]. rewrite focus_requests_app, placed_windows_app.
    destruct (update_current_client_quiet single m c) as (-> & -> & Hk).
    destruct IH as (IH1 & IH2 & IH3).
    split; [exact IH1|split; [exact IH2|apply Forall_app; split; assumption]].
Qed.

Lemma grabbuttons_quiet w :
  focus_requests (grabbuttons cfg xe w) = [] ∧ placed_windows (grabbuttons cfg xe w) = []
  ∧ Forall keeps_mapping (grabbuttons cfg xe w).
Proof.
  unfold grabbuttons.
  induction (buttons cfg) as [|b bs (IH1 & IH2 & IH3)];
    [split; [reflexivity|split; [reflexivity|constructor]]|].
  cbn [flat_map]. rewrite focus_requests_app, placed_windows_app, IH1, IH2.
  split; [reflexivity|split; [reflexivity|]].
  apply Forall_app. split; [repeat constructor|exact IH3].
Qed.

Lemma focus_reqs_focus r :
  focus_requests (focus_reqs cfg xe r) = [win r] ∧ placed_windows (focus_reqs cfg xe r) = []
  ∧ Forall keeps_mapping (focus_reqs cfg xe r).
Proof.
  unfold focus_reqs. rewrite !focus_requests_app, !placed_windows_app.
  assert (H1 : focus_requests (if CLICK_TO_FOCUS cfg then grabbuttons cfg xe (win r) else []) = []
               ∧ placed_windows (if CLICK_TO_FOCUS cfg then grabbuttons cfg xe (win r) else [])
                 = []
               ∧ Forall keeps_mapping
                   (if CLICK_TO_FOCUS cfg then grabbuttons cfg xe (win r) else [])).
  { destruct (CLICK_TO_FOCUS cfg); [apply grabbuttons_quiet|].
    split; [reflexivity|split; [reflexivity|constructor]]. }
  destruct H1 as (-> & -> & Hk).
  split; [destruct (isfloating r || istransient r); reflexivity|].
  split; [destruct (isfloating r || istransient r); reflexivity|].
  apply Forall_app. split; [destruct (isfloating r || istransient r); repeat constructor|].
  apply Forall_app. split; [repeat constructor|exact Hk].
Qed.

Lemma move_resize_keeps_mapping reqs :
  Forall is_move_resize reqs → Forall keeps_mapping reqs.
Proof.
  intros H. eapply Forall_impl; [exact H|]. intros r (w & x & y & wd & ht & ->). exact I.
Qed.

Lemma focus_requests_move_resize reqs :
  Forall is_move_resize reqs → focus_requests reqs = [].
Proof.
  induction 1 as [|r reqs (w & x & y & wd & ht & ->) _ IH]; [reflexivity|]. exact IH.
Qed.

(** The monitor [update_current(c)] leaves: only [current] and [prevfocus]
    change. *)
Lemma update_current_focus h ms cur prev log mm (l : list positive) c r :
  nth_z ms cur = Some mm → is_list h (head mm) l → c ∈ l → h !! c = Some r →
  grid_safe h l (mode mm) →
  let pf' := if decide (Some c = prevfocus mm) then cyclic_prev c l
             else if decide (Some c ≠ current mm) then current mm
             else prevfocus mm in
  ∃ reqs,
    update_current cfg xe (Some c) (mk_wm h ms cur prev log)
    = Some (tt, mk_wm h (<[Z.to_nat cur := set_prevfocus pf' (set_current (Some c) mm)]> ms)
                  cur prev (log ++ reqs))
    ∧ focus_requests reqs = [win r]
    ∧ placed_windows reqs = tileable_windows h l
    ∧ ChangeProperty (root xe) (NET_ACTIVE xe) XCB_ATOM_WINDOW [win r] ∈ reqs
    ∧ Forall keeps_mapping reqs.
Proof.
  intros Hnth Hl Hin Hr Hsafe pf'.
  assert (Hne : l ≠ []) by (intros ->; inversion Hin).
  set (mm' := set_prevfocus pf' (set_current (Some c) mm)).
  set (ms' := <[Z.to_nat cur := mm']> ms).
  assert (Hnth' : nth_z ms' cur = Some mm') by (eapply nth_z_insert, Hnth).
  (* the first part: the two focus fields *)
  assert (Hfirst : ∀ {A} (k : unit → M A),
            bind (if decide (Some c = prevfocus mm)
                  then setCM (λ m, set_current (prevfocus m) m) ;;;
                       let* m := CM in
                       let* p := prev_client (current m) in
                       setCM (set_prevfocus p)
                  else if decide (Some c ≠ current mm)
                       then setCM (λ m, set_current (Some c) (set_prevfocus (current m) m))
                       else ret tt) k (mk_wm h ms cur prev log)
            = k tt (mk_wm h ms' cur prev log)).
  { intros A k. unfold pf' in mm'. destruct (decide (Some c = prevfocus mm)) as [Hpf|Hpf].
    - set (mm1 := set_current (prevfocus mm) mm).
      set (ms1 := <[Z.to_nat cur := mm1]> ms).
      assert (Hnth1 : nth_z ms1 cur = Some mm1) by (eapply nth_z_insert, Hnth).
      assert (Hp : prev_client (Some c) (mk_wm h ms1 cur prev log)
                   = Some (cyclic_prev c l, mk_wm h ms1 cur prev log)).
      { eapply prev_client_cyclic; [apply CM_of_nth; exact Hnth1|exact Hl|exact Hne]. }
      rewrite !bind_assoc. m_setCM Hnth. fold mm1 ms1.
      rewrite bind_assoc. m_CM Hnth1. rewrite bind_assoc.
      replace (current mm1) with (Some c) by exact Hpf.
      rewrite (bind_Some _ _ _ _ _ Hp).
      m_setCM Hnth1. unfold ms', ms1. rewrite list_insert_insert_eq.
      unfold mm', mm1. rewrite <- Hpf. reflexivity.
    - destruct (decide (Some c ≠ current mm)) as [Hc|Hc].
      + m_setCM Hnth. unfold ms', mm'.
        replace (set_prevfocus (current mm) (set_current (Some c) mm))
          with (set_current (Some c) (set_prevfocus (current mm) mm)) by reflexivity.
        reflexivity.
      + rewrite bind_ret_l. unfold ms', mm'.
        apply dec_stable in Hc. rewrite Hc.
        replace (set_prevfocus (prevfocus mm) (set_current (current mm) mm)) with mm
          by (destruct mm; reflexivity).
        rewrite list_insert_id; [reflexivity|].
        apply nth_z_lookup in Hnth as [_ Hnth]. exact Hnth. }
  destruct (update_current_pass_quiet (mk_wm h ms' cur prev log) mm' l)
    as (reqs1 & Hpass & Hf1 & Hp1 & Hk1); [apply CM_of_nth; exact Hnth'|exact Hl|].
  destruct (tile_requests (mk_wm h ms' cur prev ((log ++ reqs1) ++ focus_reqs cfg xe r)) mm' l)
    as (reqs3 & Htile & Hmr & Hp3); [apply CM_of_nth; exact Hnth'|exact Hl|exact Hsafe|].
  exists (reqs1 ++ focus_reqs cfg xe r ++ reqs3).
  destruct (focus_reqs_focus r) as (Hf2 & Hp2 & Hk2).
  split; [|split; [|split; [|split]]].
  - unfold update_current. m_CM Hnth.
    rewrite Hfirst.
    rewrite (bind_Some _ _ _ _ _ Hpass). norm_state.
    m_CM Hnth'. replace (current mm') with (Some c) by reflexivity.
    m_load Hr. fold (focus_reqs cfg xe r).
    erewrite bind_Some; [|reflexivity].
    unfold set_xlog. norm_state.
    rewrite Htile. norm_state. rewrite <- !app_assoc. reflexivity.
  - rewrite !focus_requests_app, Hf1, Hf2, (focus_requests_move_resize _ Hmr). reflexivity.
  - rewrite !placed_windows_app, Hp1, Hp2, Hp3. reflexivity.
  - apply elem_of_app. right. apply elem_of_app. left. unfold focus_reqs.
    apply elem_of_app. right. left.
  - apply Forall_app. split; [exact Hk1|]. apply Forall_app. split; [exact Hk2|].
    apply move_resize_keeps_mapping. exact Hmr.
Qed.

(** ** [next_win] and [prev_win] *)

Lemma after_app l1 c t :
  c ∉ l1 → after c (l1 ++ c :: t) = match t with b :: _ => Some b | [] => None end.
Proof.
  induction l1 as [|a l1 IH]; intros Hc.
  - simpl. destruct (decide (c = c)); [reflexivity|contradiction].
  - apply not_elem_of_cons in Hc as [Hca Hc]. rewrite <- app_comm_cons. cbn [after].
    destruct (decide (a = c)); [congruence|]. apply IH, Hc.
Qed.

Lemma next_is_after h p l c r :
  is_list h p l → c ∈ l → h !! c = Some r → next r = after c l.
Proof.
  intros Hl Hin Hr. pose proof (is_list_NoDup _ _ _ Hl) as Hnd.
  apply list_elem_of_split in Hin as (l1 & l2 & ->).
  assert (Hc1 : c ∉ l1).
  { apply NoDup_app in Hnd as (_ & Hd & _). intros Hc. apply (Hd c Hc). left. }
  rewrite (after_app _ _ _ Hc1).
  unfold is_list in Hl. apply lseg_app in Hl as (x & _ & H2).
  simpl in H2. destruct H2 as (-> & r' & Hr' & H2). rewrite Hr in Hr'. injection Hr' as <-.
  destruct l2 as [|b l2]; simpl in H2; [exact H2|]. destruct H2 as [H2 _]. exact H2.
Qed.

Lemma cyclic_next_prev l c n :
  NoDup l → c ∈ l → (2 ≤ length l)%nat → cyclic_next c l = Some n →
  cyclic_prev n l = Some c ∧ n ≠ c ∧ n ∈ l.
Proof.
  intros Hnd Hin Hlen Hn. apply list_elem_of_split in Hin as (l1 & l2 & ->).
  assert (Hc1 : c ∉ l1).
  { apply NoDup_app in Hnd as (_ & Hd & _). intros Hc. apply (Hd c Hc). left. }
  unfold cyclic_next in Hn. rewrite (after_app _ _ _ Hc1) in Hn.
  destruct l2 as [|b l2].
  - destruct l1 as [|a l1]; [simpl in Hlen; lia|].
    rewrite <- app_comm_cons in *. injection Hn as <-.
    apply NoDup_cons in Hnd as [Ha Hnd'].
    split; [|split; [|left]].
    + assert (Hb : before a (a :: l1 ++ [c]) = None) by (apply before_notin; exact Ha).
      assert (Hlast : last (a :: l1 ++ [c]) = Some c)
        by (rewrite app_comm_cons; apply last_snoc).
      unfold cyclic_prev. rewrite Hb, Hlast. destruct l1; reflexivity.
    + intros ->. apply Ha. apply elem_of_app. right. left.
  - injection Hn as <-.
    assert (Hbc : b ≠ c).
    { apply NoDup_app in Hnd as (_ & _ & Hd). apply NoDup_cons in Hd as [Hd _].
      intros ->. apply Hd. left. }
    split; [|split; [exact Hbc|apply elem_of_app; right; right; left]].
    unfold cyclic_prev. rewrite before_app by exact Hnd.
    destruct l1 as [|x [|y t]]; reflexivity.
Qed.

Lemma set_xlog_set_monitors ms l s :
  set_xlog l (set_monitors ms s)
  = mk_wm (heap s) ms (current_monitor s) (previous_monitor s) l.
Proof. reflexivity. Qed.

(** X2. [next_win] on a proper list that holds the current client [c]:
    with a single client nothing happens; otherwise the client after [c],
    the head after the last one, becomes the current client and receives
    the input focus, and [c] becomes the previously focused client.  Only
    these two fields of the monitor change, and the heap is untouched. *)
Theorem next_win_focuses (s : wm) (m : monitor) (l : list positive) (c : positive) :
  CM s = Some (m, s) → is_list (heap s) (head m) l → current m = Some c → c ∈ l →
  grid_safe (heap s) l (mode m) →
  (length l = 1%nat → next_win cfg xe s = Some (tt, s))
  ∧ ((2 ≤ length l)%nat →
     ∃ n rn reqs,
       cyclic_next c l = Some n ∧ n ≠ c ∧ heap s !! n = Some rn
       ∧ next_win cfg xe s
         = Some (tt, set_xlog (xlog s ++ reqs)
                       (set_monitors
                          (<[Z.to_nat (current_monitor s) :=
                               set_prevfocus (Some c) (set_current (Some n) m)]> (monitors s))
                          s))
       ∧ focus_requests reqs = [win rn]).
Proof.
  intros HCM Hl Hcur Hin Hsafe.
  pose proof (is_list_NoDup _ _ _ Hl) as Hnd.
  destruct (lseg_lookup _ _ _ _ _ Hl Hin) as [rc Hrc].
  pose proof (next_is_after _ _ _ _ _ Hl Hin Hrc) as Hnext.
  apply CM_inv in HCM as [_ Hnth].
  destruct s as [h ms cur prev log]. simpl in *.
  destruct l as [|a0 l']; [inversion Hin|].
  pose proof Hl as Hl0. unfold is_list in Hl0. simpl in Hl0.
  destruct Hl0 as (Hhd & r0 & Hr0 & Hrest).
  split.
  - intros Hlen. destruct l'; [|simpl in Hlen; lia]. simpl in Hrest.
    unfold next_win. m_CM Hnth. rewrite Hcur, Hhd. m_load Hr0. rewrite Hrest. reflexivity.
  - intros Hlen. destruct l' as [|a1 l'']; [simpl in Hlen; lia|].
    simpl in Hrest. destruct Hrest as (Hn0 & _).
    set (l := a0 :: a1 :: l'') in *.
    assert (Hcn : ∃ n, cyclic_next c l = Some n
                       ∧ Some n = match next rc with Some _ => next rc | None => head m end).
    { unfold cyclic_next. rewrite <- Hnext. destruct (next rc) as [n|].
      - exists n. split; reflexivity.
      - exists a0. split; [reflexivity|]. symmetry. exact Hhd. }
    destruct Hcn as (n & Hcn & Hsel).
    destruct (cyclic_next_prev l c n Hnd Hin Hlen Hcn) as (Hprev & Hnc & Hnin).
    destruct (lseg_lookup _ _ _ _ _ Hl Hnin) as [rn Hrn].
    assert (Hpf : (if decide (Some n = prevfocus m) then cyclic_prev n l
                   else if decide (Some n ≠ current m) then current m else prevfocus m)
                  = Some c).
    { rewrite Hprev. destruct (decide (Some n = prevfocus m)); [reflexivity|].
      destruct (decide (Some n ≠ current m)) as [_|Hc]; [exact Hcur|].
      exfalso. apply Hc. rewrite Hcur. congruence. }
    destruct (update_current_focus h ms cur prev log m l n rn Hnth Hl Hnin Hrn Hsafe)
      as (reqs & Hupd & Hfoc & _).
    rewrite Hpf in Hupd.
    exists n, rn, reqs. split; [exact Hcn|]. split; [exact Hnc|]. split; [exact Hrn|].
    split; [|exact Hfoc].
    unfold next_win. m_CM Hnth. rewrite Hcur, Hhd. m_load Hr0. rewrite Hn0.
    m_load Hrc. rewrite <- Hhd, <- Hsel.
    rewrite Hupd. reflexivity.
Qed.

(** X3. [prev_win] on a proper list that holds the current client [c]:
    with at least two clients the client before [c], the last one before
    the head, becomes the current client and receives the input focus, and
    [c] becomes the previously focused client; with [c] alone on the list
    the desktop is left without a current client: the active-window
    property is deleted and both focus fields are cleared. *)
Theorem prev_win_focuses (s : wm) (m : monitor) (l : list positive) (c : positive) :
  CM s = Some (m, s) → is_list (heap s) (head m) l → current m = Some c → c ∈ l →
  grid_safe (heap s) l (mode m) →
  (length l = 1%nat →
     prev_win cfg xe s
     = Some (tt, set_xlog (xlog s ++ [DeleteProperty (root xe) (NET_ACTIVE xe)])
                   (set_monitors
                      (<[Z.to_nat (current_monitor s) :=
                           set_current None (set_prevfocus None m)]> (monitors s)) s)))
  ∧ ((2 ≤ length l)%nat →
     ∃ p rp reqs,
       cyclic_prev c l = Some p ∧ p ≠ c ∧ heap s !! p = Some rp
       ∧ prev_win cfg xe s
         = Some (tt, set_xlog (xlog s ++ reqs)
                       (set_monitors
                          (<[Z.to_nat (current_monitor s) :=
                               set_prevfocus (Some c) (set_current (Some p) m)]> (monitors s))
                          s))
       ∧ focus_requests reqs = [win rp]).
Proof.
  intros HCM Hl Hcur Hin Hsafe.
  pose proof (is_list_NoDup _ _ _ Hl) as Hnd.
  apply CM_inv in HCM as [_ Hnth].
  destruct s as [h ms cur prev log]. simpl in *.
  set (m1 := set_prevfocus (current m) m).
  set (ms1 := <[Z.to_nat cur := m1]> ms).
  assert (Hnth1 : nth_z ms1 cur = Some m1) by (eapply nth_z_insert, Hnth).
  assert (Hne : l ≠ []) by (intros ->; inversion Hin).
  assert (Hp : prev_client (Some c) (mk_wm h ms1 cur prev log)
               = Some (cyclic_prev c l, mk_wm h ms1 cur prev log)).
  { eapply prev_client_cyclic; [apply CM_of_nth; exact Hnth1|exact Hl|exact Hne]. }
  assert (Hrun : prev_win cfg xe (mk_wm h ms cur prev log)
                 = update_current cfg xe (cyclic_prev c l) (mk_wm h ms1 cur prev log)).
  { unfold prev_win. m_CM Hnth. m_setCM Hnth. fold m1 ms1. rewrite Hcur.
    rewrite (bind_Some _ _ _ _ _ Hp). reflexivity. }
  split.
  - intros Hlen. destruct l as [|a [|b t]]; simpl in Hlen; try lia.
    rewrite Hrun. cbn [cyclic_prev]. unfold update_current.
    erewrite bind_Some; [|reflexivity]. unfold set_xlog at 1. norm_state.
    erewrite setCM_eq; [|apply CM_of_nth; exact Hnth1]. norm_state.
    unfold ms1. rewrite list_insert_insert_eq. reflexivity.
  - intros Hlen.
    assert (Hpp : ∃ p, cyclic_prev c l = Some p).
    { destruct l as [|a [|b t]]; simpl in Hlen; try lia.
      unfold cyclic_prev. destruct (before c _); [eexists; reflexivity|].
      rewrite last_cons_cons. destruct (last (b :: t)) eqn:E; [eexists; reflexivity|].
      apply last_None in E. discriminate. }
    destruct Hpp as (p & Hpp).
    pose proof (cyclic_prev_in _ _ _ Hpp) as Hpin.
    pose proof (cyclic_prev_ne _ _ _ Hnd Hpp) as Hpc.
    destruct (lseg_lookup _ _ _ _ _ Hl Hpin) as [rp Hrp].
    assert (Hpf : (if decide (Some p = prevfocus m1) then cyclic_prev p l
                   else if decide (Some p ≠ current m1) then current m1 else prevfocus m1)
                  = Some c).
    { unfold m1. cbn [prevfocus current set_prevfocus]. rewrite Hcur.
      destruct (decide (Some p = Some c)) as [E|_]; [congruence|].
      destruct (decide (Some p ≠ Some c)) as [_|E]; [reflexivity|].
      exfalso. apply E. congruence. }
    destruct (update_current_focus h ms1 cur prev log m1 l p rp Hnth1 Hl Hpin Hrp Hsafe)
      as (reqs & Hupd & Hfoc & _).
    rewrite Hpf in Hupd.
    exists p, rp, reqs. split; [exact Hpp|]. split; [exact Hpc|]. split; [exact Hrp|].
    split; [|exact Hfoc].
    rewrite Hrun, Hpp, Hupd. rewrite set_xlog_set_monitors. norm_state.
    unfold ms1. rewrite list_insert_insert_eq. unfold m1. reflexivity.
Qed.

(** ** The stack area of [stack] *)

Lemma stack_rest_rects b cx cy cw ch z (cs : list client) :
  ∃ gs, stack_rest b cx cy cw ch z cs = rect_request <$> gs
        ∧ r_win <$> gs = win <$> cs
        ∧ ∀ k g, gs !! k = Some g →
            r_pos b g = (if b then cx else cy) + Z.of_nat k * z ∧ r_len b g = ch.
Proof.
  revert cx cy. induction cs as [|c cs IH]; intros cx cy.
  - exists []. split; [reflexivity|]. split; [reflexivity|].
    intros k g Hk. rewrite lookup_nil in Hk. discriminate.
  - destruct b.
    + destruct (IH (cx + z) cy) as (gs & Hgs & Hw & Hpos).
      exists (mk_rect (win c) cx cy ch cw :: gs). cbn [stack_rest fmap list_fmap].
      rewrite Hgs. split; [reflexivity|]. split; [cbn; f_equal; exact Hw|].
      intros [|k] g Hk; simpl in Hk.
      * injection Hk as <-. cbn. split; lia.
      * destruct (Hpos k g Hk) as [H1 H2]. split; [|exact H2]. rewrite H1. lia.
    + destruct (IH cx (cy + z)) as (gs & Hgs & Hw & Hpos).
      exists (mk_rect (win c) cx cy cw ch :: gs). cbn [stack_rest fmap list_fmap].
      rewrite Hgs. split; [reflexivity|]. split; [cbn; f_equal; exact Hw|].
      intros [|k] g Hk; simpl in Hk.
      * injection Hk as <-. cbn. split; lia.
      * destruct (Hpos k g Hk) as [H1 H2]. split; [|exact H2]. rewrite H1. lia.
Qed.

(** X4. [stack] with a master and at least one stack client.  The stack
    clients are lined up along one axis -- downwards from the top of the
    work area in TILE mode, rightwards from the left edge in BSTACK mode --
    each one starting one border width after the extent of the one before,
    and the last one ends, with its two borders, exactly at the end of the
    available height (TILE) or of the monitor width (BSTACK): growth and the
    remainder of the division are absorbed by the first stack client. *)
Theorem stack_fills_axis (s : wm) (m : monitor) (hh cy : Z)
    (cs : list (positive * client)) (c s1 : client) (rest : list client) :
  CM s = Some (m, s) → clients (head m) s = Some (cs, s) →
  filter (λ c, ISFFT c = false) cs.*2 = c :: s1 :: rest →
  let b := bool_decide (mode m = BSTACK) in
  let bw := BORDER_WIDTH cfg in
  ∃ gm gs,
    stack cfg hh cy s
    = Some (tt, set_xlog (xlog s ++ rect_request gm :: (rect_request <$> gs)) s)
    ∧ r_win gm = win c ∧ r_win <$> gs = win <$> (s1 :: rest)
    ∧ (∃ g0, gs !! 0%nat = Some g0 ∧ r_pos b g0 = if b then 0 else cy)
    ∧ (∀ k g g', gs !! k = Some g → gs !! S k = Some g' →
         r_pos b g' = r_pos b g + r_len b g + bw)
    ∧ (∃ gl, last gs = Some gl
             ∧ r_pos b gl + r_len b gl + 2 * bw = if b then ww m else cy + hh).
Proof.
  intros HCM Hcs Hts b bw.
  set (Z0 := if b then ww m else hh).
  set (n := Z.of_nat (length (s1 :: rest))).
  set (d := if n >? 1 then Z.rem (Z0 - growth m) n + growth m else 0).
  set (z := if n >? 1 then Z.quot (Z0 - growth m) n else Z0).
  set (ma := master_size m).
  set (ch := z - bw).
  set (cw := (if b then hh else ww m) - 2 * bw - ma).
  set (P0 := if b then 0 else cy).
  assert (Hn : 1 ≤ n) by (unfold n; simpl; lia).
  assert (Hsum : Z.of_nat (length rest) * z + z + d = Z0).
  { unfold z, d. destruct (Z.gtb_spec n 1) as [Hgt|Hle].
    - pose proof (Z.quot_rem' (Z0 - growth m) n) as Hq.
      replace (Z.of_nat (length rest)) with (n - 1) by (unfold n; simpl; lia). lia.
    - assert (length rest = 0%nat) as -> by (unfold n in Hle; simpl in Hle; lia). lia. }
  destruct (stack_rest_rects b (if b then 0 + (ch + d) else ma)
              (if b then cy + ma else cy + (ch + d)) cw ch z rest)
    as (gr & Hgr & Hwr & Hposr).
  set (g1 := if b then mk_rect (win s1) 0 (cy + ma) (ch - bw + d) cw
             else mk_rect (win s1) ma cy cw (ch - bw + d)).
  set (gm := if b then mk_rect (win c) 0 cy (ww m - 2 * bw) (ma - bw)
             else mk_rect (win c) 0 cy (ma - bw) (hh - 2 * bw)).
  exists gm, (g1 :: gr).
  assert (Hpos1 : r_pos b g1 = P0 ∧ r_len b g1 = ch - bw + d).
  { unfold g1, P0. destruct b; split; reflexivity. }
  assert (Hposr' : ∀ k g, gr !! k = Some g →
            r_pos b g = P0 + (ch + d) + Z.of_nat k * z ∧ r_len b g = ch).
  { intros k g Hk. destruct (Hposr k g Hk) as [H1 H2]. split; [|exact H2].
    rewrite H1. unfold P0. destruct b; lia. }
  split; [|split; [|split; [|split; [|split]]]].
  - unfold stack. rewrite (bind_Some _ _ _ _ _ HCM), (bind_Some _ _ _ _ _ Hcs), Hts.
    fold b bw n. fold Z0. fold d z. fold ma. fold ch. fold cw.
    unfold emit, modify. do 4 f_equal. cbn [fmap list_fmap]. rewrite <- Hgr.
    unfold gm, g1. destruct b; reflexivity.
  - unfold gm. destruct b; reflexivity.
  - cbn [fmap list_fmap]. f_equal; [unfold g1; destruct b; reflexivity|exact Hwr].
  - exists g1. split; [reflexivity|apply Hpos1].
  - intros [|k] g g' Hk Hk'; simpl in Hk, Hk'.
    + injection Hk as <-. destruct (Hposr' 0%nat g' Hk') as [H1 _].
      destruct Hpos1 as [-> ->]. rewrite H1. unfold ch. lia.
    + destruct (Hposr' k g Hk) as [H1 H2]. destruct (Hposr' (S k) g' Hk') as [H3 _].
      rewrite H3, H1, H2. unfold ch. lia.
  - assert (Hlen : length gr = length rest).
    { apply (f_equal length) in Hwr. rewrite !length_fmap in Hwr. exact Hwr. }
    destruct gr as [|g2 gr0 _] using rev_ind.
    + exists g1. split; [reflexivity|]. destruct Hpos1 as [-> ->].
      simpl in Hlen. rewrite <- Hlen in Hsum. simpl in Hsum.
      unfold P0, Z0, ch in *. destruct b; lia.
    + exists g2. split; [rewrite app_comm_cons; apply last_snoc|].
      rewrite length_app in Hlen. simpl in Hlen.
      destruct (Hposr' (length gr0) g2) as [H1 H2].
      { rewrite lookup_app_r by lia. rewrite Nat.sub_diag. reflexivity. }
      rewrite H1, H2.
      replace (Z.of_nat (length rest)) with (Z.of_nat (length gr0) + 1) in Hsum by lia.
      unfold P0, Z0, ch in *. destruct b; lia.
Qed.

(** ** [areatomonitor]: the first monitor that holds the point *)

Lemma areatomonitor_from_first ms m x y k mon :
  ms !! k = Some mon → strictly_inside mon x y →
  (∀ j monj, (j < k)%nat → ms !! j = Some monj → ¬ strictly_inside monj x y) →
  areatomonitor_from ms m x y = Some (m + Z.of_nat k).
Proof.
  revert m k. induction ms as [|mon0 ms IH]; intros m k Hk Hin Hbefore.
  - rewrite lookup_nil in Hk. discriminate.
  - simpl. destruct k as [|k].
    + simpl in Hk. injection Hk as ->. unfold strictly_inside in Hin.
      destruct (Z.ltb_spec (wx mon) x); [|lia].
      destruct (Z.gtb_spec (wx mon + ww mon) x); [|lia].
      destruct (Z.ltb_spec (wy mon) y); [|lia].
      destruct (Z.gtb_spec (wy mon + wh mon) y); [|lia].
      simpl. f_equal. lia.
    + simpl in Hk. destruct (_ && _) eqn:E.
      * exfalso. apply (Hbefore 0%nat mon0); [lia|reflexivity|].
        rewrite !andb_true_iff in E. destruct E as [[[E1 E2] E3] E4].
        unfold strictly_inside. lia.
      * rewrite (IH (m + 1) k Hk Hin).
        -- f_equal. lia.
        -- intros j monj Hj Hmj. apply (Hbefore (S j) monj); [lia|exact Hmj].
Qed.

(** X5. [areatomonitor] returns the index of the first monitor whose
    working rectangle strictly contains the point. *)
Theorem areatomonitor_first_containing (s : wm) (x y : Z) (k : nat) (mon : monitor) :
  monitors s !! k = Some mon → strictly_inside mon x y →
  (∀ j monj, (j < k)%nat → monitors s !! j = Some monj → ¬ strictly_inside monj x y) →
  areatomonitor x y s = Z.of_nat k.
Proof.
  intros Hk Hin Hbefore. unfold areatomonitor.
  rewrite (areatomonitor_from_first _ 0 x y k mon Hk Hin Hbefore). reflexivity.
Qed.

(** ** Button grabs and the test of [buttonpress] *)

Lemma CLEANMASK_lock_bits mask md :
  md ∈ [0; XCB_MOD_MASK_LOCK; numlockmask xe; Z.lor (numlockmask xe) XCB_MOD_MASK_LOCK] →
  CLEANMASK xe (Z.lor mask md) = CLEANMASK xe mask.
Proof.
  intros Hmd. unfold CLEANMASK, u32.
  set (X := Z.lor (numlockmask xe) XCB_MOD_MASK_LOCK).
  assert (Hsub : ∀ i, Z.testbit md i = true → Z.testbit X i = true).
  { intros i Hi. unfold X. rewrite Z.lor_spec.
    repeat (apply elem_of_cons in Hmd as [->|Hmd]).
    - rewrite Z.bits_0 in Hi. discriminate.
    - rewrite Hi. apply orb_true_r.
    - rewrite Hi. reflexivity.
    - rewrite Z.lor_spec in Hi. exact Hi.
    - inversion Hmd. }
  apply Z.bits_inj'. intros i Hi. rewrite !Z.land_spec, Z.lor_spec.
  destruct (Z.testbit md i) eqn:Emd; [|rewrite orb_false_r; reflexivity].
  specialize (Hsub i Emd).
  assert (HK : Z.testbit (Z.lnot X mod 2 ^ 32) i = false).
  { destruct (Z.lt_ge_cases i 32) as [Hlt|Hge].
    - rewrite Z.mod_pow2_bits_low by lia. rewrite Z.lnot_spec by lia. rewrite Hsub. reflexivity.
    - apply Z.mod_pow2_bits_high. lia. }
  rewrite HK, !andb_false_r. reflexivity.
Qed.

Lemma bind_skip (m k : M unit) s :
  (∀ s', k s' = Some (tt, s')) → (m ;;; k) s = m s.
Proof.
  intros Hk. unfold bind. destruct (m s) as [[[] s']|]; [apply Hk|reflexivity].
Qed.

Lemma buttonpress_from_lock c detail state md bs :
  md ∈ [0; XCB_MOD_MASK_LOCK; numlockmask xe; Z.lor (numlockmask xe) XCB_MOD_MASK_LOCK] →
  ∀ fs, buttonpress_from cfg xe c detail (Z.lor state md) bs fs
        = buttonpress_from cfg xe c detail state bs fs.
Proof.
  intros Hmd. induction bs as [|b bs IH]; intros [|f fs]; try reflexivity.
  cbn [buttonpress_from]. rewrite (CLEANMASK_lock_bits _ _ Hmd), IH. reflexivity.
Qed.

Lemma buttonpress_from_none c detail state bs :
  (∀ b, b ∈ bs → b.2 ≠ detail ∨ CLEANMASK xe b.1 ≠ CLEANMASK xe state) →
  ∀ fs s, buttonpress_from cfg xe c detail state bs fs s = Some (tt, s).
Proof.
  induction bs as [|b bs IH]; intros Hno [|f fs] s; try reflexivity.
  cbn [buttonpress_from].
  assert (Hb : (b.2 =? detail) && (CLEANMASK xe b.1 =? CLEANMASK xe state) = false).
  { apply andb_false_iff. destruct (Hno b) as [H|H]; [left|left|right]; apply Z.eqb_neq, H. }
  rewrite Hb.
  assert (Hrest := IH (λ b' Hb', Hno b' (list_elem_of_further _ _ _ Hb')) fs s).
  destruct f; exact Hrest.
Qed.

Lemma buttonpress_from_one c b md bs1 bs2 f fs2 s :
  md ∈ [0; XCB_MOD_MASK_LOCK; numlockmask xe; Z.lor (numlockmask xe) XCB_MOD_MASK_LOCK] →
  (∀ b', b' ∈ bs1 ++ bs2 → b'.2 ≠ b.2 ∨ CLEANMASK xe b'.1 ≠ CLEANMASK xe b.1) →
  ∀ fs1, length fs1 = length bs1 →
  buttonpress_from cfg xe c b.2 (Z.lor b.1 md) (bs1 ++ b :: bs2) (fs1 ++ f :: fs2) s
  = match f with
    | Some run => (update_current cfg xe c ;;; run) s
    | None => Some (tt, s)
    end.
Proof.
  intros Hmd Hno fs1. rewrite (buttonpress_from_lock _ _ _ _ _ Hmd). revert fs1.
  induction bs1 as [|b0 bs1 IH]; intros [|f0 fs1] Hlen; try discriminate.
  - cbn [app buttonpress_from]. rewrite !Z.eqb_refl. cbn [andb].
    destruct f as [run|].
    + apply bind_skip. intros s'. apply buttonpress_from_none. exact Hno.
    + exact (buttonpress_from_none _ _ _ _ Hno fs2 s).
  - cbn [app buttonpress_from].
    assert (Hb : (b0.2 =? b.2) && (CLEANMASK xe b0.1 =? CLEANMASK xe b.1) = false).
    { apply andb_false_iff. destruct (Hno b0) as [H|H]; [left|left|right]; apply Z.eqb_neq, H. }
    rewrite Hb.
    assert (Hrest := IH (λ b' Hb', Hno b' (list_elem_of_further _ _ _ Hb')) fs1
                        (f_equal Nat.pred Hlen)).
    destruct f0; exact Hrest.
Qed.

(** X6. A binding of [buttons] and one of the four states of NumLock and
    CapsLock.  [grabbuttons] grabs the binding's button with its modifiers
    combined with that state, whether the binding has a function or not,
    and grabs nothing that is not of this form.  [buttonpress] does the
    same whatever lock bits the state of the event carries.  For the press
    this grab delivers, when no other binding has the same button and the
    same modifiers apart from the lock bits: [buttonpress] returns at once
    for a window that [wintoclient] does not find; for a client it gives
    the click-to-focus its turn and then, when the binding has a function,
    focuses the client and runs the function once; when the function
    pointer is null it runs nothing. *)
Theorem grabbed_buttons_match (fs : list (option (M unit))) (w event : Z) (b : Z * Z)
    (md : Z) (bs1 bs2 : list (Z * Z)) (fs1 fs2 : list (option (M unit)))
    (f : option (M unit)) (s : wm) :
  buttons cfg = bs1 ++ b :: bs2 → fs = fs1 ++ f :: fs2 → length fs1 = length bs1 →
  md ∈ [0; XCB_MOD_MASK_LOCK; numlockmask xe; Z.lor (numlockmask xe) XCB_MOD_MASK_LOCK] →
  GrabButton w b.2 (Z.lor b.1 md) ∈ grabbuttons cfg xe w
  ∧ (∀ req, req ∈ grabbuttons cfg xe w →
       ∃ b' md', b' ∈ buttons cfg
         ∧ md' ∈ [0; XCB_MOD_MASK_LOCK; numlockmask xe;
                  Z.lor (numlockmask xe) XCB_MOD_MASK_LOCK]
         ∧ req = GrabButton w b'.2 (Z.lor b'.1 md'))
  ∧ (∀ detail state,
       buttonpress cfg xe fs event detail (Z.lor state md) s
       = buttonpress cfg xe fs event detail state s)
  ∧ (∀ s1, wintoclient cfg event s = Some (None, s1) →
       buttonpress cfg xe fs event b.2 (Z.lor b.1 md) s = Some (tt, s1))
  ∧ (∀ c m s1, wintoclient cfg event s = Some (Some c, s1) → CM s1 = Some (m, s1) →
       (∀ b', b' ∈ bs1 ++ bs2 → b'.2 ≠ b.2 ∨ CLEANMASK xe b'.1 ≠ CLEANMASK xe b.1) →
       buttonpress cfg xe fs event b.2 (Z.lor b.1 md) s
       = (when (CLICK_TO_FOCUS cfg && bool_decide (current m ≠ Some c)
                && (b.2 =? XCB_BUTTON_INDEX_1))
               (update_current cfg xe (Some c)) ;;;
          match f with
          | Some run => update_current cfg xe (Some c) ;;; run
          | None => ret tt
          end) s1).
Proof.
  intros Hbs Hfs Hlen Hmd.
  split; [|split; [|split; [|split]]].
  - unfold grabbuttons. apply list_elem_of_In, in_flat_map. exists b.
    split; [apply list_elem_of_In; rewrite Hbs; apply elem_of_app; right; left|].
    apply list_elem_of_In, list_elem_of_fmap. exists md. split; [reflexivity|exact Hmd].
  - unfold grabbuttons. intros req Hreq.
    apply list_elem_of_In, in_flat_map in Hreq as (b' & Hb' & Hreq).
    apply list_elem_of_In in Hb'.
    apply list_elem_of_In, list_elem_of_fmap in Hreq as (md' & -> & Hmd').
    exists b', md'. split; [exact Hb'|]. split; [exact Hmd'|reflexivity].
  - intros detail state. unfold buttonpress, bind.
    destruct (wintoclient cfg event s) as [[[c|] s1]|]; [|reflexivity..].
    destruct (CM s1) as [[m s2]|]; [|reflexivity].
    match goal with |- context [when ?g ?u s2] => destruct (when g u s2) as [[[] s3]|] end;
      [|reflexivity].
    rewrite (buttonpress_from_lock _ _ _ _ _ Hmd). reflexivity.
  - intros s1 Hw. unfold buttonpress. rewrite (bind_Some _ _ _ _ _ Hw). reflexivity.
  - intros c m s1 Hw HCM Hno. unfold buttonpress.
    rewrite (bind_Some _ _ _ _ _ Hw), (bind_Some _ _ _ _ _ HCM). unfold bind.
    match goal with |- context [when ?g ?u s1] => destruct (when g u s1) as [[[] s2]|] end;
      [|reflexivity].
    rewrite Hbs, Hfs, (buttonpress_from_one _ _ _ _ _ _ _ _ Hmd Hno _ Hlen).
    destruct f; reflexivity.
Qed.

(** ** [rotate_filled] *)

Lemma mod_step D cd x :
  0 < D → 0 ≤ cd < D → - D ≤ x ≤ D →
  (D + cd + x) mod D
  = if cd + x <? 0 then cd + x + D else if cd + x <? D then cd + x else cd + x - D.
Proof.
  intros HD Hcd Hx. symmetry.
  destruct (Z.ltb_spec (cd + x) 0); [apply (Z.mod_unique_pos _ _ 0); lia|].
  destruct (Z.ltb_spec (cd + x) D); [apply (Z.mod_unique_pos _ _ 1); lia|].
  apply (Z.mod_unique_pos _ _ 2); lia.
Qed.

Lemma rotate_filled_from_steps m i k :
  0 < DESKTOPS cfg → i = 1 ∨ i = -1 → 1 ≤ k ≤ DESKTOPS cfg → 0 ≤ current_desktop m →
  (∀ j, 1 ≤ j < k → saved_empty m ((DESKTOPS cfg + current_desktop m + i * j) mod DESKTOPS cfg)) →
  (i * k < DESKTOPS cfg →
   saved_filled m ((DESKTOPS cfg + current_desktop m + i * k) mod DESKTOPS cfg)) →
  ∀ fuel j, 1 ≤ j ≤ k → k - j ≤ Z.of_nat fuel →
    rotate_filled_from cfg fuel m i (i * j) = Some (i * k).
Proof.
  intros HD Hi Hk Hcd Hempty Hfilled.
  assert (Hidx : ∀ j, 1 ≤ j ≤ k →
            cmod (DESKTOPS cfg + current_desktop m + i * j) (DESKTOPS cfg)
            = Some ((DESKTOPS cfg + current_desktop m + i * j) mod DESKTOPS cfg)).
  { intros j Hj. unfold cmod. destruct (Z.eqb_spec (DESKTOPS cfg) 0); [lia|].
    rewrite Z.rem_mod_nonneg by lia. reflexivity. }
  induction fuel as [|fuel IH]; intros j Hj Hfuel.
  - assert (j = k) as -> by lia. simpl.
    destruct (Z.ltb_spec (i * k) (DESKTOPS cfg)) as [Hlt|Hge]; [|reflexivity].
    rewrite (Hidx k) by lia. cbn [mbind option_bind].
    destruct (Hfilled Hlt) as (dk & a & -> & Ha). cbn [mbind option_bind]. rewrite Ha.
    reflexivity.
  - cbn [rotate_filled_from].
    destruct (Z.ltb_spec (i * j) (DESKTOPS cfg)) as [Hlt|Hge].
    + rewrite (Hidx j) by lia. cbn [mbind option_bind].
      destruct (Z.eq_dec j k) as [->|Hne].
      * destruct (Hfilled Hlt) as (dk & a & -> & Ha). cbn [mbind option_bind]. rewrite Ha.
        reflexivity.
      * destruct (Hempty j ltac:(lia)) as (dk & -> & Ha). cbn [mbind option_bind].
        rewrite Ha. replace (i * j + i) with (i * (j + 1)) by lia. apply IH; lia.
    + assert (j = k) as -> by (destruct Hi as [-> | ->]; lia). reflexivity.
Qed.

(** X7. [rotate_filled] with step [+1] or [-1] goes to the nearest desktop
    in that direction whose saved entry holds clients, and stays where it
    is -- the whole state unchanged -- when no other saved entry does (for
    step [-1]: and the saved entry of the current desktop itself holds
    clients). *)
Theorem rotate_filled_nearest (s : wm) (m : monitor) (i : Z) :
  CM s = Some (m, s) → wf_desktops cfg m → i = 1 ∨ i = -1 →
  let D := DESKTOPS cfg in
  let at_step j := (D + current_desktop m + i * j) mod D in
  (∀ k, 1 ≤ k < D →
     (∀ j, 1 ≤ j < k → saved_empty m (at_step j)) → saved_filled m (at_step k) →
     at_step k ≠ current_desktop m
     ∧ rotate_filled cfg xe i s = change_desktop cfg xe (at_step k) s)
  ∧ ((∀ j, 1 ≤ j < D → saved_empty m (at_step j)) →
     (i = -1 → saved_filled m (current_desktop m)) →
     rotate_filled cfg xe i s = Some (tt, s)).
Proof.
  intros HCM [Hcd Hlen] Hi D at_step.
  assert (Hcmod : ∀ k, 1 ≤ k ≤ D →
            cmod (D + current_desktop m + i * k) D = Some (at_step k)).
  { intros k Hk. unfold cmod, D. destruct (Z.eqb_spec (DESKTOPS cfg) 0); [lia|].
    rewrite Z.rem_mod_nonneg by (destruct Hi as [-> | ->]; lia). reflexivity. }
  split.
  - intros k Hk Hempty Hfilled. split.
    + unfold at_step, D. rewrite (mod_step _ _ (i * k)) by (destruct Hi as [-> | ->]; lia).
      destruct Hi as [-> | ->]; repeat case_match; lia.
    + unfold rotate_filled. rewrite (bind_Some _ _ _ _ _ HCM).
      rewrite (bind_lift _ (i * k)).
      * rewrite (bind_lift _ (at_step k)); [reflexivity|]. apply Hcmod. lia.
      * replace i with (i * 1) at 2 by lia.
        apply (rotate_filled_from_steps m i k); try lia; try assumption.
        intros _. exact Hfilled.
  - intros Hempty Hself.
    assert (Hat : at_step D = current_desktop m).
    { unfold at_step, D.
      rewrite (mod_step _ _ (i * DESKTOPS cfg)) by (destruct Hi as [-> | ->]; lia).
      destruct Hi as [-> | ->]; repeat case_match; lia. }
    unfold rotate_filled. rewrite (bind_Some _ _ _ _ _ HCM).
    rewrite (bind_lift _ (i * D)).
    + rewrite (bind_lift _ (at_step D)); [|apply Hcmod; unfold D; lia].
      rewrite Hat. unfold change_desktop. rewrite (bind_Some _ _ _ _ _ HCM).
      rewrite Z.eqb_refl. reflexivity.
    + replace i with (i * 1) at 2 by lia.
      apply (rotate_filled_from_steps m i D); try (unfold D; lia); try assumption.
      intros Hlt. change (saved_filled m (at_step D)). rewrite Hat. apply Hself.
      destruct Hi as [-> | ->]; [unfold D in Hlt; lia|reflexivity].
Qed.

Lemma rotate_filled_from_nowhere m i :
  i ≤ 0 → (∀ dk, dk ∈ desktops m → d_head dk = None) →
  ∀ fuel n, n ≤ 0 → 0 < DESKTOPS cfg → rotate_filled_from cfg fuel m i n = None.
Proof.
  intros Hi Hall. induction fuel as [|fuel IH]; intros n Hn HD.
  - simpl. destruct (Z.ltb_spec n (DESKTOPS cfg)); [|lia].
    destruct (cmod _ _) as [idx|]; [|reflexivity]. cbn [mbind option_bind].
    destruct (nth_z (desktops m) idx) as [dk|] eqn:E; [|reflexivity].
    cbn [mbind option_bind]. rewrite (Hall dk); [reflexivity|].
    apply nth_z_lookup in E as [_ E]. eapply list_elem_of_lookup_2, E.
  - cbn [rotate_filled_from]. destruct (Z.ltb_spec n (DESKTOPS cfg)); [|lia].
    destruct (cmod _ _) as [idx|]; [|reflexivity]. cbn [mbind option_bind].
    destruct (nth_z (desktops m) idx) as [dk|] eqn:E; [|reflexivity].
    cbn [mbind option_bind]. rewrite (Hall dk).
    + apply IH; lia.
    + apply nth_z_lookup in E as [_ E]. eapply list_elem_of_lookup_2, E.
Qed.

(** X8. When no saved entry of the monitor holds a client (no window has
    been mapped yet, say), [rotate_filled] with a negative step does not
    return: its loop has no lower bound on [n], and the index
    [(DESKTOPS + current_desktop + n) % DESKTOPS] becomes negative as soon
    as the dividend does (with a single desktop it stays 0 for ever). *)
Theorem rotate_filled_backward_off_the_array (s : wm) (m : monitor) (i : Z) :
  CM s = Some (m, s) → 0 < DESKTOPS cfg → i < 0 →
  (∀ dk, dk ∈ desktops m → d_head dk = None) →
  rotate_filled cfg xe i s = None
  ∧ (1 < DESKTOPS cfg → 0 ≤ current_desktop m → i = -1 →
     cmod (DESKTOPS cfg + current_desktop m + i * (DESKTOPS cfg + current_desktop m + 1))
          (DESKTOPS cfg) = Some (-1)
     ∧ nth_z (desktops m) (-1) = None).
Proof.
  intros HCM HD Hi Hall. split.
  - unfold rotate_filled. rewrite (bind_Some _ _ _ _ _ HCM).
    unfold bind, lift. rewrite rotate_filled_from_nowhere; [reflexivity|lia|exact Hall|lia|lia].
  - intros HD1 Hcd ->. split; [|reflexivity].
    unfold cmod. destruct (Z.eqb_spec (DESKTOPS cfg) 0); [lia|]. f_equal.
    replace (DESKTOPS cfg + current_desktop m + -1 * (DESKTOPS cfg + current_desktop m + 1))
      with (-1) by lia.
    apply Z.rem_small_iff; lia.
Qed.

(** ** [addwindow] *)

Lemma fresh_not_in_heap (h : gmap positive client) : h !! fresh (dom h) = None.
Proof. apply not_elem_of_dom. apply is_fresh. Qed.

Lemma lseg_fresh h p l q c : lseg h p l q → h !! c = None → c ∉ l.
Proof.
  intros Hl Hc Hin. destruct (lseg_lookup _ _ _ _ _ Hl Hin) as [r Hr]. congruence.
Qed.

(** [addwindow] on a proper list. *)
Lemma addwindow_spec (s : wm) (m : monitor) (l : list positive) (w : Z) :
  CM s = Some (m, s) → is_list (heap s) (head m) l →
  let c := fresh (dom (heap s)) in
  ∃ h' hd' n,
    addwindow cfg w s
    = Some (Some c,
            mk_wm h' (<[Z.to_nat (current_monitor s) := set_head hd' m]> (monitors s))
              (current_monitor s) (previous_monitor s)
              (xlog s ++ [ChangeWindowAttributes w XCB_CW_EVENT_MASK
                            [Z.lor XCB_EVENT_MASK_PROPERTY_CHANGE
                               (if FOLLOW_MOUSE cfg then XCB_EVENT_MASK_ENTER_WINDOW
                                else 0)]]))
    ∧ heap s !! c = None
    ∧ h' !! c = Some (mk_client n 0 false false false false w)
    ∧ is_list h' hd' (if ATTACH_ASIDE cfg then l ++ [c] else c :: l)
    ∧ kept_except c (heap s) h'
    ∧ (∀ a, a ∉ l → a ≠ c → h' !! a = heap s !! a).
Proof.
  intros HCM Hl c.
  pose proof (fresh_not_in_heap (heap s)) as Hc. fold c in Hc.
  pose proof (lseg_fresh _ _ _ _ c Hl Hc) as Hcl.
  apply CM_inv in HCM as [_ Hnth].
  destruct s as [h ms cur prev log]. simpl in Hnth, Hl, Hc, Hcl. cbn [heap] in c.
  set (zero := mk_client None 0 false false false false 0).
  set (h0 := <[c := zero]> h).
  assert (Hc0 : h0 !! c = Some zero) by apply lookup_insert_eq.
  assert (Hrel0 : ∀ h1 r, kept_except c h h1 → kept_except c h (<[c := r]> h1)).
  { intros h1 r H a Ha. rewrite lookup_insert_ne by congruence. apply H, Ha. }
  assert (Hrelh0 : kept_except c h h0).
  { intros a Ha. unfold h0. rewrite lookup_insert_ne by congruence.
    destruct (h !! a) as [x|]; [symmetry; apply set_next_self|exact I]. }
  destruct l as [|a l'].
  - (* the list is empty *)
    unfold is_list in Hl. simpl in Hl.
    exists (<[c := set_win w zero]> h0), (Some c), None.
    split; [|split; [exact Hc|split; [apply lookup_insert_eq|split; [|split]]]].
    + unfold addwindow. m_CM Hnth. rewrite Hl. cbn [prev_client]. rewrite bind_ret_l.
      erewrite bind_Some; [|reflexivity]. cbn [heap]. fold c zero.
      erewrite bind_Some; [|reflexivity]. unfold set_heap. norm_state. fold h0.
      m_setCM Hnth. m_store Hc0.
      erewrite bind_Some; [|reflexivity]. reflexivity.
    + destruct (ATTACH_ASIDE cfg); unfold is_list; simpl;
        (split; [reflexivity|]; eexists; split; [apply lookup_insert_eq|reflexivity]).
    + apply Hrel0. exact Hrelh0.
    + intros a _ Ha. unfold h0. rewrite !lookup_insert_ne by congruence. reflexivity.
  - (* the list has a first client [a] *)
    assert (Hne : a :: l' ≠ []) by discriminate.
    pose proof Hl as Hl0. unfold is_list in Hl0. simpl in Hl0.
    destruct Hl0 as (Hhd & ra & Hra & Hrest).
    assert (Hac : a ≠ c) by (intros ->; apply Hcl; left).
    assert (Ht : prev_client (head m) (mk_wm h ms cur prev log)
                 = Some (cyclic_prev a (a :: l'), mk_wm h ms cur prev log)).
    { rewrite Hhd. eapply prev_client_cyclic; [apply CM_of_nth; exact Hnth|exact Hl|exact Hne]. }
    destruct (ATTACH_ASIDE cfg) eqn:Easide.
    + (* appended after the last client [x] *)
      destruct (exists_last (l := a :: l')) as (l0 & x & El); [discriminate|].
      assert (Hlast : ∀ t, cyclic_prev a (a :: l') = t →
                match t with Some _ => t | None => head m end = Some x).
      { intros t <-. destruct l' as [|b l''].
        - simpl. destruct l0 as [|y [|z l0]]; simpl in El; try discriminate.
          injection El as <-. exact Hhd.
        - unfold cyclic_prev. rewrite before_notin.
          + rewrite El. rewrite last_snoc. reflexivity.
          + simpl. pose proof (is_list_NoDup _ _ _ Hl) as Hnd.
            apply NoDup_cons in Hnd as [Hnd _]. exact Hnd. }
      assert (Hxl : x ∈ a :: l') by (rewrite El; apply elem_of_app; right; left).
      assert (Hxc : x ≠ c) by (intros ->; contradiction).
      pose proof Hl as Hl1. unfold is_list in Hl1. rewrite El in Hl1.
      apply lseg_snoc in Hl1 as (rx & Hseg & Hrx & Hxn).
      assert (Hx0 : x ∉ l0).
      { pose proof (is_list_NoDup _ _ _ Hl) as Hnd. rewrite El in Hnd.
        apply NoDup_app in Hnd as (_ & Hd & _). intros Hx. apply (Hd x Hx). left. }
      assert (Hcl0 : c ∉ l0) by (intros Hx; apply Hcl; rewrite El; apply elem_of_app; left; exact Hx).
      assert (Hx1 : h0 !! x = Some rx) by (unfold h0; rewrite lookup_insert_ne by congruence; exact Hrx).
      set (h1 := <[x := set_next (Some c) rx]> h0).
      assert (Hc1 : h1 !! c = Some zero)
        by (unfold h1; rewrite lookup_insert_ne by congruence; exact Hc0).
      exists (<[c := set_win w zero]> h1), (head m), None.
      split; [|split; [exact Hc|split; [apply lookup_insert_eq|split; [|split]]]].
      * unfold addwindow. m_CM Hnth. rewrite (bind_Some _ _ _ _ _ Ht).
        erewrite bind_Some; [|reflexivity]. cbn [heap]. fold c zero.
        erewrite bind_Some; [|reflexivity]. unfold set_heap. norm_state. fold h0.
        rewrite Hhd, Easide. cbn [negb]. rewrite <- Hhd.
        assert (Hst : (match cyclic_prev a (a :: l') with
                       | Some _ => store (cyclic_prev a (a :: l')) (set_next (Some c))
                       | None => store (head m) (set_next (Some c))
                       end) (mk_wm h0 ms cur prev log)
                      = Some (tt, mk_wm h1 ms cur prev log)).
        { specialize (Hlast _ eq_refl).
          destruct (cyclic_prev a (a :: l')) as [t|]; rewrite Hlast;
            erewrite store_Some; [reflexivity|exact Hx1|reflexivity|exact Hx1]. }
        rewrite (bind_Some _ _ _ _ _ Hst). m_store Hc1.
        erewrite bind_Some; [|reflexivity]. unfold ret. norm_state.
        rewrite (insert_same_head _ _ _ Hnth). reflexivity.
      * unfold is_list. rewrite El, <- app_assoc. apply lseg_app. exists (Some x). split.
        -- apply lseg_insert_notin; [exact Hcl0|].
           apply lseg_insert_notin; [exact Hx0|].
           apply lseg_insert_notin; [exact Hcl0|exact Hseg].
        -- simpl. split; [reflexivity|]. eexists.
           split; [rewrite lookup_insert_ne by congruence; apply lookup_insert_eq|].
           simpl. split; [reflexivity|]. eexists. split; [apply lookup_insert_eq|reflexivity].
      * apply Hrel0. intros b Hb. unfold h1.
        destruct (decide (x = b)) as [->|Hxb].
        -- rewrite lookup_insert_eq, Hrx. reflexivity.
        -- rewrite lookup_insert_ne by exact Hxb. apply Hrelh0, Hb.
      * intros b Hb Hbc. unfold h1, h0.
        assert (x ≠ b) by (intros ->; contradiction).
        rewrite !lookup_insert_ne by congruence. reflexivity.
    + (* put before the first client *)
      set (h1 := <[c := set_next (Some a) zero]> h0).
      assert (Hc1 : h1 !! c = Some (set_next (Some a) zero)) by apply lookup_insert_eq.
      exists (<[c := set_win w (set_next (Some a) zero)]> h1), (Some c), (Some a).
      split; [|split; [exact Hc|split; [apply lookup_insert_eq|split; [|split]]]].
      * unfold addwindow. m_CM Hnth. rewrite (bind_Some _ _ _ _ _ Ht).
        erewrite bind_Some; [|reflexivity]. cbn [heap]. fold c zero.
        erewrite bind_Some; [|reflexivity]. unfold set_heap. norm_state. fold h0.
        rewrite Hhd, Easide. cbn [negb]. rewrite !bind_assoc. m_store Hc0. fold h1.
        m_setCM Hnth. m_store Hc1. erewrite bind_Some; [|reflexivity]. reflexivity.
      * unfold is_list. simpl. split; [reflexivity|]. eexists.
        split; [apply lookup_insert_eq|]. simpl. split; [reflexivity|].
        exists ra. split.
        -- unfold h1, h0. rewrite !lookup_insert_ne by congruence. exact Hra.
        -- assert (Hcl' : c ∉ l') by (intros Hx; apply Hcl; right; exact Hx).
           repeat (apply lseg_insert_notin; [exact Hcl'|]). exact Hrest.
      * apply Hrel0. unfold h1. apply Hrel0. exact Hrelh0.
      * intros b _ Hbc. unfold h1, h0. rewrite !lookup_insert_ne by congruence. reflexivity.
Qed.

(** X9. [addwindow] on a proper list: a client at an address that was
    not in use is linked to the list -- after the last client when
    ATTACH_ASIDE is set, before the first one otherwise; it holds the
    window and has every flag clear.  The clients that were there keep
    their order and their fields, the monitor changes in its [head] only,
    and the one request sent selects the events of the window. *)
Theorem addwindow_links (s : wm) (m : monitor) (l : list positive) (w : Z) :
  CM s = Some (m, s) → is_list (heap s) (head m) l →
  let c := fresh (dom (heap s)) in
  ∃ h' hd' n,
    addwindow cfg w s
    = Some (Some c,
            mk_wm h' (<[Z.to_nat (current_monitor s) := set_head hd' m]> (monitors s))
              (current_monitor s) (previous_monitor s)
              (xlog s ++ [ChangeWindowAttributes w XCB_CW_EVENT_MASK
                            [Z.lor XCB_EVENT_MASK_PROPERTY_CHANGE
                               (if FOLLOW_MOUSE cfg then XCB_EVENT_MASK_ENTER_WINDOW
                                else 0)]]))
    ∧ heap s !! c = None
    ∧ h' !! c = Some (mk_client n 0 false false false false w)
    ∧ is_list h' hd' (if ATTACH_ASIDE cfg then l ++ [c] else c :: l)
    ∧ kept_except c (heap s) h'.
Proof.
  intros HCM Hl c.
  destruct (addwindow_spec s m l w HCM Hl) as (h' & hd' & n & H1 & H2 & H3 & H4 & H5 & _).
  exists h', hd', n. auto.
Qed.

(** ** [desktopinfo] *)

Lemma chain_clients s p cs s' :
  clients p s = Some (cs, s') → chain (size (heap s)) (heap s) p = Some cs ∧ s' = s.
Proof.
  unfold clients, lift. destruct (chain _ _ _); [|discriminate].
  intros [= <- <-]. split; reflexivity.
Qed.

(** The inner loop, over the desktops of monitor [mi]. *)
Lemma desktopinfo_desktops_spec s0 mi m prev :
  wf_desktops cfg m → proper_desktops cfg (heap s0) m →
  ∀ k d ms mst log,
    nth_z ms mi = Some mst → wf_desktops cfg mst → same_views m mst →
    length ms = length (monitors s0) → 0 ≤ d → Z.of_nat k = DESKTOPS cfg - d →
    ∃ mst' recs,
      desktop_records cfg s0 mi m k d = Some recs
      ∧ desktopinfo_desktops cfg k (current_monitor s0) mi (current_desktop m) d
          (mk_wm (heap s0) ms mi prev log)
        = Some (DESKTOPS cfg, mk_wm (heap s0) (<[Z.to_nat mi := mst']> ms) mi prev (log ++ recs))
      ∧ wf_desktops cfg mst' ∧ same_views m mst'.
Proof.
  intros Hwf Hproper.
  induction k as [|k IH]; intros d ms mst log Hnth Hwf1 Hsv Hlen Hd Hk.
  - exists mst, []. split; [reflexivity|]. split; [|split; assumption].
    simpl. unfold ret. rewrite app_nil_r. replace d with (DESKTOPS cfg) by lia.
    rewrite list_insert_id; [reflexivity|]. apply nth_z_lookup in Hnth as [_ Hnth]. exact Hnth.
  - destruct (Hproper d ltac:(lia)) as (dk & l & Hdk & Hl).
    assert (Hdk1 : desktop_view mst d = Some dk).
    { destruct Hsv as (_ & _ & _ & _ & _ & _ & Hv). rewrite Hv. exact Hdk. }
    destruct (switched_views mst d dk Hwf1 ltac:(lia) Hdk1) as (Hsv' & Hwf' & Hcd' & Hlive').
    set (ms1 := <[Z.to_nat mi := switched mst d dk]> ms).
    assert (Hnth1 : nth_z ms1 mi = Some (switched mst d dk)) by (eapply nth_z_insert, Hnth).
    set (s1 := mk_wm (heap s0) ms1 mi prev log).
    destruct (clients_is_list s1 (d_head dk) l Hl) as (cs & Hcs & _ & _).
    destruct (chain_clients _ _ _ _ Hcs) as [Hchain _]. cbn [heap s1] in Hchain.
    set (rec := mk_info mi (mi =? current_monitor s0) d (Z.of_nat (length cs))
                  (mode_id (d_mode dk)) (d =? current_desktop m)
                  (existsb (λ c : positive * client, isurgent c.2) cs)
                  ((mi + 1 =? MONITORS s0) && (d + 1 =? DESKTOPS cfg))).
    assert (Hrec : desktop_record cfg s0 mi m d = Some rec).
    { unfold desktop_record. rewrite Hdk. cbn [mbind option_bind]. rewrite Hchain.
      reflexivity. }
    destruct (IH (d + 1) ms1 (switched mst d dk) (log ++ [Printf rec]))
      as (mst' & recs & Hrecs & Hrun & Hwf2 & Hsv2);
      [exact Hnth1|exact Hwf'|eapply same_views_trans; eassumption
      |unfold ms1; rewrite length_insert; exact Hlen|lia|lia|].
    exists mst', (Printf rec :: recs).
    split; [|split; [|split; assumption]].
    + cbn [desktop_records]. rewrite Hrec. cbn [mbind option_bind]. rewrite Hrecs. reflexivity.
    + cbn [desktopinfo_desktops].
      rewrite (bind_Some _ _ _ _ _
                 (select_desktop_step _ ms mi prev log mst d dk Hnth ltac:(lia) Hwf1 Hdk1)).
      fold ms1. m_CM Hnth1.
      replace (head (switched mst d dk)) with (d_head dk) by reflexivity.
      fold s1. rewrite (bind_Some _ _ _ _ _ Hcs).
      erewrite bind_Some; [|reflexivity]. unfold s1. norm_state.
      erewrite bind_Some; [|reflexivity]. unfold set_xlog. norm_state.
      replace (mode (switched mst d dk)) with (d_mode dk) by reflexivity.
      replace (current_desktop (switched mst d dk)) with d by reflexivity.
      replace (MONITORS (mk_wm (heap s0) ms1 mi prev log)) with (MONITORS s0)
        by (unfold MONITORS, ms1; norm_state; rewrite length_insert, Hlen; reflexivity).
      fold rec. rewrite Hrun. unfold ms1. rewrite list_insert_insert_eq.
      rewrite <- app_assoc. reflexivity.
Qed.

Lemma insert_middle {A} (pre : list A) x y suf :
  <[Z.to_nat (Z.of_nat (length pre)) := y]> (pre ++ x :: suf) = pre ++ y :: suf.
Proof.
  rewrite Nat2Z.id. rewrite insert_app_r_alt by lia. rewrite Nat.sub_diag. reflexivity.
Qed.

Lemma nth_z_middle {A} (pre : list A) x suf :
  nth_z (pre ++ x :: suf) (Z.of_nat (length pre)) = Some x.
Proof.
  unfold nth_z. destruct (Z.ltb_spec (Z.of_nat (length pre)) 0); [lia|].
  rewrite Nat2Z.id. apply list_lookup_middle. reflexivity.
Qed.

Lemma same_desktops_refl m : same_desktops m m.
Proof. split; [reflexivity|apply same_views_refl]. Qed.

(** The outer loop, over the monitors [suf] that are left. *)
Lemma desktopinfo_monitors_spec s0 prev :
  ∀ suf pre log cur0 cd0 d0,
    length (pre ++ suf) = length (monitors s0) →
    Forall (λ mon, wf_desktops cfg mon ∧ proper_desktops cfg (heap s0) mon) suf →
    ∃ suf' recs,
      monitor_records cfg s0 (Z.of_nat (length pre)) suf = Some recs
      ∧ desktopinfo_monitors cfg (length suf) (current_monitor s0) (Z.of_nat (length pre))
          cd0 d0 (mk_wm (heap s0) (pre ++ suf) cur0 prev log)
        = Some ((match last suf with Some mon => current_desktop mon | None => cd0 end,
                 match suf with [] => d0 | _ => DESKTOPS cfg end),
                mk_wm (heap s0) (pre ++ suf')
                  (match suf with [] => cur0 | _ => Z.of_nat (length (pre ++ suf)) - 1 end)
                  prev (log ++ recs))
      ∧ Forall2 (λ mon mon', same_desktops mon mon' ∧ wf_desktops cfg mon') suf suf'.
Proof.
  induction suf as [|mon suf IH]; intros pre log cur0 cd0 d0 Hlen Hall.
  - exists [], []. split; [reflexivity|]. split; [|constructor].
    simpl. unfold ret. rewrite !app_nil_r. reflexivity.
  - apply Forall_cons in Hall as [[Hwf Hproper] Hall].
    set (mi := Z.of_nat (length pre)).
    pose proof (nth_z_middle pre mon suf) as Hnth. fold mi in Hnth.
    destruct (desktopinfo_desktops_spec s0 mi mon prev Hwf Hproper
                (Z.to_nat (DESKTOPS cfg)) 0 (pre ++ mon :: suf) mon log Hnth Hwf
                (same_views_refl mon) Hlen ltac:(lia) ltac:(destruct Hwf; lia))
      as (mst1 & recs1 & Hrecs1 & Hin & Hwf1 & Hsv1).
    assert (Hback : desktop_view mst1 (current_desktop mon) = Some (live mon)).
    { destruct Hsv1 as (_ & _ & _ & _ & _ & _ & Hv). rewrite Hv.
      unfold desktop_view. rewrite Z.eqb_refl. reflexivity. }
    destruct (switched_views mst1 _ _ Hwf1 (proj1 Hwf) Hback) as (Hsv2 & Hwf2 & Hcd2 & _).
    set (mst2 := switched mst1 (current_desktop mon) (live mon)) in *.
    destruct (IH (pre ++ [mst2]) (log ++ recs1) mi (current_desktop mon) (DESKTOPS cfg))
      as (suf' & recs & Hrecs & Hrun & Hall');
      [rewrite <- app_assoc; rewrite <- Hlen; rewrite !length_app; reflexivity|exact Hall|].
    rewrite length_app in Hrecs, Hrun. simpl length in Hrecs, Hrun.
    replace (Z.of_nat (length pre + 1)) with (mi + 1) in Hrecs, Hrun by (unfold mi; lia).
    exists (mst2 :: suf'), (recs1 ++ recs).
    split; [|split].
    + cbn [monitor_records]. fold mi. rewrite Hrecs1. cbn [mbind option_bind].
      rewrite Hrecs. reflexivity.
    + cbn [length desktopinfo_monitors]. fold mi.
      assert (Hsel : select_monitor mi (mk_wm (heap s0) (pre ++ mon :: suf) cur0 prev log)
                     = Some (tt, mk_wm (heap s0) (pre ++ mon :: suf) mi prev log)).
      { unfold select_monitor, bind, get, MONITORS. norm_state.
        destruct (Z.geb_spec mi (Z.of_nat (length (pre ++ mon :: suf)))) as [Hge|_];
          [rewrite length_app in Hge; simpl in Hge; unfold mi in Hge; lia|reflexivity]. }
      rewrite (bind_Some _ _ _ _ _ Hsel). m_CM Hnth.
      rewrite (bind_Some _ _ _ _ _ Hin).
      erewrite bind_Some;
        [|apply (select_desktop_step _ _ mi prev _ mst1 _ (live mon));
          [eapply nth_z_insert, Hnth|exact (proj1 Hwf)|exact Hwf1|exact Hback]].
      fold mst2. rewrite list_insert_insert_eq.
      assert (Hins : <[Z.to_nat mi := mst2]> (pre ++ mon :: suf) = (pre ++ [mst2]) ++ suf)
        by (unfold mi; rewrite insert_middle, <- app_assoc; reflexivity).
      rewrite Hins, Hrun. rewrite <- !app_assoc. cbn [app].
      do 2 f_equal.
      * f_equal.
        -- destruct suf as [|x suf0]; [reflexivity|]. rewrite last_cons_cons.
           destruct (last (x :: suf0)) eqn:E; [reflexivity|].
           apply last_None in E. discriminate.
        -- destruct suf; reflexivity.
      * f_equal. destruct suf as [|x suf0].
        -- rewrite length_app. simpl. unfold mi. lia.
        -- rewrite !length_app. simpl. lia.
    + constructor; [|exact Hall'].
      split; [|exact Hwf2]. split; [exact Hcd2|]. eapply same_views_trans; eassumption.
Qed.

(** [desktopinfo] on any number of monitors. *)
Lemma desktopinfo_spec (s : wm) :
  0 ≤ current_monitor s < MONITORS s →
  Forall (λ mon, wf_desktops cfg mon ∧ proper_desktops cfg (heap s) mon) (monitors s) →
  ∃ recs ms' monl,
    status_line cfg s = Some recs
    ∧ last (monitors s) = Some monl
    ∧ desktopinfo cfg s
      = Some (tt, mk_wm (heap s) ms' (current_monitor s) (previous_monitor s)
                    (xlog s ++ recs ++ [Fflush]))
    ∧ Forall2 same_views (monitors s) ms'
    ∧ ∀ k mon mon', nth_z (monitors s) k = Some mon → nth_z ms' k = Some mon' →
        current_desktop mon'
        = if (k =? current_monitor s)
             && negb (current_desktop monl =? DESKTOPS cfg - 1)
          then current_desktop monl else current_desktop mon.
Proof.
  intros Hcur Hall. destruct s as [h ms cur prev log]. unfold MONITORS in Hcur.
  cbn [heap monitors current_monitor previous_monitor xlog] in *.
  set (s0 := mk_wm h ms cur prev log).
  destruct (desktopinfo_monitors_spec s0 prev ms [] log cur 0 0 eq_refl Hall)
    as (ms1 & recs & Hrecs & Hrun & Hrel).
  cbn [app length] in Hrun. cbn [length] in Hrecs.
  destruct (last ms) as [monl|] eqn:Elast.
  2:{ apply last_None in Elast. subst ms. simpl in Hcur. lia. }
  assert (Hne : ms ≠ []) by (intros ->; discriminate).
  assert (Hlen1 : length ms1 = length ms) by (symmetry; eapply Forall2_length, Hrel).
  assert (Hwfl : wf_desktops cfg monl).
  { rewrite Forall_forall in Hall. apply (Hall monl). apply last_Some_elem_of. exact Elast. }
  (* the monitor that was current *)
  destruct (lookup_lt_is_Some_2 ms (Z.to_nat cur)) as [monO HmonO]; [lia|].
  destruct (Forall2_lookup_l _ _ _ _ _ Hrel HmonO) as (monO1 & HmonO1 & [Hsd Hwf1]).
  assert (HnthO1 : nth_z ms1 cur = Some monO1).
  { unfold nth_z. destruct (Z.ltb_spec cur 0); [lia|exact HmonO1]. }
  assert (Hviews : Forall2 same_views ms ms1).
  { eapply Forall2_impl; [exact Hrel|]. intros x y [[_ H] _]. exact H. }
  assert (Hcds : ∀ k mon mon', nth_z ms k = Some mon → nth_z ms1 k = Some mon' →
            current_desktop mon' = current_desktop mon).
  { intros k mon mon' Hk Hk'. apply nth_z_lookup in Hk as [Hk0 Hk].
    apply nth_z_lookup in Hk' as [_ Hk'].
    destruct (Forall2_lookup_l _ _ _ _ _ Hrel Hk) as (y & Hy & [[Hc _] _]).
    rewrite Hk' in Hy. injection Hy as <-. exact Hc. }
  assert (Hfirst : ∀ k : unit → M unit,
            bind (desktopinfo cfg) k s0
            = bind (when (negb (current_desktop monl =? DESKTOPS cfg - 1))
                      (select_desktop cfg (current_desktop monl))) k
                (mk_wm h ms1 cur prev (log ++ recs ++ [Fflush]))).
  { intros k. unfold desktopinfo. rewrite !bind_assoc.
    erewrite bind_Some; [|reflexivity]. unfold s0 at 1 2. cbn [current_monitor].
    unfold MONITORS. cbn [monitors]. rewrite Nat2Z.id.
    rewrite bind_assoc. change 0 with (Z.of_nat 0) at 1. rewrite (bind_Some _ _ _ _ _ Hrun).
    destruct ms as [|m0 ms0]; [contradiction|]. cbn iota.
    rewrite !bind_assoc. erewrite bind_Some; [|reflexivity].
    unfold set_xlog. norm_state. rewrite bind_assoc.
    assert (Hsel : select_monitor cur
                     (mk_wm h ms1 (Z.of_nat (length (m0 :: ms0)) - 1) prev
                        ((log ++ recs) ++ [Fflush]))
                   = Some (tt, mk_wm h ms1 cur prev ((log ++ recs) ++ [Fflush]))).
    { unfold select_monitor, bind, get, MONITORS. norm_state.
      destruct (Z.geb_spec cur (Z.of_nat (length ms1))) as [Hge|_]; [lia|reflexivity]. }
    rewrite (bind_Some _ _ _ _ _ Hsel). rewrite <- app_assoc. reflexivity. }
  assert (Hmain : desktopinfo cfg s0
                  = when (negb (current_desktop monl =? DESKTOPS cfg - 1))
                      (select_desktop cfg (current_desktop monl))
                      (mk_wm h ms1 cur prev (log ++ recs ++ [Fflush]))).
  { specialize (Hfirst ret). unfold bind in Hfirst.
    destruct (desktopinfo cfg s0) as [[[] ?]|];
      destruct (when _ _ _) as [[[] ?]|]; exact Hfirst. }
  destruct (Z.eq_dec (current_desktop monl) (DESKTOPS cfg - 1)) as [Heq|Hne'].
  - apply Z.eqb_eq in Heq. rewrite Heq in Hmain. exists recs, ms1, monl. rewrite Heq.
    split; [exact Hrecs|]. split; [reflexivity|]. split; [exact Hmain|].
    split; [exact Hviews|].
    intros k mon mon' Hk Hk'. cbn [negb]. rewrite andb_false_r. eapply Hcds; eassumption.
  - apply Z.eqb_neq in Hne'. rewrite Hne' in Hmain.
    destruct (desktop_view_in_range monO1 (current_desktop monl) Hwf1 (proj1 Hwfl))
      as [dk Hdk].
    destruct (switched_views monO1 _ _ Hwf1 (proj1 Hwfl) Hdk) as (Hsv2 & Hwf2 & Hcd2 & _).
    exists recs, (<[Z.to_nat cur := switched monO1 (current_desktop monl) dk]> ms1), monl.
    rewrite Hne'. split; [exact Hrecs|]. split; [reflexivity|].
    split; [|split].
    + rewrite Hmain. cbn [negb when].
      apply select_desktop_step; [exact HnthO1|exact (proj1 Hwfl)|exact Hwf1|exact Hdk].
    + rewrite <- (list_insert_id ms (Z.to_nat cur) monO HmonO).
      apply Forall2_insert; [exact Hviews|].
      eapply same_views_trans; [exact (proj2 Hsd)|exact Hsv2].
    + intros k mon mon' Hk Hk'. cbn [negb]. rewrite andb_true_r.
      destruct (Z.eqb_spec k cur) as [->|Hkc].
      * rewrite (nth_z_insert _ _ _ _ HnthO1) in Hk'. injection Hk' as <-. exact Hcd2.
      * apply (Hcds k); [exact Hk|].
        pose proof Hk as Hk0. apply nth_z_lookup in Hk0 as [Hk0 _].
        unfold nth_z in Hk' |- *. destruct (Z.ltb_spec k 0); [lia|].
        rewrite list_lookup_insert_ne in Hk' by lia. exact Hk'.
Qed.

(** X10. [desktopinfo], on any number of monitors whose desktops all hold
    proper lists: it prints, for every monitor in turn and every desktop
    of it in turn, the record that can be read off the state -- monitor,
    whether it is the current one, desktop, number of clients, mode,
    whether the desktop is the selected one, whether a client is urgent --
    then flushes; the heap, the current and the previous monitor are the
    same afterwards and every desktop of every monitor has the fields it
    had.  The desktop selected on each monitor is the same too, except on
    the current monitor, which ends on the desktop selected on the LAST
    monitor unless that one is the last desktop: the final
    [if (cd != d-1) select_desktop(cd)] runs with the [cd] of the last
    monitor. *)
Theorem desktopinfo_status_line (s : wm) :
  0 ≤ current_monitor s < MONITORS s →
  Forall (λ mon, wf_desktops cfg mon ∧ proper_desktops cfg (heap s) mon) (monitors s) →
  ∃ recs ms' monl,
    status_line cfg s = Some recs
    ∧ last (monitors s) = Some monl
    ∧ desktopinfo cfg s
      = Some (tt, mk_wm (heap s) ms' (current_monitor s) (previous_monitor s)
                    (xlog s ++ recs ++ [Fflush]))
    ∧ Forall2 same_views (monitors s) ms'
    ∧ ∀ k mon mon', nth_z (monitors s) k = Some mon → nth_z ms' k = Some mon' →
        current_desktop mon'
        = if (k =? current_monitor s)
             && negb (current_desktop monl =? DESKTOPS cfg - 1)
          then current_desktop monl else current_desktop mon.
Proof. exact (desktopinfo_spec s). Qed.

(** ** The lists as the program reads them: four summaries *)

(** X11. [prev_client(c)] on a proper, non-empty list returns the client
    before [c]; when no client comes before [c] -- [c] is the head, or is
    not on the list at all -- it returns the last client; and on a list
    of one client it returns [NULL].  For [c = NULL] it returns [NULL]
    without reading the list.  The state is never changed. *)
Theorem prev_client_goes_round (s : wm) (m : monitor) (l : list positive) :
  CM s = Some (m, s) → is_list (heap s) (head m) l →
  prev_client None s = Some (None, s)
  ∧ (l ≠ [] → ∀ c, prev_client (Some c) s = Some (cyclic_prev c l, s))
  ∧ (∀ c l1 p l2, l = l1 ++ p :: c :: l2 → cyclic_prev c l = Some p)
  ∧ (∀ c x, (2 ≤ length l)%nat → c ∉ tail l → last l = Some x → cyclic_prev c l = Some x)
  ∧ (∀ c, length l = 1%nat → cyclic_prev c l = None).
Proof.
  intros HCM Hl. pose proof (is_list_NoDup _ _ _ Hl) as Hnd.
  split; [reflexivity|]. split; [|split; [|split]].
  - intros Hne c. apply (prev_client_cyclic s m l c HCM Hl Hne).
  - intros c l1 p l2 ->. unfold cyclic_prev. rewrite before_app by exact Hnd.
    destruct l1 as [|x [|y t]]; reflexivity.
  - intros c x Hlen Hc Hlast. unfold cyclic_prev.
    destruct l as [|a [|b t]]; simpl in Hlen; try lia.
    rewrite (before_notin _ _ Hc). exact Hlast.
  - intros c Hlen. destruct l as [|a [|b t]]; simpl in Hlen; try lia. reflexivity.
Qed.

(** X12. [tile] on a proper list returns -- in GRID mode with two or more
    clients provided some client is tileable, since [grid] divides by the
    number of columns -- and changes nothing but the log; it sends one move-and-resize request
    for each client that is neither fullscreen nor floating nor transient,
    in list order, and no other request: floating and fullscreen windows
    are never moved by it. *)
Theorem tile_places_tileable_clients (s : wm) (m : monitor) (l : list positive) :
  CM s = Some (m, s) → is_list (heap s) (head m) l →
  grid_safe (heap s) l (mode m) →
  ∃ reqs, tile cfg s = Some (tt, set_xlog (xlog s ++ reqs) s)
          ∧ Forall is_move_resize reqs
          ∧ placed_windows reqs = tileable_windows (heap s) l.
Proof. exact (tile_requests s m l). Qed.

(** X13. [update_current(c)] for a client [c] of the current list makes
    [c] the current client.  The previously focused client becomes: the
    client before [c] round the list when [c] was itself the previously
    focused one; the old current client when that was another client; and
    stays as it was when [c] was current already.  Nothing else changes in
    the monitor and the heap is untouched.  Among the requests sent there
    is exactly one that sets the input focus, to the window of [c], the
    active-window property of the root is set to it, and the list is
    retiled.  [update_current(NULL)] deletes that property and clears both
    focus fields. *)
Theorem update_current_sets_focus (s : wm) (m : monitor) (l : list positive)
    (c : positive) (r : client) :
  CM s = Some (m, s) → is_list (heap s) (head m) l → c ∈ l → heap s !! c = Some r →
  grid_safe (heap s) l (mode m) →
  (∃ pf' reqs,
     update_current cfg xe (Some c) s
     = Some (tt, set_xlog (xlog s ++ reqs)
                   (set_monitors
                      (<[Z.to_nat (current_monitor s) :=
                           set_prevfocus pf' (set_current (Some c) m)]> (monitors s)) s))
     ∧ (prevfocus m = Some c → pf' = cyclic_prev c l)
     ∧ (prevfocus m ≠ Some c → current m ≠ Some c → pf' = current m)
     ∧ (prevfocus m ≠ Some c → current m = Some c → pf' = prevfocus m)
     ∧ focus_requests reqs = [win r]
     ∧ placed_windows reqs = tileable_windows (heap s) l
     ∧ ChangeProperty (root xe) (NET_ACTIVE xe) XCB_ATOM_WINDOW [win r] ∈ reqs)
  ∧ update_current cfg xe None s
    = Some (tt, set_xlog (xlog s ++ [DeleteProperty (root xe) (NET_ACTIVE xe)])
                  (set_monitors
                     (<[Z.to_nat (current_monitor s) :=
                          set_current None (set_prevfocus None m)]> (monitors s)) s)).
Proof.
  intros HCM Hl Hin Hr Hsafe. apply CM_inv in HCM as [_ Hnth].
  destruct s as [h ms cur prev log]. simpl in *. split.
  - destruct (update_current_focus h ms cur prev log m l c r Hnth Hl Hin Hr Hsafe)
      as (reqs & Hupd & Hfoc & Hplaced & Hprop & _).
    eexists _, reqs. split; [exact Hupd|].
    split; [|split; [|split; [|split; [exact Hfoc|split; [exact Hplaced|exact Hprop]]]]].
    + intros Hpf. destruct (decide (Some c = prevfocus m)); [reflexivity|congruence].
    + intros Hpf Hc. destruct (decide (Some c = prevfocus m)); [congruence|].
      destruct (decide (Some c ≠ current m)) as [_|E]; [reflexivity|].
      exfalso. apply E. congruence.
    + intros Hpf Hc. destruct (decide (Some c = prevfocus m)); [congruence|].
      destruct (decide (Some c ≠ current m)) as [E|_]; [congruence|reflexivity].
  - unfold update_current. erewrite bind_Some; [|reflexivity]. unfold set_xlog at 1.
    norm_state. erewrite setCM_eq; [|apply CM_of_nth; exact Hnth]. reflexivity.
Qed.

(** X14. [wintoclient(w)] looks through the desktops of the current
    monitor in order.  When the first desktop that tracks [w] holds it in
    client [c] (the first one with that window) it returns [c]; when no
    desktop of the monitor tracks [w] it returns [NULL].  Either way the
    heap and the log are untouched, and the monitor shows the same
    desktops, with the same one selected, as before. *)
Theorem wintoclient_on_current_monitor (s : wm) (m : monitor) (w : Z) :
  CM s = Some (m, s) → wf_desktops cfg m →
  (∀ d0 dk0 l1 c l2 r,
     0 ≤ d0 < DESKTOPS cfg →
     (∀ d, 0 ≤ d < d0 →
        ∃ dk l, desktop_view m d = Some dk ∧ is_list (heap s) (d_head dk) l
                ∧ untracked (heap s) l w) →
     desktop_view m d0 = Some dk0 → is_list (heap s) (d_head dk0) (l1 ++ c :: l2) →
     untracked (heap s) l1 w → heap s !! c = Some r → win r = w →
     ∃ m', wintoclient cfg w s
           = Some (Some c, set_monitors (<[Z.to_nat (current_monitor s) := m']> (monitors s)) s)
           ∧ same_desktops m m')
  ∧ ((∀ d, 0 ≤ d < DESKTOPS cfg →
        ∃ dk l, desktop_view m d = Some dk ∧ is_list (heap s) (d_head dk) l
                ∧ untracked (heap s) l w) →
     ∃ m', wintoclient cfg w s
           = Some (None, set_monitors (<[Z.to_nat (current_monitor s) := m']> (monitors s)) s)
           ∧ same_desktops m m').
Proof.
  intros HCM Hwf. apply CM_inv in HCM as [_ Hnth].
  destruct s as [h ms cur prev log]. simpl in *. split.
  - intros d0 dk0 l1 c l2 r Hd0 Hall Hdk0 Hl0 Hun Hc Hw.
    destruct (wintoclient_some w h ms cur prev log m d0 dk0 l1 c l2 r Hnth Hwf Hd0 Hall
                Hdk0 Hl0 Hun Hc Hw) as (m' & Hrun & Hsd & _).
    exists m'. split; [exact Hrun|exact Hsd].
  - intros Hall.
    destruct (wintoclient_none w h ms cur prev log m Hnth Hwf Hall) as (m' & Hrun & Hsd & _).
    exists m'. split; [exact Hrun|exact Hsd].
Qed.

(** ** Removing the previously focused client *)

Lemma prev_client_state c s p s' : prev_client c s = Some (p, s') → s' = s.
Proof.
  unfold prev_client. destruct c as [c|]; [|intros [= _ <-]; reflexivity].
  unfold bind, CM, load, lift, get, ret.
  repeat case_match; intros; simplify_eq; reflexivity.
Qed.

Lemma update_current_pass_state s u s' :
  update_current_pass cfg xe s = Some (u, s') →
  heap s' = heap s ∧ monitors s' = monitors s ∧ current_monitor s' = current_monitor s.
Proof.
  unfold update_current_pass, bind, CM, clients, lift, emit, modify, ret.
  repeat case_match; intros; simplify_eq; repeat split; reflexivity.
Qed.

(** [update_current] reads the client it has made current. *)
Lemma update_current_dangling h ms cur prev log c :
  h !! c = None → update_current cfg xe (Some c) (mk_wm h ms cur prev log) = None.
Proof.
  intros Hc. unfold update_current.
  unfold bind at 1. destruct (CM _) as [[m s0]|] eqn:HCM; [|reflexivity].
  apply CM_inv in HCM as [-> Hnth]. cbn [monitors current_monitor] in Hnth.
  assert (Hend : ∀ ms' log' mm,
            nth_z ms' cur = Some mm → current mm = Some c →
            (update_current_pass cfg xe ;;;
             let* m := CM in
             let* cur0 := load (current m) in
             emit ((if isfloating cur0 || istransient cur0
                    then [xcb_raise_window (win cur0)] else [])
                   ++ [ChangeProperty (root xe) (NET_ACTIVE xe) XCB_ATOM_WINDOW [win cur0];
                       SetInputFocus (win cur0)]
                   ++ (if CLICK_TO_FOCUS cfg then grabbuttons cfg xe (win cur0) else [])) ;;;
             tile cfg) (mk_wm h ms' cur prev log') = None).
  { intros ms' log' mm Hnth' Hcur. unfold bind at 1.
    destruct (update_current_pass _ _ _) as [[u s1]|] eqn:Hpass; [|reflexivity].
    apply update_current_pass_state in Hpass as (Hh & Hm & Hc1). cbn in Hh, Hm, Hc1.
    destruct s1 as [h1 ms1 cur1 prev1 log1]. cbn in Hh, Hm, Hc1. subst h1 ms1 cur1.
    m_CM Hnth'. rewrite Hcur. unfold bind, load, lift. cbn. rewrite Hc. reflexivity. }
  destruct (decide (Some c = prevfocus m)) as [Hpf|Hpf].
  - rewrite !bind_assoc. m_setCM Hnth. rewrite bind_assoc.
    erewrite bind_Some; [|apply CM_of_nth; norm_state; eapply nth_z_insert, Hnth].
    rewrite bind_assoc. unfold bind at 1.
    destruct (prev_client _ _) as [[p s1]|] eqn:Hp; [|reflexivity].
    apply prev_client_state in Hp as ->.
    erewrite bind_Some;
      [|apply setCM_eq, CM_of_nth; norm_state; eapply nth_z_insert, Hnth].
    norm_state. rewrite list_insert_insert_eq.
    eapply Hend; [eapply nth_z_insert, Hnth|]. cbn. symmetry. exact Hpf.
  - destruct (decide (Some c ≠ current m)) as [Hc'|Hc'].
    + m_setCM Hnth. eapply Hend; [eapply nth_z_insert, Hnth|reflexivity].
    + rewrite bind_ret_l. apply dec_stable in Hc'.
      eapply Hend; [exact Hnth|symmetry; exact Hc'].
Qed.

(** X15. [removeclient(c)] when [c] is recorded as the previously focused
    client of the desktop selected on the current monitor, and the monitor
    field of [c] names the current monitor (the code never assigns the
    field, which holds the 0 of [calloc]: the current monitor is then
    monitor 0).  The desktop array of the monitor is in place, [c] is on
    the list of the selected desktop, and the desktops before the selected
    one have proper lists that do not hold [c].  Then the client is found,
    unlinked and freed, and [update_current(CM->prevfocus)] is called with
    the pointer to the freed client; it makes that pointer the current
    client and reads the client through it.  The function has no defined
    result. *)
Theorem removeclient_of_previous_focus (s : wm) (m : monitor) (l1 l2 : list positive)
    (c : positive) (r : client) :
  CM s = Some (m, s) → prevfocus m = Some c → heap s !! c = Some r →
  c_monitor r = current_monitor s →
  is_list (heap s) (head m) (l1 ++ c :: l2) →
  wf_desktops cfg m →
  (∀ d dk, 0 ≤ d < current_desktop m → desktop_view m d = Some dk →
     ∃ ld, is_list (heap s) (d_head dk) ld ∧ c ∉ ld) →
  removeclient cfg xe (Some c) s = None.
Proof.
  intros HCM Hpf Hr Hmon Hl Hwf Hbefore.
  apply CM_inv in HCM as [_ Hnth].
  destruct s as [h ms cur prev log]. simpl in *.
  destruct (removeclient_from_spec cfg (desktop_view m) (current_desktop m) c l1 l2 (live m)
              h cur prev log (proj1 Hwf) Hbefore) with
      (k := Z.to_nat (DESKTOPS cfg)) (nd := 0) (ms := ms) (mst := m) (p0 := @None slot)
    as (ms1 & mst1 & Hloop & Hnth1 & Hlive & Hcd1).
  { intros d Hd. unfold desktop_view. destruct (Z.eqb_spec d (current_desktop m)); [lia|].
    unfold nth_z. destruct (Z.ltb_spec d 0) as [?|_]; [lia|].
    apply lookup_lt_is_Some_2. destruct Hwf as [? ->]. lia. }
  { unfold desktop_view. rewrite Z.eqb_refl. reflexivity. }
  { exact Hl. }
  { exact Hnth. }
  { exact Hwf. }
  { reflexivity. }
  { destruct Hwf. lia. }
  { destruct Hwf. lia. }
  unfold live in Hlive. injection Hlive as Hms Hmode _ Hhead _ Hprev _.
  destruct (write_slot_unlink h ms1 cur prev log mst1 l1 c l2 r Hnth1)
    as (h2 & ms2 & hd2 & Hwrite & Hnth2 & Hl2 & Hc2 & Hrel2);
    [rewrite Hhead; exact Hl|exact Hr|].
  unfold removeclient.
  erewrite bind_Some; [|reflexivity]. norm_state. m_load Hr. rewrite Hmon.
  rewrite (bind_Some _ _ _ _ _ (select_monitor_same _ _ _ _ _ _ Hnth)).
  m_CM Hnth. rewrite (bind_Some _ _ _ _ _ Hloop). m_load Hr.
  rewrite (bind_Some _ _ _ _ _ Hwrite).
  erewrite bind_Some; [|reflexivity]. unfold set_heap. norm_state.
  m_CM Hnth2.
  replace (prevfocus (set_head hd2 mst1)) with (Some c)
    by (cbn; rewrite Hprev; symmetry; exact Hpf).
  unfold bind. rewrite update_current_dangling; [reflexivity|apply lookup_delete_eq].
Qed.

(** ** [swap_master] *)

Lemma heap_relinked_trans h1 h2 h3 :
  heap_relinked h1 h2 → heap_relinked h2 h3 → heap_relinked h1 h3.
Proof.
  intros H12 H23 a. specialize (H12 a). specialize (H23 a).
  destruct (h1 !! a) as [r1|], (h2 !! a) as [r2|], (h3 !! a) as [r3|]; try contradiction;
    try exact I.
  rewrite H23, H12. reflexivity.
Qed.

(** The loop of [swap_master] when [l1] comes before the current client. *)
Lemma swap_master_loop_spec c cur prev :
  ∀ n l1 l2 h ms log m fuel,
    length l1 = n → nth_z ms cur = Some m → is_list h (head m) (l1 ++ c :: l2) →
    current m = Some c →
    (mode m = GRID → ∃ a r, a ∈ l1 ++ c :: l2 ∧ h !! a = Some r ∧ ISFFT r = false) →
    (n ≤ fuel)%nat →
    ∃ h' reqs,
      swap_master_loop cfg fuel (mk_wm h ms cur prev log)
      = Some (tt, mk_wm h' (<[Z.to_nat cur := set_head (Some c) m]> ms) cur prev (log ++ reqs))
      ∧ heap_relinked h h' ∧ is_list h' (Some c) (c :: l1 ++ l2)
      ∧ (mode m = GRID → ∃ a r, a ∈ c :: l1 ++ l2 ∧ h' !! a = Some r ∧ ISFFT r = false).
Proof.
  induction n as [|n IH]; intros l1 l2 h ms log m fuel Hlen Hnth Hl Hcur Hsafe Hfuel.
  - destruct l1; [|discriminate]. simpl in Hl, Hsafe |- *.
    assert (Hhd : head m = Some c) by (unfold is_list in Hl; simpl in Hl; tauto).
    exists h, []. split; [|split; [apply heap_relinked_refl|split; [|exact Hsafe]]].
    + assert (Hgo : swap_master_loop cfg fuel (mk_wm h ms cur prev log)
                    = Some (tt, mk_wm h ms cur prev log)).
      { destruct fuel; simpl; m_CM Hnth; rewrite Hcur, Hhd;
          (destruct (decide (Some c = Some c)); [reflexivity|contradiction]). }
      rewrite Hgo, app_nil_r, <- Hhd, (insert_same_head _ _ _ Hnth). reflexivity.
    + rewrite <- Hhd. exact Hl.
  - destruct l1 as [|p l0 _] using rev_ind; [discriminate|].
    rewrite length_app in Hlen. simpl in Hlen.
    rewrite <- app_assoc in Hl, Hsafe. simpl app in Hl, Hsafe.
    pose proof (is_list_NoDup _ _ _ Hl) as Hnd.
    assert (Hin : c ∈ l0 ++ p :: c :: l2) by (apply elem_of_app; right; right; left).
    assert (Hlen2 : (2 ≤ length (l0 ++ p :: c :: l2))%nat)
      by (rewrite length_app; simpl; lia).
    assert (Hhd : head m ≠ Some c).
    { intros Hhd. unfold is_list in Hl. rewrite Hhd in Hl.
      destruct l0 as [|a l0']; simpl in Hl.
      - destruct Hl as ([= <-] & _). apply NoDup_cons in Hnd as [Hn _]. apply Hn. left.
      - destruct Hl as ([= <-] & _). apply NoDup_cons in Hnd as [Hn _]. apply Hn.
        apply elem_of_app. right. right. left. }
    destruct fuel as [|fuel]; [lia|].
    destruct (move_up_links cfg h ms cur prev log m _ c Hnth Hl Hcur Hin Hlen2)
      as (h1 & hd1 & Heq1 & Hrel1 & Hl1).
    rewrite (list_move_up_inner _ _ _ _ Hnd) in Hl1.
    destruct (relink_finish cfg h ms cur prev log m h1 hd1 (l0 ++ p :: c :: l2)
                (l0 ++ c :: p :: l2) Hnth Hrel1 Hl1) as (reqs1 & Ht1 & _ & Hsafe1);
      [|exact Hsafe|].
    { intros a Ha. rewrite !elem_of_app, !elem_of_cons in *. tauto. }
    cbv zeta in Ht1.
    set (m1 := set_head hd1 m) in *. set (ms1 := <[Z.to_nat cur := m1]> ms) in *.
    assert (Hnth1 : nth_z ms1 cur = Some m1) by (eapply nth_z_insert, Hnth).
    destruct (IH l0 (p :: l2) h1 ms1 (log ++ reqs1) m1 fuel)
      as (h' & reqs & Hrun & Hrel & Hl' & Hsafe'); [lia|exact Hnth1|exact Hl1|exact Hcur
                                                   |exact Hsafe1|lia|].
    exists h', (reqs1 ++ reqs).
    split; [|split; [eapply heap_relinked_trans; eassumption|split]].
    + cbn [swap_master_loop]. m_CM Hnth. rewrite Hcur.
      destruct (decide (Some c = head m)) as [E|_]; [congruence|].
      unfold bind at 1. rewrite Heq1, Ht1. rewrite Hrun.
      unfold ms1. rewrite list_insert_insert_eq, <- app_assoc. reflexivity.
    + rewrite <- app_assoc. exact Hl'.
    + rewrite <- app_assoc. exact Hsafe'.
Qed.

Lemma swap_master_spec h ms cur prev log m (l : list positive) c :
  nth_z ms cur = Some m → is_list h (head m) l → current m = Some c → c ∈ l →
  (2 ≤ length l)%nat → grid_safe h l (mode m) →
  ∃ h' m' l' reqs,
    swap_master cfg xe (mk_wm h ms cur prev log)
    = Some (tt, mk_wm h' (<[Z.to_nat cur := m']> ms) cur prev (log ++ reqs))
    ∧ heap_relinked h h' ∧ is_list h' (head m') l'
    ∧ current m' = head m'
    ∧ m' = set_prevfocus (prevfocus m') (set_current (current m') (set_head (head m') m))
    ∧ ((∃ n rest, l = c :: n :: rest ∧ l' = n :: c :: rest)
       ∨ (∃ l1 p l2, l = l1 ++ p :: c :: l2 ∧ l' = c :: l1 ++ p :: l2)).
Proof.
  intros Hnth Hl Hcur Hin Hlen Hsafe0.
  assert (Hsafe := λ Hm, Hsafe0 Hm Hlen).
  pose proof (is_list_NoDup _ _ _ Hl) as Hnd.
  assert (Hhd0 : ∃ a0 r0 a1, head m = Some a0 ∧ h !! a0 = Some r0 ∧ next r0 = Some a1).
  { destruct l as [|a0 [|a1 l']]; simpl in Hlen; try lia.
    unfold is_list in Hl. simpl in Hl. destruct Hl as (Hh & r0 & Hr0 & Hn & _).
    exists a0, r0, a1. auto. }
  destruct Hhd0 as (a0 & r0 & a1 & Hhd0 & Hr0 & Hn0).
  assert (Hstart :
            swap_master cfg xe (mk_wm h ms cur prev log)
            = ((if decide (current m = head m) then move_down cfg
                else let* s := get in swap_master_loop cfg (size (heap s))) ;;;
               let* m := CM in update_current cfg xe (head m)) (mk_wm h ms cur prev log)).
  { unfold swap_master. m_CM Hnth. destruct (current m) as [c'|]; [|discriminate].
    rewrite Hhd0. m_load Hr0. rewrite Hn0. reflexivity. }
  rewrite Hstart. clear Hstart.
  apply list_elem_of_split in Hin as (l1 & l2 & El).
  destruct l1 as [|p l0 _] using rev_ind.
  - (* the current client is the master *)
    simpl in El. destruct l2 as [|n rest]; [subst l; simpl in Hlen; lia|].
    assert (Hhd : head m = Some c).
    { subst l. unfold is_list in Hl. simpl in Hl. tauto. }
    assert (Hin : c ∈ l) by (subst l; left).
    destruct (move_down_links cfg h ms cur prev log m l c Hnth Hl Hcur Hin Hlen)
      as (h1 & hd1 & Heq1 & Hrel1 & Hl1).
    assert (Emd : list_move_down c l = n :: c :: rest).
    { subst l. apply (list_move_down_inner [] c n rest). exact Hnd. }
    rewrite Emd in Hl1.
    destruct (relink_finish cfg h ms cur prev log m h1 hd1 l (n :: c :: rest)
                Hnth Hrel1 Hl1) as (reqs1 & Ht1 & _ & Hsafe1); [|exact Hsafe|].
    { intros a Ha. subst l. rewrite !elem_of_cons in *. tauto. }
    cbv zeta in Ht1.
    assert (Hhd1 : hd1 = Some n) by (unfold is_list in Hl1; simpl in Hl1; tauto).
    set (m1 := set_head hd1 m) in *. set (ms1 := <[Z.to_nat cur := m1]> ms) in *.
    assert (Hnth1 : nth_z ms1 cur = Some m1) by (eapply nth_z_insert, Hnth).
    assert (Hnin : n ∈ n :: c :: rest) by left.
    destruct (lseg_lookup _ _ _ _ _ Hl1 Hnin) as [rn Hrn].
    destruct (update_current_focus h1 ms1 cur prev (log ++ reqs1) m1 (n :: c :: rest) n rn
                Hnth1 Hl1 Hnin Hrn (λ Hm _, Hsafe1 Hm)) as (reqs2 & Hupd & _).
    eexists h1, _, (n :: c :: rest), (reqs1 ++ reqs2).
    split; [|split; [exact Hrel1|split; [|split; [|split]]]].
    + rewrite Hcur, Hhd. destruct (decide (Some c = Some c)); [|contradiction].
      unfold bind at 1. rewrite Heq1, Ht1. m_CM Hnth1.
      replace (head m1) with (Some n) by (symmetry; exact Hhd1).
      rewrite Hupd. unfold ms1. rewrite list_insert_insert_eq, <- app_assoc. reflexivity.
    + exact Hl1.
    + cbn. symmetry. exact Hhd1.
    + reflexivity.
    + left. exists n, rest. split; [exact El|reflexivity].
  - (* it is not: [p] comes before it *)
    assert (Hhd : head m ≠ Some c).
    { intros Hhd. rewrite El in Hl, Hnd. rewrite <- app_assoc in Hl, Hnd.
      unfold is_list in Hl. rewrite Hhd in Hl.
      destruct l0 as [|a l0']; simpl in Hl.
      - destruct Hl as ([= <-] & _). apply NoDup_cons in Hnd as [Hn _]. apply Hn. left.
      - destruct Hl as ([= <-] & _). apply NoDup_cons in Hnd as [Hn _]. apply Hn.
        apply elem_of_app. right. right. left. }
    destruct (swap_master_loop_spec c cur prev (length (l0 ++ [p])) (l0 ++ [p]) l2 h ms log m
                (size h) eq_refl Hnth)
      as (h1 & reqs1 & Hrun & Hrel1 & Hl1 & Hsafe1);
      [rewrite <- El; exact Hl|exact Hcur|rewrite <- El; exact Hsafe| |].
    { pose proof (is_list_length _ _ _ Hl) as Hsz. rewrite El, length_app in Hsz.
      simpl in Hsz. lia. }
    set (m1 := set_head (Some c) m) in *. set (ms1 := <[Z.to_nat cur := m1]> ms) in *.
    assert (Hnth1 : nth_z ms1 cur = Some m1) by (eapply nth_z_insert, Hnth).
    assert (Hcin : c ∈ c :: (l0 ++ [p]) ++ l2) by left.
    destruct (lseg_lookup _ _ _ _ _ Hl1 Hcin) as [rc Hrc].
    destruct (update_current_focus h1 ms1 cur prev (log ++ reqs1) m1 _ c rc
                Hnth1 Hl1 Hcin Hrc (λ Hm _, Hsafe1 Hm)) as (reqs2 & Hupd & _).
    eexists h1, _, (c :: (l0 ++ [p]) ++ l2), (reqs1 ++ reqs2).
    split; [|split; [exact Hrel1|split; [|split; [|split]]]].
    + rewrite Hcur. destruct (decide (Some c = head m)) as [E|_]; [congruence|].
      rewrite bind_assoc. erewrite bind_Some; [|reflexivity]. cbn [heap].
      rewrite (bind_Some _ _ _ _ _ Hrun). m_CM Hnth1.
      replace (head m1) with (Some c) by reflexivity.
      rewrite Hupd. unfold ms1. rewrite list_insert_insert_eq, <- (app_assoc log).
      reflexivity.
    + exact Hl1.
    + reflexivity.
    + reflexivity.
    + right. exists l0, p, l2. rewrite El, <- !app_assoc. split; reflexivity.
Qed.


(** X16. [swap_master] on a list of two or more clients with a current
    client.  When the current client is not the first of the list it
    becomes the first, the others keep their order, and it keeps the
    focus; when it is the first it changes places with the second one, and
    that one, now first, becomes the current client.  The clients
    themselves are the same, only their links change. *)
Theorem swap_master_brings_to_front (s : wm) (m : monitor) (l : list positive)
    (c : positive) :
  CM s = Some (m, s) → is_list (heap s) (head m) l → current m = Some c → c ∈ l →
  (2 ≤ length l)%nat → grid_safe (heap s) l (mode m) →
  ∃ s' m' l',
    swap_master cfg xe s = Some (tt, s') ∧ CM s' = Some (m', s')
    ∧ heap_relinked (heap s) (heap s') ∧ is_list (heap s') (head m') l'
    ∧ current m' = head m'
    ∧ ((∃ n rest, l = c :: n :: rest ∧ l' = n :: c :: rest)
       ∨ (∃ l1 p l2, l = l1 ++ p :: c :: l2 ∧ l' = c :: l1 ++ p :: l2)).
Proof.
  intros HCM Hl Hcur Hin Hlen Hsafe. apply CM_inv in HCM as [_ Hnth].
  destruct s as [h ms cur prev log]. cbn [heap monitors current_monitor] in *.
  destruct (swap_master_spec h ms cur prev log m l c Hnth Hl Hcur Hin Hlen Hsafe)
    as (h' & m' & l' & reqs & Hrun & Hrel & Hl' & Hc' & _ & Hshape).
  exists (mk_wm h' (<[Z.to_nat cur := m']> ms) cur prev (log ++ reqs)), m', l'.
  split; [exact Hrun|]. split; [apply CM_of_nth; norm_state; eapply nth_z_insert, Hnth|].
  split; [exact Hrel|]. split; [exact Hl'|]. split; [exact Hc'|exact Hshape].
Qed.


(** ** States in good order *)

Lemma desktop_view_live m : desktop_view m (current_desktop m) = Some (live m).
Proof. unfold desktop_view. rewrite Z.eqb_refl. reflexivity. Qed.

Lemma monitor_ok_proper h m :
  monitor_ok cfg h m → wf_desktops cfg m ∧ proper_desktops cfg h m.
Proof.
  intros [Hwf Hok]. split; [exact Hwf|]. intros d Hd.
  destruct (Hok d Hd) as (dk & Hdk & l & Hl & _). exists dk, l. auto.
Qed.

Lemma monitor_ok_same_desktops h m m' :
  same_desktops m m' → monitor_ok cfg h m → monitor_ok cfg h m'.
Proof.
  intros [Hcd (_ & _ & _ & _ & _ & Hlen & Hv)] [[Hc Hl] Hok]. split.
  - split; [rewrite Hcd; exact Hc|rewrite Hlen; exact Hl].
  - intros d Hd. rewrite Hv. apply Hok, Hd.
Qed.

Lemma monitor_ok_live h m : monitor_ok cfg h m → desktop_ok h (live m).
Proof.
  intros [[Hc _] Hok]. destruct (Hok _ Hc) as (dk & Hdk & Hd).
  rewrite desktop_view_live in Hdk. injection Hdk as <-. exact Hd.
Qed.

Lemma desktop_records_keep s k mon n :
  ∀ d rs, desktop_records cfg s k mon n d = Some rs → Forall is_status_output rs.
Proof.
  induction n as [|n IH]; intros d rs H; simpl in H.
  - injection H as <-. constructor.
  - destruct (desktop_record cfg s k mon d); [|discriminate]. simpl in H.
    destruct (desktop_records cfg s k mon n (d + 1)) eqn:E; [|discriminate]. simpl in H.
    injection H as <-. constructor; [exact I|]. eapply IH, E.
Qed.

Lemma monitor_records_keep s ms :
  ∀ k rs, monitor_records cfg s k ms = Some rs → Forall is_status_output rs.
Proof.
  induction ms as [|mon ms IH]; intros k rs H; simpl in H.
  - injection H as <-. constructor.
  - destruct (desktop_records cfg s k mon _ 0) eqn:E1; [|discriminate]. simpl in H.
    destruct (monitor_records cfg s (k + 1) ms) eqn:E2; [|discriminate]. simpl in H.
    injection H as <-. apply Forall_app. split.
    + eapply desktop_records_keep, E1.
    + eapply IH, E2.
Qed.

Lemma status_keeps recs : Forall is_status_output recs → Forall keeps_mapping recs.
Proof.
  intros H. eapply Forall_impl; [exact H|]. intros r Hr. destruct r; try contradiction; exact I.
Qed.

Lemma same_desktops_trans m1 m2 m3 :
  same_desktops m1 m2 → same_desktops m2 m3 → same_desktops m1 m3.
Proof.
  intros [H1 S1] [H2 S2]. split; [congruence|eapply same_views_trans; eassumption].
Qed.

Lemma nth_z_nat {A} (l : list A) (k : nat) : nth_z l (Z.of_nat k) = l !! k.
Proof.
  unfold nth_z. destruct (Z.ltb_spec (Z.of_nat k) 0) as [?|_]; [lia|].
  rewrite Nat2Z.id. reflexivity.
Qed.

(** [desktopinfo] called on the last monitor leaves every monitor on the
    desktop it had selected. *)
Lemma desktopinfo_last h ms cur prev log :
  0 ≤ cur → cur = Z.of_nat (length ms) - 1 → Forall (monitor_ok cfg h) ms →
  ∃ ms' recs,
    desktopinfo cfg (mk_wm h ms cur prev log) = Some (tt, mk_wm h ms' cur prev (log ++ recs))
    ∧ Forall2 same_desktops ms ms' ∧ Forall is_status_output recs.
Proof.
  intros Hcur0 Hcur Hall.
  destruct (desktopinfo_spec (mk_wm h ms cur prev log))
    as (recs & ms' & monl & Hrecs & Hlast & Hrun & Hsv & Hcd).
  { unfold MONITORS. simpl. lia. }
  { simpl. eapply Forall_impl; [exact Hall|]. intros mon. apply monitor_ok_proper. }
  cbn [heap monitors current_monitor previous_monitor xlog] in *.
  exists ms', (recs ++ [Fflush]). split; [exact Hrun|]. split.
  - apply Forall2_same_length_lookup_2; [eapply Forall2_length, Hsv|].
    intros k mon mon' Hk Hk'. split.
    + rewrite (Hcd (Z.of_nat k) mon mon'); [|rewrite nth_z_nat; assumption..].
      destruct (Z.eqb_spec (Z.of_nat k) cur) as [E|_]; [|reflexivity]. cbn [andb].
      destruct (negb _); [|reflexivity].
      rewrite last_lookup in Hlast.
      replace (pred (length ms)) with k in Hlast by lia. congruence.
    + eapply Forall2_lookup_lr; eassumption.
  - apply Forall_app. split; [eapply monitor_records_keep, Hrecs|repeat constructor].
Qed.

(** [update_current] with any argument that is on the list. *)
Lemma update_current_ok h ms cur prev log mm (l : list positive) oc :
  nth_z ms cur = Some mm → is_list h (head mm) l →
  (∀ c, oc = Some c → c ∈ l) →
  (∀ c, current mm = Some c → c ∈ l) → (∀ c, prevfocus mm = Some c → c ∈ l) →
  grid_safe h l (mode mm) →
  ∃ pf reqs,
    update_current cfg xe oc (mk_wm h ms cur prev log)
    = Some (tt, mk_wm h (<[Z.to_nat cur := set_prevfocus pf (set_current oc mm)]> ms)
                  cur prev (log ++ reqs))
    ∧ (∀ c, pf = Some c → c ∈ l)
    ∧ Forall keeps_mapping reqs.
Proof.
  intros Hnth Hl Hoc Hc Hp Hsafe. destruct oc as [c|].
  - pose proof (Hoc c eq_refl) as Hin.
    destruct (lseg_lookup _ _ _ _ _ Hl Hin) as [r Hr].
    destruct (update_current_focus h ms cur prev log mm l c r Hnth Hl Hin Hr Hsafe)
      as (reqs & Hrun & _ & _ & _ & Hk).
    eexists _, reqs. split; [exact Hrun|]. split; [|exact Hk].
    intros p Hpf. destruct (decide (Some c = prevfocus mm)).
    + eapply cyclic_prev_in, Hpf.
    + destruct (decide (Some c ≠ current mm)); [apply Hc|apply Hp]; exact Hpf.
  - exists None, [DeleteProperty (root xe) (NET_ACTIVE xe)].
    split; [|split; [discriminate|repeat constructor]].
    unfold update_current. erewrite bind_Some; [|reflexivity].
    unfold set_xlog. norm_state. erewrite setCM_eq; [|apply CM_of_nth; norm_state; exact Hnth].
    reflexivity.
Qed.


(** ** [change_desktop] *)

Lemma mapped_windows_app l1 l2 :
  mapped_windows (l1 ++ l2) = mapped_windows l1 ++ mapped_windows l2.
Proof. apply omap_app. Qed.

Lemma unmapped_windows_app l1 l2 :
  unmapped_windows (l1 ++ l2) = unmapped_windows l1 ++ unmapped_windows l2.
Proof. apply omap_app. Qed.

Lemma keeps_mapping_quiet reqs :
  Forall keeps_mapping reqs → mapped_windows reqs = [] ∧ unmapped_windows reqs = [].
Proof.
  induction 1 as [|r reqs Hr _ [IH1 IH2]]; [split; reflexivity|].
  destruct r; simpl in Hr; try contradiction; (split; [exact IH1|exact IH2]).
Qed.

Lemma windows_of_clients h l (cs : list (positive * client)) :
  cs.*1 = l → Forall (λ c : positive * client, h !! c.1 = Some c.2) cs →
  windows_of h l = (λ c : positive * client, win c.2) <$> cs.
Proof.
  intros <- H. induction H as [|c cs Hc _ IH]; [reflexivity|].
  unfold windows_of in *. cbn [fmap list_fmap omap list_omap]. rewrite Hc. simpl.
  f_equal. exact IH.
Qed.

Lemma mapped_all (cs : list (positive * client)) :
  mapped_windows ((λ c : positive * client, MapWindow (win c.2)) <$> cs)
  = (λ c : positive * client, win c.2) <$> cs
  ∧ unmapped_windows ((λ c : positive * client, MapWindow (win c.2)) <$> cs) = [].
Proof.
  induction cs as [|c cs [IH1 IH2]]; [split; reflexivity|].
  split; [|exact IH2]. unfold mapped_windows in *. simpl. f_equal. exact IH1.
Qed.

Lemma unmapped_others (cs : list (positive * client)) (oc : option positive) :
  let reqs := flat_map (λ c : positive * client,
                 if decide (Some c.1 = oc) then [] else [UnmapWindow (win c.2)]) cs in
  mapped_windows reqs = []
  ∧ ∀ w, w ∈ unmapped_windows reqs ↔ ∃ c, c ∈ cs ∧ Some c.1 ≠ oc ∧ win c.2 = w.
Proof.
  induction cs as [|c cs [IH1 IH2]]; intros reqs.
  - split; [reflexivity|]. intros w. split; [inversion 1|]. intros (c & Hc & _). inversion Hc.
  - subst reqs. cbn [flat_map]. rewrite mapped_windows_app. split.
    + rewrite IH1. destruct (decide (Some c.1 = oc)); reflexivity.
    + intros w. rewrite unmapped_windows_app, elem_of_app, IH2.
      destruct (decide (Some c.1 = oc)) as [E|E]; simpl.
      * split.
        -- intros [H|(c' & Hc' & Hne & Hw)]; [inversion H|].
           exists c'. split; [right; exact Hc'|auto].
        -- intros (c' & Hc' & Hne & Hw). right. apply elem_of_cons in Hc' as [->|Hc'].
           ++ contradiction.
           ++ exists c'. auto.
      * split.
        -- intros [H|(c' & Hc' & Hne & Hw)].
           ++ apply list_elem_of_singleton in H. exists c. split; [left|auto].
           ++ exists c'. split; [right; exact Hc'|auto].
        -- intros (c' & Hc' & Hne & Hw). apply elem_of_cons in Hc' as [->|Hc'].
           ++ left. rewrite Hw. left.
           ++ right. exists c'. auto.
Qed.

(** The request sent for the current client, when there is one. *)
Lemma on_current {A} (f : Z → xreq) h ms cur prev log m (l : list positive)
    (k : unit → M A) :
  nth_z ms cur = Some m → is_list h (head m) l → (∀ c, current m = Some c → c ∈ l) →
  bind (match current m with
        | Some _ => let* c := load (current m) in emit [f (win c)]
        | None => ret tt
        end) k (mk_wm h ms cur prev log)
  = k tt (mk_wm h ms cur prev (log ++ for_client f h (current m))).
Proof.
  intros Hnth Hl Hc. unfold for_client. destruct (current m) as [c|] eqn:Ec.
  - destruct (lseg_lookup _ _ _ _ _ Hl (Hc c eq_refl)) as [r Hr]. rewrite Hr.
    rewrite bind_assoc. m_load Hr. reflexivity.
  - rewrite bind_ret_l, app_nil_r. reflexivity.
Qed.

(** [clients] returns the same nodes whatever the rest of the state is. *)
Lemma clients_is_list_at s p l (cs : list (positive * client)) s' :
  cs.*1 = l → Forall (λ c : positive * client, heap s !! c.1 = Some c.2) cs →
  is_list (heap s) p l → heap s' = heap s → clients p s' = Some (cs, s').
Proof.
  intros Hcs1 Hcs2 Hl Hh. rewrite <- Hh in Hl.
  destruct (clients_is_list s' p l Hl) as (cs' & Hrun & Hcs1' & Hcs2').
  rewrite Hrun. do 2 f_equal. rewrite Hh in Hcs2'. clear Hrun Hl.
  subst l. revert cs' Hcs1' Hcs2'.
  induction Hcs2 as [|[a r] cs Hc _ IH]; intros [|[a' r'] cs'] H1 H2; try discriminate.
  - reflexivity.
  - injection H1 as -> H1. apply Forall_cons in H2 as [Hc' H2]. simpl in Hc, Hc'.
    rewrite Hc in Hc'. injection Hc' as <-. f_equal. apply IH; assumption.
Qed.

Lemma windows_of_elem h (l : list positive) c r :
  c ∈ l → h !! c = Some r → win r ∈ windows_of h l.
Proof.
  intros Hin Hr. unfold windows_of. apply list_elem_of_omap. exists c.
  split; [exact Hin|]. rewrite Hr. reflexivity.
Qed.

Lemma for_client_map h oc (l : list positive) :
  (∀ c, oc = Some c → c ∈ l) →
  (∀ w, w ∈ mapped_windows (for_client MapWindow h oc) → w ∈ windows_of h l)
  ∧ unmapped_windows (for_client MapWindow h oc) = [].
Proof.
  intros Hoc. unfold for_client. destruct oc as [c|]; [|split; [inversion 1|reflexivity]].
  destruct (h !! c) as [r|] eqn:Hr; [|split; [inversion 1|reflexivity]].
  split; [|reflexivity]. intros w Hw. apply list_elem_of_singleton in Hw as ->.
  eapply windows_of_elem; [apply Hoc; reflexivity|exact Hr].
Qed.

Lemma for_client_unmap h oc (l : list positive) :
  (∀ c, oc = Some c → c ∈ l) →
  (∀ w, w ∈ unmapped_windows (for_client UnmapWindow h oc) → w ∈ windows_of h l)
  ∧ mapped_windows (for_client UnmapWindow h oc) = []
  ∧ (∀ c r, oc = Some c → h !! c = Some r →
       win r ∈ unmapped_windows (for_client UnmapWindow h oc)).
Proof.
  intros Hoc. unfold for_client. destruct oc as [c|].
  2:{ split; [inversion 1|split; [reflexivity|discriminate]]. }
  destruct (h !! c) as [r|] eqn:Hr.
  2:{ split; [inversion 1|split; [reflexivity|]]. intros c' r' [= <-]. congruence. }
  split; [|split; [reflexivity|]].
  - intros w Hw. apply list_elem_of_singleton in Hw as ->.
    eapply windows_of_elem; [apply Hoc; reflexivity|exact Hr].
  - intros c' r' [= <-] Hr'. rewrite Hr in Hr'. injection Hr' as <-. left.
Qed.

Lemma desktop_view_focus m pf oc d :
  d ≠ current_desktop m →
  desktop_view (set_prevfocus pf (set_current oc m)) d = desktop_view m d.
Proof.
  intros Hd. unfold desktop_view. cbn [current_desktop set_prevfocus set_current desktops].
  destruct (Z.eqb_spec d (current_desktop m)); [contradiction|reflexivity].
Qed.


Lemma change_desktop_steps h ms cur prev log m i dk lo ln :
  nth_z ms cur = Some m → monitor_ok cfg h m →
  0 ≤ i < DESKTOPS cfg → i ≠ current_desktop m →
  desktop_view m i = Some dk →
  is_list h (head m) lo → is_list h (d_head dk) ln →
  ∃ me pf reqs,
    change_desktop cfg xe i (mk_wm h ms cur prev log)
    = desktopinfo cfg (mk_wm h (<[Z.to_nat cur := me]> ms) cur prev (log ++ reqs))
    ∧ monitor_ok cfg h me
    ∧ current_desktop me = i ∧ previous_desktop me = current_desktop m
    ∧ live me = mk_desktop (d_master_size dk) (d_mode dk) (d_growth dk) (d_head dk)
                  (d_current dk) pf (d_showpanel dk)
    ∧ (∀ d, d ≠ i → desktop_view me d = desktop_view m d)
    ∧ (wh me = wh m ∧ ww me = ww m ∧ wx me = wx m ∧ wy me = wy m)
    ∧ (∀ w, w ∈ mapped_windows reqs ↔ w ∈ windows_of h ln)
    ∧ (∀ w, w ∈ unmapped_windows reqs ↔ w ∈ windows_of h lo).
Proof.
  intros Hnth Hok Hi Hne Hdk Hlo Hln.
  pose proof Hok as [Hwf Hviews].
  set (cd := current_desktop m) in *.
  (* the desktop we leave, the desktop we go to *)
  destruct (monitor_ok_live _ _ Hok) as (lo' & Hlo' & Hco & Hpo & Hso).
  pose proof (is_list_functional _ _ _ _ Hlo' Hlo) as ->. clear Hlo'.
  destruct (Hviews i Hi) as (dk' & Hdk' & ln' & Hln' & Hcn & Hpn & Hsn).
  rewrite Hdk in Hdk'. injection Hdk' as <-.
  pose proof (is_list_functional _ _ _ _ Hln' Hln) as ->. clear Hln'.
  (* previous_desktop *)
  set (ma := set_previous_desktop cd m).
  assert (Hwfa : wf_desktops cfg ma) by exact Hwf.
  assert (Hva : ∀ d, desktop_view ma d = desktop_view m d) by reflexivity.
  set (ms1 := <[Z.to_nat cur := ma]> ms).
  assert (Hnth1 : nth_z ms1 cur = Some ma) by (eapply nth_z_insert, Hnth).
  (* select_desktop(i) *)
  set (mb := switched ma i dk).
  destruct (switched_views ma i dk Hwfa Hi) as (Hsvb & Hwfb & Hcdb & Hliveb);
    [rewrite Hva; exact Hdk|].
  set (ms2 := <[Z.to_nat cur := mb]> ms).
  assert (Hnth2 : nth_z ms2 cur = Some mb) by (eapply nth_z_insert, Hnth).
  assert (Hsel1 : ∀ lg, select_desktop cfg i (mk_wm h ms1 cur prev lg)
                        = Some (tt, mk_wm h ms2 cur prev lg)).
  { intros lg. rewrite (select_desktop_step h ms1 cur prev lg ma i dk Hnth1 Hi Hwfa);
      [|rewrite Hva; exact Hdk].
    unfold ms1, ms2. rewrite list_insert_insert_eq. reflexivity. }
  (* map the windows of desktop [i] *)
  assert (Hlnb : is_list h (head mb) ln) by exact Hln.
  destruct (clients_is_list (mk_wm h ms2 cur prev log) (head mb) ln Hlnb)
    as (csn & _ & Hcsn1 & Hcsn2).
  (* update_current *)
  destruct (update_current_ok h ms2 cur prev
              ((log ++ for_client MapWindow h (current mb))
               ++ ((λ c : positive * client, MapWindow (win c.2)) <$> csn))
              mb ln (current mb) Hnth2 Hlnb)
    as (pf & requ & Hupd & Hpf & Hku);
    [exact Hcn|exact Hcn|exact Hpn|exact Hsn|].
  set (mc := set_prevfocus pf (set_current (current mb) mb)) in *.
  set (ms3 := <[Z.to_nat cur := mc]> ms).
  assert (Hms3 : <[Z.to_nat cur := mc]> ms2 = ms3)
    by (unfold ms2, ms3; apply list_insert_insert_eq).
  rewrite Hms3 in Hupd.
  assert (Hnth3 : nth_z ms3 cur = Some mc) by (eapply nth_z_insert, Hnth).
  assert (Hwfc : wf_desktops cfg mc) by exact Hwfb.
  assert (Hvc : ∀ d, d ≠ i → desktop_view mc d = desktop_view m d).
  { intros d Hd. unfold mc. rewrite desktop_view_focus by exact Hd.
    destruct Hsvb as (_ & _ & _ & _ & _ & _ & Hv). rewrite Hv. apply Hva. }
  (* back to the desktop we leave *)
  assert (Hvcd : desktop_view mc cd = Some (live m)).
  { rewrite Hvc by (intros E; apply Hne; symmetry; exact E). apply desktop_view_live. }
  set (md := switched mc cd (live m)).
  destruct (switched_views mc cd (live m) Hwfc (proj1 Hwf) Hvcd)
    as (Hsvd & Hwfd & Hcdd & Hlived).
  set (ms4 := <[Z.to_nat cur := md]> ms).
  assert (Hnth4 : nth_z ms4 cur = Some md) by (eapply nth_z_insert, Hnth).
  assert (Hsel2 : ∀ lg, select_desktop cfg cd (mk_wm h ms3 cur prev lg)
                        = Some (tt, mk_wm h ms4 cur prev lg)).
  { intros lg. rewrite (select_desktop_step h ms3 cur prev lg mc cd (live m) Hnth3
                          (proj1 Hwf) Hwfc Hvcd).
    unfold ms3, ms4. rewrite list_insert_insert_eq. reflexivity. }
  assert (Hlod : is_list h (head md) lo) by exact Hlo.
  destruct (clients_is_list (mk_wm h ms4 cur prev log) (head md) lo Hlod)
    as (cso & _ & Hcso1 & Hcso2).
  (* and to desktop [i] again *)
  assert (Hvdi : desktop_view md i = Some (live mc)).
  { destruct Hsvd as (_ & _ & _ & _ & _ & _ & Hv). rewrite Hv.
    rewrite <- Hcdb. exact (desktop_view_live mc). }
  set (me := switched md i (live mc)).
  destruct (switched_views md i (live mc) Hwfd Hi Hvdi) as (Hsve & Hwfe & Hcde & Hlivee).
  set (ms5 := <[Z.to_nat cur := me]> ms).
  assert (Hnth5 : nth_z ms5 cur = Some me) by (eapply nth_z_insert, Hnth).
  assert (Hsel3 : ∀ lg, select_desktop cfg i (mk_wm h ms4 cur prev lg)
                        = Some (tt, mk_wm h ms5 cur prev lg)).
  { intros lg. rewrite (select_desktop_step h ms4 cur prev lg md i (live mc) Hnth4
                          Hi Hwfd Hvdi).
    unfold ms4, ms5. rewrite list_insert_insert_eq. reflexivity. }
  assert (Hve : ∀ d, d ≠ i → desktop_view me d = desktop_view m d).
  { intros d Hd. destruct Hsve as (_ & _ & _ & _ & _ & _ & Hv1). rewrite Hv1.
    destruct Hsvd as (_ & _ & _ & _ & _ & _ & Hv2). rewrite Hv2. apply Hvc, Hd. }
  assert (Hlive : live me = mk_desktop (d_master_size dk) (d_mode dk) (d_growth dk) (d_head dk)
                              (d_current dk) pf (d_showpanel dk)).
  { reflexivity. }
  assert (Hoke : monitor_ok cfg h me).
  { split; [exact Hwfe|]. intros d Hd. destruct (Z.eq_dec d i) as [->|Hdi].
    - exists (live me). split; [exact (desktop_view_live me)|].
      rewrite Hlive. exists ln. cbn [d_head d_current d_prevfocus d_mode].
      split; [exact Hln|]. split; [exact Hcn|]. split; [exact Hpf|exact Hsn].
    - rewrite (Hve d Hdi). apply Hviews, Hd. }
  exists me, pf,
    ((((for_client MapWindow h (current mb)
        ++ ((λ c : positive * client, MapWindow (win c.2)) <$> csn)) ++ requ)
      ++ flat_map (λ c : positive * client,
           if decide (Some c.1 = current md) then [] else [UnmapWindow (win c.2)]) cso)
     ++ for_client UnmapWindow h (current md)).
  split; [|split; [exact Hoke|split; [reflexivity|split; [reflexivity|split; [exact Hlive|
           split; [exact Hve|split; [repeat split; reflexivity|]]]]]]].
  - unfold change_desktop. m_CM Hnth. fold cd.
    destruct (Z.eqb_spec i cd) as [E|_]; [contradiction|].
    m_setCM Hnth. fold ma ms1.
    rewrite (bind_Some _ _ _ _ _ (Hsel1 log)).
    m_CM Hnth2.
    rewrite (on_current MapWindow h ms2 cur prev log mb ln _ Hnth2 Hlnb Hcn).
    erewrite bind_Some; [|apply (clients_is_list_at _ _ _ _ _ Hcsn1 Hcsn2 Hlnb); reflexivity].
    erewrite bind_Some; [|reflexivity]. unfold set_xlog. norm_state.
    rewrite (bind_Some _ _ _ _ _ Hupd).
    m_CM Hnth3. replace (previous_desktop mc) with cd by reflexivity.
    rewrite (bind_Some _ _ _ _ _ (Hsel2 _)).
    m_CM Hnth4.
    erewrite bind_Some; [|apply (clients_is_list_at _ _ _ _ _ Hcso1 Hcso2 Hlod); reflexivity].
    erewrite bind_Some; [|reflexivity]. unfold set_xlog. norm_state.
    rewrite (on_current UnmapWindow h ms4 cur prev _ md lo _ Hnth4 Hlod Hco).
    rewrite (bind_Some _ _ _ _ _ (Hsel3 _)).
    fold ms5. rewrite <- !app_assoc. reflexivity.
  - pose proof (windows_of_clients h ln csn Hcsn1 Hcsn2) as Hwn.
    pose proof (windows_of_clients h lo cso Hcso1 Hcso2) as Hwo.
    destruct (for_client_map h (current mb) ln Hcn) as [Hm1 Hu1].
    destruct (mapped_all csn) as [Hm2 Hu2].
    destruct (keeps_mapping_quiet _ Hku) as [Hm3 Hu3].
    destruct (unmapped_others cso (current md)) as [Hm4 Hu4].
    destruct (for_client_unmap h (current md) lo Hco) as (Hu5 & Hm5 & Hu5').
    split; intros w.
    + rewrite !mapped_windows_app, Hm2, Hm3, Hm4, Hm5, !app_nil_r, <- Hwn.
      rewrite elem_of_app. split; [intros [H|H]; [apply Hm1, H|exact H]|auto].
    + rewrite !unmapped_windows_app, Hu1, Hu2, Hu3. cbn [app].
      rewrite elem_of_app, Hu4. split.
      * intros [(c & Hc & _ & <-)|H]; [|apply Hu5, H].
        rewrite Hwo. apply list_elem_of_fmap. exists c. auto.
      * rewrite Hwo. intros Hw. apply list_elem_of_fmap in Hw as (c & -> & Hc).
        destruct (decide (Some c.1 = current md)) as [E|E].
        -- right. apply (Hu5' c.1 c.2); [symmetry; exact E|].
           rewrite Forall_forall in Hcso2. apply Hcso2, Hc.
        -- left. exists c. auto.
Qed.

Lemma change_desktop_spec h ms cur prev log m i dk lo ln :
  nth_z ms cur = Some m → cur = Z.of_nat (length ms) - 1 →
  Forall (monitor_ok cfg h) ms →
  0 ≤ i < DESKTOPS cfg → i ≠ current_desktop m →
  desktop_view m i = Some dk →
  is_list h (head m) lo → is_list h (d_head dk) ln →
  ∃ ms' m' pf reqs,
    change_desktop cfg xe i (mk_wm h ms cur prev log)
    = Some (tt, mk_wm h ms' cur prev (log ++ reqs))
    ∧ nth_z ms' cur = Some m'
    ∧ length ms' = length ms
    ∧ Forall (monitor_ok cfg h) ms'
    ∧ current_desktop m' = i ∧ previous_desktop m' = current_desktop m
    ∧ live m' = mk_desktop (d_master_size dk) (d_mode dk) (d_growth dk) (d_head dk)
                  (d_current dk) pf (d_showpanel dk)
    ∧ (∀ d, d ≠ i → desktop_view m' d = desktop_view m d)
    ∧ (wh m' = wh m ∧ ww m' = ww m ∧ wx m' = wx m ∧ wy m' = wy m)
    ∧ (∀ k mon, k ≠ cur → nth_z ms k = Some mon →
         ∃ mon', nth_z ms' k = Some mon' ∧ same_desktops mon mon')
    ∧ (∀ w, w ∈ mapped_windows reqs ↔ w ∈ windows_of h ln)
    ∧ (∀ w, w ∈ unmapped_windows reqs ↔ w ∈ windows_of h lo).
Proof.
  intros Hnth Hcur Hall Hi Hne Hdk Hlo Hln.
  assert (Hcur0 : 0 ≤ cur) by (apply nth_z_lookup in Hnth; tauto).
  assert (Hok : monitor_ok cfg h m).
  { rewrite Forall_forall in Hall. apply Hall.
    apply nth_z_lookup in Hnth as [_ Hnth]. eapply list_elem_of_lookup_2, Hnth. }
  destruct (change_desktop_steps h ms cur prev log m i dk lo ln Hnth Hok Hi Hne Hdk Hlo Hln)
    as (me & pf & reqs & Hrun & Hoke & Hcde & Hpde & Hlive & Hve & Hgeo & Hmap & Hunmap).
  set (ms5 := <[Z.to_nat cur := me]> ms) in *.
  assert (Hnth5 : nth_z ms5 cur = Some me) by (eapply nth_z_insert, Hnth).
  assert (Hall5 : Forall (monitor_ok cfg h) ms5).
  { unfold ms5. apply Forall_insert; assumption. }
  assert (Hlen5 : length ms5 = length ms) by (unfold ms5; apply length_insert).
  destruct (desktopinfo_last h ms5 cur prev (log ++ reqs) Hcur0)
    as (ms' & recs & Hinfo & Hsame & Hkr); [rewrite Hlen5; exact Hcur|exact Hall5|].
  assert (Hm' : ∃ m', nth_z ms' cur = Some m' ∧ same_desktops me m').
  { apply nth_z_lookup in Hnth5 as [_ Hnth5].
    destruct (Forall2_lookup_l _ _ _ _ _ Hsame Hnth5) as (m' & Hm' & Hsd).
    exists m'. split; [|exact Hsd]. unfold nth_z.
    destruct (Z.ltb_spec cur 0) as [?|_]; [lia|exact Hm']. }
  destruct Hm' as (m' & Hnth' & Hsd).
  pose proof Hsd as (Hcd' & Hpd' & Hwh' & Hww' & Hwx' & Hwy' & Hlen' & Hv').
  destruct (keeps_mapping_quiet _ (status_keeps _ Hkr)) as [Hm6 Hu6].
  exists ms', m', pf, (reqs ++ recs).
  split; [|split; [exact Hnth'|split; [|split; [|split; [|split; [|split; [|split; [|split;
                                                     [|split; [|split]]]]]]]]]].
  - rewrite Hrun, Hinfo, <- app_assoc. reflexivity.
  - rewrite <- (Forall2_length _ _ _ Hsame). exact Hlen5.
  - eapply Forall2_Forall_r; [exact Hsame|]. eapply Forall_impl; [exact Hall5|].
    intros x Hx y Hxy. eapply monitor_ok_same_desktops; eassumption.
  - rewrite Hcd'. exact Hcde.
  - rewrite Hpd'. exact Hpde.
  - pose proof (desktop_view_live m') as Hx. rewrite Hcd', Hv' in Hx.
    rewrite (desktop_view_live me) in Hx.
    transitivity (live me); [congruence|exact Hlive].
  - intros d Hd. rewrite Hv'. apply Hve, Hd.
  - destruct Hgeo as (G1 & G2 & G3 & G4). rewrite Hwh', Hww', Hwx', Hwy'. auto.
  - intros k mon Hk Hmon. apply nth_z_lookup in Hmon as [Hk0 Hmon].
    assert (Hmon5 : ms5 !! Z.to_nat k = Some mon).
    { unfold ms5. rewrite list_lookup_insert_ne by lia. exact Hmon. }
    destruct (Forall2_lookup_l _ _ _ _ _ Hsame Hmon5) as (mon' & Hmon' & Hsd').
    exists mon'. split; [|exact Hsd']. unfold nth_z.
    destruct (Z.ltb_spec k 0) as [?|_]; [lia|exact Hmon'].
  - intros w. rewrite mapped_windows_app, Hm6, app_nil_r. apply Hmap.
  - intros w. rewrite unmapped_windows_app, Hu6, app_nil_r. apply Hunmap.
Qed.


(** X17. [change_desktop(i)] called on the last monitor (the only one,
    when there is one), for a desktop [i] other than the selected one: it
    returns, desktop [i] is selected and the desktop that was selected is
    the previous one; desktop [i] has the list, the current client and the
    layout fields it had, every other desktop is as it was, and the state
    is in good order again.  Among the requests sent, the windows mapped
    are those of desktop [i] and the windows unmapped are those of the
    desktop that was left. *)
Theorem change_desktop_shows_desktop (s : wm) (m : monitor) (i : Z) (dk : desktop)
    (lo ln : list positive) :
  state_ok cfg s → current_monitor s = MONITORS s - 1 → CM s = Some (m, s) →
  0 ≤ i < DESKTOPS cfg → i ≠ current_desktop m → desktop_view m i = Some dk →
  is_list (heap s) (head m) lo → is_list (heap s) (d_head dk) ln →
  ∃ s' m' pf reqs,
    change_desktop cfg xe i s = Some (tt, s') ∧ CM s' = Some (m', s') ∧ state_ok cfg s'
    ∧ heap s' = heap s ∧ current_monitor s' = current_monitor s
    ∧ xlog s' = xlog s ++ reqs
    ∧ current_desktop m' = i ∧ previous_desktop m' = current_desktop m
    ∧ live m' = mk_desktop (d_master_size dk) (d_mode dk) (d_growth dk) (d_head dk)
                  (d_current dk) pf (d_showpanel dk)
    ∧ (∀ d, d ≠ i → desktop_view m' d = desktop_view m d)
    ∧ (∀ w, w ∈ mapped_windows reqs ↔ w ∈ windows_of (heap s) ln)
    ∧ (∀ w, w ∈ unmapped_windows reqs ↔ w ∈ windows_of (heap s) lo).
Proof.
  intros [Hcur0 Hall] Hcur HCM Hi Hne Hdk Hlo Hln. apply CM_inv in HCM as [_ Hnth].
  destruct s as [h ms cur prev log]. unfold MONITORS in *.
  cbn [heap monitors current_monitor xlog] in *.
  destruct (change_desktop_spec h ms cur prev log m i dk lo ln Hnth Hcur Hall Hi Hne Hdk
              Hlo Hln)
    as (ms' & m' & pf & reqs & Hrun & Hnth' & Hlen & Hall' & Hcd & Hpd & Hlive & Hv & _ & _
        & Hmap & Hunmap).
  exists (mk_wm h ms' cur prev (log ++ reqs)), m', pf, reqs.
  split; [exact Hrun|]. split; [apply CM_of_nth; exact Hnth'|].
  split; [split; [unfold MONITORS; cbn [monitors current_monitor]; lia|exact Hall']|].
  repeat (split; [first [reflexivity|assumption]|]). assumption.
Qed.

(** X18. On the last (or only) monitor of a state in good order, for a
    desktop [i] that exists ([0 <= i < DESKTOPS]) and is not the selected
    one: [last_desktop] after [change_desktop(i)] brings back the desktop
    that was left.  It is selected again with the list, the current client
    and the layout fields it had, desktop [i] is now the previous one, and
    the other desktops are as they were.  (On a monitor that is not the
    last one [desktopinfo] may select another desktop at its end, and the
    statement is not made.) *)
Theorem last_desktop_returns (s : wm) (m : monitor) (i : Z) (dk : desktop)
    (lo ln : list positive) :
  state_ok cfg s → current_monitor s = MONITORS s - 1 → CM s = Some (m, s) →
  0 ≤ i < DESKTOPS cfg → i ≠ current_desktop m → desktop_view m i = Some dk →
  is_list (heap s) (head m) lo → is_list (heap s) (d_head dk) ln →
  ∃ s1 s2 m2,
    change_desktop cfg xe i s = Some (tt, s1) ∧ last_desktop cfg xe s1 = Some (tt, s2)
    ∧ CM s2 = Some (m2, s2) ∧ heap s2 = heap s
    ∧ current_desktop m2 = current_desktop m ∧ previous_desktop m2 = i
    ∧ head m2 = head m ∧ current m2 = current m ∧ mode m2 = mode m
    ∧ master_size m2 = master_size m ∧ growth m2 = growth m ∧ showpanel m2 = showpanel m
    ∧ (∀ d, d ≠ i → d ≠ current_desktop m → desktop_view m2 d = desktop_view m d).
Proof.
  intros [Hcur0 Hall] Hcur HCM Hi Hne Hdk Hlo Hln. apply CM_inv in HCM as [_ Hnth].
  destruct s as [h ms cur prev log]. unfold MONITORS in *.
  cbn [heap monitors current_monitor xlog] in *.
  assert (Hwf : wf_desktops cfg m).
  { rewrite Forall_forall in Hall. apply Hall.
    apply nth_z_lookup in Hnth as [_ Hnth]. eapply list_elem_of_lookup_2, Hnth. }
  destruct (change_desktop_spec h ms cur prev log m i dk lo ln Hnth Hcur Hall Hi Hne Hdk
              Hlo Hln)
    as (ms1 & m1 & pf1 & reqs1 & Hrun1 & Hnth1 & Hlen1 & Hall1 & Hcd1 & Hpd1 & Hlive1 & Hv1
        & _).
  assert (Hhd1 : head m1 = d_head dk).
  { change (d_head (live m1) = d_head dk). rewrite Hlive1. reflexivity. }
  destruct (change_desktop_spec h ms1 cur prev (log ++ reqs1) m1 (current_desktop m) (live m)
              ln lo Hnth1)
    as (ms2 & m2 & pf2 & reqs2 & Hrun2 & Hnth2 & Hlen2 & Hall2 & Hcd2 & Hpd2 & Hlive2 & Hv2
        & _).
  { rewrite Hlen1. exact Hcur. }
  { exact Hall1. }
  { exact (proj1 Hwf). }
  { rewrite Hcd1. intros E. apply Hne. symmetry. exact E. }
  { rewrite Hv1 by (intros E; apply Hne; symmetry; exact E). apply desktop_view_live. }
  { rewrite Hhd1. exact Hln. }
  { exact Hlo. }
  exists (mk_wm h ms1 cur prev (log ++ reqs1)), (mk_wm h ms2 cur prev ((log ++ reqs1) ++ reqs2)),
    m2.
  split; [exact Hrun1|]. split.
  { unfold last_desktop. m_CM Hnth1. rewrite Hpd1. exact Hrun2. }
  split; [apply CM_of_nth; exact Hnth2|]. split; [reflexivity|].
  split; [exact Hcd2|]. split; [rewrite Hpd2; exact Hcd1|].
  assert (Hf : ∀ {A} (f : desktop → A), f (live m2) = f (mk_desktop (master_size m) (mode m)
                 (growth m) (head m) (current m) pf2 (showpanel m))).
  { intros A f. rewrite Hlive2. reflexivity. }
  split; [exact (Hf _ d_head)|]. split; [exact (Hf _ d_current)|].
  split; [exact (Hf _ d_mode)|]. split; [exact (Hf _ d_master_size)|].
  split; [exact (Hf _ d_growth)|]. split; [exact (Hf _ d_showpanel)|].
  intros d Hdi Hdcd. rewrite Hv2 by exact Hdcd. apply Hv1, Hdi.
Qed.


(** ** [setup] with one screen *)

Lemma just_set_up_ok x y w hh msz h m : just_set_up cfg x y w hh msz m → monitor_ok cfg h m.
Proof.
  intros (Hwf & _ & _ & _ & _ & _ & Hv). split; [exact Hwf|].
  intros d Hd. eexists. split; [apply Hv, Hd|]. exists [].
  split; [reflexivity|]. split; [discriminate|]. split; [discriminate|].
  intros _ Hlen. simpl in Hlen. lia.
Qed.

Lemma just_set_up_same x y w hh msz m m' :
  same_desktops m m' → just_set_up cfg x y w hh msz m → just_set_up cfg x y w hh msz m'.
Proof.
  intros [Hcd (_ & Hwh & Hww & Hwx & Hwy & Hlen & Hv)] ([Hc Hl] & Hdd & Hw1 & Hh1 & Hx1 & Hy1 & Hvs).
  split; [split; [rewrite Hcd; exact Hc|rewrite Hlen; exact Hl]|].
  split; [congruence|]. split; [congruence|]. split; [congruence|].
  split; [congruence|]. split; [congruence|].
  intros d Hd. rewrite Hv. apply Hvs, Hd.
Qed.

(** The loop [for (d=0; d<DESKTOPS; d++) save_desktop(d)] fills the array
    with the live fields. *)
Lemma save_desktops_fill h prev log :
  ∀ k pre suf m rest,
    desktops m = pre ++ suf → length suf = k →
    Z.of_nat (length pre + k) = DESKTOPS cfg →
    save_desktops cfg k (Z.of_nat (length pre)) (mk_wm h (m :: rest) 0 prev log)
    = Some (tt, mk_wm h (set_desktops (pre ++ replicate k (live m)) m :: rest) 0 prev log).
Proof.
  induction k as [|k IH]; intros pre suf m rest Hd Hlen Hsum.
  - destruct suf; [|discriminate]. simpl. rewrite app_nil_r in *. unfold ret.
    rewrite <- Hd. destruct m; reflexivity.
  - destruct suf as [|d0 suf]; [discriminate|]. simpl in Hlen.
    cbn [save_desktops]. unfold save_desktop.
    destruct (Z.ltb_spec (Z.of_nat (length pre)) 0) as [?|_]; [lia|].
    destruct (Z.geb_spec (Z.of_nat (length pre)) (DESKTOPS cfg)) as [?|_]; [lia|].
    cbn [orb]. rewrite !bind_assoc.
    erewrite bind_Some; [|apply CM_of_nth; reflexivity]. rewrite bind_assoc.
    rewrite (bind_lift _ d0); [|rewrite Nat2Z.id, Hd; apply list_lookup_middle; reflexivity].
    erewrite bind_Some; [|apply setCM_eq, CM_of_nth; reflexivity].
    norm_state. cbn [Z.to_nat insert list_insert].
    fold (live m). rewrite Nat2Z.id, Hd.
    rewrite insert_app_r_alt by lia. rewrite Nat.sub_diag. cbn [insert list_insert].
    set (m1 := set_desktops (pre ++ live m :: suf) m).
    replace (Z.of_nat (length pre) + 1) with (Z.of_nat (length (pre ++ [live m])))
      by (rewrite length_app; simpl; lia).
    change (set_monitors _ _) with (mk_wm h (m1 :: rest) 0 prev log).
    rewrite (IH (pre ++ [live m]) suf m1 rest).
    + rewrite <- app_assoc. reflexivity.
    + unfold m1. cbn [desktops set_desktops]. rewrite <- app_assoc. reflexivity.
    + lia.
    + rewrite length_app. simpl. lia.
Qed.


Lemma filled_views m d :
  desktops m = replicate (Z.to_nat (DESKTOPS cfg)) (live m) → 0 ≤ d < DESKTOPS cfg →
  desktop_view m d = Some (live m).
Proof.
  intros Hd Hr. unfold desktop_view. destruct (d =? current_desktop m); [reflexivity|].
  unfold nth_z. destruct (Z.ltb_spec d 0) as [?|_]; [lia|].
  rewrite Hd. apply lookup_replicate_2. lia.
Qed.

Lemma setup_monitor_single prev log x y w hh msz :
  0 ≤ DEFAULT_DESKTOP cfg < DESKTOPS cfg →
  int_times_dbl (if decide (DEFAULT_MODE cfg = BSTACK) then hh else w) (MASTER_SIZE cfg)
  = Some msz →
  ∃ m reqs,
    setup_monitor cfg xe 0 x y w hh (mk_wm ∅ [zero_monitor] 0 prev log)
    = Some (tt, mk_wm ∅ [m] 0 prev (log ++ reqs))
    ∧ just_set_up cfg x y w hh msz m.
Proof.
  intros HDD Hms.
  set (L := mk_desktop msz (DEFAULT_MODE cfg) 0 None None None (SHOW_PANEL cfg)).
  set (m0 := mk_monitor (SHOW_PANEL cfg) 0 0 0 (DEFAULT_MODE cfg) msz hh w x y None None None
               (replicate (Z.to_nat (DESKTOPS cfg)) zero_desktop)).
  set (m1 := set_desktops (replicate (Z.to_nat (DESKTOPS cfg)) L) m0).
  assert (Hfill : save_desktops cfg (Z.to_nat (DESKTOPS cfg)) 0 (mk_wm ∅ [m0] 0 prev log)
                  = Some (tt, mk_wm ∅ [m1] 0 prev log)).
  { apply (save_desktops_fill ∅ prev log (Z.to_nat (DESKTOPS cfg)) []
             (replicate (Z.to_nat (DESKTOPS cfg)) zero_desktop) m0 []).
    - reflexivity.
    - apply length_replicate.
    - simpl. lia. }
  assert (Hwf1 : wf_desktops cfg m1).
  { split; [simpl; lia|]. unfold m1. cbn [desktops set_desktops]. apply length_replicate. }
  assert (Hv1 : ∀ d, 0 ≤ d < DESKTOPS cfg → desktop_view m1 d = Some L).
  { intros d Hd. apply (filled_views m1 d); [reflexivity|exact Hd]. }
  assert (Hstart : setup_monitor cfg xe 0 x y w hh (mk_wm ∅ [zero_monitor] 0 prev log)
                   = change_desktop cfg xe (DEFAULT_DESKTOP cfg) (mk_wm ∅ [m1] 0 prev log)).
  { unfold setup_monitor, select_monitor. rewrite bind_assoc.
    erewrite bind_Some; [|reflexivity].
    change (0 >=? MONITORS (mk_wm ∅ [zero_monitor] 0 prev log)) with false. cbv iota.
    erewrite bind_Some; [|reflexivity].
    erewrite bind_Some; [|apply setCM_eq, CM_of_nth; reflexivity].
    erewrite bind_Some; [|apply setCM_eq, CM_of_nth; reflexivity].
    erewrite bind_Some; [|apply setCM_eq, CM_of_nth; reflexivity].
    erewrite bind_Some; [|apply CM_of_nth; reflexivity].
    rewrite (bind_lift _ msz); [|exact Hms].
    erewrite bind_Some; [|apply setCM_eq, CM_of_nth; reflexivity].
    rewrite (bind_Some _ _ _ _ _ Hfill). reflexivity. }
  rewrite Hstart. clear Hstart.
  destruct (Z.eq_dec (DEFAULT_DESKTOP cfg) 0) as [E0|Hne].
  - exists m1, []. split.
    + unfold change_desktop. erewrite bind_Some; [|apply CM_of_nth; reflexivity].
      rewrite E0. cbn [current_desktop m1 m0 set_desktops]. rewrite Z.eqb_refl.
      rewrite app_nil_r. reflexivity.
    + split; [exact Hwf1|]. split; [symmetry; exact E0|]. repeat (split; [reflexivity|]).
      exact Hv1.
  - destruct (change_desktop_spec ∅ [m1] 0 prev log m1 (DEFAULT_DESKTOP cfg) L [] [])
      as (ms' & m' & pf & reqs & Hrun & Hnth' & Hlen & Hall' & Hcd & Hpd & Hlive & Hv & Hgeo
          & _); try reflexivity.
    + constructor; [|constructor]. split; [exact Hwf1|]. intros d Hd.
      exists L. split; [apply Hv1, Hd|]. exists [].
      split; [reflexivity|]. split; [discriminate|]. split; [discriminate|].
      intros _ Hl. simpl in Hl. lia.
    + exact HDD.
    + exact Hne.
    + apply Hv1, HDD.
    + destruct ms' as [|m'' [|? ?]]; try discriminate.
      assert (m'' = m') as -> by (unfold nth_z in Hnth'; simpl in Hnth'; congruence).
      apply Forall_cons in Hall' as [Hok' _].
      assert (Hpf : pf = None).
      { destruct (monitor_ok_live _ _ Hok') as (l & Hl & _ & Hp & _).
        rewrite Hlive in Hl, Hp. cbn [d_head d_prevfocus] in Hl, Hp.
        destruct l; [|destruct Hl as [[=] _]].
        destruct pf as [c|]; [|reflexivity]. specialize (Hp c eq_refl). inversion Hp. }
      subst pf.
      exists m', reqs. split; [exact Hrun|].
      destruct Hgeo as (G1 & G2 & G3 & G4).
      split; [exact (proj1 Hok')|]. split; [exact Hcd|].
      split; [exact G2|]. split; [exact G1|]. split; [exact G3|]. split; [exact G4|].
      intros d Hd. destruct (Z.eq_dec d (DEFAULT_DESKTOP cfg)) as [->|Hdd].
      * rewrite <- Hcd at 1. rewrite desktop_view_live, Hlive. reflexivity.
      * rewrite Hv by exact Hdd. apply Hv1, Hd.
Qed.

(** X19. [setup] with one screen (no Xinerama, or none reported), from
    the state the program starts in, with a default desktop that exists, a
    default monitor that is not negative and a master size that fits an
    [int]: it returns with a single monitor of the size of the screen less
    the border and the panel, the default desktop selected, no clients,
    and every desktop empty with the default mode, the master size and
    the panel as configured; the state is in good order. *)
Theorem setup_single_screen (width height msz : Z) :
  let hh := height - (if SHOW_PANEL cfg then PANEL_HEIGHT cfg else 0) - BORDER_WIDTH cfg in
  0 ≤ DEFAULT_DESKTOP cfg < DESKTOPS cfg → 0 ≤ DEFAULT_MONITOR cfg →
  int_times_dbl (if decide (DEFAULT_MODE cfg = BSTACK) then hh
                 else width - BORDER_WIDTH cfg) (MASTER_SIZE cfg) = Some msz →
  ∃ s m,
    setup cfg xe [] width height initial = Some (tt, s)
    ∧ state_ok cfg s ∧ heap s = ∅ ∧ monitors s = [m] ∧ current_monitor s = 0
    ∧ current_desktop m = DEFAULT_DESKTOP cfg
    ∧ ww m = width - BORDER_WIDTH cfg ∧ wh m = hh ∧ wx m = 0 ∧ wy m = 0
    ∧ ∀ d, 0 ≤ d < DESKTOPS cfg →
        desktop_view m d
        = Some (mk_desktop msz (DEFAULT_MODE cfg) 0 None None None (SHOW_PANEL cfg)).
Proof.
  intros hh HDD HDM Hms.
  destruct (setup_monitor_single 0 [] 0 0 (width - BORDER_WIDTH cfg) hh msz HDD Hms)
    as (m1 & reqs1 & Hrun1 & Hup1).
  set (log1 := ([] ++ reqs1)
               ++ [ChangeProperty (root xe) (NET_SUPPORTED xe) XCB_ATOM_ATOM
                     [NET_SUPPORTED xe; NET_FULLSCREEN xe; NET_WM_STATE xe; NET_ACTIVE xe]]).
  assert (Hhead : setup cfg xe [] width height initial
                  = (change_monitor cfg xe (DEFAULT_MONITOR cfg) ;;;
                     change_desktop cfg xe (DEFAULT_DESKTOP cfg)) (mk_wm ∅ [m1] 0 0 log1)).
  { unfold setup. erewrite bind_Some; [|reflexivity].
    change (set_monitors _ initial) with (mk_wm ∅ [zero_monitor] 0 0 []).
    fold hh. rewrite (bind_Some _ _ _ _ _ Hrun1).
    erewrite bind_Some; [|reflexivity]. reflexivity. }
  rewrite Hhead. clear Hhead.
  assert (Hfinal : ∀ m prev log, just_set_up cfg 0 0 (width - BORDER_WIDTH cfg) hh msz m →
            ∃ s, change_desktop cfg xe (DEFAULT_DESKTOP cfg) (mk_wm ∅ [m] 0 prev log)
                 = Some (tt, s)
                 ∧ state_ok cfg s ∧ heap s = ∅ ∧ monitors s = [m] ∧ current_monitor s = 0).
  { intros m prev log Hup. eexists. split.
    - unfold change_desktop. erewrite bind_Some; [|apply CM_of_nth; reflexivity].
      destruct Hup as (_ & -> & _). rewrite Z.eqb_refl. reflexivity.
    - split; [|repeat split; reflexivity]. split; [unfold MONITORS; simpl; lia|].
      constructor; [|constructor]. eapply just_set_up_ok, Hup. }
  assert (Hdone : ∀ m prev log, just_set_up cfg 0 0 (width - BORDER_WIDTH cfg) hh msz m →
            ∃ s m', change_desktop cfg xe (DEFAULT_DESKTOP cfg) (mk_wm ∅ [m] 0 prev log)
                    = Some (tt, s)
                    ∧ state_ok cfg s ∧ heap s = ∅ ∧ monitors s = [m'] ∧ current_monitor s = 0
                    ∧ current_desktop m' = DEFAULT_DESKTOP cfg
                    ∧ ww m' = width - BORDER_WIDTH cfg ∧ wh m' = hh ∧ wx m' = 0 ∧ wy m' = 0
                    ∧ ∀ d, 0 ≤ d < DESKTOPS cfg →
                        desktop_view m' d
                        = Some (mk_desktop msz (DEFAULT_MODE cfg) 0 None None None
                                  (SHOW_PANEL cfg))).
  { intros m prev log Hup. destruct (Hfinal m prev log Hup) as (s & Hrun & Hok & Hh & Hm & Hc).
    exists s, m. destruct Hup as (_ & Hcd & Hw & Hh' & Hx & Hy & Hv).
    repeat (split; [assumption|]). exact Hv. }
  unfold change_monitor. rewrite !bind_assoc. erewrite bind_Some; [|reflexivity].
  cbn [current_monitor].
  destruct (Z.eqb_spec (DEFAULT_MONITOR cfg) 0) as [E|Hne].
  - rewrite bind_ret_l. apply Hdone, Hup1.
  - rewrite !bind_assoc. erewrite bind_Some; [|reflexivity].
    change (set_previous_monitor 0 (mk_wm ∅ [m1] 0 0 log1)) with (mk_wm ∅ [m1] 0 0 log1).
    unfold select_monitor. rewrite !bind_assoc. erewrite bind_Some; [|reflexivity].
    assert (Hge : (DEFAULT_MONITOR cfg >=? MONITORS (mk_wm ∅ [m1] 0 0 log1)) = true).
    { unfold MONITORS. simpl. apply Z.geb_le. lia. }
    rewrite Hge, bind_ret_l. rewrite !bind_assoc.
    erewrite bind_Some; [|apply CM_of_nth; reflexivity].
    pose proof (just_set_up_ok _ _ _ _ _ ∅ _ Hup1) as Hok1.
    destruct (monitor_ok_live _ _ Hok1) as (l & Hl & Hc & Hp & Hs).
    destruct (update_current_ok ∅ [m1] 0 0 log1 m1 l (current m1) eq_refl Hl Hc Hc Hp Hs)
      as (pf & requ & Hupd & Hpf & _).
    rewrite !bind_assoc, (bind_Some _ _ _ _ _ Hupd).
    cbn [Z.to_nat insert list_insert].
    set (m2 := set_prevfocus pf (set_current (current m1) m1)).
    assert (Hlive1 : live m1 = mk_desktop msz (DEFAULT_MODE cfg) 0 None None None
                                 (SHOW_PANEL cfg)).
    { destruct Hup1 as (Hwf1 & Hcd1 & _ & _ & _ & _ & Hv1).
      specialize (Hv1 _ (proj1 Hwf1)). rewrite desktop_view_live in Hv1. congruence. }
    assert (Hl0 : l = []).
    { assert (Hh1 : head m1 = None) by exact (f_equal d_head Hlive1).
      change (is_list ∅ (head m1) l) in Hl. rewrite Hh1 in Hl. destruct l; [reflexivity|destruct Hl as [[=] _]]. }
    assert (Hpf0 : pf = None).
    { destruct pf as [c|]; [|reflexivity]. specialize (Hpf c eq_refl).
      rewrite Hl0 in Hpf. inversion Hpf. }
    assert (Hm2 : m2 = m1).
    { unfold m2. rewrite Hpf0.
      assert (Hc1 : current m1 = None) by exact (f_equal d_current Hlive1).
      assert (Hp1 : prevfocus m1 = None) by exact (f_equal d_prevfocus Hlive1).
      clear - Hc1 Hp1. destruct m1. simpl in *. subst. reflexivity. }
    rewrite Hm2.
    destruct (desktopinfo_last ∅ [m1] 0 0 (log1 ++ requ)) as (ms' & recs & Hinfo & Hsame & _);
      [lia|reflexivity|constructor; [exact Hok1|constructor]|].
    rewrite (bind_Some _ _ _ _ _ Hinfo).
    apply Forall2_cons_inv_l in Hsame as (m3 & ms3 & Hsd & Hnil & ->).
    apply Forall2_nil_inv_l in Hnil as ->.
    apply Hdone. eapply just_set_up_same; eassumption.
Qed.


(** ** [setup] with several screens *)

(** [desktopinfo] reaches a monitor whose desktop array has not been
    allocated. *)
Lemma desktopinfo_unallocated h me rest prev log :
  monitor_ok cfg h me → 0 < DESKTOPS cfg →
  desktopinfo cfg (mk_wm h (me :: zero_monitor :: rest) 0 prev log) = None.
Proof.
  intros Hok HD. destruct (monitor_ok_proper _ _ Hok) as [Hwf Hproper].
  set (ms := me :: zero_monitor :: rest).
  set (s0 := mk_wm h ms 0 prev log).
  destruct (desktopinfo_desktops_spec s0 0 me prev Hwf Hproper (Z.to_nat (DESKTOPS cfg)) 0
              ms me log eq_refl Hwf (same_views_refl me) eq_refl)
    as (mst & recs & _ & Hrun & Hwf1 & Hsv1); [lia|lia|].
  cbn [heap s0 current_monitor Z.to_nat insert list_insert ms] in Hrun.
  assert (Hv : desktop_view mst (current_desktop me) = Some (live me)).
  { destruct Hsv1 as (_ & _ & _ & _ & _ & _ & Hv). rewrite Hv. apply desktop_view_live. }
  pose proof (select_desktop_step h (mst :: zero_monitor :: rest) 0 prev (log ++ recs) mst
                (current_desktop me) (live me) eq_refl (proj1 Hwf) Hwf1 Hv) as Hsel.
  cbn [Z.to_nat insert list_insert] in Hsel.
  subst s0 ms.
  unfold desktopinfo. rewrite ?bind_assoc; erewrite bind_Some; [|reflexivity].
  unfold MONITORS. cbn [monitors length current_monitor].
  rewrite Nat2Z.id.
  cbn [desktopinfo_monitors]. rewrite ?bind_assoc.
  unfold select_monitor at 1. rewrite ?bind_assoc. rewrite ?bind_assoc; erewrite bind_Some; [|reflexivity].
  assert (H0 : (0 >=? MONITORS (mk_wm h (me :: zero_monitor :: rest) 0 prev log)) = false).
  { unfold MONITORS. cbn [monitors].
    match goal with |- (?a >=? ?b) = false => destruct (Z.geb_spec a b) as [Hge|_] end;
      [simpl in Hge; lia|reflexivity]. }
  rewrite H0. rewrite ?bind_assoc; erewrite bind_Some; [|reflexivity].
  change (set_current_monitor 0 _) with (mk_wm h (me :: zero_monitor :: rest) 0 prev log).
  rewrite ?bind_assoc; erewrite bind_Some; [|apply CM_of_nth; reflexivity]. rewrite ?bind_assoc.
  rewrite ?bind_assoc, (bind_Some _ _ _ _ _ Hrun). rewrite ?bind_assoc.
  rewrite ?bind_assoc, (bind_Some _ _ _ _ _ Hsel).
  unfold select_monitor at 1. rewrite ?bind_assoc. rewrite ?bind_assoc; erewrite bind_Some; [|reflexivity].
  set (mst2 := switched mst (current_desktop me) (live me)).
  assert (H1 : (0 + 1 >=? MONITORS (mk_wm h (mst2 :: zero_monitor :: rest) 0 prev
                                      (log ++ recs))) = false).
  { unfold MONITORS. cbn [monitors].
    match goal with |- (?a >=? ?b) = false => destruct (Z.geb_spec a b) as [Hge|_] end;
      [simpl in Hge; lia|reflexivity]. }
  change (<[Z.to_nat 0:=mst2]> (mst :: zero_monitor :: rest))
    with (mst2 :: zero_monitor :: rest).
  rewrite H1. rewrite ?bind_assoc; erewrite bind_Some; [|reflexivity].
  change (set_current_monitor (0 + 1) _)
    with (mk_wm h (mst2 :: zero_monitor :: rest) 1 prev (log ++ recs)).
  rewrite ?bind_assoc; erewrite bind_Some; [|apply CM_of_nth; reflexivity]. rewrite ?bind_assoc.
  destruct (Z.to_nat (DESKTOPS cfg)) as [|k] eqn:Ek; [lia|].
  cbn [desktopinfo_desktops]. rewrite ?bind_assoc.
  unfold select_desktop at 1.
  destruct (Z.geb_spec 0 (DESKTOPS cfg)) as [?|_]; [lia|]. cbn [Z.ltb Z.compare orb].
  rewrite ?bind_assoc. rewrite ?bind_assoc; erewrite bind_Some; [|apply CM_of_nth; reflexivity].
  rewrite ?bind_assoc. unfold save_desktop at 1.
  cbn [current_desktop zero_monitor].
  destruct (Z.geb_spec 0 (DESKTOPS cfg)) as [?|_]; [lia|]. cbn [Z.ltb Z.compare orb].
  rewrite ?bind_assoc. rewrite ?bind_assoc; erewrite bind_Some; [|apply CM_of_nth; reflexivity].
  reflexivity.
Qed.

(** X20. [setup] with two or more Xinerama screens and a default desktop
    other than desktop 0 does not return: the [change_desktop] that
    [setup_monitor] runs for the first monitor ends in [desktopinfo],
    which visits every monitor, and the desktop array of the second one
    is still the null pointer [calloc] left in the monitor array. *)
Theorem setup_screens_default_desktop (scr1 scr2 : Z * Z * Z * Z)
    (more : list (Z * Z * Z * Z)) (width height : Z) :
  0 < DEFAULT_DESKTOP cfg < DESKTOPS cfg →
  setup cfg xe (scr1 :: scr2 :: more) width height initial = None.
Proof.
  intros HDD. destruct scr1 as [[[x y] w] hh0].
  set (hh := hh0 - (if SHOW_PANEL cfg then PANEL_HEIGHT cfg else 0)).
  set (rest := replicate (length more) zero_monitor).
  assert (Hmon : setup_monitor cfg xe 0 x y w hh
                   (mk_wm ∅ (zero_monitor :: zero_monitor :: rest) 0 0 []) = None).
  { unfold setup_monitor, select_monitor. rewrite bind_assoc.
    erewrite bind_Some; [|reflexivity].
    assert (H0 : (0 >=? MONITORS (mk_wm ∅ (zero_monitor :: zero_monitor :: rest) 0 0 []))
                 = false).
    { unfold MONITORS. cbn [monitors].
    match goal with |- (?a >=? ?b) = false => destruct (Z.geb_spec a b) as [Hge|_] end;
      [simpl in Hge; lia|reflexivity]. }
    rewrite H0.
    erewrite bind_Some; [|reflexivity].
    erewrite bind_Some; [|apply setCM_eq, CM_of_nth; reflexivity].
    erewrite bind_Some; [|apply setCM_eq, CM_of_nth; reflexivity].
    erewrite bind_Some; [|apply setCM_eq, CM_of_nth; reflexivity].
    erewrite bind_Some; [|apply CM_of_nth; reflexivity].
    destruct (int_times_dbl _ (MASTER_SIZE cfg)) as [msz|] eqn:Hms; [|reflexivity].
    rewrite (bind_lift _ msz); [|reflexivity].
    erewrite bind_Some; [|apply setCM_eq, CM_of_nth; reflexivity].
    set (L := mk_desktop msz (DEFAULT_MODE cfg) 0 None None None (SHOW_PANEL cfg)).
    set (m0 := mk_monitor (SHOW_PANEL cfg) 0 0 0 (DEFAULT_MODE cfg) msz hh w x y None None None
                 (replicate (Z.to_nat (DESKTOPS cfg)) zero_desktop)).
    set (m1 := set_desktops (replicate (Z.to_nat (DESKTOPS cfg)) L) m0).
    assert (Hfill : save_desktops cfg (Z.to_nat (DESKTOPS cfg)) 0
                      (mk_wm ∅ (m0 :: zero_monitor :: rest) 0 0 [])
                    = Some (tt, mk_wm ∅ (m1 :: zero_monitor :: rest) 0 0 [])).
    { apply (save_desktops_fill ∅ 0 [] (Z.to_nat (DESKTOPS cfg)) []
               (replicate (Z.to_nat (DESKTOPS cfg)) zero_desktop) m0).
      - reflexivity.
      - apply length_replicate.
      - simpl. lia. }
    rewrite (bind_Some _ _ _ _ _ Hfill).
    assert (Hwf1 : wf_desktops cfg m1).
    { split; [simpl; lia|]. unfold m1. cbn [desktops set_desktops]. apply length_replicate. }
    assert (Hv1 : ∀ d, 0 ≤ d < DESKTOPS cfg → desktop_view m1 d = Some L).
    { intros d Hd. apply (filled_views m1 d); [reflexivity|exact Hd]. }
    assert (Hok1 : monitor_ok cfg ∅ m1).
    { split; [exact Hwf1|]. intros d Hd.
      exists L. split; [apply Hv1, Hd|]. exists [].
      split; [reflexivity|]. split; [discriminate|]. split; [discriminate|].
      intros _ Hl. simpl in Hl. lia. }
    destruct (change_desktop_steps ∅ (m1 :: zero_monitor :: rest) 0 0 [] m1
                (DEFAULT_DESKTOP cfg) L [] [] eq_refl Hok1)
      as (me & pf & reqs & Hrun & Hoke & _); try reflexivity.
    - lia.
    - simpl. lia.
    - apply Hv1. lia.
    - rewrite Hrun. cbn [Z.to_nat insert list_insert].
      apply desktopinfo_unallocated; [exact Hoke|lia]. }
  unfold setup. erewrite bind_Some; [|reflexivity].
  change (set_monitors _ initial)
    with (mk_wm ∅ (zero_monitor :: zero_monitor :: rest) 0 0 []).
  cbn [setup_monitors]. fold hh. rewrite ?bind_assoc.
  unfold bind at 1. rewrite Hmon. reflexivity.
Qed.


(** ** Events for windows that are not tracked *)

(** [wintoclient] for a window no desktop of the current monitor tracks,
    on a state in good order. *)
Lemma wintoclient_unknown w h ms cur prev log m :
  nth_z ms cur = Some m → Forall (monitor_ok cfg h) ms →
  (∀ d, 0 ≤ d < DESKTOPS cfg →
     ∃ dk l, desktop_view m d = Some dk ∧ is_list h (d_head dk) l ∧ untracked h l w) →
  ∃ ms1, wintoclient cfg w (mk_wm h ms cur prev log) = Some (None, mk_wm h ms1 cur prev log)
         ∧ Forall2 same_desktops ms ms1 ∧ Forall (monitor_ok cfg h) ms1.
Proof.
  intros Hnth Hall Hun.
  assert (Hok : monitor_ok cfg h m).
  { rewrite Forall_forall in Hall. apply Hall.
    apply nth_z_lookup in Hnth as [_ Hnth]. eapply list_elem_of_lookup_2, Hnth. }
  destruct (wintoclient_none w h ms cur prev log m Hnth (proj1 Hok) Hun) as (m' & Hrun & Hsd & _).
  exists (<[Z.to_nat cur := m']> ms). split; [exact Hrun|]. split.
  - apply nth_z_lookup in Hnth as [_ Hnth].
    rewrite <- (list_insert_id ms (Z.to_nat cur) m Hnth) at 1.
    apply Forall2_insert; [|exact Hsd].
    apply Forall_Forall2_diag, Forall_forall. intros x _. apply same_desktops_refl.
  - apply Forall_insert; [exact Hall|]. eapply monitor_ok_same_desktops; eassumption.
Qed.

(** X21. Events for a window that no desktop of the current monitor
    tracks, on a state in good order whose current monitor is the last
    one.  [destroynotify] and [unmapnotify] only print the status line;
    [enternotify] and [clientmessage] do nothing.  In all four cases no
    client is touched and every monitor shows the desktops it showed, with
    the same one selected. *)
Theorem events_for_unknown_windows (s : wm) (m : monitor) (w : Z) :
  state_ok cfg s → current_monitor s = MONITORS s - 1 → CM s = Some (m, s) →
  (∀ d, 0 ≤ d < DESKTOPS cfg →
     ∃ dk l, desktop_view m d = Some dk ∧ is_list (heap s) (d_head dk) l
             ∧ untracked (heap s) l w) →
  (∃ ms' recs,
     destroynotify cfg xe w s
     = Some (tt, mk_wm (heap s) ms' (current_monitor s) (previous_monitor s) (xlog s ++ recs))
     ∧ Forall2 same_desktops (monitors s) ms' ∧ Forall is_status_output recs)
  ∧ (∀ event, ∃ ms' recs,
       unmapnotify cfg xe w event s
       = Some (tt, mk_wm (heap s) ms' (current_monitor s) (previous_monitor s)
                     (xlog s ++ recs))
       ∧ Forall2 same_desktops (monitors s) ms' ∧ Forall is_status_output recs)
  ∧ (∀ mode detail, ∃ ms',
       enternotify cfg xe w mode detail s
       = Some (tt, mk_wm (heap s) ms' (current_monitor s) (previous_monitor s) (xlog s))
       ∧ Forall2 same_desktops (monitors s) ms')
  ∧ (∀ type d0 d1 d2, ∃ ms',
       clientmessage cfg xe w type d0 d1 d2 s
       = Some (tt, mk_wm (heap s) ms' (current_monitor s) (previous_monitor s) (xlog s))
       ∧ Forall2 same_desktops (monitors s) ms').
Proof.
  intros [Hcur0 Hall] Hcur HCM Hun. apply CM_inv in HCM as [_ Hnth].
  destruct s as [h ms cur prev log]. unfold MONITORS in *.
  cbn [heap monitors current_monitor previous_monitor xlog] in *.
  destruct (wintoclient_unknown w h ms cur prev log m Hnth Hall Hun)
    as (ms1 & Hfind & Hsame1 & Hall1).
  assert (Hlen1 : length ms1 = length ms) by (symmetry; eapply Forall2_length, Hsame1).
  destruct (desktopinfo_last h ms1 cur prev log) as (ms' & recs & Hinfo & Hsame & Hrecs);
    [lia|lia|exact Hall1|].
  assert (Hst : Forall2 same_desktops ms ms').
  { eapply Forall2_trans; [|exact Hsame1|exact Hsame].
    intros x y z. apply same_desktops_trans. }
  split; [|split; [|split]].
  - exists ms', recs. split; [|split; assumption].
    unfold destroynotify. rewrite (bind_Some _ _ _ _ _ Hfind), bind_ret_l. exact Hinfo.
  - intros event. exists ms', recs. split; [|split; assumption].
    unfold unmapnotify. rewrite (bind_Some _ _ _ _ _ Hfind), bind_ret_l. exact Hinfo.
  - intros mode detail. unfold enternotify. destruct (FOLLOW_MOUSE cfg); simpl.
    + exists ms1. split; [|exact Hsame1]. rewrite (bind_Some _ _ _ _ _ Hfind). reflexivity.
    + exists ms. split; [reflexivity|].
      apply Forall_Forall2_diag, Forall_forall. intros x _. apply same_desktops_refl.
  - intros type d0 d1 d2. exists ms1. split; [|exact Hsame1].
    unfold clientmessage. rewrite (bind_Some _ _ _ _ _ Hfind). reflexivity.
Qed.


(** ** [configurerequest] *)

Lemma same_desktops_live m m' : same_desktops m m' → live m' = live m.
Proof.
  intros [Hcd (_ & _ & _ & _ & _ & _ & Hv)].
  pose proof (desktop_view_live m') as H. rewrite Hv, Hcd, desktop_view_live in H.
  congruence.
Qed.

Lemma configure_values_same m m' ev :
  same_desktops m m' → configure_values cfg m' ev = configure_values cfg m ev.
Proof.
  intros Hsd. pose proof (same_desktops_live _ _ Hsd) as Hlive.
  destruct Hsd as [_ (_ & Hwh & Hww & _)].
  assert (Hsp : showpanel m' = showpanel m) by exact (f_equal d_showpanel Hlive).
  unfold configure_values. rewrite Hsp, Hwh, Hww. reflexivity.
Qed.

(** X22. [configurerequest] for a window that no desktop of the current
    monitor tracks: the request is passed on for that window with the mask
    of the event, then the clients of the selected desktop are tiled
    again; no client is touched.  The [y] passed on is not the one asked
    for: two events that differ only in [y] are passed on with the same
    values as long as [y + (showpanel && TOP_PANEL)] is not zero for
    either, because the line reads
    [v = ev->y + (CM->showpanel && TOP_PANEL) ? PANEL_HEIGHT : 0]. *)
Theorem configurerequest_unknown_window (s : wm) (m : monitor) (l : list positive)
    (ev : configure_request) :
  state_ok cfg s → CM s = Some (m, s) → is_list (heap s) (head m) l →
  (∀ d, 0 ≤ d < DESKTOPS cfg →
     ∃ dk l, desktop_view m d = Some dk ∧ is_list (heap s) (d_head dk) l
             ∧ untracked (heap s) l (cr_window ev)) →
  (∃ ms' vs treqs,
     configurerequest cfg xe ev s
     = Some (tt, mk_wm (heap s) ms' (current_monitor s) (previous_monitor s)
                   (xlog s ++ ConfigureWindow (cr_window ev) (cr_value_mask ev) vs :: treqs))
     ∧ vs = configure_values cfg m ev
     ∧ Forall2 same_desktops (monitors s) ms'
     ∧ Forall is_move_resize treqs
     ∧ placed_windows treqs = tileable_windows (heap s) l)
  ∧ ∀ y',
      cr_y ev + (if showpanel m && TOP_PANEL cfg then 1 else 0) ≠ 0 →
      y' + (if showpanel m && TOP_PANEL cfg then 1 else 0) ≠ 0 →
      configure_values cfg m
        (mk_configure_request (cr_window ev) (cr_value_mask ev) (cr_x ev) y' (cr_width ev)
           (cr_height ev) (cr_border_width ev) (cr_sibling ev) (cr_stack_mode ev))
      = configure_values cfg m ev.
Proof.
  intros [Hcur0 Hall] HCM Hl Hun. apply CM_inv in HCM as [_ Hnth].
  destruct s as [h ms cur prev log].
  cbn [heap monitors current_monitor previous_monitor xlog] in *. split.
  - assert (Hok : monitor_ok cfg h m).
    { rewrite Forall_forall in Hall. apply Hall.
      apply nth_z_lookup in Hnth as [_ Hnth]. eapply list_elem_of_lookup_2, Hnth. }
    destruct (wintoclient_none (cr_window ev) h ms cur prev log m Hnth (proj1 Hok) Hun)
      as (m' & Hfind & Hsd & _).
    set (ms1 := <[Z.to_nat cur := m']> ms) in *.
    assert (Hnth1 : nth_z ms1 cur = Some m') by (eapply nth_z_insert, Hnth).
    pose proof (same_desktops_live _ _ Hsd) as Hlive.
    destruct (monitor_ok_live _ _ Hok) as (l0 & Hl0 & _ & _ & Hsafe).
    pose proof (is_list_functional _ _ _ _ Hl0 Hl) as ->.
    assert (Hl' : is_list h (head m') l).
    { change (is_list h (d_head (live m')) l). rewrite Hlive. exact Hl. }
    assert (Hsafe' : grid_safe h l (mode m')).
    { change (grid_safe h l (d_mode (live m'))). rewrite Hlive. exact Hsafe. }
    destruct (tile_requests
                (mk_wm h ms1 cur prev
                   (log ++ [ConfigureWindow (cr_window ev) (cr_value_mask ev)
                              (configure_values cfg m' ev)])) m' l)
      as (treqs & Htile & Hmr & Hpl); [apply CM_of_nth; exact Hnth1|exact Hl'|exact Hsafe'|].
    exists ms1, (configure_values cfg m ev), treqs.
    split; [|split; [reflexivity|split; [|split; assumption]]].
    + unfold configurerequest. rewrite (bind_Some _ _ _ _ _ Hfind), bind_ret_l.
      rewrite bind_assoc. m_CM Hnth1. erewrite bind_Some; [|reflexivity].
      unfold set_xlog. norm_state. rewrite Htile.
      rewrite (configure_values_same _ _ _ Hsd).
      unfold set_xlog. norm_state. rewrite <- app_assoc. reflexivity.
    + unfold ms1. apply nth_z_lookup in Hnth as [_ Hnth].
      rewrite <- (list_insert_id ms (Z.to_nat cur) m Hnth) at 1.
      apply Forall2_insert; [|exact Hsd].
      apply Forall_Forall2_diag, Forall_forall. intros x _. apply same_desktops_refl.
  - intros y' Hy Hy'. unfold configure_values.
    cbn [cr_window cr_value_mask cr_x cr_y cr_width cr_height cr_border_width cr_sibling
         cr_stack_mode].
    destruct (Z.eqb_spec (cr_y ev + (if showpanel m && TOP_PANEL cfg then 1 else 0)) 0);
      [contradiction|].
    destruct (Z.eqb_spec (y' + (if showpanel m && TOP_PANEL cfg then 1 else 0)) 0);
      [contradiction|].
    reflexivity.
Qed.


(** ** [change_desktop] with an index that is no desktop *)

(** X23. [change_desktop(i)] with [i] outside [0, DESKTOPS), on the last
    (or only) monitor of a state in good order: both [select_desktop(i)]
    return at once, so the desktop selected stays selected, but the rest
    runs: the desktop is recorded as its own previous desktop, and after
    the windows of the desktop have been mapped they are all unmapped --
    the desktop is left selected with none of its windows shown. *)
Theorem change_desktop_no_such_desktop (s : wm) (m : monitor) (i : Z) (l : list positive) :
  state_ok cfg s → current_monitor s = MONITORS s - 1 → CM s = Some (m, s) →
  ¬ 0 ≤ i < DESKTOPS cfg → is_list (heap s) (head m) l →
  ∃ s' m' reqs1 reqs2,
    change_desktop cfg xe i s = Some (tt, s') ∧ CM s' = Some (m', s')
    ∧ heap s' = heap s ∧ xlog s' = xlog s ++ reqs1 ++ reqs2
    ∧ current_desktop m' = current_desktop m ∧ previous_desktop m' = current_desktop m
    ∧ head m' = head m ∧ current m' = current m
    ∧ unmapped_windows reqs1 = [] ∧ mapped_windows reqs2 = []
    ∧ (∀ w, w ∈ unmapped_windows reqs2 ↔ w ∈ windows_of (heap s) l).
Proof.
  intros [Hcur0 Hall] Hcur HCM Hi Hl. apply CM_inv in HCM as [_ Hnth].
  destruct s as [h ms cur prev log]. unfold MONITORS in *.
  cbn [heap monitors current_monitor xlog] in *.
  assert (Hok : monitor_ok cfg h m).
  { rewrite Forall_forall in Hall. apply Hall.
    apply nth_z_lookup in Hnth as [_ Hnth]. eapply list_elem_of_lookup_2, Hnth. }
  pose proof Hok as [Hwf Hviews].
  set (cd := current_desktop m) in *.
  assert (Hne : i ≠ cd) by (intros ->; apply Hi; exact (proj1 Hwf)).
  destruct (monitor_ok_live _ _ Hok) as (l' & Hl' & Hc & Hp & Hs).
  pose proof (is_list_functional _ _ _ _ Hl' Hl) as ->. clear Hl'.
  assert (Hnosel : ∀ st, select_desktop cfg i st = Some (tt, st)).
  { intros st. unfold select_desktop.
    destruct (Z.ltb_spec i 0) as [?|?]; [reflexivity|].
    destruct (Z.geb_spec i (DESKTOPS cfg)) as [?|?]; [reflexivity|lia]. }
  set (ma := set_previous_desktop cd m).
  set (ms1 := <[Z.to_nat cur := ma]> ms).
  assert (Hnth1 : nth_z ms1 cur = Some ma) by (eapply nth_z_insert, Hnth).
  assert (Hla : is_list h (head ma) l) by exact Hl.
  destruct (clients_is_list (mk_wm h ms1 cur prev log) (head ma) l Hla)
    as (cs & _ & Hcs1 & Hcs2).
  destruct (update_current_ok h ms1 cur prev
              ((log ++ for_client MapWindow h (current ma))
               ++ ((λ c : positive * client, MapWindow (win c.2)) <$> cs))
              ma l (current ma) Hnth1 Hla)
    as (pf & requ & Hupd & Hpf & Hku); [exact Hc|exact Hc|exact Hp|exact Hs|].
  set (mc := set_prevfocus pf (set_current (current ma) ma)) in *.
  set (ms3 := <[Z.to_nat cur := mc]> ms).
  assert (Hms3 : <[Z.to_nat cur := mc]> ms1 = ms3)
    by (unfold ms1, ms3; apply list_insert_insert_eq).
  rewrite Hms3 in Hupd.
  assert (Hnth3 : nth_z ms3 cur = Some mc) by (eapply nth_z_insert, Hnth).
  assert (Hwfc : wf_desktops cfg mc) by exact Hwf.
  set (md := switched mc cd (live mc)).
  destruct (switched_views mc cd (live mc) Hwfc (proj1 Hwf) (desktop_view_live mc))
    as (Hsvd & Hwfd & Hcdd & Hlived).
  set (ms4 := <[Z.to_nat cur := md]> ms).
  assert (Hnth4 : nth_z ms4 cur = Some md) by (eapply nth_z_insert, Hnth).
  assert (Hsel2 : ∀ lg, select_desktop cfg cd (mk_wm h ms3 cur prev lg)
                        = Some (tt, mk_wm h ms4 cur prev lg)).
  { intros lg. rewrite (select_desktop_step h ms3 cur prev lg mc cd (live mc) Hnth3
                          (proj1 Hwf) Hwfc (desktop_view_live mc)).
    unfold ms3, ms4. rewrite list_insert_insert_eq. reflexivity. }
  assert (Hld : is_list h (head md) l) by exact Hl.
  assert (Hvd : ∀ d, d ≠ cd → desktop_view md d = desktop_view m d).
  { intros d Hd. destruct Hsvd as (_ & _ & _ & _ & _ & _ & Hv). rewrite Hv.
    unfold mc. rewrite desktop_view_focus by exact Hd. reflexivity. }
  assert (Hokd : monitor_ok cfg h md).
  { split; [exact Hwfd|]. intros d Hd. destruct (Z.eq_dec d cd) as [->|Hdc].
    - exists (live md). split; [exact (desktop_view_live md)|].
      exists l. split; [exact Hl|]. split; [exact Hc|]. split; [exact Hpf|exact Hs].
    - rewrite (Hvd d Hdc). apply Hviews, Hd. }
  assert (Hall4 : Forall (monitor_ok cfg h) ms4).
  { unfold ms4. apply Forall_insert; assumption. }
  assert (Hlen4 : length ms4 = length ms) by (unfold ms4; apply length_insert).
  destruct (desktopinfo_last h ms4 cur prev
              (((((log ++ for_client MapWindow h (current ma))
                  ++ ((λ c : positive * client, MapWindow (win c.2)) <$> cs)) ++ requ)
                ++ flat_map (λ c : positive * client,
                     if decide (Some c.1 = current md) then [] else [UnmapWindow (win c.2)]) cs)
               ++ for_client UnmapWindow h (current md)))
    as (ms' & recs & Hinfo & Hsame & Hkr); [lia|lia|exact Hall4|].
  assert (Hm' : ∃ m', nth_z ms' cur = Some m' ∧ same_desktops md m').
  { apply nth_z_lookup in Hnth4 as [_ Hnth4].
    destruct (Forall2_lookup_l _ _ _ _ _ Hsame Hnth4) as (m' & Hm' & Hsd).
    exists m'. split; [|exact Hsd]. unfold nth_z.
    destruct (Z.ltb_spec cur 0) as [?|_]; [lia|exact Hm']. }
  destruct Hm' as (m' & Hnth' & Hsd).
  pose proof (same_desktops_live _ _ Hsd) as Hlive'.
  destruct Hsd as (Hcd' & Hpd' & _).
  exists (mk_wm h ms' cur prev
            (log ++ ((for_client MapWindow h (current ma)
                      ++ ((λ c : positive * client, MapWindow (win c.2)) <$> cs)) ++ requ)
                 ++ ((flat_map (λ c : positive * client,
                        if decide (Some c.1 = current md) then []
                        else [UnmapWindow (win c.2)]) cs
                      ++ for_client UnmapWindow h (current md)) ++ recs))), m'.
  eexists _, _.
  split; [|split; [apply CM_of_nth; exact Hnth'|split; [reflexivity|split; [reflexivity|]]]].
  - unfold change_desktop. m_CM Hnth. fold cd.
    destruct (Z.eqb_spec i cd) as [E|_]; [contradiction|].
    m_setCM Hnth. fold ma ms1.
    rewrite (bind_Some _ _ _ _ _ (Hnosel _)).
    m_CM Hnth1.
    rewrite (on_current MapWindow h ms1 cur prev log ma l _ Hnth1 Hla Hc).
    erewrite bind_Some; [|apply (clients_is_list_at _ _ _ _ _ Hcs1 Hcs2 Hla); reflexivity].
    erewrite bind_Some; [|reflexivity]. unfold set_xlog. norm_state.
    rewrite (bind_Some _ _ _ _ _ Hupd).
    m_CM Hnth3. replace (previous_desktop mc) with cd by reflexivity.
    rewrite (bind_Some _ _ _ _ _ (Hsel2 _)).
    m_CM Hnth4.
    erewrite bind_Some; [|apply (clients_is_list_at _ _ _ _ _ Hcs1 Hcs2 Hld); reflexivity].
    erewrite bind_Some; [|reflexivity]. unfold set_xlog. norm_state.
    rewrite (on_current UnmapWindow h ms4 cur prev _ md l _ Hnth4 Hld Hc).
    rewrite (bind_Some _ _ _ _ _ (Hnosel _)).
    rewrite Hinfo. rewrite <- !app_assoc. reflexivity.
  - pose proof (windows_of_clients h l cs Hcs1 Hcs2) as Hw.
    destruct (for_client_map h (current ma) l Hc) as [Hm1 Hu1].
    destruct (mapped_all cs) as [Hm2 Hu2].
    destruct (keeps_mapping_quiet _ Hku) as [Hm3 Hu3].
    destruct (unmapped_others cs (current md)) as [Hm4 Hu4].
    destruct (for_client_unmap h (current md) l Hc) as (Hu5 & Hm5 & Hu5').
    destruct (keeps_mapping_quiet _ (status_keeps _ Hkr)) as [Hm6 Hu6].
    split; [rewrite Hcd'; reflexivity|]. split; [rewrite Hpd'; reflexivity|].
    split; [exact (f_equal d_head Hlive')|]. split; [exact (f_equal d_current Hlive')|].
    split; [rewrite !unmapped_windows_app, Hu1, Hu2, Hu3; reflexivity|].
    split; [rewrite !mapped_windows_app, Hm4, Hm5, Hm6; reflexivity|].
    intros w. rewrite !unmapped_windows_app, Hu6, app_nil_r, elem_of_app, Hu4. split.
    + intros [(c & Hcin & _ & <-)|H]; [|apply Hu5, H].
      rewrite Hw. apply list_elem_of_fmap. exists c. auto.
    + rewrite Hw. intros Hin. apply list_elem_of_fmap in Hin as (c & -> & Hcin).
      destruct (decide (Some c.1 = current md)) as [E|E].
      * right. apply (Hu5' c.1 c.2); [symmetry; exact E|].
        rewrite Forall_forall in Hcs2. apply Hcs2, Hcin.
      * left. exists c. auto.
Qed.


(** ** [maprequest] for a new window *)

Lemma lseg_same_links h h' p l q :
  (∀ a r, a ∈ l → h !! a = Some r → ∃ r', h' !! a = Some r' ∧ next r' = next r) →
  lseg h p l q → lseg h' p l q.
Proof.
  revert p. induction l as [|b l IH]; intros p Hsame H; simpl in *; [exact H|].
  destruct H as (-> & rb & Hb & H). split; [reflexivity|].
  destruct (Hsame b rb) as (r' & Hr' & Hn); [left|exact Hb|].
  exists r'. split; [exact Hr'|]. rewrite Hn. apply IH; [|exact H].
  intros a r Ha. apply Hsame. right. exact Ha.
Qed.

Lemma desktop_ok_ext h h' dk :
  desktop_ok h dk →
  (∀ l, is_list h (d_head dk) l → ∀ a, a ∈ l → h' !! a = h !! a) →
  desktop_ok h' dk.
Proof.
  intros (l & Hl & Hc & Hp & Hs) Hsame. specialize (Hsame l Hl).
  exists l. split; [|split; [exact Hc|split; [exact Hp|]]].
  - eapply lseg_same_links; [|exact Hl]. intros a r Ha Hr. exists r.
    rewrite Hsame by exact Ha. auto.
  - intros Hm Hlen. destruct (Hs Hm Hlen) as (a & r & Ha & Hr & Hf). exists a, r.
    rewrite Hsame by exact Ha. auto.
Qed.

Lemma status_no_focus recs : Forall is_status_output recs → focus_requests recs = [].
Proof.
  induction 1 as [|r recs Hr _ IH]; [reflexivity|].
  destruct r; try contradiction; exact IH.
Qed.


(** X24. [maprequest] for a window that is not override-redirect, that no
    desktop of the current monitor tracks, that no rule applies to and
    that does not ask for fullscreen, on the last (or only) monitor of a
    state in good order whose lists are disjoint.  A client for the window
    is added to the selected desktop at a fresh address -- last when
    ATTACH_ASIDE is set, first otherwise -- transient and floating exactly
    when the window has a WM_TRANSIENT_FOR hint.  It becomes the current
    client, the client that was current becomes the previously focused
    one, and the window is mapped -- the only window mapped, none is
    unmapped.  The other clients keep their fields and their order, and
    the state is in good order again.  (In GRID mode a transient window
    needs a tileable client on a non-empty list, since [grid] divides by
    the number of columns.) *)
Theorem maprequest_new_window (s : wm) (m : monitor) (l : list positive) (w : Z)
    (rp : map_replies) :
  state_ok cfg s → current_monitor s = MONITORS s - 1 → CM s = Some (m, s) →
  is_list (heap s) (head m) l → apart_from cfg s l →
  mr_attr rp = Some false → rule_for cfg rp = None →
  (∀ fmt v, mr_state rp = Some (fmt, v) → fmt ≠ 32) →
  (∀ d, 0 ≤ d < DESKTOPS cfg →
     ∃ dk ld, desktop_view m d = Some dk ∧ is_list (heap s) (d_head dk) ld
              ∧ untracked (heap s) ld w) →
  (mode m = GRID → l ≠ [] → mr_transient rp ≠ 0 →
     ∃ a r, a ∈ l ∧ heap s !! a = Some r ∧ ISFFT r = false) →
  let c := fresh (dom (heap s)) in
  let tr := negb (mr_transient rp =? 0) in
  ∃ s' m' n reqs,
    maprequest cfg xe w rp s = Some (tt, s') ∧ CM s' = Some (m', s') ∧ state_ok cfg s'
    ∧ heap s !! c = None
    ∧ heap s' !! c = Some (mk_client n 0 false tr false tr w)
    ∧ is_list (heap s') (head m') (if ATTACH_ASIDE cfg then l ++ [c] else c :: l)
    ∧ kept_except c (heap s) (heap s')
    ∧ current m' = Some c ∧ prevfocus m' = current m
    ∧ current_desktop m' = current_desktop m
    ∧ xlog s' = xlog s ++ reqs ∧ mapped_windows reqs = [w] ∧ unmapped_windows reqs = [].
Proof.
  intros [Hcur0 Hall] Hcur HCM Hl Hapart Hattr Hrule Hstate Hun Hgrid c tr.
  apply CM_inv in HCM as [_ Hnth].
  destruct s as [h ms cur prev log]. unfold MONITORS in *. unfold apart_from in Hapart.
  cbn [heap monitors current_monitor xlog] in *.
  assert (Hok : monitor_ok cfg h m).
  { rewrite Forall_forall in Hall. apply Hall.
    apply nth_z_lookup in Hnth as [_ Hnth]. eapply list_elem_of_lookup_2, Hnth. }
  pose proof Hok as [Hwf Hviews].
  destruct (monitor_ok_live _ _ Hok) as (l0 & Hl0 & Hcl & Hpl & Hsl).
  pose proof (is_list_functional _ _ _ _ Hl0 Hl) as ->. clear Hl0.
  (* the window is not known *)
  destruct (wintoclient_none w h ms cur prev log m Hnth Hwf Hun) as (m1 & Hfind & Hsd1 & Hwf1).
  set (ms1 := <[Z.to_nat cur := m1]> ms) in *.
  assert (Hnth1 : nth_z ms1 cur = Some m1) by (eapply nth_z_insert, Hnth).
  pose proof (same_desktops_live _ _ Hsd1) as Hlive1.
  assert (Hhd1 : head m1 = head m) by exact (f_equal d_head Hlive1).
  assert (Hcu1 : current m1 = current m) by exact (f_equal d_current Hlive1).
  assert (Hpf1 : prevfocus m1 = prevfocus m) by exact (f_equal d_prevfocus Hlive1).
  assert (Hmo1 : mode m1 = mode m) by exact (f_equal d_mode Hlive1).
  assert (Hl1 : is_list h (head m1) l) by (rewrite Hhd1; exact Hl).
  (* the client is added *)
  destruct (addwindow_spec (mk_wm h ms1 cur prev log) m1 l w (CM_of_nth (mk_wm h ms1 cur prev log) m1 Hnth1) Hl1)
    as (h1 & hd' & n & Hadd & Hfresh & Hc1 & Hl' & Hkept & Hout).
  cbn [heap monitors current_monitor previous_monitor xlog] in Hadd, Hfresh, Hc1, Hl', Hkept,
    Hout.
  fold c in Hadd, Hfresh, Hc1, Hl', Hkept, Hout.
  set (l' := if ATTACH_ASIDE cfg then l ++ [c] else c :: l) in *.
  assert (Hcl' : c ∉ l) by (eapply lseg_fresh; [exact Hl|exact Hfresh]).
  assert (Hcin : c ∈ l').
  { unfold l'. destruct (ATTACH_ASIDE cfg); [apply elem_of_app; right; left|left]. }
  assert (Hsub : ∀ a, a ∈ l → a ∈ l').
  { intros a Ha. unfold l'. destruct (ATTACH_ASIDE cfg); [apply elem_of_app; left|right];
      exact Ha. }
  assert (Hlen' : length l' = S (length l)).
  { unfold l'. destruct (ATTACH_ASIDE cfg); [rewrite length_app; simpl; lia|reflexivity]. }
  set (m2 := set_head hd' m1) in *.
  set (ms2 := <[Z.to_nat cur := m2]> ms).
  assert (Hms2 : <[Z.to_nat cur := m2]> ms1 = ms2)
    by (unfold ms1, ms2; apply list_insert_insert_eq).
  rewrite Hms2 in Hadd.
  assert (Hnth2 : nth_z ms2 cur = Some m2) by (eapply nth_z_insert, Hnth).
  set (log1 := log ++ [ChangeWindowAttributes w XCB_CW_EVENT_MASK
                         [Z.lor XCB_EVENT_MASK_PROPERTY_CHANGE
                            (if FOLLOW_MOUSE cfg then XCB_EVENT_MASK_ENTER_WINDOW else 0)]])
    in *.
  (* its flags *)
  set (r1 := mk_client n 0 false false false false w) in *.
  set (r3 := mk_client n 0 false tr false tr w).
  set (h2 := <[c := set_istransient tr r1]> h1).
  set (h3 := <[c := r3]> h2).
  assert (Hc2 : h2 !! c = Some (set_istransient tr r1)) by apply lookup_insert_eq.
  assert (Hc3 : h3 !! c = Some r3) by apply lookup_insert_eq.
  assert (Hother : ∀ a, a ≠ c → h3 !! a = h1 !! a).
  { intros a Ha. unfold h3, h2. rewrite !lookup_insert_ne by congruence. reflexivity. }
  assert (Hl3 : is_list h3 hd' l').
  { eapply lseg_same_links; [|exact Hl']. intros a r Ha Hr.
    destruct (decide (a = c)) as [->|Hac].
    - exists r3. split; [exact Hc3|]. rewrite Hc1 in Hr. injection Hr as <-. reflexivity.
    - exists r. rewrite (Hother a Hac). auto. }
  assert (Hkept3 : kept_except c h h3).
  { intros a Ha. rewrite (Hother a Ha). apply Hkept, Ha. }
  assert (Hsafe3 : grid_safe h3 l' (mode m2)).
  { intros Hm Hlen. change (mode m2) with (mode m1) in Hm. rewrite Hmo1 in Hm.
    destruct (Z.eqb_spec (mr_transient rp) 0) as [E0|Hne0].
    - exists c, r3. split; [exact Hcin|]. split; [exact Hc3|].
      unfold r3, tr. destruct (Z.eqb_spec (mr_transient rp) 0); [reflexivity|contradiction].
    - destruct (Hgrid Hm) as (a & r & Ha & Hr & Hf); [|exact Hne0|].
      { intros ->. rewrite Hlen' in Hlen. simpl in Hlen. lia. }
      assert (Hac : a ≠ c) by (intros ->; contradiction).
      pose proof (Hkept3 a Hac) as Hk. rewrite Hr in Hk.
      destruct (h3 !! a) as [r'|] eqn:Hr'; [|contradiction].
      exists a, r'. split; [apply Hsub, Ha|]. split; [exact Hr'|].
      rewrite Hk. exact Hf. }
  (* it gets the focus *)
  assert (Hnc : current m ≠ Some c) by (intros E; apply Hcl', Hcl, E).
  assert (Hnp : prevfocus m ≠ Some c) by (intros E; apply Hcl', Hpl, E).
  destruct (update_current_focus h3 ms2 cur prev log1 m2 l' c r3 Hnth2 Hl3 Hcin Hc3 Hsafe3)
    as (requ1 & Hupd1 & _ & _ & _ & Hku1).
  assert (Hpf : (if decide (Some c = prevfocus m2) then cyclic_prev c l'
                 else if decide (Some c ≠ current m2) then current m2 else prevfocus m2)
                = current m).
  { change (prevfocus m2) with (prevfocus m1). change (current m2) with (current m1).
    rewrite Hpf1, Hcu1.
    destruct (decide (Some c = prevfocus m)) as [E|_]; [symmetry in E; contradiction|].
    destruct (decide (Some c ≠ current m)) as [_|E]; [reflexivity|].
    apply dec_stable in E. symmetry in E. contradiction. }
  rewrite Hpf in Hupd1.
  set (m3 := set_prevfocus (current m) (set_current (Some c) m2)) in *.
  set (ms3 := <[Z.to_nat cur := m3]> ms).
  assert (Hms3 : <[Z.to_nat cur := m3]> ms2 = ms3)
    by (unfold ms2, ms3; apply list_insert_insert_eq).
  rewrite Hms3 in Hupd1.
  assert (Hnth3 : nth_z ms3 cur = Some m3) by (eapply nth_z_insert, Hnth).
  (* it is mapped, and focused again *)
  destruct (update_current_focus h3 ms3 cur prev
              (((log1 ++ requ1) ++ grabbuttons cfg xe w) ++ [MapWindow w]) m3 l' c r3 Hnth3
              Hl3 Hcin Hc3 Hsafe3)
    as (requ2 & Hupd2 & _ & _ & _ & Hku2).
  assert (Hpf2 : (if decide (Some c = prevfocus m3) then cyclic_prev c l'
                  else if decide (Some c ≠ current m3) then current m3 else prevfocus m3)
                 = current m).
  { change (prevfocus m3) with (current m). change (current m3) with (Some c).
    destruct (decide (Some c = current m)) as [E|_]; [symmetry in E; contradiction|].
    destruct (decide (Some c ≠ Some c)) as [E|_]; [contradiction|reflexivity]. }
  rewrite Hpf2 in Hupd2.
  assert (Hm4 : set_prevfocus (current m) (set_current (Some c) m3) = m3) by reflexivity.
  rewrite Hm4 in Hupd2.
  assert (Hms4 : <[Z.to_nat cur := m3]> ms3 = ms3)
    by (unfold ms3; apply list_insert_insert_eq).
  rewrite Hms4 in Hupd2.
  (* the state is in good order *)
  assert (Hext : ∀ k mon d dk, nth_z ms k = Some mon → 0 ≤ d < DESKTOPS cfg →
            k ≠ cur ∨ d ≠ current_desktop mon →
            desktop_view mon d = Some dk → desktop_ok h dk → desktop_ok h3 dk).
  { intros k mon d dk Hk Hd Hkd Hdk Hdok. apply (desktop_ok_ext h); [exact Hdok|].
    intros ld Hld a Ha.
    assert (Hal : a ∉ l) by (eapply Hapart; eassumption).
    assert (Hac : a ≠ c).
    { intros ->. destruct (lseg_lookup _ _ _ _ _ Hld Ha) as [x Hx]. congruence. }
    rewrite (Hother a Hac). apply Hout; assumption. }
  assert (Hok3 : monitor_ok cfg h3 m3).
  { split; [exact Hwf1|]. intros d Hd.
    destruct (Z.eq_dec d (current_desktop m)) as [->|Hdc].
    - exists (live m3). split.
      + destruct Hsd1 as [Hcd1 _]. rewrite <- Hcd1. exact (desktop_view_live m3).
      + exists l'. split; [exact Hl3|]. split; [intros x [= <-]; exact Hcin|].
        split; [intros x Hx; apply Hsub, Hcl, Hx|exact Hsafe3].
    - destruct (Hviews d Hd) as (dk & Hdk & Hdok).
      exists dk. split.
      + destruct Hsd1 as [Hcd1 (_ & _ & _ & _ & _ & _ & Hv1)]. rewrite <- Hdk, <- Hv1.
        unfold desktop_view. cbn [current_desktop desktops m3 m2 set_prevfocus set_current
                                    set_head].
        rewrite Hcd1. destruct (Z.eqb_spec d (current_desktop m)); [contradiction|reflexivity].
      + eapply (Hext cur m d dk); eauto. }
  assert (Hall3 : Forall (monitor_ok cfg h3) ms3).
  { apply Forall_lookup. intros k mon Hk. unfold ms3 in Hk.
    destruct (decide (k = Z.to_nat cur)) as [->|Hkc].
    - rewrite list_lookup_insert_eq in Hk.
      + injection Hk as <-. exact Hok3.
      + apply nth_z_lookup in Hnth as [_ Hnth]. eapply lookup_lt_Some, Hnth.
    - rewrite list_lookup_insert_ne in Hk by congruence.
      assert (Hmon : monitor_ok cfg h mon).
      { rewrite Forall_forall in Hall. apply Hall. eapply list_elem_of_lookup_2, Hk. }
      destruct Hmon as [Hwfm Hvm]. split; [exact Hwfm|]. intros d Hd.
      destruct (Hvm d Hd) as (dk & Hdk & Hdok). exists dk. split; [exact Hdk|].
      apply (Hext (Z.of_nat k) mon d dk); [rewrite nth_z_nat; exact Hk|exact Hd|left; lia
                                           |exact Hdk|exact Hdok]. }
  assert (Hlen3 : length ms3 = length ms) by (unfold ms3; apply length_insert).
  destruct (desktopinfo_last h3 ms3 cur prev
              (((((log1 ++ requ1) ++ grabbuttons cfg xe w) ++ [MapWindow w]) ++ requ2)))
    as (ms' & recs & Hinfo & Hsame & Hkr); [lia|lia|exact Hall3|].
  assert (Hm' : ∃ m', nth_z ms' cur = Some m' ∧ same_desktops m3 m').
  { apply nth_z_lookup in Hnth3 as [_ Hnth3].
    destruct (Forall2_lookup_l _ _ _ _ _ Hsame Hnth3) as (m' & Hm' & Hsd).
    exists m'. split; [|exact Hsd]. unfold nth_z.
    destruct (Z.ltb_spec cur 0) as [?|_]; [lia|exact Hm']. }
  destruct Hm' as (m' & Hnth' & Hsd).
  pose proof (same_desktops_live _ _ Hsd) as Hlive'.
  exists (mk_wm h3 ms' cur prev
            (log ++ ([ChangeWindowAttributes w XCB_CW_EVENT_MASK
                        [Z.lor XCB_EVENT_MASK_PROPERTY_CHANGE
                           (if FOLLOW_MOUSE cfg then XCB_EVENT_MASK_ENTER_WINDOW else 0)]]
                     ++ requ1 ++ grabbuttons cfg xe w ++ [MapWindow w] ++ requ2 ++ recs))),
    m', n.
  eexists.
  split; [|split; [apply CM_of_nth; exact Hnth'|split; [|split; [exact Hfresh|split;
           [exact Hc3|split; [|split; [exact Hkept3|split; [|split; [|split; [|split;
           [reflexivity|]]]]]]]]]]].
  - unfold maprequest. rewrite Hattr.
    rewrite (bind_Some _ _ _ _ _ Hfind). fold ms1. m_CM Hnth1.
    unfold rule_for in Hrule. cbv zeta. rewrite Hrule. rewrite Z.eqb_refl. cbn [negb when].
    rewrite bind_ret_l. rewrite (bind_Some _ _ _ _ _ Hadd).
    m_store Hc1. fold h2. m_store Hc2.
    replace (set_isfloating (false || istransient (set_istransient tr r1))
               (set_istransient tr r1)) with r3 by reflexivity.
    fold h3.
    assert (Hst : ∀ st, (match mr_state rp with
                         | Some (fmt, v0) =>
                             when (fmt =? 32)
                               (setfullscreen cfg xe (Some c) (v0 =? NET_FULLSCREEN xe))
                         | None => ret tt
                         end) st = Some (tt, st)).
    { intros st. destruct (mr_state rp) as [[fmt v0]|] eqn:Est; [|reflexivity].
      destruct (Z.eqb_spec fmt 32) as [E|_]; [|reflexivity].
      exfalso. exact (Hstate fmt v0 eq_refl E). }
    rewrite (bind_Some _ _ _ _ _ (Hst _)).
    rewrite (bind_Some _ _ _ _ _ Hupd1).
    m_load Hc3. replace (win r3) with w by reflexivity.
    erewrite bind_Some; [|reflexivity]. unfold set_xlog. norm_state.
    rewrite bind_ret_l, bind_assoc.
    erewrite bind_Some; [|reflexivity]. unfold set_xlog. norm_state.
    rewrite (bind_Some _ _ _ _ _ Hupd2).
    rewrite Hinfo. unfold log1. rewrite <- !app_assoc. reflexivity.
  - split; [unfold MONITORS; cbn [monitors current_monitor];
            rewrite <- (Forall2_length _ _ _ Hsame); lia|].
    eapply Forall2_Forall_r; [exact Hsame|]. eapply Forall_impl; [exact Hall3|].
    intros x Hx y Hxy. eapply monitor_ok_same_desktops; eassumption.
  - cbn [heap]. change (is_list h3 (d_head (live m')) l'). rewrite Hlive'. exact Hl3.
  - exact (f_equal d_current Hlive').
  - exact (f_equal d_prevfocus Hlive').
  - destruct Hsd as [-> _]. destruct Hsd1 as [Hcd1 _]. exact Hcd1.
  - destruct (grabbuttons_quiet w) as (_ & _ & Hkg).
    destruct (keeps_mapping_quiet _ Hku1) as [A1 B1].
    destruct (keeps_mapping_quiet _ Hku2) as [A2 B2].
    destruct (keeps_mapping_quiet _ Hkg) as [A3 B3].
    destruct (keeps_mapping_quiet _ (status_keeps _ Hkr)) as [A4 B4].
    rewrite !mapped_windows_app, !unmapped_windows_app, A1, A2, A3, A4, B1, B2, B3, B4.
    split; reflexivity.
Qed.


(** ** [switch_mode] *)

Lemma unfloat_from_spec ms cur prev log :
  ∀ l p h fuel, is_list h p l → (length l ≤ fuel)%nat →
    ∃ h', unfloat_from fuel p (mk_wm h ms cur prev log) = Some (tt, mk_wm h' ms cur prev log)
          ∧ unfloated l h h'.
Proof.
  induction l as [|a l IH]; intros p h fuel Hl Hfuel.
  - unfold is_list in Hl. simpl in Hl. subst p. exists h. split.
    + destruct fuel; reflexivity.
    + intros a. destruct (decide (a ∈ [])) as [Hin|_]; [inversion Hin|reflexivity].
  - pose proof (is_list_NoDup _ _ _ Hl) as Hnd. apply NoDup_cons in Hnd as [Hal Hnd].
    unfold is_list in Hl. simpl in Hl. destruct Hl as (-> & r & Hr & Hrest).
    destruct fuel as [|fuel]; [simpl in Hfuel; lia|].
    set (h1 := <[a := set_isfloating false r]> h).
    assert (Hr1 : h1 !! a = Some (set_isfloating false r)) by apply lookup_insert_eq.
    destruct (IH (next r) h1 fuel) as (h' & Hrun & Hun).
    { apply lseg_insert_notin; assumption. }
    { simpl in Hfuel. lia. }
    exists h'. split.
    + cbn [unfloat_from]. m_store Hr. fold h1. m_load Hr1. exact Hrun.
    + intros b. rewrite (Hun b). unfold h1.
      destruct (decide (b = a)) as [->|Hba].
      * destruct (decide (a ∈ l)) as [?|_]; [contradiction|].
        destruct (decide (a ∈ a :: l)) as [_|Hn]; [|exfalso; apply Hn; left].
        rewrite lookup_insert_eq, Hr. reflexivity.
      * rewrite lookup_insert_ne by congruence.
        destruct (decide (b ∈ l)) as [Hin|Hnin].
        -- destruct (decide (b ∈ a :: l)) as [_|Hn]; [reflexivity|].
           exfalso. apply Hn. right. exact Hin.
        -- destruct (decide (b ∈ a :: l)) as [Hin|_]; [|reflexivity].
           apply elem_of_cons in Hin as [?|?]; contradiction.
Qed.

(** A heap whose clients keep their links, and stay tileable when they
    were, keeps every desktop in good order. *)
Lemma desktop_ok_flags h h' dk :
  (∀ a r, h !! a = Some r →
     ∃ r', h' !! a = Some r' ∧ next r' = next r ∧ (ISFFT r = false → ISFFT r' = false)) →
  desktop_ok h dk → desktop_ok h' dk.
Proof.
  intros Hsame (l & Hl & Hc & Hp & Hs).
  exists l. split; [|split; [exact Hc|split; [exact Hp|]]].
  - eapply lseg_same_links; [|exact Hl]. intros a r _ Hr.
    destruct (Hsame a r Hr) as (r' & Hr' & Hn & _). exists r'. auto.
  - intros Hm Hlen. destruct (Hs Hm Hlen) as (a & r & Ha & Hr & Hf).
    destruct (Hsame a r Hr) as (r' & Hr' & _ & Hf'). exists a, r'. auto.
Qed.

Lemma unfloated_flags l h h' a r :
  unfloated l h h' → h !! a = Some r →
  ∃ r', h' !! a = Some r' ∧ next r' = next r ∧ (ISFFT r = false → ISFFT r' = false).
Proof.
  intros Hun Hr. rewrite (Hun a), Hr. destruct (decide (a ∈ l)); simpl.
  - eexists. split; [reflexivity|]. split; [reflexivity|].
    unfold ISFFT. cbn [isfullscrn isfloating istransient set_isfloating].
    destruct (isfullscrn r), (istransient r), (isfloating r); simpl; congruence.
  - exists r. auto.
Qed.

(** X25. [switch_mode(i)] on the last (or only) monitor of a state in good
    order, when the master size for the new mode fits an [int] (and, for
    GRID with two or more clients, some client can be tiled afterwards):
    the selected desktop gets mode [i] and the master size computed from
    MASTER_SIZE for that mode, with the same list and the same current
    client.  When [i] is the mode the desktop already has, the floating
    flag of every client of the list is cleared, and nothing else in the
    heap changes; otherwise the heap is untouched. *)
Theorem switch_mode_sets_mode (s : wm) (m : monitor) (l : list positive)
    (i : layout_mode) (msz : Z) :
  state_ok cfg s → current_monitor s = MONITORS s - 1 → CM s = Some (m, s) →
  is_list (heap s) (head m) l →
  int_times_dbl (if decide (i = BSTACK) then wh m else ww m) (MASTER_SIZE cfg) = Some msz →
  (i = GRID → (2 ≤ length l)%nat →
     ∃ a r, a ∈ l ∧ heap s !! a = Some r ∧ isfullscrn r = false ∧ istransient r = false
            ∧ (mode m ≠ GRID → isfloating r = false)) →
  ∃ s' m',
    switch_mode cfg xe i s = Some (tt, s') ∧ CM s' = Some (m', s') ∧ state_ok cfg s'
    ∧ mode m' = i ∧ master_size m' = msz
    ∧ head m' = head m ∧ current m' = current m
    ∧ current_desktop m' = current_desktop m
    ∧ (mode m = i → unfloated l (heap s) (heap s'))
    ∧ (mode m ≠ i → heap s' = heap s).
Proof.
  intros [Hcur0 Hall] Hcur HCM Hl Hms Hgrid. apply CM_inv in HCM as [_ Hnth].
  destruct s as [h ms cur prev log]. unfold MONITORS in *.
  cbn [heap monitors current_monitor xlog] in *.
  assert (Hok : monitor_ok cfg h m).
  { rewrite Forall_forall in Hall. apply Hall.
    apply nth_z_lookup in Hnth as [_ Hnth]. eapply list_elem_of_lookup_2, Hnth. }
  pose proof Hok as [Hwf Hviews].
  destruct (monitor_ok_live _ _ Hok) as (l0 & Hl0 & Hcl & Hpl & Hsl).
  pose proof (is_list_functional _ _ _ _ Hl0 Hl) as ->. clear Hl0.
  (* the floating flags *)
  assert (Hfl : ∃ h', (when (bool_decide (mode m = i))
                         (let* s := get in unfloat_from (size (heap s)) (head m)))
                        (mk_wm h ms cur prev log) = Some (tt, mk_wm h' ms cur prev log)
                      ∧ (mode m = i → unfloated l h h') ∧ (mode m ≠ i → h' = h)).
  { destruct (decide (mode m = i)) as [E|E].
    - rewrite (bool_decide_eq_true_2 _ E). cbn [when].
      destruct (unfloat_from_spec ms cur prev log l (head m) h (size h) Hl
                  (is_list_length _ _ _ Hl)) as (h' & Hrun & Hun).
      exists h'. split; [|split; [intros _; exact Hun|contradiction]].
      erewrite bind_Some; [|reflexivity]. exact Hrun.
    - rewrite (bool_decide_eq_false_2 _ E). exists h.
      split; [reflexivity|split; [contradiction|reflexivity]]. }
  destruct Hfl as (h' & Hfl & Hsame & Hdiff).
  assert (Hflags : ∀ a r, h !! a = Some r →
            ∃ r', h' !! a = Some r' ∧ next r' = next r
                  ∧ (ISFFT r = false → ISFFT r' = false)).
  { intros a r Hr. destruct (decide (mode m = i)) as [E|E].
    - eapply unfloated_flags; [exact (Hsame E)|exact Hr].
    - rewrite (Hdiff E). exists r. auto. }
  assert (Hl' : is_list h' (head m) l).
  { eapply lseg_same_links; [|exact Hl]. intros a r _ Hr.
    destruct (Hflags a r Hr) as (r' & Hr' & Hn & _). exists r'. auto. }
  (* mode and master size *)
  set (m2 := set_master_size msz (set_mode i m)).
  set (ms2 := <[Z.to_nat cur := m2]> ms).
  assert (Hnth2 : nth_z ms2 cur = Some m2) by (eapply nth_z_insert, Hnth).
  assert (Hsafe2 : grid_safe h' l (mode m2)).
  { intros Hm Hlen. change (mode m2) with i in Hm.
    destruct (Hgrid Hm Hlen) as (a & r & Ha & Hr & Hfs & Htr & Hflo).
    destruct (decide (mode m = i)) as [E|E].
    - exists a, (set_isfloating false r). split; [exact Ha|].
      split; [rewrite (Hsame E a), Hr; destruct (decide (a ∈ l)); [reflexivity|contradiction]|].
      unfold ISFFT. cbn [isfullscrn isfloating istransient set_isfloating].
      rewrite Hfs, Htr. reflexivity.
    - exists a, r. split; [exact Ha|]. split; [rewrite (Hdiff E); exact Hr|].
      unfold ISFFT. rewrite Hfs, Htr, Hflo; [reflexivity|congruence]. }
  destruct (update_current_ok h' ms2 cur prev log m2 l (current m2) Hnth2 Hl')
    as (pf & requ & Hupd & Hpf & _); [exact Hcl|exact Hcl|exact Hpl|exact Hsafe2|].
  set (m3 := set_prevfocus pf (set_current (current m2) m2)) in *.
  set (ms3 := <[Z.to_nat cur := m3]> ms).
  assert (Hms3 : <[Z.to_nat cur := m3]> ms2 = ms3)
    by (unfold ms2, ms3; apply list_insert_insert_eq).
  rewrite Hms3 in Hupd.
  assert (Hnth3 : nth_z ms3 cur = Some m3) by (eapply nth_z_insert, Hnth).
  assert (Hok3 : monitor_ok cfg h' m3).
  { split; [exact Hwf|]. intros d Hd.
    destruct (Z.eq_dec d (current_desktop m)) as [->|Hdc].
    - exists (live m3). split; [exact (desktop_view_live m3)|].
      exists l. split; [exact Hl'|]. split; [exact Hcl|]. split; [exact Hpf|exact Hsafe2].
    - destruct (Hviews d Hd) as (dk & Hdk & Hdok). exists dk. split.
      + rewrite <- Hdk. unfold desktop_view.
        cbn [current_desktop desktops m3 m2 set_prevfocus set_current set_master_size set_mode].
        destruct (Z.eqb_spec d (current_desktop m)); [contradiction|reflexivity].
      + eapply desktop_ok_flags; [exact Hflags|exact Hdok]. }
  assert (Hall3 : Forall (monitor_ok cfg h') ms3).
  { unfold ms3. apply Forall_insert; [|exact Hok3].
    eapply Forall_impl; [exact Hall|]. intros mon [Hwfm Hvm]. split; [exact Hwfm|].
    intros d Hd. destruct (Hvm d Hd) as (dk & Hdk & Hdok). exists dk. split; [exact Hdk|].
    eapply desktop_ok_flags; [exact Hflags|exact Hdok]. }
  assert (Hlen3 : length ms3 = length ms) by (unfold ms3; apply length_insert).
  destruct (desktopinfo_last h' ms3 cur prev (log ++ requ))
    as (ms' & recs & Hinfo & Hsame' & _); [lia|lia|exact Hall3|].
  assert (Hm' : ∃ m', nth_z ms' cur = Some m' ∧ same_desktops m3 m').
  { apply nth_z_lookup in Hnth3 as [_ Hnth3].
    destruct (Forall2_lookup_l _ _ _ _ _ Hsame' Hnth3) as (m' & Hm' & Hsd).
    exists m'. split; [|exact Hsd]. unfold nth_z.
    destruct (Z.ltb_spec cur 0) as [?|_]; [lia|exact Hm']. }
  destruct Hm' as (m' & Hnth' & Hsd).
  pose proof (same_desktops_live _ _ Hsd) as Hlive'.
  exists (mk_wm h' ms' cur prev ((log ++ requ) ++ recs)), m'.
  split; [|split; [apply CM_of_nth; exact Hnth'|split; [|split; [|split; [|split; [|split;
           [|split; [|split; [exact Hsame|exact Hdiff]]]]]]]]].
  - unfold switch_mode. m_CM Hnth. rewrite (bind_Some _ _ _ _ _ Hfl).
    m_setCM Hnth.
    erewrite bind_Some; [|apply CM_of_nth; norm_state; eapply nth_z_insert, Hnth].
    cbn [mode set_mode wh ww]. rewrite (bind_lift _ msz); [|exact Hms].
    erewrite bind_Some;
      [|apply setCM_eq, CM_of_nth; norm_state; eapply nth_z_insert, Hnth].
    norm_state. rewrite list_insert_insert_eq. fold m2 ms2.
    m_CM Hnth2. rewrite (bind_Some _ _ _ _ _ Hupd). exact Hinfo.
  - split; [unfold MONITORS; cbn [monitors current_monitor];
            rewrite <- (Forall2_length _ _ _ Hsame'); lia|].
    eapply Forall2_Forall_r; [exact Hsame'|]. eapply Forall_impl; [exact Hall3|].
    intros x Hx y Hxy. eapply monitor_ok_same_desktops; eassumption.
  - exact (f_equal d_mode Hlive').
  - exact (f_equal d_master_size Hlive').
  - exact (f_equal d_head Hlive').
  - exact (f_equal d_current Hlive').
  - destruct Hsd as [-> _]. reflexivity.
Qed.


(** ** [change_monitor] *)

(** X26. [change_monitor(i)] for a monitor other than the current one, on
    a state in good order.  With a negative [i] it has no defined result:
    [CM] is set to [&monitors[i]].  With [0 <= i < MONITORS] monitor [i]
    becomes the current monitor and the one that was current the previous
    one; the heap is untouched; the current client of the desktop shown on
    monitor [i] receives the input focus (the active-window property is
    deleted when it has none); and every other monitor shows the desktops
    it showed, the same one selected, except that the status line printed
    at the end may leave monitor [i] on another desktop -- the one
    selected on the last monitor. *)
Theorem change_monitor_focuses_monitor (s : wm) (i : Z) :
  state_ok cfg s → i ≠ current_monitor s →
  (i < 0 → change_monitor cfg xe i s = None)
  ∧ (∀ mi, nth_z (monitors s) i = Some mi →
     ∃ s' reqs,
       change_monitor cfg xe i s = Some (tt, s')
       ∧ heap s' = heap s ∧ current_monitor s' = i
       ∧ previous_monitor s' = current_monitor s
       ∧ xlog s' = xlog s ++ reqs
       ∧ match current mi with
         | Some c => ∃ r, heap s !! c = Some r ∧ focus_requests reqs = [win r]
         | None => focus_requests reqs = []
                   ∧ DeleteProperty (root xe) (NET_ACTIVE xe) ∈ reqs
         end
       ∧ ∀ k mon, k ≠ i → nth_z (monitors s) k = Some mon →
           ∃ mon', nth_z (monitors s') k = Some mon' ∧ same_desktops mon mon').
Proof.
  intros [Hcur0 Hall] Hne. destruct s as [h ms cur prev log]. unfold MONITORS in *.
  cbn [heap monitors current_monitor previous_monitor xlog] in *.
  assert (Hstart :
            change_monitor cfg xe i (mk_wm h ms cur prev log)
            = (select_monitor i ;;;
               let* m := CM in update_current cfg xe (current m) ;;; desktopinfo cfg)
                (mk_wm h ms cur cur log)).
  { unfold change_monitor. erewrite bind_Some; [|reflexivity].
    cbn [current_monitor]. destruct (Z.eqb_spec i cur) as [E|_]; [contradiction|].
    erewrite bind_Some; [|reflexivity]. reflexivity. }
  rewrite Hstart. clear Hstart. split.
  - intros Hneg. unfold select_monitor. rewrite bind_assoc.
    erewrite bind_Some; [|reflexivity].
    destruct (Z.geb_spec i (MONITORS (mk_wm h ms cur cur log))) as [Hge|_].
    { unfold MONITORS in Hge. simpl in Hge. lia. }
    erewrite bind_Some; [|reflexivity].
    unfold bind, CM, set_current_monitor, lift, nth_z. cbn [monitors current_monitor].
    destruct (Z.ltb_spec i 0) as [_|?]; [reflexivity|lia].
  - intros mi Hmi.
    assert (Hi : 0 ≤ i < Z.of_nat (length ms)).
    { apply nth_z_lookup in Hmi as [Hi0 Hmi]. apply lookup_lt_Some in Hmi. lia. }
    assert (Hoki : monitor_ok cfg h mi).
    { rewrite Forall_forall in Hall. apply Hall.
      apply nth_z_lookup in Hmi as [_ Hmi]. eapply list_elem_of_lookup_2, Hmi. }
    destruct (monitor_ok_live _ _ Hoki) as (l & Hl & Hcl & Hpl & Hsl).
    assert (Hsel : select_monitor i (mk_wm h ms cur cur log)
                   = Some (tt, mk_wm h ms i cur log)).
    { unfold select_monitor. erewrite bind_Some; [|reflexivity].
      destruct (Z.geb_spec i (MONITORS (mk_wm h ms cur cur log))) as [Hge|_];
        [unfold MONITORS in Hge; simpl in Hge; lia|reflexivity]. }
    rewrite (bind_Some _ _ _ _ _ Hsel). m_CM Hmi.
    (* the focus *)
    assert (Hfocus : ∃ m3 requ,
              update_current cfg xe (current mi) (mk_wm h ms i cur log)
              = Some (tt, mk_wm h (<[Z.to_nat i := m3]> ms) i cur (log ++ requ))
              ∧ monitor_ok cfg h m3 ∧ current_desktop m3 = current_desktop mi
              ∧ match current mi with
                | Some c => ∃ r, h !! c = Some r ∧ focus_requests requ = [win r]
                | None => focus_requests requ = []
                          ∧ DeleteProperty (root xe) (NET_ACTIVE xe) ∈ requ
                end).
    { assert (Hok3 : ∀ pf, (∀ c, pf = Some c → c ∈ l) →
                monitor_ok cfg h (set_prevfocus pf (set_current (current mi) mi))).
      { intros pf Hpf. destruct Hoki as [Hwf Hviews]. split; [exact Hwf|]. intros d Hd.
        destruct (Z.eq_dec d (current_desktop mi)) as [->|Hdc].
        - eexists. split; [exact (desktop_view_live _)|].
          exists l. split; [exact Hl|]. split; [exact Hcl|]. split; [exact Hpf|exact Hsl].
        - rewrite desktop_view_focus by exact Hdc. apply Hviews, Hd. }
      destruct (current mi) as [c|] eqn:Ec.
      - pose proof (Hcl c Ec) as Hin.
        destruct (lseg_lookup _ _ _ _ _ Hl Hin) as [r Hr].
        destruct (update_current_focus h ms i cur log mi l c r Hmi Hl Hin Hr Hsl)
          as (requ & Hupd & Hf & _).
        eexists _, requ. split; [exact Hupd|]. split; [|split; [reflexivity|]].
        + apply Hok3. intros p Hp.
          destruct (decide (Some c = prevfocus mi)).
          * eapply cyclic_prev_in, Hp.
          * destruct (decide (Some c ≠ current mi)); [apply Hcl|apply Hpl]; exact Hp.
        + exists r. auto.
      - destruct (update_current_ok h ms i cur log mi l None Hmi Hl) as (pf & requ & Hupd & Hpf & _);
          [discriminate|exact Hcl|exact Hpl|exact Hsl|].
        assert (Hrequ : requ = [DeleteProperty (root xe) (NET_ACTIVE xe)]).
        { unfold update_current in Hupd. erewrite bind_Some in Hupd; [|reflexivity].
          unfold set_xlog in Hupd. norm_state.
          erewrite setCM_eq in Hupd; [|apply CM_of_nth; norm_state; exact Hmi].
          injection Hupd as _ Hlog. apply app_inv_head in Hlog. symmetry. exact Hlog. }
        eexists _, requ. split; [exact Hupd|]. split; [|split; [reflexivity|]].
        + apply Hok3, Hpf.
        + rewrite Hrequ. split; [reflexivity|left]. }
    destruct Hfocus as (m3 & requ & Hupd & Hok3 & Hcd3 & Hfoc).
    rewrite (bind_Some _ _ _ _ _ Hupd).
    set (ms3 := <[Z.to_nat i := m3]> ms).
    assert (Hall3 : Forall (monitor_ok cfg h) ms3) by (apply Forall_insert; assumption).
    assert (Hlen3 : length ms3 = length ms) by apply length_insert.
    destruct (desktopinfo_spec (mk_wm h ms3 i cur (log ++ requ)))
      as (recs & ms' & monl & Hrecs & Hlast & Hrun & Hsv & Hcd).
    { unfold MONITORS. cbn [monitors current_monitor]. lia. }
    { cbn [heap monitors]. eapply Forall_impl; [exact Hall3|].
      intros mon. apply monitor_ok_proper. }
    cbn [heap monitors current_monitor previous_monitor xlog] in Hrun, Hsv, Hcd, Hrecs.
    eexists _, (requ ++ recs ++ [Fflush]).
    split; [rewrite Hrun, <- app_assoc; reflexivity|].
    split; [reflexivity|]. split; [reflexivity|]. split; [reflexivity|].
    split; [reflexivity|]. split.
    + assert (Hnf : focus_requests (recs ++ [Fflush]) = []).
      { apply status_no_focus. apply Forall_app.
        split; [eapply monitor_records_keep, Hrecs|repeat constructor]. }
      destruct (current mi) as [c|].
      * destruct Hfoc as (r & Hr & Hf). exists r. split; [exact Hr|].
        rewrite focus_requests_app, Hnf, app_nil_r. exact Hf.
      * destruct Hfoc as [Hf Hin]. split.
        -- rewrite focus_requests_app, Hnf, app_nil_r. exact Hf.
        -- apply elem_of_app. left. exact Hin.
    + intros k mon Hk Hmon. cbn [monitors].
      apply nth_z_lookup in Hmon as [Hk0 Hmon].
      assert (Hmon3 : ms3 !! Z.to_nat k = Some mon).
      { unfold ms3. rewrite list_lookup_insert_ne by lia. exact Hmon. }
      destruct (Forall2_lookup_l _ _ _ _ _ Hsv Hmon3) as (mon' & Hmon' & Hsv').
      assert (Hnz' : nth_z ms' k = Some mon').
      { unfold nth_z. destruct (Z.ltb_spec k 0) as [?|_]; [lia|exact Hmon']. }
      exists mon'. split; [exact Hnz'|]. split; [|exact Hsv'].
      rewrite (Hcd k mon mon'); [|unfold nth_z; destruct (Z.ltb_spec k 0); [lia|exact Hmon3]
                                 |exact Hnz'].
      destruct (Z.eqb_spec k i) as [?|_]; [contradiction|reflexivity].
Qed.


(** ** [setfullscreen] *)

(** X27. [setfullscreen(c, fullscrn)] for a client [c] of the current
    list: the flag of [c] is set and nothing else in the heap changes.
    The _NET_WM_STATE property of the window is rewritten only when the
    flag changes.  When [fullscrn] is set the window is moved to the
    origin of the screen -- [(0, 0)], not the origin of the monitor --
    with the width of the monitor and its height plus the panel height.
    Then [c] gets the focus and the list is retiled with the new flags,
    so that a fullscreen client is left out.  ([tile] must be able to run
    afterwards: in GRID mode some client must remain tileable.) *)
Theorem setfullscreen_sets_flag (s : wm) (m : monitor) (l : list positive)
    (c : positive) (r : client) (b : bool) :
  CM s = Some (m, s) → is_list (heap s) (head m) l → c ∈ l → heap s !! c = Some r →
  let h' := <[c := set_isfullscrn b r]> (heap s) in
  grid_safe h' l (mode m) →
  ∃ pf reqs,
    setfullscreen cfg xe (Some c) b s
    = Some (tt, mk_wm h'
                  (<[Z.to_nat (current_monitor s) :=
                       set_prevfocus pf (set_current (Some c) m)]> (monitors s))
                  (current_monitor s) (previous_monitor s)
                  (xlog s
                   ++ (if eqb b (isfullscrn r) then []
                       else [ChangeProperty (win r) (NET_WM_STATE xe) XCB_ATOM_ATOM
                               (if b then [NET_FULLSCREEN xe] else [])])
                   ++ (if b then [xcb_move_resize (win r) 0 0 (ww m) (wh m + PANEL_HEIGHT cfg)]
                       else [])
                   ++ reqs))
    ∧ focus_requests reqs = [win r]
    ∧ placed_windows reqs = tileable_windows h' l.
Proof.
  intros HCM Hl Hin Hr h' Hsafe. apply CM_inv in HCM as [_ Hnth].
  destruct s as [h ms cur prev log].
  cbn [heap monitors current_monitor previous_monitor xlog] in *.
  set (r' := set_isfullscrn b r) in *.
  assert (Hr' : h' !! c = Some r') by apply lookup_insert_eq.
  assert (Hl' : is_list h' (head m) l).
  { eapply lseg_same_links; [|exact Hl]. intros a ra _ Hra. unfold h'.
    destruct (decide (a = c)) as [->|Hac].
    - rewrite lookup_insert_eq. exists r'. split; [reflexivity|].
      rewrite Hr in Hra. injection Hra as <-. reflexivity.
    - rewrite lookup_insert_ne by congruence. exists ra. auto. }
  set (log1 := (log ++ (if eqb b (isfullscrn r) then []
                        else [ChangeProperty (win r) (NET_WM_STATE xe) XCB_ATOM_ATOM
                                (if b then [NET_FULLSCREEN xe] else [])]))
               ++ (if b then [xcb_move_resize (win r) 0 0 (ww m) (wh m + PANEL_HEIGHT cfg)]
                   else [])).
  destruct (update_current_focus h' ms cur prev log1 m l c r' Hnth Hl' Hin Hr' Hsafe)
    as (reqs & Hupd & Hf & Hp & _).
  eexists _, reqs. split; [|split; [exact Hf|exact Hp]].
  - unfold setfullscreen. m_load Hr.
    assert (Hw : ∀ st, when (negb (eqb b (isfullscrn r)))
                         (emit [ChangeProperty (win r) (NET_WM_STATE xe) XCB_ATOM_ATOM
                                  (if b then [NET_FULLSCREEN xe] else [])]) st
                       = Some (tt, set_xlog (xlog st
                                 ++ (if eqb b (isfullscrn r) then []
                                     else [ChangeProperty (win r) (NET_WM_STATE xe)
                                             XCB_ATOM_ATOM
                                             (if b then [NET_FULLSCREEN xe] else [])])) st)).
    { intros st. destruct (eqb b (isfullscrn r)); simpl; [|reflexivity].
      unfold ret. rewrite app_nil_r. destruct st; reflexivity. }
    rewrite (bind_Some _ _ _ _ _ (Hw _)). unfold set_xlog. norm_state.
    m_store Hr. fold r' h'. m_CM Hnth.
    assert (Hm : ∀ st, when b (emit [xcb_move_resize (win r) 0 0 (ww m)
                                       (wh m + PANEL_HEIGHT cfg)]) st
                       = Some (tt, set_xlog (xlog st
                                 ++ (if b then [xcb_move_resize (win r) 0 0 (ww m)
                                                  (wh m + PANEL_HEIGHT cfg)] else [])) st)).
    { intros st. destruct b; simpl; [reflexivity|].
      unfold ret. rewrite app_nil_r. destruct st; reflexivity. }
    rewrite (bind_Some _ _ _ _ _ (Hm _)). unfold set_xlog. norm_state.
    fold log1. rewrite Hupd. unfold log1. rewrite <- !app_assoc. reflexivity.
Qed.


(** ** [client_to_desktop] *)

(** Linking [c], with what follows it, behind the list [ln]. *)
Lemma link_behind h ms cur prev log mb (ln : list positive) c l2 :
  nth_z ms cur = Some mb → is_list h (head mb) ln → lseg h (Some c) (c :: l2) None →
  (∀ a, a ∈ ln → a ∉ c :: l2) →
  ∃ h1 hd1,
    (let* l := prev_client (head mb) in
     match l with
     | Some _ => store l (set_next (Some c))
     | None => match head mb with
               | Some _ => store (head mb) (set_next (Some c))
               | None => setCM (set_head (Some c))
               end
     end) (mk_wm h ms cur prev log)
    = Some (tt, mk_wm h1 (<[Z.to_nat cur := set_head hd1 mb]> ms) cur prev log)
    ∧ is_list h1 hd1 (ln ++ c :: l2)
    ∧ heap_relinked h h1
    ∧ (∀ a, a ∉ ln → h1 !! a = h !! a).
Proof.
  intros Hnth Hl Hseg Hdisj.
  destruct ln as [|x ln0 _] using rev_ind.
  - unfold is_list in Hl. simpl in Hl. exists h, (Some c).
    split; [|split; [exact Hseg|split; [apply heap_relinked_refl|reflexivity]]].
    rewrite Hl. cbn [prev_client]. rewrite bind_ret_l.
    erewrite setCM_eq; [|apply CM_of_nth; exact Hnth]. reflexivity.
  - pose proof (is_list_NoDup _ _ _ Hl) as Hnd.
    assert (Hne : ln0 ++ [x] ≠ []) by (intros E; apply app_eq_nil in E as [_ E]; discriminate).
    pose proof Hl as Hl0. unfold is_list in Hl0.
    apply lseg_snoc in Hl0 as (rx & Hseg0 & Hrx & Hxn).
    assert (Hx0 : x ∉ ln0).
    { apply NoDup_app in Hnd as (_ & Hd & _). intros Hx. apply (Hd x Hx). left. }
    assert (Hx2 : x ∉ c :: l2) by (apply Hdisj; apply elem_of_app; right; left).
    assert (Hhd : ∃ a, head mb = Some a ∧ ∃ t, ln0 ++ [x] = a :: t).
    { destruct ln0 as [|a t]; simpl in Hl; unfold is_list in Hl; simpl in Hl.
      - exists x. split; [tauto|]. exists []. reflexivity.
      - exists a. split; [tauto|]. exists (t ++ [x]). reflexivity. }
    destruct Hhd as (a & Hhd & t & Eat).
    assert (Ht : prev_client (head mb) (mk_wm h ms cur prev log)
                 = Some (cyclic_prev a (ln0 ++ [x]), mk_wm h ms cur prev log)).
    { rewrite Hhd. eapply prev_client_cyclic; [apply CM_of_nth; exact Hnth|exact Hl|exact Hne]. }
    assert (Hlast : match cyclic_prev a (ln0 ++ [x]) with
                    | Some _ => cyclic_prev a (ln0 ++ [x]) | None => head mb end = Some x).
    { rewrite Eat. destruct t as [|b t'].
      - simpl. destruct ln0 as [|y [|z ln0]]; simpl in Eat; try discriminate.
        injection Eat as <-. exact Hhd.
      - unfold cyclic_prev. rewrite before_notin.
        + rewrite <- Eat. rewrite last_snoc. reflexivity.
        + simpl. rewrite Eat in Hnd. apply NoDup_cons in Hnd as [Hnd _]. exact Hnd. }
    set (h1 := <[x := set_next (Some c) rx]> h).
    exists h1, (head mb).
    split; [|split; [|split]].
    + rewrite (bind_Some _ _ _ _ _ Ht).
      assert (Hst : (match cyclic_prev a (ln0 ++ [x]) with
                     | Some _ => store (cyclic_prev a (ln0 ++ [x])) (set_next (Some c))
                     | None => match head mb with
                               | Some _ => store (head mb) (set_next (Some c))
                               | None => setCM (set_head (Some c))
                               end
                     end) (mk_wm h ms cur prev log)
                    = Some (tt, mk_wm h1 ms cur prev log)).
      { destruct (cyclic_prev a (ln0 ++ [x])) as [y|].
        - rewrite Hlast. erewrite store_Some; [reflexivity|exact Hrx].
        - rewrite Hlast. erewrite store_Some; [reflexivity|exact Hrx]. }
      rewrite Hst. rewrite (insert_same_head _ _ _ Hnth). reflexivity.
    + unfold is_list. rewrite <- app_assoc. apply lseg_app. exists (Some x). split.
      * apply lseg_insert_notin; [exact Hx0|exact Hseg0].
      * simpl. split; [reflexivity|]. eexists. split; [apply lookup_insert_eq|].
        simpl. apply (lseg_insert_notin h (Some c) (c :: l2) None x _ Hx2 Hseg).
    + apply heap_relinked_insert; [apply heap_relinked_refl|exact Hrx].
    + intros b Hb. unfold h1. rewrite lookup_insert_ne; [reflexivity|].
      intros ->. apply Hb. apply elem_of_app. right. left.
Qed.

(** Taking [c] off the list it is on. *)
Lemma unlink_client h ms cur prev log md l1 c l2 rc :
  nth_z ms cur = Some md → is_list h (head md) (l1 ++ c :: l2) → h !! c = Some rc →
  ∃ h2 hd2,
    (if bool_decide (Some c = head md) || bool_decide (cyclic_prev c (l1 ++ c :: l2) = None)
     then setCM (set_head (next rc))
     else store (cyclic_prev c (l1 ++ c :: l2)) (set_next (next rc)))
      (mk_wm h ms cur prev log)
    = Some (tt, mk_wm h2 (<[Z.to_nat cur := set_head hd2 md]> ms) cur prev log)
    ∧ is_list (<[c := set_next None rc]> h2) hd2 (l1 ++ l2)
    ∧ h2 !! c = Some rc
    ∧ heap_relinked h h2
    ∧ (∀ a, a ∉ l1 → h2 !! a = h !! a).
Proof.
  intros Hnth Hl Hr.
  pose proof (is_list_NoDup _ _ _ Hl) as Hnd.
  assert (Hc2 : c ∉ l2).
  { apply NoDup_app in Hnd as (_ & _ & Hd). apply NoDup_cons in Hd as [Hd _]. exact Hd. }
  assert (Hc1 : c ∉ l1).
  { apply NoDup_app in Hnd as (_ & Hd & _). intros Hin. apply (Hd c Hin). left. }
  pose proof Hl as Hl'. unfold is_list in Hl'.
  apply lseg_app in Hl' as (y & Hseg1 & Hseg2).
  simpl in Hseg2. destruct Hseg2 as (-> & r' & Hr' & Hseg2).
  rewrite Hr in Hr'. injection Hr' as <-.
  destruct l1 as [|x l0 _] using rev_ind.
  - simpl in Hseg1. exists h, (next rc).
    split; [|split; [|split; [exact Hr|split; [apply heap_relinked_refl|reflexivity]]]].
    + rewrite <- Hseg1. rewrite bool_decide_eq_true_2 by reflexivity. cbn [orb].
      erewrite setCM_eq; [|apply CM_of_nth; exact Hnth]. reflexivity.
    + simpl. apply lseg_insert_notin; [exact Hc2|exact Hseg2].
  - apply lseg_snoc in Hseg1 as (xr & Hseg0 & Hxr & Hxn).
    assert (Hxc : x ≠ c) by (intros ->; apply Hc1; apply elem_of_app; right; left).
    assert (Hx0 : x ∉ l0).
    { apply NoDup_app in Hnd as (Hd & _ & _). apply NoDup_app in Hd as (_ & Hd & _).
      intros Hx. apply (Hd x Hx). left. }
    assert (Hx2 : x ∉ l2).
    { apply NoDup_app in Hnd as (_ & Hd & _). intros Hx.
      apply (Hd x); [apply elem_of_app; right; left|right; exact Hx]. }
    assert (Hc0 : c ∉ l0) by (intros Hx; apply Hc1; apply elem_of_app; left; exact Hx).
    assert (Hprev : cyclic_prev c ((l0 ++ [x]) ++ c :: l2) = Some x).
    { rewrite <- app_assoc. simpl app. rewrite <- app_assoc in Hnd. simpl app in Hnd.
      unfold cyclic_prev. rewrite (before_app _ _ _ _ Hnd).
      destruct l0 as [|? [|? ?]]; reflexivity. }
    assert (Hhd : Some c ≠ head md).
    { intros E. unfold is_list in Hl. rewrite <- app_assoc, <- E in Hl.
      destruct l0 as [|b l0']; simpl in Hl; destruct Hl as ([= <-] & _).
      - contradiction.
      - apply Hc0. left. }
    exists (<[x := set_next (next rc) xr]> h), (head md).
    split; [|split; [|split; [|split]]].
    + rewrite Hprev. rewrite (bool_decide_eq_false_2 _ Hhd).
      rewrite bool_decide_eq_false_2 by discriminate. cbn [orb].
      erewrite store_Some; [|exact Hxr]. rewrite (insert_same_head _ _ _ Hnth). reflexivity.
    + unfold is_list. rewrite <- app_assoc. apply lseg_app. exists (Some x). split.
      * apply lseg_insert_notin; [exact Hc0|].
        apply lseg_insert_notin; [exact Hx0|exact Hseg0].
      * simpl. split; [reflexivity|]. eexists.
        split; [rewrite lookup_insert_ne by congruence; apply lookup_insert_eq|].
        simpl. apply lseg_insert_notin; [exact Hc2|].
        apply lseg_insert_notin; [exact Hx2|exact Hseg2].
    + rewrite lookup_insert_ne by exact Hxc. exact Hr.
    + apply heap_relinked_insert; [apply heap_relinked_refl|exact Hxr].
    + intros b Hb. rewrite lookup_insert_ne; [reflexivity|].
      intros ->. apply Hb. apply elem_of_app. right. left.
Qed.


Lemma heap_relinked_lookup h h' a r :
  heap_relinked h h' → h !! a = Some r →
  ∃ r', h' !! a = Some r' ∧ ISFFT r' = ISFFT r ∧ win r' = win r.
Proof.
  intros Hrel Hr. specialize (Hrel a). rewrite Hr in Hrel.
  destruct (h' !! a) as [r'|]; [|contradiction]. exists r'. split; [reflexivity|].
  rewrite Hrel. split; reflexivity.
Qed.

Lemma grid_safe_relinked h h' l md :
  heap_relinked h h' → grid_safe h l md → grid_safe h' l md.
Proof.
  intros Hrel Hs Hm Hlen. destruct (Hs Hm Hlen) as (a & r & Ha & Hr & Hf).
  destruct (heap_relinked_lookup _ _ _ _ Hrel Hr) as (r' & Hr' & Hf' & _).
  exists a, r'. split; [exact Ha|]. split; [exact Hr'|]. rewrite Hf'. exact Hf.
Qed.

(** X28. [client_to_desktop(i)] for the current client [c], on the last
    (or only) monitor of a state in good order whose lists are disjoint,
    [i] being another desktop that exists and [c] not being recorded as
    the previously focused client as well.  The client is taken off the
    list of the selected desktop, whose other clients keep their order,
    and put last on the list of desktop [i], where it is the current
    client; on the desktop it leaves, the previously focused client
    becomes the current one.  Its window is unmapped.  Only links
    change in the heap, the other desktops are as they were, and the
    state is in good order again; desktop [i] is selected afterwards
    exactly when FOLLOW_WINDOW is set.  ([tile] runs three times on the
    way, once on the list of desktop [i] followed by [c] and the clients
    that came after it, so in GRID mode these lists need a tileable
    client.) *)
Theorem client_to_desktop_moves (s : wm) (m : monitor) (i : Z) (dk : desktop)
    (l1 l2 ln : list positive) (c : positive) (rc : client) :
  state_ok cfg s → lists_disjoint cfg s → current_monitor s = MONITORS s - 1 →
  CM s = Some (m, s) → current m = Some c → prevfocus m ≠ Some c →
  heap s !! c = Some rc → is_list (heap s) (head m) (l1 ++ c :: l2) →
  0 ≤ i < DESKTOPS cfg → i ≠ current_desktop m → desktop_view m i = Some dk →
  is_list (heap s) (d_head dk) ln →
  grid_safe (heap s) (ln ++ c :: l2) (d_mode dk) →
  grid_safe (heap s) (ln ++ [c]) (d_mode dk) →
  grid_safe (heap s) (l1 ++ l2) (mode m) →
  ∃ s' m' dko dkn reqs,
    client_to_desktop cfg xe i s = Some (tt, s') ∧ CM s' = Some (m', s') ∧ state_ok cfg s'
    ∧ heap_relinked (heap s) (heap s')
    ∧ current_desktop m' = (if FOLLOW_WINDOW cfg then i else current_desktop m)
    ∧ desktop_view m' (current_desktop m) = Some dko
    ∧ is_list (heap s') (d_head dko) (l1 ++ l2) ∧ d_current dko = prevfocus m
    ∧ desktop_view m' i = Some dkn
    ∧ is_list (heap s') (d_head dkn) (ln ++ [c]) ∧ d_current dkn = Some c
    ∧ (∀ d, d ≠ i → d ≠ current_desktop m → desktop_view m' d = desktop_view m d)
    ∧ xlog s' = xlog s ++ reqs ∧ win rc ∈ unmapped_windows reqs.
Proof.
  intros [Hcur0 Hall] Hdisj Hcur HCM Hc Hpc Hrc Hl Hi Hne Hdk Hln Hg1 Hg2 Hg3.
  apply CM_inv in HCM as [_ Hnth].
  destruct s as [h ms cur prev log]. unfold MONITORS in *. unfold lists_disjoint in Hdisj.
  cbn [heap monitors current_monitor xlog] in *.
  set (l := l1 ++ c :: l2) in *.
  assert (Hok : monitor_ok cfg h m).
  { rewrite Forall_forall in Hall. apply Hall.
    apply nth_z_lookup in Hnth as [_ Hnth]. eapply list_elem_of_lookup_2, Hnth. }
  pose proof Hok as [Hwf Hviews].
  set (cd := current_desktop m) in *.
  destruct (monitor_ok_live _ _ Hok) as (l0 & Hl0 & Hcl & Hpl & _).
  pose proof (is_list_functional _ _ _ _ Hl0 Hl) as ->. clear Hl0.
  destruct (Hviews i Hi) as (dk' & Hdk' & ln' & Hln' & Hcn & Hpn & _).
  rewrite Hdk in Hdk'. injection Hdk' as <-.
  pose proof (is_list_functional _ _ _ _ Hln' Hln) as ->. clear Hln'.
  pose proof (is_list_NoDup _ _ _ Hl) as Hnd.
  assert (Hcin : c ∈ l) by (apply elem_of_app; right; left).
  assert (Hcl1 : c ∉ l1).
  { apply NoDup_app in Hnd as (_ & Hd & _). intros Hin. apply (Hd c Hin). left. }
  assert (Hcl2 : c ∉ l2).
  { apply NoDup_app in Hnd as (_ & _ & Hd). apply NoDup_cons in Hd as [Hd _]. exact Hd. }
  (* the two lists share no client *)
  assert (Hnl : ∀ a, a ∈ ln → a ∉ l).
  { apply (Hdisj cur m i dk ln cur m cd (live m) l Hnth Hnth Hi (proj1 Hwf));
      [right; exact Hne|exact Hdk|apply desktop_view_live|exact Hln|exact Hl]. }
  assert (Hcn' : c ∉ ln) by (intros Hin; exact (Hnl c Hin Hcin)).
  (* the lists of the other desktops *)
  assert (Helse : ∀ k mon d dk0 ld, nth_z ms k = Some mon → 0 ≤ d < DESKTOPS cfg →
            k ≠ cur ∨ (d ≠ cd ∧ d ≠ i) → desktop_view mon d = Some dk0 →
            is_list h (d_head dk0) ld → ∀ a, a ∈ ld → (a ∉ l) ∧ (a ∉ ln)).
  { intros k mon d dk0 ld Hk Hd Hkd Hdk0 Hld a Ha. split.
    - apply (Hdisj k mon d dk0 ld cur m cd (live m) l Hk Hnth Hd (proj1 Hwf));
        [destruct Hkd as [?|[? _]]; [left|right]; assumption|exact Hdk0
        |apply desktop_view_live|exact Hld|exact Hl|exact Ha].
    - apply (Hdisj k mon d dk0 ld cur m i dk ln Hk Hnth Hd Hi);
        [destruct Hkd as [?|[_ ?]]; [left|right]; assumption|exact Hdk0
        |exact Hdk|exact Hld|exact Hln|exact Ha]. }
  (* prev_client(CM->current) *)
  assert (Hp : prev_client (Some c) (mk_wm h ms cur prev log)
               = Some (cyclic_prev c l, mk_wm h ms cur prev log)).
  { eapply prev_client_cyclic; [apply CM_of_nth; exact Hnth|exact Hl|].
    intros E. rewrite E in Hcin. inversion Hcin. }
  (* select_desktop(i) *)
  set (mb := switched m i dk).
  destruct (switched_views m i dk Hwf Hi Hdk) as (Hsvb & Hwfb & Hcdb & Hliveb).
  set (msb := <[Z.to_nat cur := mb]> ms).
  assert (Hnthb : nth_z msb cur = Some mb) by (eapply nth_z_insert, Hnth).
  pose proof (select_desktop_step h ms cur prev log m i dk Hnth Hi Hwf Hdk) as Hsel1.
  fold mb msb in Hsel1.
  (* the client is linked behind the list of desktop [i] *)
  assert (Hsegc : lseg h (Some c) (c :: l2) None).
  { unfold is_list, l in Hl. apply lseg_app in Hl as (q & _ & Hq).
    pose proof Hq as Hq'. simpl in Hq'. destruct Hq' as (-> & _). exact Hq. }
  destruct (link_behind h msb cur prev log mb ln c l2 Hnthb Hln Hsegc)
    as (h1 & hd1 & Hlink & Hl1 & Hrel1 & Hout1).
  { intros a Ha Hin. apply (Hnl a Ha). apply elem_of_app. right. exact Hin. }
  set (mb1 := set_head hd1 mb) in *.
  set (msb1 := <[Z.to_nat cur := mb1]> ms).
  assert (Hmsb1 : <[Z.to_nat cur := mb1]> msb = msb1)
    by (unfold msb, msb1; apply list_insert_insert_eq).
  rewrite Hmsb1 in Hlink.
  assert (Hnthb1 : nth_z msb1 cur = Some mb1) by (eapply nth_z_insert, Hnth).
  assert (Hrc1 : h1 !! c = Some rc) by (rewrite (Hout1 c Hcn'); exact Hrc).
  (* it gets the focus there *)
  destruct (update_current_focus h1 msb1 cur prev log mb1 (ln ++ c :: l2) c rc Hnthb1 Hl1)
    as (requ1 & Hupd1 & _ & _ & _ & Hku1);
    [apply elem_of_app; right; left|exact Hrc1
    |eapply grid_safe_relinked; [exact Hrel1|exact Hg1]|].
  assert (Hpf1 : (if decide (Some c = prevfocus mb1) then cyclic_prev c (ln ++ c :: l2)
                  else if decide (Some c ≠ current mb1) then current mb1 else prevfocus mb1)
                 = d_current dk).
  { change (prevfocus mb1) with (d_prevfocus dk). change (current mb1) with (d_current dk).
    destruct (decide (Some c = d_prevfocus dk)) as [E|_].
    { exfalso. apply Hcn', Hpn. symmetry. exact E. }
    destruct (decide (Some c ≠ d_current dk)) as [_|E]; [reflexivity|].
    apply dec_stable in E. exfalso. apply Hcn', Hcn. symmetry. exact E. }
  rewrite Hpf1 in Hupd1.
  set (mc := set_prevfocus (d_current dk) (set_current (Some c) mb1)) in *.
  set (msc := <[Z.to_nat cur := mc]> ms).
  assert (Hmsc : <[Z.to_nat cur := mc]> msb1 = msc)
    by (unfold msb1, msc; apply list_insert_insert_eq).
  rewrite Hmsc in Hupd1.
  assert (Hnthc : nth_z msc cur = Some mc) by (eapply nth_z_insert, Hnth).
  assert (Hwfc : wf_desktops cfg mc) by exact Hwfb.
  assert (Hvc : ∀ d, d ≠ i → desktop_view mc d = desktop_view m d).
  { intros d Hd. destruct Hsvb as (_ & _ & _ & _ & _ & _ & Hv). rewrite <- Hv.
    fold mb. unfold desktop_view.
    change (current_desktop mc) with (current_desktop mb).
    change (desktops mc) with (desktops mb).
    destruct (Z.eqb_spec d (current_desktop mb)) as [E|_]; [|reflexivity].
    exfalso. apply Hd. rewrite E. exact Hcdb. }
  (* back on the desktop it leaves *)
  assert (Hvcd : desktop_view mc cd = Some (live m)).
  { rewrite Hvc by (intros E; apply Hne; symmetry; exact E). apply desktop_view_live. }
  set (md := switched mc cd (live m)).
  destruct (switched_views mc cd (live m) Hwfc (proj1 Hwf) Hvcd)
    as (Hsvd & Hwfd & Hcdd & Hlived).
  set (msd := <[Z.to_nat cur := md]> ms).
  assert (Hnthd : nth_z msd cur = Some md) by (eapply nth_z_insert, Hnth).
  assert (Hsel2 : ∀ lg, select_desktop cfg cd (mk_wm h1 msc cur prev lg)
                        = Some (tt, mk_wm h1 msd cur prev lg)).
  { intros lg. rewrite (select_desktop_step h1 msc cur prev lg mc cd (live m) Hnthc
                          (proj1 Hwf) Hwfc Hvcd).
    unfold msc, msd. rewrite list_insert_insert_eq. reflexivity. }
  assert (Hld1 : is_list h1 (head md) l).
  { eapply lseg_same_links; [|exact Hl]. intros a r Ha Hr. exists r.
    rewrite Hout1; [auto|]. intros Hin. exact (Hnl a Hin Ha). }
  (* it is taken off the list *)
  destruct (unlink_client h1 msd cur prev (log ++ requ1) md l1 c l2 rc Hnthd Hld1 Hrc1)
    as (h2 & hd2 & Hunl & Hl2 & Hrc2 & Hrel2 & Hout2).
  fold l in Hunl.
  set (md2 := set_head hd2 md) in *.
  set (msd2 := <[Z.to_nat cur := md2]> ms).
  assert (Hmsd2 : <[Z.to_nat cur := md2]> msd = msd2)
    by (unfold msd, msd2; apply list_insert_insert_eq).
  rewrite Hmsd2 in Hunl.
  assert (Hnthd2 : nth_z msd2 cur = Some md2) by (eapply nth_z_insert, Hnth).
  set (rc3 := set_next None rc) in *.
  set (h3 := <[c := rc3]> h2) in *.
  assert (Hrc3 : h3 !! c = Some rc3) by apply lookup_insert_eq.
  assert (Hrel3 : heap_relinked h h3).
  { eapply heap_relinked_trans; [exact Hrel1|].
    apply heap_relinked_insert; [exact Hrel2|exact Hrc2]. }
  assert (Hout3 : ∀ a, a ∉ l → a ∉ ln → h3 !! a = h !! a).
  { intros a Hal Han. unfold h3.
    rewrite lookup_insert_ne by (intros <-; contradiction).
    rewrite Hout2 by (intros Hin; apply Hal; apply elem_of_app; left; exact Hin).
    apply Hout1, Han. }
  assert (Hln3 : is_list h3 hd1 (ln ++ [c])).
  { unfold is_list in Hl1 |- *. apply lseg_app in Hl1 as (q & Hq & Hq').
    simpl in Hq'. destruct Hq' as (-> & _).
    apply lseg_snoc. exists rc3. split; [|split; [exact Hrc3|reflexivity]].
    eapply lseg_same_links; [|exact Hq]. intros a r Ha Hr. exists r. split; [|reflexivity].
    unfold h3. rewrite lookup_insert_ne by (intros <-; contradiction).
    rewrite Hout2; [exact Hr|]. intros Hin. apply (Hnl a Ha). apply elem_of_app. left.
    exact Hin. }
  (* the previously focused client becomes the current one *)
  set (log2 := (log ++ requ1) ++ [UnmapWindow (win rc)]).
  assert (Hfocus : ∃ pfe requ2,
            update_current cfg xe (prevfocus m) (mk_wm h3 msd2 cur prev log2)
            = Some (tt, mk_wm h3 (<[Z.to_nat cur :=
                                      set_prevfocus pfe (set_current (prevfocus m) md2)]> ms)
                          cur prev (log2 ++ requ2))
            ∧ (∀ x, pfe = Some x → x ∈ l1 ++ l2) ∧ Forall keeps_mapping requ2).
  { destruct (prevfocus m) as [p0|] eqn:Ep.
    - assert (Hp0 : p0 ∈ l1 ++ l2).
      { pose proof (Hpl p0 Ep) as Hin. unfold l in Hin.
        rewrite elem_of_app, elem_of_cons in Hin. apply elem_of_app.
        destruct Hin as [?|[->|?]]; [left; assumption|exfalso; apply Hpc; reflexivity
                                    |right; assumption]. }
      destruct (lseg_lookup _ _ _ _ _ Hl2 Hp0) as [r0 Hr0].
      destruct (update_current_focus h3 msd2 cur prev log2 md2 (l1 ++ l2) p0 r0 Hnthd2 Hl2
                  Hp0 Hr0) as (requ2 & Hupd2 & _ & _ & _ & Hku2).
      { eapply grid_safe_relinked; [exact Hrel3|exact Hg3]. }
      assert (Hpf2 : (if decide (Some p0 = prevfocus md2) then cyclic_prev p0 (l1 ++ l2)
                      else if decide (Some p0 ≠ current md2) then current md2
                           else prevfocus md2) = cyclic_prev p0 (l1 ++ l2)).
      { change (prevfocus md2) with (prevfocus m). rewrite Ep.
        destruct (decide (Some p0 = Some p0)); [reflexivity|contradiction]. }
      rewrite Hpf2 in Hupd2.
      exists (cyclic_prev p0 (l1 ++ l2)), requ2.
      split; [|split; [intros x Hx; eapply cyclic_prev_in, Hx|exact Hku2]].
      rewrite Hupd2. unfold msd2. rewrite list_insert_insert_eq. reflexivity.
    - exists None, [DeleteProperty (root xe) (NET_ACTIVE xe)].
      split; [|split; [discriminate|repeat constructor]].
      unfold update_current. erewrite bind_Some; [|reflexivity].
      unfold set_xlog. norm_state.
      erewrite setCM_eq; [|apply CM_of_nth; norm_state; exact Hnthd2].
      norm_state. unfold msd2. rewrite list_insert_insert_eq. reflexivity. }
  destruct Hfocus as (pfe & requ2 & Hupd2 & Hpfe & Hku2).
  set (me := set_prevfocus pfe (set_current (prevfocus m) md2)) in *.
  set (mse := <[Z.to_nat cur := me]> ms) in *.
  assert (Hnthe : nth_z mse cur = Some me) by (eapply nth_z_insert, Hnth).
  (* what the monitor shows now *)
  assert (Hvei : desktop_view me i = Some (live mc)).
  { destruct Hsvd as (_ & _ & _ & _ & _ & _ & Hv).
    transitivity (desktop_view md i).
    - unfold desktop_view.
      change (current_desktop me) with (current_desktop md).
      change (desktops me) with (desktops md).
      destruct (Z.eqb_spec i (current_desktop md)) as [E|_]; [|reflexivity].
      exfalso. apply Hne. rewrite E. exact Hcdd.
    - rewrite Hv. exact (desktop_view_live mc). }
  assert (Hveo : ∀ d, d ≠ i → d ≠ cd → desktop_view me d = desktop_view m d).
  { intros d Hdi Hdc. destruct Hsvd as (_ & _ & _ & _ & _ & _ & Hv).
    transitivity (desktop_view md d).
    - unfold desktop_view.
      change (current_desktop me) with (current_desktop md).
      change (desktops me) with (desktops md).
      destruct (Z.eqb_spec d (current_desktop md)) as [E|_]; [|reflexivity].
      exfalso. apply Hdc. rewrite E. exact Hcdd.
    - rewrite Hv. apply Hvc, Hdi. }
  assert (Hext : ∀ k mon d dk0, nth_z ms k = Some mon → 0 ≤ d < DESKTOPS cfg →
            k ≠ cur ∨ (d ≠ cd ∧ d ≠ i) → desktop_view mon d = Some dk0 →
            desktop_ok h dk0 → desktop_ok h3 dk0).
  { intros k mon d dk0 Hk Hd Hkd Hdk0 Hdok. apply (desktop_ok_ext h); [exact Hdok|].
    intros ld Hld a Ha. destruct (Helse k mon d dk0 ld Hk Hd Hkd Hdk0 Hld a Ha) as [A B].
    apply Hout3; assumption. }
  assert (Hoke : monitor_ok cfg h3 me).
  { split; [exact Hwfd|]. intros d Hd.
    destruct (Z.eq_dec d cd) as [->|Hdc]; [|destruct (Z.eq_dec d i) as [->|Hdi]].
    - exists (live me). split; [exact (desktop_view_live me)|].
      exists (l1 ++ l2). split; [exact Hl2|].
      split; [|split; [exact Hpfe|eapply grid_safe_relinked; [exact Hrel3|exact Hg3]]].
      intros x Hx. change (prevfocus m = Some x) in Hx.
      pose proof (Hpl x Hx) as Hin. unfold l in Hin.
      rewrite elem_of_app, elem_of_cons in Hin. apply elem_of_app.
      destruct Hin as [?|[->|?]]; [left; assumption|contradiction|right; assumption].
    - exists (live mc). split; [exact Hvei|].
      exists (ln ++ [c]). split; [exact Hln3|].
      split; [intros x [= <-]; apply elem_of_app; right; left|].
      split; [intros x Hx; apply elem_of_app; left; apply Hcn, Hx|].
      eapply grid_safe_relinked; [exact Hrel3|exact Hg2].
    - destruct (Hviews d Hd) as (dk0 & Hdk0 & Hdok). exists dk0.
      split; [rewrite Hveo by assumption; exact Hdk0|].
      apply (Hext cur m d dk0 Hnth Hd); [right; split; assumption|exact Hdk0|exact Hdok]. }
  assert (Halle : Forall (monitor_ok cfg h3) mse).
  { apply Forall_lookup. intros k mon Hk. unfold mse in Hk.
    destruct (decide (k = Z.to_nat cur)) as [->|Hkc].
    - rewrite list_lookup_insert_eq in Hk.
      + injection Hk as <-. exact Hoke.
      + apply nth_z_lookup in Hnth as [_ Hnth]. eapply lookup_lt_Some, Hnth.
    - rewrite list_lookup_insert_ne in Hk by congruence.
      assert (Hmon : monitor_ok cfg h mon).
      { rewrite Forall_forall in Hall. apply Hall. eapply list_elem_of_lookup_2, Hk. }
      destruct Hmon as [Hwfm Hvm]. split; [exact Hwfm|]. intros d Hd.
      destruct (Hvm d Hd) as (dk0 & Hdk0 & Hdok). exists dk0. split; [exact Hdk0|].
      apply (Hext (Z.of_nat k) mon d dk0); [rewrite nth_z_nat; exact Hk|exact Hd|left; lia
                                            |exact Hdk0|exact Hdok]. }
  assert (Hlene : length mse = length ms) by (unfold mse; apply length_insert).
  (* the run up to [FOLLOW_WINDOW] *)
  assert (Hrun : client_to_desktop cfg xe i (mk_wm h ms cur prev log)
                 = (when (FOLLOW_WINDOW cfg) (change_desktop cfg xe i) ;;; desktopinfo cfg)
                     (mk_wm h3 mse cur prev (log2 ++ requ2))).
  { unfold client_to_desktop. m_CM Hnth. rewrite Hc. fold cd.
    destruct (Z.eqb_spec i cd) as [E|_]; [contradiction|].
    rewrite (bind_Some _ _ _ _ _ Hp). rewrite (bind_Some _ _ _ _ _ Hsel1).
    m_CM Hnthb.
    rewrite <- bind_assoc. rewrite (bind_Some _ _ _ _ _ Hlink).
    rewrite (bind_Some _ _ _ _ _ Hupd1). rewrite (bind_Some _ _ _ _ _ (Hsel2 _)).
    m_CM Hnthd. m_load Hrc1.
    replace (head md) with (head m) by reflexivity.
    change (head m) with (head md).
    rewrite (bind_Some _ _ _ _ _ Hunl).
    m_store Hrc2. fold rc3 h3. m_load Hrc3.
    erewrite bind_Some; [|reflexivity]. unfold set_xlog. norm_state.
    replace (win rc3) with (win rc) by reflexivity. fold log2.
    m_CM Hnthd2. replace (prevfocus md2) with (prevfocus m) by reflexivity.
    rewrite (bind_Some _ _ _ _ _ Hupd2). reflexivity. }
  rewrite Hrun. clear Hrun.
  assert (Hunm : ∀ rest, win rc ∈ unmapped_windows ((requ1 ++ [UnmapWindow (win rc)]) ++ rest)).
  { intros rest. rewrite !unmapped_windows_app. apply elem_of_app. left.
    apply elem_of_app. right. left. }
  destruct (FOLLOW_WINDOW cfg); cbn [when].
  - (* the desktop follows the window *)
    destruct (change_desktop_spec h3 mse cur prev (log2 ++ requ2) me i (live mc)
                (l1 ++ l2) (ln ++ [c]) Hnthe)
      as (ms1 & m1 & pf1 & reqs1 & Hrun1 & Hnth1 & Hlen1 & Hall1 & Hcd1 & _ & Hlive1 & Hv1 & _);
      [lia|exact Halle|exact Hi|exact Hne|exact Hvei|exact Hl2|exact Hln3|].
    destruct (desktopinfo_last h3 ms1 cur prev ((log2 ++ requ2) ++ reqs1))
      as (ms' & recs & Hinfo & Hsame & _); [lia|lia|exact Hall1|].
    assert (Hm' : ∃ m', nth_z ms' cur = Some m' ∧ same_desktops m1 m').
    { apply nth_z_lookup in Hnth1 as [_ Hnth1].
      destruct (Forall2_lookup_l _ _ _ _ _ Hsame Hnth1) as (m' & Hm' & Hsd).
      exists m'. split; [|exact Hsd]. unfold nth_z.
      destruct (Z.ltb_spec cur 0) as [?|_]; [lia|exact Hm']. }
    destruct Hm' as (m' & Hnth' & Hsd).
    pose proof Hsd as (Hcd' & _ & _ & _ & _ & _ & _ & Hv').
    exists (mk_wm h3 ms' cur prev
              (log ++ (requ1 ++ [UnmapWindow (win rc)]) ++ requ2 ++ reqs1 ++ recs)),
      m', (live me), (live m1), ((requ1 ++ [UnmapWindow (win rc)]) ++ requ2 ++ reqs1 ++ recs).
    split; [rewrite (bind_Some _ _ _ _ _ Hrun1), Hinfo; unfold log2;
            rewrite <- !app_assoc; reflexivity|].
    split; [apply CM_of_nth; exact Hnth'|].
    split.
    { split; [unfold MONITORS; cbn [monitors current_monitor];
              rewrite <- (Forall2_length _ _ _ Hsame); lia|].
      eapply Forall2_Forall_r; [exact Hsame|]. eapply Forall_impl; [exact Hall1|].
      intros x Hx y Hxy. eapply monitor_ok_same_desktops; eassumption. }
    split; [exact Hrel3|]. split; [rewrite Hcd'; exact Hcd1|].
    split.
    { rewrite Hv', Hv1 by (intros E; apply Hne; symmetry; exact E).
      exact (desktop_view_live me). }
    split; [exact Hl2|]. split; [reflexivity|].
    split; [rewrite Hv', <- Hcd1; apply desktop_view_live|].
    split; [rewrite Hlive1; exact Hln3|]. split; [rewrite Hlive1; reflexivity|].
    split; [intros d Hdi Hdc; rewrite Hv', Hv1 by exact Hdi; apply Hveo; assumption|].
    split; [reflexivity|apply Hunm].
  - (* it does not *)
    rewrite bind_ret_l.
    destruct (desktopinfo_last h3 mse cur prev (log2 ++ requ2))
      as (ms' & recs & Hinfo & Hsame & _); [lia|lia|exact Halle|].
    assert (Hm' : ∃ m', nth_z ms' cur = Some m' ∧ same_desktops me m').
    { apply nth_z_lookup in Hnthe as [_ Hnthe].
      destruct (Forall2_lookup_l _ _ _ _ _ Hsame Hnthe) as (m' & Hm' & Hsd).
      exists m'. split; [|exact Hsd]. unfold nth_z.
      destruct (Z.ltb_spec cur 0) as [?|_]; [lia|exact Hm']. }
    destruct Hm' as (m' & Hnth' & Hsd).
    pose proof Hsd as (Hcd' & _ & _ & _ & _ & _ & _ & Hv').
    exists (mk_wm h3 ms' cur prev (log ++ (requ1 ++ [UnmapWindow (win rc)]) ++ requ2 ++ recs)),
      m', (live me), (live mc), ((requ1 ++ [UnmapWindow (win rc)]) ++ requ2 ++ recs).
    split; [rewrite Hinfo; unfold log2; rewrite <- !app_assoc; reflexivity|].
    split; [apply CM_of_nth; exact Hnth'|].
    split.
    { split; [unfold MONITORS; cbn [monitors current_monitor];
              rewrite <- (Forall2_length _ _ _ Hsame); lia|].
      eapply Forall2_Forall_r; [exact Hsame|]. eapply Forall_impl; [exact Halle|].
      intros x Hx y Hxy. eapply monitor_ok_same_desktops; eassumption. }
    split; [exact Hrel3|]. split; [rewrite Hcd'; reflexivity|].
    split; [rewrite Hv'; exact (desktop_view_live me)|].
    split; [exact Hl2|]. split; [reflexivity|].
    split; [rewrite Hv'; exact Hvei|].
    split; [exact Hln3|]. split; [reflexivity|].
    split; [intros d Hdi Hdc; rewrite Hv'; apply Hveo; assumption|].
    split; [reflexivity|apply Hunm].
Qed.

End MoreProperties.

(** * Instances of the general statements *)

Lemma grid_cols_rows_witness :
  1 ≤ 7 ∧ grid_cols 7 = 3 ∧ grid_rows 7 = Some 2.
Proof.
  split; [lia|].
  destruct (grid_cols_rows 7 ltac:(lia)) as (H & _ & Hr).
  split; [reflexivity|exact Hr].
Defined.

Lemma areatomonitor_outside_witness :
  areatomonitor 0 100 lone_monitor = current_monitor lone_monitor
  ∧ motionnotify sample_config sample_xenv 0 100 lone_monitor = Some (tt, lone_monitor).
Proof.
  destruct (areatomonitor_outside_is_current sample_config sample_xenv lone_monitor 0 100)
    as (H1 & H2 & _).
  - intros mon Hin. apply list_elem_of_singleton in Hin as ->.
    unfold strictly_inside. simpl. lia.
  - split; assumption.
Defined.

Lemma resize_master_witness :
  resize_master sample_config 2000 lone_monitor = Some (tt, lone_monitor).
Proof.
  apply (resize_master_bounds sample_config lone_monitor lone_monitor_record 2000
           eq_refl).
  right. simpl. lia.
Defined.

Lemma two_clients_is_list :
  is_list (heap two_clients) (head two_clients_monitor) [1%positive; 2%positive].
Proof.
  unfold is_list. simpl. split; [reflexivity|].
  eexists. split; [reflexivity|]. simpl. split; [reflexivity|].
  eexists. split; [reflexivity|]. reflexivity.
Qed.

Lemma update_current_border_widths_witness :
  ∃ reqs,
    update_current_pass sample_config sample_xenv two_clients
    = Some (tt, set_xlog (xlog two_clients ++ reqs) two_clients)
    ∧ border_widths reqs = [(101, 2); (102, 2)].
Proof.
  destruct (update_current_border_widths sample_config sample_xenv two_clients
              two_clients_monitor [1%positive; 2%positive] eq_refl two_clients_is_list)
    as (reqs & Hrun & _).
  exists reqs. split; [exact Hrun|].
  vm_compute in Hrun. injection Hrun as Hrun. subst reqs. reflexivity.
Defined.

Lemma move_down_move_up_witness :
  ∃ s1 s2 m2, move_down sample_config two_clients = Some (tt, s1)
              ∧ move_up sample_config s1 = Some (tt, s2)
              ∧ CM s2 = Some (m2, s2)
              ∧ is_list (heap s2) (head m2) [1%positive; 2%positive].
Proof.
  destruct (move_down_move_up sample_config two_clients two_clients_monitor
              [1%positive; 2%positive] 1%positive eq_refl two_clients_is_list eq_refl)
    as (_ & _ & H).
  - left.
  - simpl. lia.
  - destruct H as [(s1 & m1 & Hd & _ & _ & _ & s2 & m2 & Hu & HCM & _ & Hl) _].
    + discriminate.
    + exists s1, s2, m2. auto.
Defined.

Lemma killclient_sends_and_removes_witness :
  ∃ s', killclient sample_config sample_xenv (Some [300; 301]) two_clients = Some (tt, s')
        ∧ heap s' !! 1%positive = None
        ∧ windows_on s' 0 0 = Some [102].
Proof.
  destruct (killclient_sends_and_removes sample_config sample_xenv two_clients
              two_clients_monitor [] [2%positive] 1%positive
              (mk_client (Some 2%positive) 0 false false false false 101)
              (Some [300; 301]) eq_refl eq_refl eq_refl eq_refl two_clients_is_list)
    as (s' & m' & reqs & Hk & _ & Hfree & _).
  - intros pf [= <-]. left.
  - split; [simpl; lia|reflexivity].
  - intros d dk Hd. simpl in Hd. lia.
  - intros _ [=].
  - exists s'. split; [exact Hk|]. split; [exact Hfree|].
    vm_compute in Hk. injection Hk as <-. reflexivity.
Defined.

(** * Instances of the further statements *)

Lemma lone_monitor_views (d : Z) :
  0 ≤ d < DESKTOPS sample_config →
  desktop_view lone_monitor_record d = Some (mk_desktop 832 TILE 0 None None None true).
Proof.
  intros Hd. simpl in Hd.
  assert (d = 0 ∨ d = 1 ∨ d = 2 ∨ d = 3) as [->|[->|[->| ->]]] by lia; reflexivity.
Qed.

Lemma lone_monitor_ok : state_ok sample_config lone_monitor.
Proof.
  split; [unfold MONITORS; simpl; lia|].
  constructor; [|constructor]. split; [split; [simpl; lia|reflexivity]|].
  intros d Hd. eexists. split; [apply lone_monitor_views, Hd|].
  exists []. split; [reflexivity|]. split; [discriminate|]. split; [discriminate|].
  intros [=].
Qed.

Lemma lone_monitor_untracked (w d : Z) :
  0 ≤ d < DESKTOPS sample_config →
  ∃ dk l, desktop_view lone_monitor_record d = Some dk
          ∧ is_list (heap lone_monitor) (d_head dk) l ∧ untracked (heap lone_monitor) l w.
Proof.
  intros Hd. eexists _, []. split; [apply lone_monitor_views, Hd|].
  split; [reflexivity|]. intros a r Ha. inversion Ha.
Qed.

Lemma two_clients_views (d : Z) :
  0 ≤ d < DESKTOPS sample_config → d ≠ 0 →
  desktop_view two_clients_monitor d = Some (mk_desktop 832 TILE 0 None None None true).
Proof.
  intros Hd Hne. simpl in Hd.
  assert (d = 1 ∨ d = 2 ∨ d = 3) as [->|[->| ->]] by lia; reflexivity.
Qed.

Lemma two_clients_ok : state_ok sample_config two_clients.
Proof.
  split; [unfold MONITORS; simpl; lia|].
  constructor; [|constructor]. split; [split; [simpl; lia|reflexivity]|].
  intros d Hd. destruct (Z.eq_dec d 0) as [->|Hne].
  - eexists. split; [reflexivity|]. exists [1%positive; 2%positive].
    split; [exact two_clients_is_list|].
    split; [intros c [= <-]; left|]. split; [intros c [= <-]; right; left|].
    intros [=].
  - eexists. split; [apply two_clients_views; assumption|].
    exists []. split; [reflexivity|]. split; [discriminate|]. split; [discriminate|].
    intros [=].
Qed.

Lemma sample_wf_desktops : wf_desktops sample_config two_clients_monitor.
Proof. split; [simpl; lia|reflexivity]. Qed.

Lemma sample_grid_safe (h : gmap positive client) (l : list positive) : grid_safe h l TILE.
Proof. intros [=]. Qed.

Lemma select_desktop_round_trip_witness :
  ∃ s1, select_desktop sample_config 1 lone_monitor = Some (tt, s1)
        ∧ select_desktop sample_config 0 s1 = Some (tt, lone_monitor).
Proof.
  destruct (select_desktop_round_trip sample_config lone_monitor lone_monitor_record 1 eq_refl)
    as [_ H].
  - split; [simpl; lia|reflexivity].
  - destruct H as (dk & s1 & m1 & _ & Hsel & _ & _ & _ & _ & Hback); [simpl; lia|].
    exists s1. split; [exact Hsel|exact Hback].
Defined.

Lemma next_win_focuses_witness :
  ∃ reqs m', next_win sample_config sample_xenv two_clients
             = Some (tt, set_xlog (xlog two_clients ++ reqs)
                           (set_monitors [m'] two_clients))
             ∧ current m' = Some 2%positive ∧ prevfocus m' = Some 1%positive
             ∧ focus_requests reqs = [102].
Proof.
  destruct (next_win_focuses sample_config sample_xenv two_clients two_clients_monitor
              [1%positive; 2%positive] 1%positive eq_refl two_clients_is_list eq_refl)
    as [_ H].
  - left.
  - apply sample_grid_safe.
  - destruct H as (n & rn & reqs & Hn & _ & Hrn & Hrun & Hf); [simpl; lia|].
    injection Hn as <-. injection Hrn as <-.
    exists reqs. eexists. split; [exact Hrun|]. split; [reflexivity|].
    split; [reflexivity|exact Hf].
Defined.

Lemma prev_win_focuses_witness :
  ∃ reqs m', prev_win sample_config sample_xenv two_clients
             = Some (tt, set_xlog (xlog two_clients ++ reqs)
                           (set_monitors [m'] two_clients))
             ∧ current m' = Some 2%positive ∧ prevfocus m' = Some 1%positive
             ∧ focus_requests reqs = [102].
Proof.
  destruct (prev_win_focuses sample_config sample_xenv two_clients two_clients_monitor
              [1%positive; 2%positive] 1%positive eq_refl two_clients_is_list eq_refl)
    as [_ H].
  - left.
  - apply sample_grid_safe.
  - destruct H as (n & rn & reqs & Hn & _ & Hrn & Hrun & Hf); [simpl; lia|].
    injection Hn as <-. injection Hrn as <-.
    exists reqs. eexists. split; [exact Hrun|]. split; [reflexivity|].
    split; [reflexivity|exact Hf].
Defined.

Lemma stack_fills_axis_witness :
  ∃ gm gs gl,
    stack sample_config 900 20 two_clients
    = Some (tt, set_xlog (xlog two_clients ++ rect_request gm :: (rect_request <$> gs))
                  two_clients)
    ∧ r_win gm = 101 ∧ last gs = Some gl ∧ r_y gl + r_h gl + 2 * 2 = 20 + 900.
Proof.
  destruct (stack_fills_axis sample_config two_clients two_clients_monitor 900 20
              [(1%positive, mk_client (Some 2%positive) 0 false false false false 101);
               (2%positive, mk_client None 0 false false false false 102)]
              (mk_client (Some 2%positive) 0 false false false false 101)
              (mk_client None 0 false false false false 102) [] eq_refl eq_refl eq_refl)
    as (gm & gs & Hrun & Hgm & _ & _ & _ & gl & Hlast & Hend).
  exists gm, gs, gl. split; [exact Hrun|]. split; [exact Hgm|]. split; [exact Hlast|exact Hend].
Defined.

Lemma areatomonitor_first_containing_witness : areatomonitor 100 100 lone_monitor = 0.
Proof.
  apply (areatomonitor_first_containing lone_monitor 100 100 0 lone_monitor_record eq_refl).
  - unfold strictly_inside. simpl. lia.
  - intros j monj Hj. lia.
Defined.

Lemma rotate_filled_nearest_witness :
  rotate_filled sample_config sample_xenv 1 lone_monitor = Some (tt, lone_monitor).
Proof.
  destruct (rotate_filled_nearest sample_config sample_xenv lone_monitor lone_monitor_record 1
              eq_refl) as [_ H].
  - split; [simpl; lia|reflexivity].
  - left. reflexivity.
  - apply H; [|intros [=]].
    intros j Hj. simpl in Hj.
    assert (j = 1 ∨ j = 2 ∨ j = 3) as [->|[->| ->]] by lia;
      (eexists; split; reflexivity).
Defined.

Lemma rotate_filled_backward_witness :
  rotate_filled sample_config sample_xenv (-1) lone_monitor = None.
Proof.
  destruct (rotate_filled_backward_off_the_array sample_config sample_xenv lone_monitor
              lone_monitor_record (-1) eq_refl) as [H _].
  - simpl. lia.
  - lia.
  - intros dk Hin. apply elem_of_replicate in Hin as [-> _]. reflexivity.
  - exact H.
Defined.

Lemma addwindow_links_witness :
  ∃ c s', addwindow sample_config 103 two_clients = Some (Some c, s')
          ∧ heap two_clients !! c = None
          ∧ ∃ hd, is_list (heap s') hd [1%positive; 2%positive; c].
Proof.
  destruct (addwindow_links sample_config two_clients two_clients_monitor
              [1%positive; 2%positive] 103 eq_refl two_clients_is_list)
    as (h' & hd' & n & Hrun & Hfresh & _ & Hl & _).
  eexists _, _. split; [exact Hrun|]. split; [exact Hfresh|]. exists hd'. exact Hl.
Defined.

Lemma desktopinfo_status_line_witness :
  ∃ recs ms', desktopinfo sample_config lone_monitor
              = Some (tt, mk_wm ∅ ms' 0 0 (recs ++ [Fflush]))
              ∧ status_line sample_config lone_monitor = Some recs.
Proof.
  destruct (desktopinfo_status_line sample_config lone_monitor)
    as (recs & ms' & monl & Hrecs & _ & Hrun & _).
  - unfold MONITORS. simpl. lia.
  - constructor; [|constructor]. split; [split; [simpl; lia|reflexivity]|].
    intros d Hd. eexists _, []. split; [apply lone_monitor_views, Hd|reflexivity].
  - exists recs, ms'. split; [exact Hrun|exact Hrecs].
Defined.

Lemma prev_client_goes_round_witness :
  prev_client (Some 1%positive) two_clients = Some (Some 2%positive, two_clients).
Proof.
  destruct (prev_client_goes_round two_clients two_clients_monitor [1%positive; 2%positive]
              eq_refl two_clients_is_list) as (_ & H & _).
  apply (H ltac:(discriminate) 1%positive).
Defined.

Lemma tile_places_tileable_clients_witness :
  ∃ reqs, tile sample_config two_clients
          = Some (tt, set_xlog (xlog two_clients ++ reqs) two_clients)
          ∧ placed_windows reqs = [101; 102].
Proof.
  destruct (tile_places_tileable_clients sample_config two_clients two_clients_monitor
              [1%positive; 2%positive] eq_refl two_clients_is_list (sample_grid_safe _ _))
    as (reqs & Hrun & _ & Hp).
  exists reqs. split; [exact Hrun|exact Hp].
Defined.

Lemma update_current_sets_focus_witness :
  ∃ reqs m', update_current sample_config sample_xenv (Some 2%positive) two_clients
             = Some (tt, set_xlog (xlog two_clients ++ reqs)
                           (set_monitors [m'] two_clients))
             ∧ current m' = Some 2%positive ∧ focus_requests reqs = [102].
Proof.
  destruct (update_current_sets_focus sample_config sample_xenv two_clients two_clients_monitor
              [1%positive; 2%positive] 2%positive
              (mk_client None 0 false false false false 102)
              eq_refl two_clients_is_list) as [(pf' & reqs & Hrun & _ & _ & _ & Hf & _) _].
  - right. left.
  - reflexivity.
  - apply sample_grid_safe.
  - exists reqs. eexists. split; [exact Hrun|]. split; [reflexivity|exact Hf].
Defined.

Lemma wintoclient_on_current_monitor_witness :
  ∃ s', wintoclient sample_config 102 two_clients = Some (Some 2%positive, s').
Proof.
  destruct (wintoclient_on_current_monitor sample_config two_clients two_clients_monitor 102
              eq_refl sample_wf_desktops) as [H _].
  destruct (H 0 (live two_clients_monitor) [1%positive] 2%positive []
              (mk_client None 0 false false false false 102)) as (m' & Hrun & _).
  - simpl. lia.
  - intros d Hd. lia.
  - reflexivity.
  - exact two_clients_is_list.
  - intros a r Ha Hr. apply list_elem_of_singleton in Ha as ->.
    injection Hr as <-. discriminate.
  - reflexivity.
  - reflexivity.
  - eexists. exact Hrun.
Defined.

Lemma removeclient_of_previous_focus_witness :
  removeclient sample_config sample_xenv (Some 2%positive) two_clients = None.
Proof.
  apply (removeclient_of_previous_focus sample_config sample_xenv two_clients
           two_clients_monitor [1%positive] [] 2%positive
           (mk_client None 0 false false false false 102) eq_refl eq_refl eq_refl eq_refl
           two_clients_is_list sample_wf_desktops).
  intros d dk Hd. simpl in Hd. lia.
Defined.

Lemma swap_master_brings_to_front_witness :
  ∃ s' m' l', swap_master sample_config sample_xenv two_clients = Some (tt, s')
              ∧ CM s' = Some (m', s') ∧ is_list (heap s') (head m') l'
              ∧ current m' = head m'.
Proof.
  destruct (swap_master_brings_to_front sample_config sample_xenv two_clients
              two_clients_monitor [1%positive; 2%positive] 1%positive eq_refl
              two_clients_is_list eq_refl)
    as (s' & m' & l' & Hrun & HCM & _ & Hl & Hc & _).
  - left.
  - simpl. lia.
  - apply sample_grid_safe.
  - exists s', m', l'. auto.
Defined.

Lemma change_desktop_shows_desktop_witness :
  ∃ s' m' reqs,
    change_desktop sample_config sample_xenv 1 two_clients = Some (tt, s')
    ∧ CM s' = Some (m', s') ∧ current_desktop m' = 1 ∧ head m' = None
    ∧ xlog s' = xlog two_clients ++ reqs
    ∧ ∀ w, w ∈ unmapped_windows reqs ↔ w ∈ [101; 102].
Proof.
  destruct (change_desktop_shows_desktop sample_config sample_xenv two_clients
              two_clients_monitor 1 (mk_desktop 832 TILE 0 None None None true)
              [1%positive; 2%positive] [] two_clients_ok eq_refl eq_refl)
    as (s' & m' & pf & reqs & Hrun & HCM & _ & _ & _ & Hlog & Hcd & _ & Hlive & _ & _ & Hun).
  - simpl. lia.
  - discriminate.
  - reflexivity.
  - exact two_clients_is_list.
  - reflexivity.
  - exists s', m', reqs. split; [exact Hrun|]. split; [exact HCM|]. split; [exact Hcd|].
    split; [exact (f_equal d_head Hlive)|]. split; [exact Hlog|exact Hun].
Defined.

Lemma last_desktop_returns_witness :
  ∃ s1 s2 m2,
    change_desktop sample_config sample_xenv 1 two_clients = Some (tt, s1)
    ∧ last_desktop sample_config sample_xenv s1 = Some (tt, s2)
    ∧ CM s2 = Some (m2, s2) ∧ current_desktop m2 = 0 ∧ head m2 = Some 1%positive.
Proof.
  destruct (last_desktop_returns sample_config sample_xenv two_clients
              two_clients_monitor 1 (mk_desktop 832 TILE 0 None None None true)
              [1%positive; 2%positive] [] two_clients_ok eq_refl eq_refl)
    as (s1 & s2 & m2 & Hrun1 & Hrun2 & HCM & _ & Hcd & _ & Hhd & _).
  - simpl. lia.
  - discriminate.
  - reflexivity.
  - exact two_clients_is_list.
  - reflexivity.
  - exists s1, s2, m2. auto.
Defined.

Lemma setup_single_screen_witness :
  ∃ s m, setup sample_config sample_xenv [] 1600 900 initial = Some (tt, s)
         ∧ state_ok sample_config s ∧ monitors s = [m]
         ∧ ww m = 1598 ∧ wh m = 878 ∧ master_size m = 830.
Proof.
  destruct (setup_single_screen sample_config sample_xenv 1600 900 830)
    as (s & m & Hrun & Hok & _ & Hms & _ & Hcd & Hww & Hwh & _ & _ & Hv).
  - simpl. lia.
  - simpl. lia.
  - reflexivity.
  - exists s, m. split; [exact Hrun|]. split; [exact Hok|]. split; [exact Hms|].
    split; [exact Hww|]. split; [exact Hwh|].
    specialize (Hv 0 ltac:(simpl; lia)). unfold desktop_view in Hv. rewrite Hcd in Hv.
    change (Some (live m) = Some (mk_desktop 830 TILE 0 None None None true)) in Hv.
    injection Hv as Hv _ _ _ _ _ _. exact Hv.
Defined.

Lemma setup_screens_default_desktop_witness :
  setup sample_config_desktop1 sample_xenv two_screens 3200 900 initial = None.
Proof.
  apply (setup_screens_default_desktop sample_config_desktop1 sample_xenv
           (0, 0, 1600, 900) (1600, 0, 1600, 900) [] 3200 900).
  simpl. lia.
Defined.

Lemma events_for_unknown_windows_witness :
  ∃ ms' recs,
    destroynotify sample_config sample_xenv 7 lone_monitor
    = Some (tt, mk_wm ∅ ms' 0 0 recs)
    ∧ Forall is_status_output recs.
Proof.
  destruct (events_for_unknown_windows sample_config sample_xenv lone_monitor
              lone_monitor_record 7 lone_monitor_ok eq_refl eq_refl
              (lone_monitor_untracked 7))
    as [(ms' & recs & Hrun & _ & Hrecs) _].
  exists ms', recs. split; [exact Hrun|exact Hrecs].
Defined.

Lemma configurerequest_unknown_window_witness :
  ∃ ms' treqs,
    configurerequest sample_config sample_xenv sample_configure_request lone_monitor
    = Some (tt, mk_wm ∅ ms' 0 0 (ConfigureWindow 7 15 [10; 20; 300; 200] :: treqs)).
Proof.
  destruct (configurerequest_unknown_window sample_config sample_xenv lone_monitor
              lone_monitor_record [] sample_configure_request lone_monitor_ok eq_refl eq_refl
              (lone_monitor_untracked 7))
    as [(ms' & vs & treqs & Hrun & Hvs & _) _].
  exists ms', treqs. rewrite Hrun, Hvs. reflexivity.
Defined.

Lemma change_desktop_no_such_desktop_witness :
  ∃ s' m' reqs1 reqs2,
    change_desktop sample_config sample_xenv 7 two_clients = Some (tt, s')
    ∧ CM s' = Some (m', s') ∧ current_desktop m' = 0
    ∧ xlog s' = reqs1 ++ reqs2 ∧ mapped_windows reqs2 = []
    ∧ ∀ w, w ∈ unmapped_windows reqs2 ↔ w ∈ [101; 102].
Proof.
  destruct (change_desktop_no_such_desktop sample_config sample_xenv two_clients
              two_clients_monitor 7 [1%positive; 2%positive] two_clients_ok eq_refl eq_refl)
    as (s' & m' & reqs1 & reqs2 & Hrun & HCM & _ & Hlog & Hcd & _ & _ & _ & _ & Hm & Hu).
  - simpl. lia.
  - exact two_clients_is_list.
  - exists s', m', reqs1, reqs2. split; [exact Hrun|]. split; [exact HCM|].
    split; [exact Hcd|]. split; [exact Hlog|]. split; [exact Hm|exact Hu].
Defined.

Lemma maprequest_new_window_witness :
  ∃ s' m' c,
    maprequest sample_config sample_xenv 7 plain_window lone_monitor = Some (tt, s')
    ∧ CM s' = Some (m', s') ∧ state_ok sample_config s'
    ∧ heap s' !! c = Some (mk_client None 0 false false false false 7)
    ∧ is_list (heap s') (head m') [c] ∧ current m' = Some c.
Proof.
  destruct (maprequest_new_window sample_config sample_xenv lone_monitor lone_monitor_record
              [] 7 plain_window lone_monitor_ok eq_refl eq_refl eq_refl)
    as (s' & m' & n & reqs & Hrun & HCM & Hok & _ & Hc & Hl & _ & Hcur & _).
  - intros k mon d dk ld _ _ _ _ _ a _ Hin. inversion Hin.
  - reflexivity.
  - reflexivity.
  - intros fmt v [=].
  - exact (lone_monitor_untracked 7).
  - intros [=].
  - exists s', m', (fresh (dom (heap lone_monitor))).
    split; [exact Hrun|]. split; [exact HCM|]. split; [exact Hok|].
    assert (Hn : n = None).
    { change (is_list (heap s') (head m') [fresh (dom (heap lone_monitor))]) in Hl.
      unfold is_list in Hl. cbn [lseg] in Hl. destruct Hl as (_ & r & Hr & Hn).
      rewrite Hc in Hr. injection Hr as <-. exact Hn. }
    rewrite Hn in Hc. split; [exact Hc|]. split; [exact Hl|exact Hcur].
Defined.

Lemma switch_mode_sets_mode_witness :
  ∃ s' m',
    switch_mode sample_config sample_xenv BSTACK two_clients = Some (tt, s')
    ∧ CM s' = Some (m', s') ∧ mode m' = BSTACK ∧ master_size m' = 468
    ∧ heap s' = heap two_clients.
Proof.
  destruct (switch_mode_sets_mode sample_config sample_xenv two_clients two_clients_monitor
              [1%positive; 2%positive] BSTACK 468 two_clients_ok eq_refl eq_refl
              two_clients_is_list eq_refl)
    as (s' & m' & Hrun & HCM & _ & Hmode & Hms & _ & _ & _ & _ & Hheap).
  - intros [=].
  - exists s', m'. split; [exact Hrun|]. split; [exact HCM|]. split; [exact Hmode|].
    split; [exact Hms|]. apply Hheap. discriminate.
Defined.

Lemma two_monitors_ok : state_ok sample_config two_monitors.
Proof.
  split; [unfold MONITORS; simpl; lia|].
  assert (H : monitor_ok sample_config ∅ lone_monitor_record).
  { split; [split; [simpl; lia|reflexivity]|].
    intros d Hd. eexists. split; [apply lone_monitor_views, Hd|].
    exists []. split; [reflexivity|]. split; [discriminate|]. split; [discriminate|].
    intros [=]. }
  constructor; [exact H|]. constructor; [exact H|]. constructor.
Qed.

Lemma change_monitor_focuses_monitor_witness :
  ∃ s' reqs,
    change_monitor sample_config sample_xenv 1 two_monitors = Some (tt, s')
    ∧ current_monitor s' = 1 ∧ previous_monitor s' = 0
    ∧ xlog s' = reqs ∧ DeleteProperty 1 305 ∈ reqs.
Proof.
  destruct (change_monitor_focuses_monitor sample_config sample_xenv two_monitors 1
              two_monitors_ok) as [_ H].
  - discriminate.
  - destruct (H lone_monitor_record eq_refl)
      as (s' & reqs & Hrun & _ & Hcur & Hprev & Hlog & Hfoc & _).
    exists s', reqs. split; [exact Hrun|]. split; [exact Hcur|]. split; [exact Hprev|].
    split; [exact Hlog|]. exact (proj2 Hfoc).
Defined.

Lemma setfullscreen_sets_flag_witness :
  ∃ s' reqs,
    setfullscreen sample_config sample_xenv (Some 1%positive) true two_clients
    = Some (tt, s')
    ∧ heap s' !! 1%positive = Some (mk_client (Some 2%positive) 0 false false true false 101)
    ∧ xlog s' = ChangeProperty 101 304 XCB_ATOM_ATOM [303]
                  :: xcb_move_resize 101 0 0 1600 920 :: reqs
    ∧ placed_windows reqs = [102].
Proof.
  destruct (setfullscreen_sets_flag sample_config sample_xenv two_clients two_clients_monitor
              [1%positive; 2%positive] 1%positive
              (mk_client (Some 2%positive) 0 false false false false 101) true
              eq_refl two_clients_is_list)
    as (pf & reqs & Hrun & _ & Hp).
  - left.
  - reflexivity.
  - apply sample_grid_safe.
  - eexists _, reqs. split; [exact Hrun|]. split; [reflexivity|]. split; [reflexivity|].
    exact Hp.
Defined.

Lemma two_clients_disjoint : lists_disjoint sample_config two_clients.
Proof.
  assert (Hone : ∀ k mon, nth_z (monitors two_clients) k = Some mon →
                          k = 0 ∧ mon = two_clients_monitor).
  { intros k mon Hk. apply nth_z_lookup in Hk as [Hk0 Hk].
    destruct (Z.to_nat k) as [|n] eqn:E; [|destruct n; discriminate].
    injection Hk as <-. split; [lia|reflexivity]. }
  assert (Hnil : ∀ d dk ld, 0 ≤ d < DESKTOPS sample_config → d ≠ 0 →
                   desktop_view two_clients_monitor d = Some dk →
                   is_list (heap two_clients) (d_head dk) ld → ld = []).
  { intros d dk ld Hd Hne Hv Hl. rewrite (two_clients_views d Hd Hne) in Hv.
    injection Hv as <-. destruct ld as [|a ld]; [reflexivity|].
    destruct Hl as [Hl _]. discriminate. }
  intros k1 mon1 d1 dk1 ld1 k2 mon2 d2 dk2 ld2 H1 H2 Hd1 Hd2 Hne Hv1 Hv2 Hl1 Hl2 a Ha.
  destruct (Hone _ _ H1) as [-> ->]. destruct (Hone _ _ H2) as [-> ->].
  destruct Hne as [Hne|Hne]; [contradiction|].
  destruct (Z.eq_dec d1 0) as [->|Hd10].
  - rewrite (Hnil d2 dk2 ld2 Hd2 ltac:(congruence) Hv2 Hl2). apply not_elem_of_nil.
  - rewrite (Hnil d1 dk1 ld1 Hd1 Hd10 Hv1 Hl1) in Ha. inversion Ha.
Qed.

Lemma client_to_desktop_moves_witness :
  ∃ s' m' dko dkn reqs,
    client_to_desktop sample_config sample_xenv 1 two_clients = Some (tt, s')
    ∧ CM s' = Some (m', s') ∧ state_ok sample_config s'
    ∧ desktop_view m' 0 = Some dko
    ∧ is_list (heap s') (d_head dko) [2%positive] ∧ d_current dko = Some 2%positive
    ∧ desktop_view m' 1 = Some dkn
    ∧ is_list (heap s') (d_head dkn) [1%positive] ∧ d_current dkn = Some 1%positive
    ∧ xlog s' = xlog two_clients ++ reqs ∧ 101 ∈ unmapped_windows reqs.
Proof.
  destruct (client_to_desktop_moves sample_config sample_xenv two_clients
              two_clients_monitor 1 (mk_desktop 832 TILE 0 None None None true)
              [] [2%positive] [] 1%positive
              (mk_client (Some 2%positive) 0 false false false false 101)
              two_clients_ok two_clients_disjoint eq_refl eq_refl eq_refl)
    as (s' & m' & dko & dkn & reqs & Hrun & HCM & Hok & _ & _ & Hvo & Hlo & Hco & Hvn & Hln
        & Hcn & _ & Hlog & Hun).
  - discriminate.
  - reflexivity.
  - exact two_clients_is_list.
  - simpl. lia.
  - discriminate.
  - reflexivity.
  - reflexivity.
  - apply sample_grid_safe.
  - apply sample_grid_safe.
  - apply sample_grid_safe.
  - exists s', m', dko, dkn, reqs. repeat (split; [assumption|]). assumption.
Defined.

Lemma grabbed_buttons_match_witness :
  GrabButton 101 1 24 ∈ grabbuttons sample_config_buttons sample_xenv 101
  ∧ (∀ detail state,
       buttonpress sample_config_buttons sample_xenv sample_button_functions
         101 detail (Z.lor state 16) two_clients
       = buttonpress sample_config_buttons sample_xenv sample_button_functions
           101 detail state two_clients)
  ∧ ∃ s1, wintoclient sample_config_buttons 101 two_clients = Some (Some 1%positive, s1)
          ∧ buttonpress sample_config_buttons sample_xenv sample_button_functions
              101 1 24 two_clients
            = (update_current sample_config_buttons sample_xenv (Some 1%positive) ;;;
               next_win sample_config_buttons sample_xenv) s1.
Proof.
  destruct (grabbed_buttons_match sample_config_buttons sample_xenv sample_button_functions
              101 101 (8, 1) 16 [] [(8, 3)] [] [None]
              (Some (next_win sample_config_buttons sample_xenv)) two_clients
              eq_refl eq_refl eq_refl)
    as (Hgrab & _ & Hlock & _ & Hrun).
  - right. right. left.
  - split; [exact Hgrab|]. split; [exact Hlock|].
    assert (Hw : ∃ s1 m, wintoclient sample_config_buttons 101 two_clients
                         = Some (Some 1%positive, s1) ∧ CM s1 = Some (m, s1)).
    { eexists _, _. split; vm_compute; reflexivity. }
    destruct Hw as (s1 & m & Hw & HCM). exists s1. split; [exact Hw|].
    apply (Hrun 1%positive m s1 Hw HCM).
    intros b' Hb'. apply list_elem_of_singleton in Hb' as ->. left. simpl. lia.
Defined.
